(** * The greenlet switch protocol, embedded in Rocq

    A shallow embedding of the coroutine core of the greenlet extension
    (TStackState.cpp, TGreenlet.cpp, TUserGreenlet.cpp, TMainGreenlet.cpp,
    greenlet.cpp and greenlet_greenlet.hpp) together with the properties
    its design document states about it.

    Conventions of the embedding.
    - A greenlet object is named by a [gid]; every pointer to a greenlet
      or to the [StackState] it owns is an [option gid] ([None] is the
      null pointer).  The objects live in a store, a [gmap gid Greenlet].
    - Addresses are integers; [0] is the null pointer and [ADDR_MAX] is
      the all-ones address the main greenlet uses for [stack_stop].
    - The native stack of the running thread is a function from
      addresses to bytes; a heap buffer is a list of bytes.
    - C++ control flow is a small state-and-exception monad [M]: a call
      returns, throws, aborts the process, has undefined behaviour (a null
      dereference or a failed assertion), or does not finish within the
      given number of loop iterations (the loops over parent and
      stack-owner chains carry explicit fuel).
    - Code of the embedding interpreter that the runtime calls back into
      (attribute lookup of [run], the trace function, the allocator) is a
      parameter of the development.
    - Reference counts, the garbage collector, and the BrokenGreenlet test
      fixture are outside the embedding. *)

From Stdlib Require Import ZArith Lia List.
From Stdlib.Strings Require Import Byte String.
From stdpp Require Import base option list gmap.

Local Open Scope Z_scope.
Set Warnings "-register-all".

(** ** Python objects, as far as the switch protocol inspects them *)

Inductive PyObject : Type :=
| PyNone
| PyInt (n : Z)
| PyStr (s : string)
| PyTuple (items : list PyObject)
| PyDict (items : list (PyObject * PyObject))
| PyOpaque (id : nat).

(** [OwnedObject]: an owned reference; [None] is the null reference. *)
Definition OwnedObject : Type := option PyObject.

(** [PyDict_Size]: the number of items, [-1] when the object is no dict. *)
Definition PyDict_Size (o : PyObject) : Z :=
  match o with
  | PyDict items => Z.of_nat (length items)
  | _ => -1
  end.

(** [PySequence_Length]: the length of a sequence, [-1] for an object
    that is none. *)
Definition PySequence_Length (o : PyObject) : Z :=
  match o with
  | PyTuple items => Z.of_nat (length items)
  | PyStr s => Z.of_nat (String.length s)
  | _ => -1
  end.

Definition PyTuple_Pack1 (a : PyObject) : PyObject := PyTuple [a].
Definition PyTuple_Pack2 (a b : PyObject) : PyObject := PyTuple [a; b].

(** ** The error indicator of the interpreter *)

Inductive ExcType : Type :=
| PyExc_GreenletExit
| PyExc_GreenletError
| PyExc_ValueError
| PyExc_AttributeError
| PyExc_SystemError
| PyExc_MemoryError
| PyExc_Other (n : nat).

Record PyErr : Type := mkPyErr {
  err_type : ExcType;
  err_value : OwnedObject
}.

Definition PyErr_SetString (t : ExcType) (msg : string) : PyErr :=
  mkPyErr t (Some (PyStr msg)).

(** [PyExc_GreenletExit.PyExceptionMatches()] on the error indicator. *)
Definition GreenletExit_matches (e : option PyErr) : bool :=
  match e with
  | Some (mkPyErr PyExc_GreenletExit _) => true
  | _ => false
  end.

(** ** SwitchingArgs (greenlet_greenlet.hpp) *)

Record SwitchingArgs : Type := mkSwitchingArgs {
  _args : OwnedObject;
  _kwargs : OwnedObject
}.

(** [SwitchingArgs()] and the state [CLEAR()] leaves behind. *)
Definition SwitchingArgs_empty : SwitchingArgs := mkSwitchingArgs None None.

(** [explicit operator bool]: [_args || _kwargs]. *)
Definition SwitchingArgs_bool (a : SwitchingArgs) : bool :=
  match _args a, _kwargs a with
  | None, None => false
  | _, _ => true
  end.

(** [SwitchingArgs& operator<<=(OwnedObject& args)]: takes the value as
    [_args] and clears [_kwargs]; the argument holds null afterwards. *)
Definition SwitchingArgs_of_object (args : OwnedObject) : SwitchingArgs :=
  mkSwitchingArgs args None.

(** [OwnedObject& operator<<=(OwnedObject& lhs, SwitchingArgs& rhs)]
    (TGreenlet.cpp): the value a switch delivers, and [rhs] after the
    call.  [assert(rhs)] is the caller's obligation; every call site
    tests [rhs] first. *)
Definition deliver (rhs : SwitchingArgs) : OwnedObject * SwitchingArgs :=
  let args := _args rhs in
  let kwargs := _kwargs rhs in
  let rhs' := SwitchingArgs_empty in
  match kwargs with
  | None => (args, rhs')
  | Some kw =>
      if PyDict_Size kw =? 0 then (args, rhs')
      else
        match args with
        | Some a =>
            if PySequence_Length a =? 0 then (kwargs, rhs')
            else (Some (PyTuple_Pack2 a kw), rhs')
        | None => (None, rhs')
        end
  end.

(** [single_result] (greenlet_greenlet.hpp): a 1-tuple is unwrapped. *)
Definition single_result (results : OwnedObject) : OwnedObject :=
  match results with
  | Some (PyTuple [x]) => Some x
  | _ => results
  end.

(** ** StackState (greenlet_greenlet.hpp, TStackState.cpp) *)

Definition gid : Type := nat.
Definition tid : Type := nat.

(** The address [-1] cast to a char pointer on the 64-bit targets whose
    switch code is in the tree (aarch64, loongarch64). *)
Definition ADDR_MAX : Z := 2 ^ 64 - 1.

Record StackState : Type := mkStackState {
  _stack_start : Z;
  stack_stop : Z;
  stack_copy : option (list byte);
  _stack_saved : Z;
  stack_prev : option gid
}.

(** [StackState::StackState()]: an inactive, unstarted state. *)
Definition StackState_new : StackState :=
  mkStackState 0 0 None 0 None.

(** [StackState::make_main()]. *)
Definition make_main : StackState :=
  mkStackState 1 ADDR_MAX None 0 None.

Definition started (ss : StackState) : bool := negb (stack_stop ss =? 0).
Definition main (ss : StackState) : bool := stack_stop ss =? ADDR_MAX.
Definition active (ss : StackState) : bool := negb (_stack_start ss =? 0).

(** [StackState::StackState(void* mark, StackState& current)]: a started
    but inactive state; [current] is the gid of the greenlet that owns
    the state passed by reference.  A dying [current] is skipped. *)
Definition StackState_mark (mark : Z) (current : gid) (cur : StackState)
  : StackState :=
  mkStackState 0 mark None 0
    (if active cur then Some current else stack_prev cur).

(** [StackState::free_stack_copy()]. *)
Definition free_stack_copy (ss : StackState) : StackState :=
  mkStackState (_stack_start ss) (stack_stop ss) None 0 (stack_prev ss).

(** [StackState::operator=]: refuses a source that owns memory. *)
Definition StackState_assign (this other : StackState) : option StackState :=
  if negb (_stack_saved other =? 0) then None
  else
    Some (mkStackState (_stack_start other) (stack_stop other)
            (stack_copy other) (_stack_saved other) (stack_prev other)).

(** [StackState::set_active()]; the assertion is the caller's (see
    [inner_bootstrap_enter]). *)
Definition set_active (ss : StackState) : StackState :=
  mkStackState 1 (stack_stop ss) (stack_copy ss) (_stack_saved ss)
    (stack_prev ss).

(** [StackState::set_inactive()]. *)
Definition set_inactive (ss : StackState) : StackState :=
  let ss := mkStackState 0 (stack_stop ss) (stack_copy ss) (_stack_saved ss)
              (stack_prev ss) in
  if negb (_stack_saved ss =? 0) then free_stack_copy ss else ss.

(** ** Greenlets, thread states and the state of the process *)

(** [PythonState], for the interpreter this tree is installed under
    (3.9): the frame the greenlet was suspended in and its recursion
    depth.  The context variable and the trash counter are carried the
    same way and are left out. *)
Record PythonState : Type := mkPythonState {
  _top_frame : option Z;
  recursion_depth : Z
}.

(** [PythonState::PythonState()]. *)
Definition PythonState_new : PythonState := mkPythonState None 0.

(** The fields of [PyThreadState] that [PythonState] saves. *)
Record PyThreadState : Type := mkPyThreadState {
  tstate_frame : option Z;
  tstate_recursion_depth : Z
}.

(** The two concrete classes.  A [UserGreenlet] holds its parent, the
    main greenlet of the thread it was started in, and the callable
    stored by the [run] setter; a [MainGreenlet] holds the thread state
    of its thread, null once that thread has exited. *)
Inductive GreenletKind : Type :=
| MainGreenlet (_thread_state : option tid)
| UserGreenlet (_parent : option gid) (_main_greenlet : option gid)
    (_run_callable : OwnedObject).

Record Greenlet : Type := mkGreenlet {
  switch_args : SwitchingArgs;
  stack_state : StackState;
  python_state : PythonState;
  kind : GreenletKind
}.

(** Modelled from the spec: the class ThreadState of
    greenlet_thread_state.hpp, which is not in the tree (the spec's
    ThreadContext): the main greenlet of the thread, the greenlet
    running on it, and the trace hook. *)
Record ThreadState : Type := mkThreadState {
  ts_main_greenlet : gid;
  ts_current_greenlet : gid;
  ts_tracefunc : OwnedObject
}.

(** The process, seen from the thread that is executing:
    - [this_thread] is the thread [GET_THREAD_STATE()] answers for;
    - [switching_thread_state] is the global of that name;
    - [pyerr] is the error indicator ([PyErr_Occurred]);
    - [cstack] is the native stack of the thread;
    - [run_log] is a ghost field: the greenlets whose [run] has been
      called, most recent first;
    - [switches] is a ghost field: how many times [slp_switch] has
      handed the processor to another greenlet. *)
Record St : Type := mkSt {
  greenlets : gmap gid Greenlet;
  threads : gmap tid ThreadState;
  this_thread : tid;
  switching_thread_state : option gid;
  pyerr : option PyErr;
  tstate : PyThreadState;
  cstack : Z -> byte;
  run_log : list gid;
  switches : nat
}.

Definition with_greenlets (gs : gmap gid Greenlet) (s : St) : St :=
  mkSt gs (threads s) (this_thread s) (switching_thread_state s) (pyerr s)
    (tstate s) (cstack s) (run_log s) (switches s).
Definition with_threads (ts : gmap tid ThreadState) (s : St) : St :=
  mkSt (greenlets s) ts (this_thread s) (switching_thread_state s) (pyerr s)
    (tstate s) (cstack s) (run_log s) (switches s).
Definition with_switching (g : option gid) (s : St) : St :=
  mkSt (greenlets s) (threads s) (this_thread s) g (pyerr s)
    (tstate s) (cstack s) (run_log s) (switches s).
Definition with_pyerr (e : option PyErr) (s : St) : St :=
  mkSt (greenlets s) (threads s) (this_thread s) (switching_thread_state s) e
    (tstate s) (cstack s) (run_log s) (switches s).
Definition with_tstate (t : PyThreadState) (s : St) : St :=
  mkSt (greenlets s) (threads s) (this_thread s) (switching_thread_state s)
    (pyerr s) t (cstack s) (run_log s) (switches s).
Definition with_cstack (m : Z -> byte) (s : St) : St :=
  mkSt (greenlets s) (threads s) (this_thread s) (switching_thread_state s)
    (pyerr s) (tstate s) m (run_log s) (switches s).
Definition with_run_log (l : list gid) (s : St) : St :=
  mkSt (greenlets s) (threads s) (this_thread s) (switching_thread_state s)
    (pyerr s) (tstate s) (cstack s) l (switches s).
Definition with_switches (n : nat) (s : St) : St :=
  mkSt (greenlets s) (threads s) (this_thread s) (switching_thread_state s)
    (pyerr s) (tstate s) (cstack s) (run_log s) n.

Definition with_switch_args (a : SwitchingArgs) (G : Greenlet) : Greenlet :=
  mkGreenlet a (stack_state G) (python_state G) (kind G).
Definition with_stack_state (ss : StackState) (G : Greenlet) : Greenlet :=
  mkGreenlet (switch_args G) ss (python_state G) (kind G).
Definition with_python_state (ps : PythonState) (G : Greenlet) : Greenlet :=
  mkGreenlet (switch_args G) (stack_state G) ps (kind G).
Definition with_kind (k : GreenletKind) (G : Greenlet) : Greenlet :=
  mkGreenlet (switch_args G) (stack_state G) (python_state G) k.

(** ** The monad of C++ control flow *)

Inductive CppExn : Type :=
| PyErrOccurred
| GreenletStartedWhileInPython.

(** What a call does:
    - [Ret a s]: it returns [a];
    - [Throw e s]: it throws [e];
    - [Enter g origin run s]: control is in [inner_bootstrap] of the
      freshly started greenlet [g], which never returns;
    - [Fatal msg s]: [Py_FatalError] or [std::abort];
    - [Crash]: undefined behaviour (null dereference, failed assertion);
    - [Diverge]: a loop did not finish within its fuel. *)
Inductive Out (A : Type) : Type :=
| Ret (a : A) (s : St)
| Throw (e : CppExn) (s : St)
| Enter (g origin : gid) (run : OwnedObject) (s : St)
| Fatal (msg : string) (s : St)
| Crash
| Diverge.
Arguments Ret {A} a s.
Arguments Throw {A} e s.
Arguments Enter {A} g origin run s.
Arguments Fatal {A} msg s.
Arguments Crash {A}.
Arguments Diverge {A}.

Definition M (A : Type) : Type := St -> Out A.

Definition ret {A} (a : A) : M A := fun s => Ret a s.

Definition bind {A B} (c : M A) (k : A -> M B) : M B :=
  fun s =>
    match c s with
    | Ret a s' => k a s'
    | Throw e s' => Throw e s'
    | Enter g o r s' => Enter g o r s'
    | Fatal msg s' => Fatal msg s'
    | Crash => Crash
    | Diverge => Diverge
    end.

Notation "'let*' x ':=' c 'in' k" := (bind c (fun x => k))
  (at level 10, x name, c at level 100, k at level 200).
Notation "c ';;;' k" := (bind c (fun _ => k))
  (at level 100, k at level 200, right associativity).

Definition throw {A} (e : CppExn) : M A := fun s => Throw e s.
Definition crash {A} : M A := fun _ => Crash.
Definition diverge {A} : M A := fun _ => Diverge.
Definition fatal {A} (msg : string) : M A := fun s => Fatal msg s.

(** [try c catch (const PyErrOccurred&) h]. *)
Definition catch_PyErrOccurred {A} (c : M A) (h : M A) : M A :=
  fun s =>
    match c s with
    | Throw PyErrOccurred s' => h s'
    | o => o
    end.

Definition get : M St := fun s => Ret s s.
Definition modify (f : St -> St) : M unit := fun s => Ret tt (f s).

(** Dereferencing a greenlet pointer. *)
Definition deref (g : gid) : M Greenlet :=
  fun s => match greenlets s !! g with
           | Some G => Ret G s
           | None => Crash
           end.

Definition deref_opt (g : option gid) : M gid :=
  match g with
  | Some g => ret g
  | None => crash
  end.

Definition update (g : gid) (f : Greenlet -> Greenlet) : M unit :=
  let* G := deref g in
  modify (fun s => with_greenlets (<[g := f G]> (greenlets s)) s).

(** [throw PyErrOccurred(kind, msg)] and the subclasses [ValueError],
    [AttributeError]: the constructor sets the error indicator. *)
Definition throw_PyErr {A} (t : ExcType) (msg : string) : M A :=
  modify (with_pyerr (Some (PyErr_SetString t msg))) ;;;
  throw PyErrOccurred.

(** ** Moving stack bytes (TStackState.cpp) *)

(** The [n] bytes of the native stack from address [a] on. *)
Definition read_stack (m : Z -> byte) (a : Z) (n : nat) : list byte :=
  map (fun i => m (a + Z.of_nat i)) (seq 0 n).

(** [memcpy(dst, src, length src)] with [dst] on the native stack. *)
Definition memcpy_to_stack (m : Z -> byte) (dst : Z) (src : list byte)
  : Z -> byte :=
  fun a =>
    if (dst <=? a) && (a <? dst + Z.of_nat (length src))
    then nth (Z.to_nat (a - dst)) src x00
    else m a.

(** A difference of two addresses as an [intptr_t]. *)
Definition intptr (z : Z) : Z := (z + 2 ^ 63) mod 2 ^ 64 - 2 ^ 63.

Definition with_stack_prev (p : option gid) (ss : StackState) : StackState :=
  mkStackState (_stack_start ss) (stack_stop ss) (stack_copy ss)
    (_stack_saved ss) p.
Definition with_stack_start (a : Z) (ss : StackState) : StackState :=
  mkStackState a (stack_stop ss) (stack_copy ss) (_stack_saved ss)
    (stack_prev ss).
Definition with_stack_copy (c : option (list byte)) (n : Z) (ss : StackState)
  : StackState :=
  mkStackState (_stack_start ss) (stack_stop ss) c n (stack_prev ss).

Definition update_stack (g : gid) (f : StackState -> StackState) : M unit :=
  update g (fun G => with_stack_state (f (stack_state G)) G).

(** The loop of [copy_heap_to_stack]:
    [while (owner && owner->stack_stop <= this->stack_stop)
       owner = owner->stack_prev;] *)
Fixpoint find_owner_with_more_stack (fuel : nat) (stop : Z)
  (owner : option gid) : M (option gid) :=
  match owner with
  | None => ret None
  | Some o =>
      match fuel with
      | O => diverge
      | S fuel =>
          let* O := deref o in
          if stack_stop (stack_state O) <=? stop
          then find_owner_with_more_stack fuel stop
                 (stack_prev (stack_state O))
          else ret (Some o)
      end
  end.

(** [StackState::copy_heap_to_stack(const StackState& current)], called
    on the state of greenlet [this]. *)
Definition copy_heap_to_stack (fuel : nat) (this current : gid) : M unit :=
  let* T := deref this in
  let ss := stack_state T in
  (if negb (_stack_saved ss =? 0) then
     match stack_copy ss with
     | None => crash
     | Some buf =>
         (* reading past the end of the buffer is undefined *)
         (if _stack_saved ss <=? Z.of_nat (length buf) then ret tt
          else crash) ;;;
         modify (fun s =>
           with_cstack
             (memcpy_to_stack (cstack s) (_stack_start ss)
                (take (Z.to_nat (_stack_saved ss)) buf)) s) ;;;
         update_stack this free_stack_copy
     end
   else ret tt) ;;;
  let* C := deref current in
  let owner :=
    if active (stack_state C) then Some current
    else stack_prev (stack_state C) (* greenlet is dying, skip it *) in
  let* owner := find_owner_with_more_stack fuel (stack_stop ss) owner in
  update_stack this (with_stack_prev owner).

Section Runtime.

(** Whether the extension is compiled with [NDEBUG], which turns every
    [assert] into nothing. *)
Variable NDEBUG : bool.

(** [assert(b)]. *)
Definition assert (b : bool) : M unit :=
  if NDEBUG then ret tt else if b then ret tt else crash.

(** Whether [PyMem_Realloc] can serve a request of the given size. *)
Variable PyMem_Realloc_ok : Z -> bool.

(** [this->_self.PyRequireAttr(mod_globs->str_run)]: the attribute
    lookup of [run] on the greenlet object; it runs arbitrary code of
    the interpreter and throws [PyErrOccurred] when there is no such
    attribute. *)
Variable PyRequireAttr_run : gid -> M OwnedObject.

(** [TracingGuard::CallTraceFunction(tracefunc, event, origin, target)]:
    the event is [true] for a switch and [false] for a throw; it throws
    [PyErrOccurred] when the trace function raises. *)
Variable CallTraceFunction : PyObject -> bool -> gid -> gid -> M unit.

(** [StackState::copy_stack_to_heap_up_to(stop)], on greenlet [g]; the
    result is the [int] the function returns. *)
Definition copy_stack_to_heap_up_to (g : gid) (stop : Z) : M Z :=
  let* G := deref g in
  let ss := stack_state G in
  let sz1 := _stack_saved ss in
  let sz2 := intptr (stop - _stack_start ss) in
  assert (active ss) ;;;
  if sz2 >? sz1 then
    if PyMem_Realloc_ok sz2 then
      let* s := get in
      let c := resize (Z.to_nat sz2) x00 (default [] (stack_copy ss)) in
      let c := take (Z.to_nat sz1) c ++
               read_stack (cstack s) (_stack_start ss + sz1)
                 (Z.to_nat (sz2 - sz1)) in
      update_stack g (with_stack_copy (Some c) sz2) ;;;
      ret 0
    else
      modify (with_pyerr (Some (mkPyErr PyExc_MemoryError None))) ;;;
      ret (-1)
  else ret 0.

(** The loop and the tail of [copy_stack_to_heap]. *)
Fixpoint copy_owners_to_heap (fuel : nat) (this : gid) (target_stop : Z)
  (owner : option gid) : M Z :=
  match fuel with
  | O => diverge
  | S fuel =>
      let* o := deref_opt owner in
      let* O := deref o in
      if stack_stop (stack_state O) <? target_stop then
        (* the owner is entirely within the area to free *)
        let* r := copy_stack_to_heap_up_to o (stack_stop (stack_state O)) in
        if negb (r =? 0) then ret (-1)
        else copy_owners_to_heap fuel this target_stop
               (stack_prev (stack_state O))
      else if negb (Nat.eqb o this) then
        let* r := copy_stack_to_heap_up_to o target_stop in
        if negb (r =? 0) then ret (-1) else ret 0
      else ret 0
  end.

(** [StackState::copy_stack_to_heap(stackref, current)], on greenlet
    [this]. *)
Definition copy_stack_to_heap (fuel : nat) (this : gid) (stackref : Z)
  (current : gid) : M Z :=
  let* T := deref this in
  let target_stop := stack_stop (stack_state T) in
  let* C := deref current in
  assert (_stack_saved (stack_state C) =? 0) ;;;
  let* owner :=
    if negb (active (stack_state C)) then
      ret (stack_prev (stack_state C)) (* not saved if dying *)
    else
      update_stack current (with_stack_start stackref) ;;;
      ret (Some current) in
  copy_owners_to_heap fuel this target_stop owner.

(** ** Who belongs to which thread *)

(** [Greenlet::thread_state()]: the field of a main greenlet; for a user
    greenlet the thread state of its main greenlet, null when it has
    none. *)
Definition thread_state (gs : gmap gid Greenlet) (G : Greenlet) : option tid :=
  match kind G with
  | MainGreenlet ts => ts
  | UserGreenlet _ None _ => None
  | UserGreenlet _ (Some m) _ =>
      match gs !! m with
      | Some (mkGreenlet _ _ _ (MainGreenlet ts)) => ts
      | _ => None
      end
  end.

(** [Greenlet::main_greenlet()]. *)
Definition main_greenlet (g : gid) (G : Greenlet) : option gid :=
  match kind G with
  | MainGreenlet _ => Some g
  | UserGreenlet _ m _ => m
  end.

(** [Greenlet::parent()]. *)
Definition parent (G : Greenlet) : option gid :=
  match kind G with
  | MainGreenlet _ => None
  | UserGreenlet p _ _ => p
  end.

(** The thread state a greenlet runs under, dereferenced. *)
Definition deref_thread_state (g : gid) : M (tid * ThreadState) :=
  let* G := deref g in
  fun s =>
    match thread_state (greenlets s) G with
    | None => Crash
    | Some t =>
        match threads s !! t with
        | Some ts => Ret (t, ts) s
        | None => Crash
        end
    end.

(** [GET_THREAD_STATE().state()]. *)
Definition GET_THREAD_STATE : M ThreadState :=
  fun s =>
    match threads s !! this_thread s with
    | Some ts => Ret ts s
    | None => Crash
    end.

Definition set_current (t : tid) (g : gid) : M unit :=
  modify (fun s =>
    with_threads
      (alter (fun ts => mkThreadState (ts_main_greenlet ts) g (ts_tracefunc ts))
         t (threads s)) s).

Definition set_tracefunc (t : tid) (f : OwnedObject) : M unit :=
  modify (fun s =>
    with_threads
      (alter (fun ts =>
                mkThreadState (ts_main_greenlet ts) (ts_current_greenlet ts) f)
         t (threads s)) s).

(** ** The stack pivot *)

(** Modelled from the spec: the macros SLP_SAVE_STATE and
    SLP_RESTORE_STATE of greenlet_slp_switch.hpp, which is not in the
    tree, around the register pivot of platform/switch_aarch64_gcc.h.
    The pivot saves the stack of the running greenlet through
    [slp_save_state], returns [-1] when that fails and [1] when the
    target has no stack yet (the first switch into it), and otherwise
    moves the stack pointer and restores the target through
    [slp_restore_state], returning [0]. *)
Definition slp_switch (fuel : nat) (stackref : Z) : M Z :=
  let* s := get in
  let* target := deref_opt (switching_thread_state s) in
  (* slp_save_state: current is this->thread_state()->borrow_current() *)
  let* tts := deref_thread_state target in
  let* r := copy_stack_to_heap fuel target stackref
              (ts_current_greenlet (snd tts)) in
  if negb (r =? 0) then ret (-1)
  else
    modify (fun s => with_switches (S (switches s)) s) ;;;
    let* T := deref target in
    if negb (active (stack_state T)) then ret 1
    else
      (* slp_restore_state *)
      let* tts := deref_thread_state target in
      copy_heap_to_stack fuel target (ts_current_greenlet (snd tts)) ;;;
      ret 0.

(** ** Switching (TGreenlet.cpp) *)

Record switchstack_result_t : Type := mk_switchstack_result {
  status : Z;
  the_new_current_greenlet : option gid;
  origin_greenlet : option gid
}.

(** [Greenlet::release_args()]. *)
Definition release_args (g : gid) : M unit :=
  update g (with_switch_args SwitchingArgs_empty).

(** [target->args() <<= this->args()], the overload
    [SwitchingArgs& operator<<=(SwitchingArgs& other)]: nothing happens
    when both are the same object. *)
Definition move_args (target this : gid) : M unit :=
  if Nat.eqb target this then ret tt
  else
    let* T := deref this in
    update target (with_switch_args (switch_args T)) ;;;
    update this (with_switch_args SwitchingArgs_empty).

(** [this->args() || PyErr_Occurred()]. *)
Definition args_or_error (g : gid) : M bool :=
  let* G := deref g in
  let* s := get in
  ret (SwitchingArgs_bool (switch_args G) || bool_decide (is_Some (pyerr s))).

(** [UserGreenlet::find_main_greenlet_in_lineage()] and the override of
    [MainGreenlet]. *)
Fixpoint find_main_greenlet_in_lineage (fuel : nat) (g : gid)
  : M (option gid) :=
  match fuel with
  | O => diverge
  | S fuel =>
      let* G := deref g in
      match kind G with
      | MainGreenlet _ => ret (Some g)
      | UserGreenlet p m _ =>
          if started (stack_state G) then
            assert (bool_decide (is_Some m)) ;;;
            ret m
          else
            match p with
            | None => ret None (* garbage collected greenlet in chain *)
            | Some p => find_main_greenlet_in_lineage fuel p
            end
      end
  end.

(** [Greenlet::check_switch_allowed()]. *)
Definition check_switch_allowed (fuel : nat) (this : gid) : M unit :=
  let* main_greenlet_ := find_main_greenlet_in_lineage fuel this in
  match main_greenlet_ with
  | None =>
      throw_PyErr PyExc_GreenletError
        "cannot switch to a garbage collected greenlet"
  | Some m =>
      let* Mg := deref m in
      let* s := get in
      if negb (bool_decide (is_Some (thread_state (greenlets s) Mg))) then
        throw_PyErr PyExc_GreenletError
          "cannot switch to a different thread (which happens to have exited)"
      else
        let* ts := GET_THREAD_STATE in
        let current_main_greenlet := ts_main_greenlet ts in
        let* T := deref this in
        let* dead_thread :=
          if negb (Nat.eqb current_main_greenlet m) then ret true
          else if bool_decide (is_Some (main_greenlet this T))
                  && negb (Nat.eqb current_main_greenlet m) then ret true
          else
            let* CM := deref current_main_greenlet in
            ret (negb (bool_decide
                         (is_Some (thread_state (greenlets s) CM)))) in
        if dead_thread : bool then
          throw_PyErr PyExc_GreenletError "cannot switch to a different thread"
        else ret tt
  end.

(** [Greenlet::g_switchstack_success()]: restores the interpreter state
    saved in the greenlet and makes it the current one; the result is
    the greenlet that was current. *)
Definition g_switchstack_success (this : gid) : M gid :=
  let* T := deref this in
  let ps := python_state T in
  (* this->python_state >> tstate *)
  modify (with_tstate (mkPyThreadState (_top_frame ps) (recursion_depth ps))) ;;;
  update this (with_python_state (mkPythonState None (recursion_depth ps))) ;;;
  let* tts := deref_thread_state this in
  let result := ts_current_greenlet (snd tts) in
  set_current (fst tts) this ;;;
  ret result.

(** [Greenlet::g_switchstack()]; [force_slp_switch_error()] is [false]
    for every greenlet but the test fixture. *)
Definition g_switchstack (fuel : nat) (stackref : Z) (this : gid)
  : M switchstack_result_t :=
  let* ok := args_or_error this in
  assert ok ;;;
  let* tts := deref_thread_state this in
  let current := ts_current_greenlet (snd tts) in
  if Nat.eqb current this then
    (* Hmm, nothing to do. *)
    ret (mk_switchstack_result 0 (Some this) (Some current))
  else
    let* s := get in
    (* current->python_state << tstate *)
    update current
      (with_python_state
         (mkPythonState (tstate_frame (tstate s))
            (tstate_recursion_depth (tstate s)))) ;;;
    modify (with_switching (Some this)) ;;;
    let* ok := args_or_error this in
    assert ok ;;;
    let* err := slp_switch fuel stackref in
    if err <? 0 then
      fatal
        "greenlet: Failed low-level slp_switch(). The stack is probably corrupt."
    else
      (* No stack-based variables are valid anymore. *)
      let* s := get in
      let* greenlet_that_switched_in :=
        deref_opt (switching_thread_state s) in
      modify (with_switching None) ;;;
      let* origin := g_switchstack_success greenlet_that_switched_in in
      let* ok := args_or_error greenlet_that_switched_in in
      assert ok ;;;
      ret (mk_switchstack_result err (Some greenlet_that_switched_in)
             (Some origin)).

(** [Greenlet::g_calltrace()].  [PyErrPieces saved_exc] takes the error
    indicator and [PyErrRestore] puts it back; when the trace function
    throws, the hook is removed and its exception stays. *)
Definition g_calltrace (tracefunc : PyObject) (event : bool)
  (origin target : gid) : M unit :=
  let* s := get in
  let saved_exc := pyerr s in
  modify (with_pyerr None) ;;;
  catch_PyErrOccurred
    (CallTraceFunction tracefunc event origin target)
    (let* s := get in
     set_tracefunc (this_thread s) None ;;;
     throw PyErrOccurred) ;;;
  modify (with_pyerr saved_exc) ;;;
  let* s := get in
  assert (if event then negb (bool_decide (is_Some (pyerr s)))
          else bool_decide (is_Some (pyerr s))).

(** [Greenlet::g_switch_finish()]. *)
Definition g_switch_finish (this : gid) (err : switchstack_result_t)
  : M OwnedObject :=
  assert (bool_decide (the_new_current_greenlet err = Some this)) ;;;
  let* tts := deref_thread_state this in
  let* T := deref this in
  let* result :=
    if SwitchingArgs_bool (switch_args T) then
      update this (with_switch_args (snd (deliver (switch_args T)))) ;;;
      ret (fst (deliver (switch_args T)))
    else
      let* s := get in
      assert (bool_decide (is_Some (pyerr s))) ;;;
      ret None in
  let* T := deref this in
  assert (negb (SwitchingArgs_bool (switch_args T))) ;;;
  catch_PyErrOccurred
    (assert (0 <=? status err) ;;;
     let* s := get in
     match threads s !! fst tts with
     | None => crash
     | Some state =>
         assert (Nat.eqb (ts_current_greenlet state) this) ;;;
         match ts_tracefunc state with
         | Some tracefunc =>
             let* origin := deref_opt (origin_greenlet err) in
             g_calltrace tracefunc (bool_decide (is_Some result)) origin this
         | None => ret tt
         end
     end ;;;
     let* s := get in
     if bool_decide (is_Some (pyerr s)) then throw PyErrOccurred
     else ret result)
    (* Turn switch errors and trace errors into switch throws *)
    (release_args this ;;; throw PyErrOccurred).

(** [Greenlet::is_currently_running_in_some_thread()]. *)
Definition is_currently_running_in_some_thread (G : Greenlet) : bool :=
  active (stack_state G)
  && negb (bool_decide (is_Some (_top_frame (python_state G)))).

(** [Greenlet::deactivate_and_free()]: the assignment of a fresh
    [StackState] cannot be refused, its source owns no memory. *)
Definition deactivate_and_free (g : gid) : M unit :=
  let* G := deref g in
  if negb (active (stack_state G)) then ret tt
  else
    match StackState_assign (stack_state G) StackState_new with
    | None => crash
    | Some ss =>
        update_stack g (fun _ => ss) ;;;
        assert (negb (active ss)) ;;;
        (* python_state.tp_clear(true) *)
        update g (fun G =>
          with_python_state
            (mkPythonState None (recursion_depth (python_state G))) G)
    end.

(** [Greenlet::murder_in_place()] and the override of [UserGreenlet],
    which first forgets the main greenlet. *)
Definition murder_in_place (g : gid) : M unit :=
  let* G := deref g in
  match kind G with
  | UserGreenlet p _ r => update g (with_kind (UserGreenlet p None r))
  | MainGreenlet _ => ret tt
  end ;;;
  let* G := deref g in
  if active (stack_state G) then
    assert (negb (is_currently_running_in_some_thread G)) ;;;
    deactivate_and_free g
  else ret tt.

(** [Greenlet::on_switchstack_or_initialstub_failure()]. *)
Definition on_switchstack_or_initialstub_failure (this : gid)
  (target : option gid) (err : switchstack_result_t)
  (target_was_me was_initial_stub : bool) : M OwnedObject :=
  let* s := get in
  (if negb (bool_decide (is_Some (pyerr s))) then
     modify (with_pyerr (Some (PyErr_SetString PyExc_SystemError
       (if was_initial_stub
        then "Failed to switch stacks into a greenlet for the first time."
        else "Failed to switch stacks into a running greenlet."))))
   else ret tt) ;;;
  release_args this ;;;
  match target with
  | Some t => if negb target_was_me then murder_in_place t else ret tt
  | None => ret tt
  end ;;;
  assert (negb (bool_decide (is_Some (the_new_current_greenlet err)))) ;;;
  assert (negb (bool_decide (is_Some (origin_greenlet err)))) ;;;
  ret None.

(** ** Starting a greenlet (TUserGreenlet.cpp) *)

(** [UserGreenlet::g_initialstub(void* mark)].  When the pivot answers
    [1] the function goes on into [inner_bootstrap], which never
    returns: that is the outcome [Enter]. *)
Definition g_initialstub (fuel : nat) (mark stackref : Z) (this : gid)
  : M switchstack_result_t :=
  let* T := deref this in
  match kind T with
  | MainGreenlet _ => crash (* the cast to UserGreenlet is invalid *)
  | UserGreenlet _ _ _ =>
      (* a copy of the switch arguments, in case we are entered
         concurrently during the attribute lookup *)
      let args := switch_args T in
      let* s := get in
      let saved := pyerr s in
      modify (with_pyerr None) ;;;
      let* run := PyRequireAttr_run this in
      modify (with_pyerr saved) ;;;
      (* recheck that it is safe to switch *)
      check_switch_allowed fuel this ;;;
      let* T := deref this in
      if started (stack_state T) then
        (* another start happened elsewhere: restore our version of
           the arguments and have the caller retry *)
        assert (negb (SwitchingArgs_bool (switch_args T))) ;;;
        update this (with_switch_args args) ;;;
        throw GreenletStartedWhileInPython
      else
        (* start the greenlet *)
        let* ts := GET_THREAD_STATE in
        let* C := deref (ts_current_greenlet ts) in
        match StackState_assign (stack_state T)
                (StackState_mark mark (ts_current_greenlet ts) (stack_state C))
        with
        | None => crash
        | Some ss =>
            let* s := get in
            update this (fun G =>
              mkGreenlet (switch_args G) ss
                (* python_state.set_initial_state(tstate) *)
                (mkPythonState None (tstate_recursion_depth (tstate s)))
                match kind G with
                | UserGreenlet p _ r =>
                    UserGreenlet p (Some (ts_main_greenlet ts)) r
                | k => k
                end) ;;;
            (* perform the initial switch *)
            let* err := g_switchstack fuel stackref this in
            if status err =? 1 then
              (* in the new greenlet *)
              let* origin := deref_opt (origin_greenlet err) in
              fun s => Enter this origin run s
            else
              (* back in the parent *)
              (if status err <? 0 then
                 (* start failed badly, restore greenlet state *)
                 update this (fun G =>
                   mkGreenlet (switch_args G) StackState_new (python_state G)
                     match kind G with
                     | UserGreenlet p _ r => UserGreenlet p None r
                     | k => k
                     end)
               else ret tt) ;;;
              ret err
        end
  end.

(** The state of the loop of [UserGreenlet::g_switch] when it is left. *)
Record switch_loop_exit : Type := mk_switch_loop_exit {
  loop_err : switchstack_result_t;
  loop_target : option gid;
  loop_target_was_me : bool;
  loop_was_initial_stub : bool
}.

(** The loop [while (target)] of [UserGreenlet::g_switch]: find the
    real target by ignoring dead greenlets, and if necessary start a
    greenlet.  [n] bounds the number of iterations. *)
Fixpoint g_switch_loop (n : nat) (fuel : nat) (mark stackref : Z)
  (this : gid) (target : option gid) (target_was_me was_initial_stub : bool)
  : M switch_loop_exit :=
  match target with
  | None =>
      ret (mk_switch_loop_exit (mk_switchstack_result 0 None None) None
             target_was_me was_initial_stub)
  | Some t =>
      match n with
      | O => diverge
      | S n =>
          let* T := deref t in
          if active (stack_state T) then
            (if negb target_was_me then
               move_args t this ;;;
               let* Me := deref this in
               assert (negb (SwitchingArgs_bool (switch_args Me)))
             else ret tt) ;;;
            let* err := g_switchstack fuel stackref t in
            ret (mk_switch_loop_exit err target target_was_me
                   was_initial_stub)
          else if negb (started (stack_state T)) then
            (* We never encounter a main greenlet that is not started. *)
            assert (negb (main (stack_state T))) ;;;
            (if negb target_was_me then
               move_args t this ;;;
               let* Me := deref this in
               assert (negb (SwitchingArgs_bool (switch_args Me)))
             else ret tt) ;;;
            fun s =>
              match g_initialstub fuel mark stackref t s with
              | Throw PyErrOccurred s' =>
                  (release_args this ;;; throw PyErrOccurred) s'
              | Throw GreenletStartedWhileInPython s' =>
                  (* the greenlet was started before this greenlet
                     switched to it: retry the switch *)
                  g_switch_loop n fuel mark stackref this target
                    target_was_me true s'
              | Ret err s' =>
                  Ret (mk_switch_loop_exit err target target_was_me true) s'
              | Enter g o r s' => Enter g o r s'
              | Fatal msg s' => Fatal msg s'
              | Crash => Crash
              | Diverge => Diverge
              end
          else
            g_switch_loop n fuel mark stackref this (parent T) false
              was_initial_stub
      end
  end.

(** [UserGreenlet::g_switch()]. *)
Definition UserGreenlet_g_switch (fuel : nat) (mark stackref : Z) (this : gid)
  : M OwnedObject :=
  let* ok := args_or_error this in
  assert ok ;;;
  catch_PyErrOccurred
    (check_switch_allowed fuel this)
    (release_args this ;;; throw PyErrOccurred) ;;;
  let* x := g_switch_loop fuel fuel mark stackref this (Some this) true false in
  let err := loop_err x in
  if status err <? 0 then
    on_switchstack_or_initialstub_failure this (loop_target x) err
      (loop_target_was_me x) (loop_was_initial_stub x)
  else
    let* g := deref_opt (the_new_current_greenlet err) in
    g_switch_finish g err.

(** [MainGreenlet::g_switch()]. *)
Definition MainGreenlet_g_switch (fuel : nat) (stackref : Z) (this : gid)
  : M OwnedObject :=
  catch_PyErrOccurred
    (check_switch_allowed fuel this)
    (release_args this ;;; throw PyErrOccurred) ;;;
  let* err := g_switchstack fuel stackref this in
  if status err <? 0 then
    on_switchstack_or_initialstub_failure this (Some this) err true false
  else
    let* g := deref_opt (the_new_current_greenlet err) in
    g_switch_finish g err.

(** The virtual call [g->g_switch()].  [mark] is the address of the
    local [dummymarker] of the call and [stackref] the stack pointer
    inside [slp_switch]; both are given by the depth of the native call
    stack, which is not part of the embedding.

    [Ret r s] says that a call of [g_switch] returns [r] in state [s].
    When the stack was switched on the way ([switches] grew), the call
    that returns is the one the greenlet now current was suspended in:
    every frame suspended in [slp_switch] continues with the same code,
    the tail of [g_switchstack] and then [g_switch_finish] on
    [the_new_current_greenlet]. *)
Definition g_switch (fuel : nat) (mark stackref : Z) (this : gid)
  : M OwnedObject :=
  let* T := deref this in
  match kind T with
  | MainGreenlet _ => MainGreenlet_g_switch fuel stackref this
  | UserGreenlet _ _ _ => UserGreenlet_g_switch fuel mark stackref this
  end.

(** [g_handle_exit] (TGreenlet.cpp). *)
Definition g_handle_exit (greenlet_result : OwnedObject) : M OwnedObject :=
  let* s := get in
  if negb (bool_decide (is_Some greenlet_result))
     && GreenletExit_matches (pyerr s) then
    (* catch and ignore GreenletExit *)
    let val := match pyerr s with Some e => err_value e | None => None end in
    modify (with_pyerr None) ;;;
    match val with
    | None => ret (Some PyNone)
    | Some v => ret (Some v)
    end
  else
    match greenlet_result with
    | Some r => ret (Some (PyTuple_Pack1 r)) (* a 1-tuple *)
    | None => ret None
    end.

(** [UserGreenlet::inner_bootstrap], up to the call of [run]: the result
    is the arguments [run] is called with, or [None] when an exception
    is pending and [run] is not called at all. *)
Definition inner_bootstrap_enter (this origin : gid) (run : OwnedObject)
  : M (option SwitchingArgs) :=
  let* tts := deref_thread_state this in
  assert (Nat.eqb (ts_current_greenlet (snd tts)) this) ;;;
  let* T := deref this in
  assert (negb (active (stack_state T))) ;;;
  update_stack this set_active ;;; (* running *)
  let* T := deref this in
  let args := switch_args T in
  update this (with_switch_args SwitchingArgs_empty) ;;;
  update this (fun G =>
    with_kind match kind G with
              | UserGreenlet p m _ => UserGreenlet p m None
              | k => k
              end G) ;;;
  let* tts := deref_thread_state this in
  let* args :=
    match ts_tracefunc (snd tts) with
    | Some tracefunc =>
        catch_PyErrOccurred
          (g_calltrace tracefunc (SwitchingArgs_bool args) origin this ;;;
           ret args)
          (* Turn trace errors into switch throws *)
          (ret SwitchingArgs_empty)
    | None => ret args
    end in
  if negb (SwitchingArgs_bool args) then
    ret None (* pending exception *)
  else
    (* call g.run( *args, **kwargs) *)
    modify (fun s => with_run_log (this :: run_log s) s) ;;;
    ret (Some args).

(** The loop at the end of [inner_bootstrap]: hand the result to the
    parents in turn.  A call of [g_switch] comes back to this frame,
    with a result or with an exception, only when it switched nowhere;
    otherwise it is the call the new current greenlet was suspended in
    that returns or throws. *)
Fixpoint switch_to_parents (n : nat) (fuel : nat) (mark stackref : Z)
  (this : gid) (parent_ : option gid) (result : OwnedObject)
  : M OwnedObject :=
  match parent_ with
  | None =>
      fatal ("greenlet: ran out of parent greenlets while propagating "
             ++ "exception; cannot continue")
  | Some p =>
      match n with
      | O => diverge
      | S n =>
          (* parent->args() <<= result *)
          update p (with_switch_args (SwitchingArgs_of_object result)) ;;;
          fun s =>
            match g_switch fuel mark stackref p s with
            | Throw PyErrOccurred s' =>
                if Nat.eqb (switches s') (switches s) then
                  (* Ignore, keep passing the error on up. *)
                  (let* P := deref p in
                   switch_to_parents n fuel mark stackref this (parent P) None)
                    s'
                else Throw PyErrOccurred s'
            | Ret r s' =>
                if Nat.eqb (switches s') (switches s) then
                  (assert (negb (bool_decide (is_Some r))) ;;;
                   let* P := deref p in
                   switch_to_parents n fuel mark stackref this (parent P) r)
                    s'
                else Ret r s'
            | o => o
            end
      end
  end.

(** [UserGreenlet::inner_bootstrap], from the return of [run] on:
    [result] is what [PyObject_Call] returned, null when [run] raised
    (the error indicator is then set). *)
Definition inner_bootstrap_exit (fuel : nat) (mark stackref : Z) (this : gid)
  (result : OwnedObject) : M OwnedObject :=
  let* T := deref this in
  let* s := get in
  let* result :=
    if negb (bool_decide (is_Some result))
       && GreenletExit_matches (pyerr s)
       && SwitchingArgs_bool (switch_args T) then
      (* our only reference went away after we switched back to the
         parent: PyErrPieces clear_error takes the error away *)
      modify (with_pyerr None) ;;;
      update this (with_switch_args (snd (deliver (switch_args T)))) ;;;
      ret (single_result (fst (deliver (switch_args T))))
    else ret result in
  release_args this ;;;
  let* result := g_handle_exit result in
  let* tts := deref_thread_state this in
  assert (Nat.eqb (ts_current_greenlet (snd tts)) this) ;;;
  (* jump back to parent *)
  update_stack this set_inactive ;;; (* dead *)
  let* T := deref this in
  switch_to_parents fuel fuel mark stackref this (parent T) result.

(** ** The methods of the Python type (greenlet.cpp) *)

(** [green_switch(self, args, kwargs)]: [args] is the tuple of
    positional arguments, [kwargs] the dict of keyword arguments or
    null.  The result is the object handed to the interpreter; null
    raises what the error indicator holds. *)
Definition green_switch (fuel : nat) (mark stackref : Z) (self : gid)
  (args : PyObject) (kwargs : OwnedObject) : M OwnedObject :=
  update self (with_switch_args (mkSwitchingArgs (Some args) kwargs)) ;;;
  catch_PyErrOccurred
    (let* r := g_switch fuel mark stackref self in
     let result := single_result r in
     (if NDEBUG then ret tt
      else
        let* Self := deref self in
        assert (negb (SwitchingArgs_bool (switch_args Self))) ;;;
        let* ts := GET_THREAD_STATE in
        let* C := deref (ts_current_greenlet ts) in
        assert (negb (SwitchingArgs_bool (switch_args C)))) ;;;
     let* s := get in
     match result with
     | None =>
         if negb (bool_decide (is_Some (pyerr s))) then
           throw_PyErr PyExc_GreenletError
             "Greenlet.switch() returned NULL without an exception set."
         else ret None
     | Some p => ret (Some p)
     end)
    (ret None).

(** The loop of [UserGreenlet::parent(new_parent)]: walk up from the new
    parent, refuse to meet [this], and remember the main greenlet of the
    last greenlet seen. *)
Fixpoint parent_chain_check (n : nat) (this : gid) (p : option gid)
  (main_greenlet_of_new_parent : option gid) : M (option gid) :=
  match p with
  | None => ret main_greenlet_of_new_parent
  | Some g =>
      match n with
      | O => diverge
      | S n =>
          if Nat.eqb g this then
            throw_PyErr PyExc_ValueError "cyclic parent chain"
          else
            let* G := deref g in
            parent_chain_check n this (parent G) (main_greenlet g G)
      end
  end.

(** [UserGreenlet::parent(const BorrowedObject raw_new_parent)]; a null
    argument is the deletion of the attribute. *)
Definition UserGreenlet_set_parent (fuel : nat) (this : gid)
  (raw_new_parent : option gid) : M unit :=
  match raw_new_parent with
  | None => throw_PyErr PyExc_AttributeError "can't delete attribute"
  | Some new_parent =>
      let* m := parent_chain_check fuel this (Some new_parent) None in
      match m with
      | None =>
          throw_PyErr PyExc_ValueError "parent must not be garbage collected"
      | Some m =>
          let* T := deref this in
          if started (stack_state T)
             && negb (bool_decide (main_greenlet this T = Some m)) then
            throw_PyErr PyExc_ValueError
              "parent cannot be on a different thread"
          else
            update this (fun G =>
              with_kind match kind G with
                        | UserGreenlet _ mg r =>
                            UserGreenlet (Some new_parent) mg r
                        | k => k
                        end G)
      end
  end.

(** [MainGreenlet::parent(const BorrowedObject raw_new_parent)]. *)
Definition MainGreenlet_set_parent (raw_new_parent : option gid) : M unit :=
  match raw_new_parent with
  | None => throw_PyErr PyExc_AttributeError "can't delete attribute"
  | Some _ =>
      throw_PyErr PyExc_AttributeError
        "cannot set the parent of a main greenlet"
  end.

(** [green_setparent(self, nparent)]: [0], or [-1] with the error
    indicator set. *)
Definition green_setparent (fuel : nat) (self : gid) (nparent : option gid)
  : M Z :=
  catch_PyErrOccurred
    (let* Self := deref self in
     match kind Self with
     | MainGreenlet _ => MainGreenlet_set_parent nparent
     | UserGreenlet _ _ _ => UserGreenlet_set_parent fuel self nparent
     end ;;;
     ret 0)
    (ret (-1)).

End Runtime.

(** * States, invariants and relations of the statements *)

(** [owner_chain gs o l]: following [stack_prev] from the pointer [o]
    visits exactly the greenlets [l] and ends at the null pointer. *)
Inductive owner_chain (gs : gmap gid Greenlet) : option gid -> list gid -> Prop :=
| owner_chain_nil : owner_chain gs None []
| owner_chain_cons g G l :
    gs !! g = Some G ->
    owner_chain gs (stack_prev (stack_state G)) l ->
    owner_chain gs (Some g) (g :: l).

(** The [stack_stop] of a greenlet of the store. *)
Definition stop_of (gs : gmap gid Greenlet) (g : gid) : Z :=
  match gs !! g with
  | Some G => stack_stop (stack_state G)
  | None => 0
  end.

(** The state of greenlet [this] after [copy_heap_to_stack]: the buffer
    is freed when there were saved bytes, and [stack_prev] is [owner]. *)
Definition restored_state (ss : StackState) (owner : option gid) : StackState :=
  with_stack_prev owner
    (if _stack_saved ss =? 0 then ss else free_stack_copy ss).

(** What [copy_heap_to_stack] leaves behind. *)
Record restored (s s' : St) (this : gid) (T : Greenlet) (l : list gid) : Prop := {
  restored_bytes :
    forall buf i, stack_copy (stack_state T) = Some buf ->
      0 <= i < _stack_saved (stack_state T) ->
      cstack s' (_stack_start (stack_state T) + i) = nth (Z.to_nat i) buf x00;
  restored_frame :
    forall a,
      ~ (_stack_start (stack_state T) <= a
         < _stack_start (stack_state T) + _stack_saved (stack_state T)) ->
      cstack s' a = cstack s a;
  restored_nothing_to_copy :
    _stack_saved (stack_state T) = 0 -> cstack s' = cstack s;
  restored_this :
    exists skipped rest,
      l = skipped ++ rest /\
      Forall (fun g => stop_of (greenlets s) g <= stack_stop (stack_state T))
        skipped /\
      match rest with
      | [] => True
      | g :: _ => stack_stop (stack_state T) < stop_of (greenlets s) g
      end /\
      greenlets s' =
      <[this := with_stack_state (restored_state (stack_state T) (head rest)) T]>
        (greenlets s);
  restored_rest :
    threads s' = threads s /\ this_thread s' = this_thread s /\
    switching_thread_state s' = switching_thread_state s /\
    pyerr s' = pyerr s /\ tstate s' = tstate s /\ run_log s' = run_log s /\
    switches s' = switches s
}.

(** A thread whose main greenlet (0) is running while greenlet 1 is
    suspended with three bytes of its stack saved on the heap. *)
Definition ex_main_running : Greenlet :=
  mkGreenlet SwitchingArgs_empty (mkStackState 900 ADDR_MAX None 0 None)
    PythonState_new (MainGreenlet (Some 0%nat)).

Definition ex_child_saved : Greenlet :=
  mkGreenlet SwitchingArgs_empty
    (mkStackState 700 1000 (Some [x01; x02; x03]%byte) 3 (Some 0%nat))
    (mkPythonState (Some 41) 2) (UserGreenlet (Some 0%nat) (Some 0%nat) None).

Definition ex_suspended_child : St :=
  mkSt (<[1%nat := ex_child_saved]> (<[0%nat := ex_main_running]> ∅))
    (<[0%nat := mkThreadState 0%nat 0%nat None]> ∅)
    0%nat None None (mkPyThreadState (Some 40) 1) (fun _ => x00) [] 0%nat.

(** [in_parent_chain gs p c k]: walking up the parent links from [p]
    reaches [c] after [k] steps ([p] is [c] itself or a descendant). *)
Inductive in_parent_chain (gs : gmap gid Greenlet) : gid -> gid -> nat -> Prop :=
| in_parent_chain_here c : in_parent_chain gs c c 0
| in_parent_chain_up p P q c k :
    gs !! p = Some P -> parent P = Some q ->
    in_parent_chain gs q c k ->
    in_parent_chain gs p c (S k).

(** The sentence of the specification, read on the embedding: setting
    the parent of [c] to a greenlet [p] below it fails with ValueError
    "cyclic parent chain" and leaves every greenlet as it was. *)
Definition cyclic_parent_raises_ValueError (fuel : nat) (s : St) (c p : gid)
  : Prop :=
  exists s',
    green_setparent fuel c (Some p) s = Ret (-1) s' /\
    pyerr s' = Some (PyErr_SetString PyExc_ValueError "cyclic parent chain") /\
    greenlets s' = greenlets s.

(** [lineage_main ndebug gs g r k]: the main greenlet reachable from [g]
    is [r], null when there is none, found after [k] steps up the parent
    links.  A started greenlet answers with the main greenlet it holds
    (which a build with assertions requires to be there), an unstarted
    one asks its parent. *)
Inductive lineage_main (ndebug : bool) (gs : gmap gid Greenlet)
  : gid -> option gid -> nat -> Prop :=
| lineage_main_main g G ts :
    gs !! g = Some G -> kind G = MainGreenlet ts ->
    lineage_main ndebug gs g (Some g) 0
| lineage_main_started g G p m r :
    gs !! g = Some G -> kind G = UserGreenlet p m r ->
    started (stack_state G) = true ->
    (ndebug = false -> is_Some m) ->
    lineage_main ndebug gs g m 0
| lineage_main_orphan g G m r :
    gs !! g = Some G -> kind G = UserGreenlet None m r ->
    started (stack_state G) = false ->
    lineage_main ndebug gs g None 0
| lineage_main_parent g G p m r res k :
    gs !! g = Some G -> kind G = UserGreenlet (Some p) m r ->
    started (stack_state G) = false ->
    lineage_main ndebug gs p res k ->
    lineage_main ndebug gs g res (S k).

(** The three ways the main greenlet [r] reachable from a switch target
    can fail the thread check, in a store [gs] and for the calling thread
    whose main greenlet is [current_main]: there is none; its thread has
    exited; it is the main greenlet of another thread. *)
Definition wrong_thread (gs : gmap gid Greenlet) (current_main : gid)
  (r : option gid) : Prop :=
  match r with
  | None => True
  | Some m =>
      exists Mg, gs !! m = Some Mg /\
        (thread_state gs Mg = None \/ m <> current_main)
  end.

(** An interpreter for the examples: the allocator always succeeds, the
    attribute [run] is the stored callable (AttributeError without one),
    and the trace function returns normally. *)
Definition ex_realloc_ok : Z -> bool := fun _ => true.

Definition ex_getattr_run : gid -> M OwnedObject :=
  fun g s =>
    match greenlets s !! g with
    | Some (mkGreenlet _ _ _ (UserGreenlet _ _ (Some r))) => Ret (Some r) s
    | _ =>
        Throw PyErrOccurred
          (with_pyerr (Some (PyErr_SetString PyExc_AttributeError "run")) s)
    end.

Definition ex_call_trace : PyObject -> bool -> gid -> gid -> M unit :=
  fun _ _ _ _ => ret tt.

(** Two threads: thread 0, which is executing, with its main greenlet 0,
    and thread 1 with its main greenlet 2 and greenlet 3 suspended on
    it. *)
Definition ex_two_threads : St :=
  mkSt
    (<[3%nat := mkGreenlet SwitchingArgs_empty
                  (mkStackState 500 600 None 0 (Some 2%nat))
                  (mkPythonState (Some 7) 1)
                  (UserGreenlet (Some 2%nat) (Some 2%nat) None)]>
       (<[2%nat := mkGreenlet SwitchingArgs_empty make_main PythonState_new
                     (MainGreenlet (Some 1%nat))]>
          (<[0%nat := ex_main_running]> ∅)))
    (<[1%nat := mkThreadState 2%nat 2%nat None]>
       (<[0%nat := mkThreadState 0%nat 0%nat None]> ∅))
    0%nat None None (mkPyThreadState (Some 40) 1) (fun _ => x00) [] 0%nat.

(** [switch_allowed ndebug s g k]: the main greenlet reachable from [g]
    (after [k] steps) is the main greenlet of the calling thread, and
    that thread is alive. *)
Definition switch_allowed (ndebug : bool) (s : St) (g : gid) (k : nat) : Prop :=
  exists ts Mg,
    threads s !! this_thread s = Some ts /\
    lineage_main ndebug (greenlets s) g (Some (ts_main_greenlet ts)) k /\
    greenlets s !! ts_main_greenlet ts = Some Mg /\
    is_Some (thread_state (greenlets s) Mg) /\
    is_Some (greenlets s !! g).

(** A state a call leaves behind, when it leaves one. *)
Definition out_state {A} (o : Out A) : option St :=
  match o with
  | Ret _ s | Throw _ s | Enter _ _ _ s | Fatal _ s => Some s
  | Crash | Diverge => None
  end.

(** A dead greenlet: started, and no longer active. *)
Definition is_dead (G : Greenlet) : bool :=
  started (stack_state G) && negb (active (stack_state G)).

(** [dead_chain gs d r k]: [d] is dead, and so are the next [k - 1]
    greenlets up its parent links; the parent of the last of them is
    [r]. *)
Inductive dead_chain (gs : gmap gid Greenlet) : gid -> gid -> nat -> Prop :=
| dead_chain_parent d D r :
    gs !! d = Some D -> is_dead D = true -> parent D = Some r ->
    dead_chain gs d r 1
| dead_chain_step d D d' r k :
    gs !! d = Some D -> is_dead D = true -> parent D = Some d' ->
    dead_chain gs d' r k ->
    dead_chain gs d r (S k).

(** The state [green_switch] hands to [g_switch]: the payload [a] is
    stored in the target [g]. *)
Definition with_payload (g : gid) (G : Greenlet) (a : SwitchingArgs) (s : St)
  : St :=
  with_greenlets (<[g := with_switch_args a G]> (greenlets s)) s.

(** Greenlet 2 is running on thread 0, its parent the main greenlet 0 is
    suspended, and greenlet 1, another child of the main greenlet, is
    dead. *)
Definition ex_ds_main : Greenlet :=
  mkGreenlet SwitchingArgs_empty (mkStackState 900 ADDR_MAX None 0 None)
    (mkPythonState (Some 40) 1) (MainGreenlet (Some 0%nat)).

Definition ex_ds_dead : Greenlet :=
  mkGreenlet SwitchingArgs_empty (mkStackState 0 1000 None 0 (Some 0%nat))
    PythonState_new (UserGreenlet (Some 0%nat) (Some 0%nat) None).

Definition ex_ds_running : Greenlet :=
  mkGreenlet SwitchingArgs_empty (mkStackState 1 1000 None 0 (Some 0%nat))
    PythonState_new (UserGreenlet (Some 0%nat) (Some 0%nat) None).

Definition ex_dead_sibling : St :=
  mkSt
    (<[2%nat := ex_ds_running]>
       (<[1%nat := ex_ds_dead]> (<[0%nat := ex_ds_main]> ∅)))
    (<[0%nat := mkThreadState 0%nat 2%nat None]> ∅)
    0%nat None None (mkPyThreadState (Some 41) 2) (fun _ => x00) [] 0%nat.

(** The state in which the running greenlet [cur] arrives with the
    payload [a] of a switch aimed at [target]. *)
Definition payload_at_current (target cur : gid) (T0 C : Greenlet)
  (a : SwitchingArgs) (s : St) : St :=
  with_greenlets
    (<[cur := with_switch_args a C]>
       (<[target := with_switch_args SwitchingArgs_empty T0]> (greenlets s))) s.

(** The state after a switch that stayed where it was: the payload is
    consumed, nothing else has changed. *)
Definition payload_consumed (target cur : gid) (T0 C : Greenlet) (s : St) : St :=
  payload_at_current target cur T0 C SwitchingArgs_empty s.

(** The reading of "the call degenerates to a no-op that just returns
    args": the call returns the payload to its caller, no stack switch
    has taken place and the same greenlets are running. *)
Definition switch_is_noop (ndebug : bool) (realloc_ok : Z -> bool)
  (getattr_run : gid -> M OwnedObject)
  (call_trace : PyObject -> bool -> gid -> gid -> M unit)
  (fuel : nat) (mark stackref : Z) (target : gid)
  (args : PyObject) (kwargs : OwnedObject) (s : St) : Prop :=
  exists s',
    green_switch ndebug realloc_ok getattr_run call_trace fuel mark stackref
      target args kwargs s =
    Ret (single_result (fst (deliver (mkSwitchingArgs (Some args) kwargs)))) s' /\
    switches s' = switches s /\
    threads s' = threads s.

(** The main greenlet 0 is running on thread 0; its child, greenlet 1,
    is dead. *)
Definition ex_dead_child : St :=
  mkSt
    (<[1%nat := ex_ds_dead]>
       (<[0%nat := mkGreenlet SwitchingArgs_empty make_main
                     PythonState_new (MainGreenlet (Some 0%nat))]> ∅))
    (<[0%nat := mkThreadState 0%nat 0%nat None]> ∅)
    0%nat None None (mkPyThreadState (Some 41) 2) (fun _ => x00) [] 0%nat.

Definition ex_dc_main : Greenlet :=
  mkGreenlet SwitchingArgs_empty make_main PythonState_new
    (MainGreenlet (Some 0%nat)).

(** The heap buffer of a stack state holds the bytes it is said to
    hold. *)
Definition heap_ok (ss : StackState) : Prop :=
  0 <= _stack_saved ss /\
  (_stack_saved ss <> 0 ->
   exists buf, stack_copy ss = Some buf /\
               _stack_saved ss <= Z.of_nat (length buf)) /\
  (_stack_saved ss = 0 -> stack_copy ss = None).

Definition all_heap_ok (gs : gmap gid Greenlet) : Prop :=
  forall g G, gs !! g = Some G -> heap_ok (stack_state G).

(** [same_frame G G']: [G'] is [G] with more of its stack saved, which
    happens to running greenlets only. *)
Definition same_frame (G G' : Greenlet) : Prop :=
  switch_args G' = switch_args G /\
  python_state G' = python_state G /\
  kind G' = kind G /\
  _stack_start (stack_state G') = _stack_start (stack_state G) /\
  stack_stop (stack_state G') = stack_stop (stack_state G) /\
  stack_prev (stack_state G') = stack_prev (stack_state G) /\
  (active (stack_state G) = false -> G' = G).

Definition saved_more (gs gs' : gmap gid Greenlet) : Prop :=
  forall g,
    match gs !! g, gs' !! g with
    | Some G, Some G' => same_frame G G'
    | None, None => True
    | _, _ => False
    end.

(** Every greenlet of the list is running. *)
Definition all_active (gs : gmap gid Greenlet) (l : list gid) : Prop :=
  forall g, g ∈ l ->
    exists G, gs !! g = Some G /\ active (stack_state G) = true.

(** The owners of a chain lie at strictly growing [stack_stop]. *)
Fixpoint chain_sorted (gs : gmap gid Greenlet) (l : list gid) : Prop :=
  match l with
  | [] => True
  | x :: l' =>
      Forall (fun y => stop_of gs x < stop_of gs y) l' /\ chain_sorted gs l'
  end.

(** [chain_ok gs o l]: the stack of the thread, from its first owner
    [o] up: the owners [l] are linked by [stack_prev], all of them are
    running, they lie at growing addresses and one of them owns the top
    of the stack, as a main greenlet does. *)
Record chain_ok (gs : gmap gid Greenlet) (o : option gid) (l : list gid) : Prop := {
  chain_links : owner_chain gs o l;
  chain_active : all_active gs l;
  chain_stops : chain_sorted gs l;
  chain_top : Exists (fun g => stop_of gs g = ADDR_MAX) l
}.

(** The first owner of the stack of the thread: the running greenlet
    [cur], or its [stack_prev] when [cur] is dying. *)
Definition first_owner (cur : gid) (C : Greenlet) : option gid :=
  if active (stack_state C) then Some cur else stack_prev (stack_state C).

(** The store after the stack pointer of the running greenlet has been
    recorded; nothing is recorded for a dying greenlet. *)
Definition suspended_at (stackref : Z) (A : gid) (A0 : Greenlet)
  (gs : gmap gid Greenlet) : gmap gid Greenlet :=
  if active (stack_state A0)
  then <[A := with_stack_state (with_stack_start stackref (stack_state A0)) A0]> gs
  else gs.

(** [frame_kept G G']: the greenlet has the same kind and
    [stack_stop], it is running or not as before, and the stack state of
    a greenlet that is not running is untouched. *)
Definition frame_kept (G G' : Greenlet) : Prop :=
  kind G' = kind G /\
  stack_stop (stack_state G') = stack_stop (stack_state G) /\
  active (stack_state G') = active (stack_state G) /\
  (active (stack_state G) = false -> stack_state G' = stack_state G).

Definition frames_kept (gs gs' : gmap gid Greenlet) : Prop :=
  forall g,
    match gs !! g, gs' !! g with
    | Some G, Some G' => frame_kept G G'
    | None, None => True
    | _, _ => False
    end.

(** Every greenlet holds the switch arguments it held. *)
Definition args_kept (gs gs' : gmap gid Greenlet) : Prop :=
  forall g, switch_args <$> (gs' !! g) = switch_args <$> (gs !! g).

(** The fields of the state a stack switch does not touch. *)
Definition same_registers (s s' : St) : Prop :=
  threads s' = threads s /\ this_thread s' = this_thread s /\
  switching_thread_state s' = switching_thread_state s /\
  pyerr s' = pyerr s /\ tstate s' = tstate s /\ run_log s' = run_log s.

Definition same_stacks (gs gs' : gmap gid Greenlet) : Prop :=
  forall g, stack_state <$> (gs' !! g) = stack_state <$> (gs !! g).

(** The thread states name the same main greenlets. *)
Definition same_mains (s s' : St) : Prop :=
  this_thread s' = this_thread s /\
  forall t, ts_main_greenlet <$> (threads s' !! t)
            = ts_main_greenlet <$> (threads s !! t).

(** [switch_ready s cur l]: [cur] is the greenlet running on the
    calling thread, no trace hook is installed and no error is pending;
    the stack of the thread is the chain [l] of [cur], all of [cur] is on
    the stack, and the heap buffers and addresses of all greenlets are
    sound. *)
Record switch_ready (s : St) (cur : gid) (l : list gid) : Prop := {
  ready_thread :
    exists ts, threads s !! this_thread s = Some ts /\
               ts_current_greenlet ts = cur /\ ts_tracefunc ts = None;
  ready_no_error : pyerr s = None;
  ready_chain : chain_ok (greenlets s) (Some cur) l;
  ready_heap : all_heap_ok (greenlets s);
  ready_saved :
    exists C, greenlets s !! cur = Some C /\ _stack_saved (stack_state C) = 0;
  ready_bounds :
    forall g G, greenlets s !! g = Some G ->
                stack_stop (stack_state G) <= ADDR_MAX
}.

(** [resumable ndebug s g k]: [g] is a running or suspended greenlet of
    the calling thread, and the thread may switch to it. *)
Definition resumable (ndebug : bool) (s : St) (g : gid) (k : nat) : Prop :=
  exists G, greenlets s !! g = Some G /\
            active (stack_state G) = true /\
            thread_state (greenlets s) G = Some (this_thread s) /\
            switch_allowed ndebug s g k.

(** [arrived s s' R l']: from [s], the stack has been switched once
    and [R] is running in [s']; the pending error, if any, is still
    pending, and every greenlet is what it was but for its stack
    bookkeeping, its payload and its interpreter state. *)
Record arrived (s s' : St) (R : gid) (l' : list gid) : Prop := {
  arrived_thread :
    exists ts', threads s' !! this_thread s' = Some ts' /\
                ts_current_greenlet ts' = R /\ ts_tracefunc ts' = None;
  arrived_pyerr : pyerr s' = pyerr s;
  arrived_chain : chain_ok (greenlets s') (Some R) l';
  arrived_heap : all_heap_ok (greenlets s');
  arrived_current :
    exists C, greenlets s' !! R = Some C /\
              _stack_saved (stack_state C) = 0 /\
              switch_args C = SwitchingArgs_empty;
  arrived_kept : frames_kept (greenlets s) (greenlets s');
  arrived_mains : same_mains s s';
  arrived_switches : switches s' = S (switches s);
  arrived_log : run_log s' = run_log s
}.

(** The greenlet [T1] once [g_initialstub] has given it its stack
    bounds, interpreter state and main greenlet. *)
Definition started_from (mark : Z) (A : gid) (A0 : Greenlet) (main_ : gid)
  (depth : Z) (T1 : Greenlet) : Greenlet :=
  mkGreenlet (switch_args T1) (StackState_mark mark A (stack_state A0))
    (mkPythonState None depth)
    match kind T1 with
    | UserGreenlet p _ r => UserGreenlet p (Some main_) r
    | k => k
    end.

(** Every greenlet but [T] is kept. *)
Definition frames_kept_but (T : gid) (gs gs' : gmap gid Greenlet) : Prop :=
  forall x, x <> T ->
    match gs !! x, gs' !! x with
    | Some X, Some X' => frame_kept X X'
    | None, None => True
    | _, _ => False
    end.

(** The greenlet [Tb], just switched into for the first time, once
    [inner_bootstrap] has marked it running and taken its arguments. *)
Definition running_from (Tb : Greenlet) : Greenlet :=
  mkGreenlet SwitchingArgs_empty (set_active (stack_state Tb)) (python_state Tb)
    match kind Tb with
    | UserGreenlet p m _ => UserGreenlet p m None
    | k => k
    end.

(** The main greenlet of the calling thread is a main greenlet of that
    thread. *)
Definition main_of_thread (s : St) : Prop :=
  exists ts Mg,
    threads s !! this_thread s = Some ts /\
    greenlets s !! ts_main_greenlet ts = Some Mg /\
    kind Mg = MainGreenlet (Some (this_thread s)).

(** The greenlet running on the calling thread. *)
Definition running (s : St) : option gid :=
  ts_current_greenlet <$> (threads s !! this_thread s).

(** The lookup of [run] that finds a plain function and runs no code. *)
Definition ex_getattr_plain : gid -> M OwnedObject :=
  fun _ s => Ret (Some (PyOpaque 7)) s.

(** The main greenlet 0 is running on thread 0; greenlet 1, its child,
    has not started. *)
Definition ex_fresh : Greenlet :=
  mkGreenlet SwitchingArgs_empty StackState_new PythonState_new
    (UserGreenlet (Some 0%nat) None (Some (PyOpaque 7))).

Definition ex_fresh_child : St :=
  mkSt (<[1%nat := ex_fresh]> (<[0%nat := ex_main_running]> ∅))
    (<[0%nat := mkThreadState 0%nat 0%nat None]> ∅)
    0%nat None None (mkPyThreadState (Some 40) 1) (fun _ => x00) [] 0%nat.

(** What [g_handle_exit] makes of the result of [run] and of the error
    indicator: the result handed to the parent, and the error indicator
    left. *)
Definition handled (greenlet_result : OwnedObject) (e : option PyErr)
  : OwnedObject * option PyErr :=
  if negb (bool_decide (is_Some greenlet_result)) && GreenletExit_matches e then
    (Some (default PyNone (e ≫= err_value)), None)
  else
    (match greenlet_result with
     | Some r => Some (PyTuple_Pack1 r)
     | None => None
     end, e).

(** Every greenlet has the kind and the [stack_stop] it had. *)
Definition identity_kept (gs gs' : gmap gid Greenlet) : Prop :=
  forall x, kind <$> (gs' !! x) = kind <$> (gs !! x) /\
            stop_of gs' x = stop_of gs x.

(** The greenlet [D0] once [inner_bootstrap] is done with it. *)
Definition finished (D0 : Greenlet) : Greenlet :=
  with_stack_state (set_inactive (stack_state D0))
    (with_switch_args SwitchingArgs_empty D0).

(** [terminated s' D D0]: in [s'] the greenlet [D] is dead; its stack
    state is that of [D0] made inactive. *)
Definition terminated (s' : St) (D : gid) (D0 : Greenlet) : Prop :=
  exists D', greenlets s' !! D = Some D' /\
             stack_state D' = set_inactive (stack_state D0).

(** Greenlet 1 is running on thread 0 and its [run] has just raised [e];
    its parent, the main greenlet 0, is suspended.  Greenlet 1 holds the
    switch arguments [a]. *)
Definition ex_exiting_main : Greenlet :=
  mkGreenlet SwitchingArgs_empty (mkStackState 800 ADDR_MAX None 0 None)
    (mkPythonState (Some 40) 1) (MainGreenlet (Some 0%nat)).

Definition ex_exiting_child (a : SwitchingArgs) : Greenlet :=
  mkGreenlet a (mkStackState 1 850 None 0 (Some 0%nat))
    PythonState_new (UserGreenlet (Some 0%nat) (Some 0%nat) None).

Definition ex_exiting (a : SwitchingArgs) (e : PyErr) : St :=
  mkSt (<[1%nat := ex_exiting_child a]> (<[0%nat := ex_exiting_main]> ∅))
    (<[0%nat := mkThreadState 0%nat 1%nat None]> ∅)
    0%nat None (Some e) (mkPyThreadState (Some 41) 2) (fun _ => x00) [] 0%nat.

Definition ex_GreenletExit : PyErr :=
  mkPyErr PyExc_GreenletExit (Some (PyStr "bye")).

(** A stack state that owns no byte of the native stack and no heap
    copy. *)
Definition holds_no_bytes (ss : StackState) : Prop :=
  _stack_start ss = 0 /\ _stack_saved ss = 0 /\ stack_copy ss = None.

(** The invariant of one greenlet: not started, or dead, it holds no
    bytes. *)
Definition no_bytes_unless_alive (G : Greenlet) : Prop :=
  (started (stack_state G) = false -> holds_no_bytes (stack_state G)) /\
  (is_dead G = true -> holds_no_bytes (stack_state G)).

Definition stack_byte_invariant (gs : gmap gid Greenlet) : Prop :=
  forall g G, gs !! g = Some G -> no_bytes_unless_alive G.

(** A computation that only reads the state: when it returns, the state
    is the one it started from, and it never enters a greenlet. *)
Definition reads_only {A} (c : M A) : Prop :=
  forall s, match c s with
            | Ret _ s' => s' = s
            | Enter _ _ _ _ => False
            | _ => True
            end.




(** ** The operations of the lifecycle *)

(** The lookup of [run] on [T], made by [g_initialstub] from the state
    [s], answers [run] and runs no code. *)
Definition lookup_runs_no_code (getattr_run : gid -> M OwnedObject) (T : gid)
  (run : OwnedObject) (s : St) : Prop :=
  getattr_run T (with_pyerr None s) = Ret run (with_pyerr None s).

Section Lifecycle.

Variable ndebug : bool.
Variable realloc_ok : Z -> bool.
Variable getattr_run : gid -> M OwnedObject.
Variable call_trace : PyObject -> bool -> gid -> gid -> M unit.
Variables (fuel : nat) (mark stackref : Z).

(** The greenlet [D] finishes: its [run] has ended with [result] and
    the result is handed to the parent. *)
Inductive finishes : gid -> St -> St -> Prop :=
| finishes_intro D D0 P P0 R R0 ts l k kP result s s' :
    threads s !! this_thread s = Some ts ->
    ts_current_greenlet ts = D ->
    ts_tracefunc ts = None ->
    greenlets s !! D = Some D0 ->
    thread_state (greenlets s) D0 = Some (this_thread s) ->
    chain_ok (greenlets s) (Some D) (D :: l) ->
    stack_stop (stack_state D0) < ADDR_MAX ->
    all_heap_ok (greenlets s) ->
    (forall g G, greenlets s !! g = Some G ->
                 stack_stop (stack_state G) <= ADDR_MAX) ->
    parent D0 = Some P ->
    greenlets s !! P = Some P0 ->
    P = R \/ dead_chain (greenlets s) P R k ->
    greenlets s !! R = Some R0 ->
    active (stack_state R0) = true ->
    thread_state (greenlets s) R0 = Some (this_thread s) ->
    R <> D ->
    switch_allowed ndebug s P kP ->
    (kP < fuel)%nat -> (k < fuel)%nat -> (length l < fuel)%nat ->
    negb (bool_decide (is_Some result)) && GreenletExit_matches (pyerr s)
      && SwitchingArgs_bool (switch_args D0) = false ->
    is_Some result \/ is_Some (pyerr s) ->
    out_state
      (inner_bootstrap_exit ndebug realloc_ok getattr_run call_trace fuel mark
         stackref D result s) = Some s' ->
    finishes D s s'.

(** The three ways a greenlet [g] dies: it finishes;
    [deactivate_and_free]; [murder_in_place]. *)
Inductive dies : gid -> St -> St -> Prop :=
| dies_finish D s s' :
    finishes D s s' ->
    dies D s s'
| dies_deactivate g G s s' :
    greenlets s !! g = Some G ->
    deactivate_and_free ndebug g s = Ret tt s' ->
    dies g s s'
| dies_murder g G s s' :
    greenlets s !! g = Some G ->
    (ndebug = false -> is_currently_running_in_some_thread G = false) ->
    murder_in_place ndebug g s = Ret tt s' ->
    dies g s s'.

(** The operations that switch, each from a state it is meant for: the
    creation of a greenlet; a switch into a suspended greenlet; the
    first switch into a greenlet, up to the call of [run]; and the end
    of [run]. *)
Inductive switch_step : St -> St -> Prop :=
| switch_create g G s :
    greenlets s !! g = None ->
    stack_state G = StackState_new ->
    switch_step s (with_greenlets (<[g := G]> (greenlets s)) s)
| switch_resume A T l k args kwargs r s s' :
    switch_ready s A l ->
    resumable ndebug s T k ->
    T <> A ->
    (length l < fuel)%nat -> (k < fuel)%nat ->
    green_switch ndebug realloc_ok getattr_run call_trace fuel mark stackref
      T args kwargs s = Ret r s' ->
    switch_step s s'
| switch_start A T T1 p m r l k run args kwargs a s s1 s2 :
    switch_ready s A l ->
    main_of_thread s ->
    greenlets s !! T = Some T1 ->
    kind T1 = UserGreenlet p m r ->
    started (stack_state T1) = false ->
    active (stack_state T1) = false ->
    lookup_runs_no_code getattr_run T run
      (with_payload T T1 (mkSwitchingArgs (Some args) kwargs) s) ->
    switch_allowed ndebug s T k -> (k < fuel)%nat ->
    mark < stop_of (greenlets s) A ->
    (length l < fuel)%nat ->
    green_switch ndebug realloc_ok getattr_run call_trace fuel mark stackref
      T args kwargs s = Enter T A run s1 ->
    inner_bootstrap_enter ndebug call_trace T A run s1 = Ret a s2 ->
    switch_step s s2
| switch_finish D s s' :
    finishes D s s' ->
    switch_step s s'.

(** The operations of the lifecycle: those that switch, and the death
    of a greenlet. *)
Inductive lifecycle_step : St -> St -> Prop :=
| step_switch s s' :
    switch_step s s' ->
    lifecycle_step s s'
| step_die g s s' :
    dies g s s' ->
    lifecycle_step s s'.

End Lifecycle.







(** [only_stacks_differ s s']: [s'] is [s] but for the stack states of
    the greenlets, the bytes of the native stack, the error indicator
    and the ghost fields. *)
Definition only_stacks_differ (s s' : St) : Prop :=
  tstate s' = tstate s /\
  threads s' = threads s /\
  this_thread s' = this_thread s /\
  switching_thread_state s' = switching_thread_state s /\
  forall g,
    python_state <$> (greenlets s' !! g) = python_state <$> (greenlets s !! g) /\
    kind <$> (greenlets s' !! g) = kind <$> (greenlets s !! g) /\
    switch_args <$> (greenlets s' !! g) = switch_args <$> (greenlets s !! g).

(** A computation that, when it returns, has changed nothing but
    stack states, stack bytes, the error indicator and ghost fields. *)
Definition moves_stacks_only {A} (c : M A) : Prop :=
  forall s a s', c s = Ret a s' -> only_stacks_differ s s'.


(** What another greenlet may do while greenlet 0 is suspended: run
    Python code (the frame and the recursion depth of the thread move)
    and then leave a value for greenlet 0. *)
Definition ex_while_away (s : St) : St :=
  with_tstate (mkPyThreadState (Some 77) 9)
    (with_greenlets
       (alter (with_switch_args (mkSwitchingArgs (Some (PyTuple [PyInt 8])) None))
          0%nat (greenlets s)) s).


(** A trace function that raises, and a thread that has it installed
    while its main greenlet 0 arrives with a value. *)
Definition ex_call_trace_raising : PyObject -> bool -> gid -> gid -> M unit :=
  fun _ _ _ _ =>
    modify (with_pyerr (Some (PyErr_SetString (PyExc_Other 0) "trace"))) ;;;
    throw PyErrOccurred.

Definition ex_traced : St :=
  with_threads (<[0%nat := mkThreadState 0%nat 0%nat (Some (PyOpaque 5))]> ∅)
    (with_payload 0%nat ex_main_running
       (mkSwitchingArgs (Some (PyTuple [PyInt 7])) None) ex_suspended_child).


(** [parent_chain_ends gs o k]: following the parent links from the
    pointer [o] reaches the null pointer after [k] greenlets, all of
    them in the store. *)
Inductive parent_chain_ends (gs : gmap gid Greenlet) : option gid -> nat -> Prop :=
| parent_chain_ends_null : parent_chain_ends gs None 0
| parent_chain_ends_up g G k :
    gs !! g = Some G ->
    parent_chain_ends gs (parent G) k ->
    parent_chain_ends gs (Some g) (S k).

(** The same walk, never meeting the greenlet [this]. *)
Inductive parent_chain_avoids (gs : gmap gid Greenlet) (this : gid)
  : option gid -> nat -> Prop :=
| parent_chain_avoids_null : parent_chain_avoids gs this None 0
| parent_chain_avoids_up g G k :
    g <> this ->
    gs !! g = Some G ->
    parent_chain_avoids gs this (parent G) k ->
    parent_chain_avoids gs this (Some g) (S k).

(** No parent cycles and no dangling parents: the parent chain of every
    greenlet of the store ends. *)
Definition parents_well_founded (gs : gmap gid Greenlet) : Prop :=
  forall g, is_Some (gs !! g) -> exists k, parent_chain_ends gs (Some g) k.


(** * Attributes of a greenlet (greenlet.cpp) *)

(** [UserGreenlet::run() const] (greenlet_greenlet.hpp) and
    [MainGreenlet::run() const]. *)
Definition UserGreenlet_run (this : gid) : M OwnedObject :=
  let* G := deref this in
  match kind G with
  | UserGreenlet _ _ _run_callable =>
      if started (stack_state G) || negb (bool_decide (is_Some _run_callable))
      then throw_PyErr PyExc_AttributeError "run"
      else ret _run_callable
  | MainGreenlet _ => crash
  end.

Definition MainGreenlet_run : M OwnedObject :=
  throw_PyErr PyExc_AttributeError "Main greenlets do not have a run attribute.".

(** [UserGreenlet::run(const BorrowedObject nrun)] and
    [MainGreenlet::run(const BorrowedObject nrun)]. *)
Definition UserGreenlet_set_run (this : gid) (nrun : OwnedObject) : M unit :=
  let* G := deref this in
  if started (stack_state G) then
    throw_PyErr PyExc_AttributeError
      "run cannot be set after the start of the greenlet"
  else
    update this (fun G =>
      with_kind match kind G with
                | UserGreenlet p mg _ => UserGreenlet p mg nrun
                | k => k
                end G).

Definition MainGreenlet_set_run (nrun : OwnedObject) : M unit :=
  throw_PyErr PyExc_AttributeError "Main greenlets do not have a run attribute.".

(** [green_getrun(self)]: the callable, or null with the error
    indicator set. *)
Definition green_getrun (self : gid) : M OwnedObject :=
  catch_PyErrOccurred
    (let* Self := deref self in
     match kind Self with
     | MainGreenlet _ => MainGreenlet_run
     | UserGreenlet _ _ _ => UserGreenlet_run self
     end)
    (ret None).

(** [green_setrun(self, nrun)]: [0], or [-1] with the error indicator
    set; a null [nrun] is the deletion of the attribute. *)
Definition green_setrun (self : gid) (nrun : OwnedObject) : M Z :=
  catch_PyErrOccurred
    (let* Self := deref self in
     match kind Self with
     | MainGreenlet _ => MainGreenlet_set_run nrun
     | UserGreenlet _ _ _ => UserGreenlet_set_run self nrun
     end ;;;
     ret 0)
    (ret (-1)).

(** [UserGreenlet::was_running_in_dead_thread()] and
    [MainGreenlet::was_running_in_dead_thread()]. *)
Definition was_running_in_dead_thread (gs : gmap gid Greenlet) (G : Greenlet)
  : bool :=
  match kind G with
  | MainGreenlet _thread_state => negb (bool_decide (is_Some _thread_state))
  | UserGreenlet _ _main_greenlet _ =>
      bool_decide (is_Some _main_greenlet)
      && negb (bool_decide (is_Some (thread_state gs G)))
  end.

(** [green_bool(self)]. *)
Definition green_bool (self : gid) : M bool :=
  let* Self := deref self in
  ret (active (stack_state Self)).

Section Attributes.

Variable NDEBUG : bool.

(** [_green_not_dead(self)]. *)
Definition _green_not_dead (self : gid) : M bool :=
  let* s := get in
  let* Self := deref self in
  if was_running_in_dead_thread (greenlets s) Self then
    deactivate_and_free NDEBUG self ;;;
    ret false
  else
    ret (active (stack_state Self) || negb (started (stack_state Self))).

(** [green_getdead(self)]: [true] is [Py_True]. *)
Definition green_getdead (self : gid) : M bool :=
  let* not_dead := _green_not_dead self in
  if not_dead then ret false else ret true.

End Attributes.

(** Thread 1 of [ex_two_threads] has exited: its main greenlet 2 has no
    thread state any more, and greenlet 3 is still suspended. *)
Definition ex_thread_died : St :=
  with_threads (delete 1%nat (threads ex_two_threads))
    (with_greenlets
       (<[2%nat := mkGreenlet SwitchingArgs_empty make_main PythonState_new
                     (MainGreenlet None)]> (greenlets ex_two_threads))
       ex_two_threads).


Section Throwing.

Variable NDEBUG : bool.
Variable PyMem_Realloc_ok : Z -> bool.
Variable PyRequireAttr_run : gid -> M OwnedObject.
Variable CallTraceFunction : PyObject -> bool -> gid -> gid -> M unit.
Variables (fuel : nat) (mark stackref : Z).

(** [throw_greenlet(self, err_pieces)] (greenlet.cpp).  The class
    [PyErrPieces] is declared in greenlet_refs.hpp, which is not in the
    tree: [err_pieces.PyErrRestore()] is read here as making the pieces
    the pending error, which the assertion that follows it checks.
    [self->args() <<= result] is the overload taking a [PyObject*]: the
    positional arguments become [result] and the keyword arguments are
    cleared. *)
Definition throw_greenlet (self : gid) (err_pieces : PyErr) : M OwnedObject :=
  modify (with_pyerr (Some err_pieces)) ;;;
  let* s := get in
  assert NDEBUG (bool_decide (is_Some (pyerr s))) ;;;
  let* Self := deref self in
  let* result :=
    if started (stack_state Self) && negb (active (stack_state Self)) then
      (* dead greenlet: turn GreenletExit into a regular return *)
      g_handle_exit None
    else ret None in
  update self (with_switch_args (mkSwitchingArgs result None)) ;;;
  let* r :=
    g_switch NDEBUG PyMem_Realloc_ok PyRequireAttr_run CallTraceFunction
      fuel mark stackref self in
  ret (single_result r).

End Throwing.


(** * Scheduling the cleanup of a dead thread (TThreadStateDestroy.cpp) *)

Module PendingCalls.

(** [NPENDINGCALLS] (greenlet_cpython_add_pending.hpp). *)
Definition NPENDINGCALLS : Z := 32.

(** [struct _pending_calls]: a function pointer and its argument are
    addresses; [lock] is a pointer, null when the lock does not exist. *)
Record _pending_calls : Type := mk_pending_calls {
  finishing : Z;
  lock : Z;
  calls_to_do : Z;
  async_exc : Z;
  calls : list (Z * Z);
  first : Z;
  last : Z
}.

(** [struct _ceval_runtime_state], the fields the code touches. *)
Record _ceval_runtime_state : Type := mk_ceval_runtime_state {
  eval_breaker : Z;
  pending : _pending_calls
}.

(** [ThreadState_DestroyNoGIL::_push_pending_call]: [0], or [-1] when
    the queue is full.  [%] is the remainder of C; the store into
    [calls] is in range when [last] is. *)
Definition _push_pending_call (p : _pending_calls) (func arg : Z)
  : Z * _pending_calls :=
  let i := last p in
  let j := Z.rem (i + 1) NPENDINGCALLS in
  if j =? first p then (-1, p) (* Queue full *)
  else
    (0, mk_pending_calls (finishing p) (lock p) (calls_to_do p) (async_exc p)
          (<[Z.to_nat i := (func, arg)]> (calls p)) (first p) j).

(** [SIGNAL_PENDING_CALLS(ceval)]. *)
Definition SIGNAL_PENDING_CALLS (ceval : _ceval_runtime_state)
  : _ceval_runtime_state :=
  let p := pending ceval in
  mk_ceval_runtime_state 1
    (mk_pending_calls (finishing p) (lock p) 1 (async_exc p) (calls p)
       (first p) (last p)).

(** [ThreadState_DestroyNoGIL::AddPendingCall], the version compiled
    under [GREENLET_BROKEN_PY_ADD_PENDING]; the address of [_PyRuntime]
    is not null, and the lock is held around the push. *)
Definition AddPendingCall (ceval : _ceval_runtime_state) (func arg : Z)
  : Z * _ceval_runtime_state :=
  let p := pending ceval in
  if lock p =? 0 then (0, ceval)
  else
    let '(result, p') :=
      if finishing p =? 0 then _push_pending_call p func arg
      else (0, p) in
    (result, SIGNAL_PENDING_CALLS (mk_ceval_runtime_state (eval_breaker ceval) p')).

(** The calls waiting in the queue, oldest first: the slots from
    [first] up to [last], around the end of the array. *)
Definition queued (p : _pending_calls) : list (Z * Z) :=
  omap (fun n => calls p !! Z.to_nat ((first p + Z.of_nat n) mod NPENDINGCALLS))
    (seq 0 (Z.to_nat ((last p - first p) mod NPENDINGCALLS))).

(** The indices are in the array, and the array has its size. *)
Definition well_formed (p : _pending_calls) : Prop :=
  0 <= first p < NPENDINGCALLS /\ 0 <= last p < NPENDINGCALLS /\
  length (calls p) = Z.to_nat NPENDINGCALLS.

End PendingCalls.

(** An empty queue whose indices stand at the last slot of the array. *)
Definition ex_pending : PendingCalls._pending_calls :=
  PendingCalls.mk_pending_calls 0 1 0 0 (replicate 32 (0, 0)) 31 31.


(** * Creating a greenlet (greenlet.cpp) *)

(** [green_new(type, args, kwds)]: [o] is the object [tp_new] returns,
    null when the allocation fails; [new UserGreenlet(o, current)]
    gives it the default stack and interpreter states, no arguments, no
    main greenlet, no callable, and the running greenlet as parent. *)
Definition green_new (o : option gid) : M (option gid) :=
  match o with
  | None => ret None
  | Some o =>
      let* ts := GET_THREAD_STATE in
      modify (fun s =>
        with_greenlets
          (<[o := mkGreenlet SwitchingArgs_empty StackState_new PythonState_new
                    (UserGreenlet (Some (ts_current_greenlet ts)) None None)]>
             (greenlets s)) s) ;;;
      ret (Some o)
  end.

(** [green_init(self, args, kwargs)], after the parsing of the
    arguments: [run] is null when no callable is given; [nparent] is
    null when no parent is given, [Some None] is [Py_None]. *)
Definition green_init (fuel : nat) (self : gid) (run : OwnedObject)
  (nparent : option (option gid)) : M Z :=
  let* r :=
    match run with
    | Some _ => green_setrun self run
    | None => ret 0
    end in
  if negb (r =? 0) then ret (-1)
  else
    match nparent with
    | Some (Some p) => green_setparent fuel self (Some p)
    | _ => ret 0
    end.

(** Two threads.  On thread 0, which is executing, the main greenlet 0
    is running and its child, greenlet 1, has run to its end and is
    dead.  On thread 1 the main greenlet 2 is current; greenlet 3 has
    started there and is suspended, a child of greenlet 4, which has not
    started and is a child of the main greenlet 2. *)
Definition ex_cross_thread : St :=
  mkSt
    (<[4%nat := mkGreenlet SwitchingArgs_empty StackState_new PythonState_new
                  (UserGreenlet (Some 2%nat) None (Some (PyOpaque 8)))]>
       (<[3%nat := mkGreenlet SwitchingArgs_empty
                     (mkStackState 500 600 None 0 (Some 2%nat))
                     (mkPythonState (Some 7) 1)
                     (UserGreenlet (Some 4%nat) (Some 2%nat) None)]>
          (<[2%nat := mkGreenlet SwitchingArgs_empty make_main PythonState_new
                        (MainGreenlet (Some 1%nat))]>
             (<[1%nat := ex_ds_dead]> (<[0%nat := ex_main_running]> ∅)))))
    (<[1%nat := mkThreadState 2%nat 2%nat None]>
       (<[0%nat := mkThreadState 0%nat 0%nat None]> ∅))
    0%nat None None (mkPyThreadState (Some 40) 1) (fun _ => x00) [] 0%nat.

(** Thread 1 of [ex_two_threads] has exited while greenlet 3, whose
    [run] was called once, was suspended on it; thread 0 is
    executing. *)
Definition ex_ran_in_dead_thread : St :=
  with_run_log [3%nat] ex_thread_died.

(** * Properties *)

(** ** Reasoning about the monad *)

Lemma bind_Ret {A B} (c : M A) (k : A -> M B) s a s' :
  c s = Ret a s' -> bind c k s = k a s'.
Proof. unfold bind. intros ->. reflexivity. Qed.

Lemma bind_Throw {A B} (c : M A) (k : A -> M B) s e s' :
  c s = Throw e s' -> bind c k s = Throw e s'.
Proof. unfold bind. intros ->. reflexivity. Qed.

Lemma bind_assoc {A B C} (c : M A) (k1 : A -> M B) (k2 : B -> M C) s :
  bind (bind c k1) k2 s = bind c (fun x => bind (k1 x) k2) s.
Proof. unfold bind. by destruct (c s). Qed.

Lemma bind_ret {A B} (a : A) (k : A -> M B) s : bind (ret a) k s = k a s.
Proof. reflexivity. Qed.

Lemma bind_get {B} (k : St -> M B) s : bind get k s = k s s.
Proof. reflexivity. Qed.

Lemma bind_modify {B} f (k : unit -> M B) s : bind (modify f) k s = k tt (f s).
Proof. reflexivity. Qed.

Lemma deref_Some g s G :
  greenlets s !! g = Some G -> deref g s = Ret G s.
Proof. unfold deref. intros ->. reflexivity. Qed.

Lemma update_Some g f s G :
  greenlets s !! g = Some G ->
  update g f s = Ret tt (with_greenlets (<[g := f G]> (greenlets s)) s).
Proof. intros H. unfold update. rewrite (bind_Ret _ _ _ _ _ (deref_Some _ _ _ H)). reflexivity. Qed.

Lemma update_stack_Some g f s G :
  greenlets s !! g = Some G ->
  update_stack g f s =
  Ret tt (with_greenlets
            (<[g := with_stack_state (f (stack_state G)) G]> (greenlets s)) s).
Proof. intros H. unfold update_stack. by rewrite (update_Some _ _ _ _ H). Qed.

Lemma args_or_error_Some g s G :
  greenlets s !! g = Some G ->
  args_or_error g s =
  Ret (SwitchingArgs_bool (switch_args G) || bool_decide (is_Some (pyerr s))) s.
Proof.
  intros H. unfold args_or_error.
  by rewrite (bind_Ret _ _ _ _ _ (deref_Some _ _ _ H)).
Qed.

Lemma assert_holds ndebug b s :
  (ndebug = false -> b = true) -> assert ndebug b s = Ret tt s.
Proof. unfold assert. destruct ndebug; [reflexivity|]. intros ->; reflexivity. Qed.

(** ** The chain of stack owners *)

(** An update that keeps the links keeps the chains. *)
Lemma owner_chain_ext gs gs' o l :
  owner_chain gs o l ->
  (forall g G, g ∈ l -> gs !! g = Some G ->
     exists G', gs' !! g = Some G' /\
                stack_prev (stack_state G') = stack_prev (stack_state G)) ->
  owner_chain gs' o l.
Proof.
  induction 1 as [|g G l Hg Hc IH]; intros Hext; [constructor|].
  destruct (Hext g G) as (G' & Hg' & Hp); [left|assumption|].
  econstructor; [exact Hg'|]. rewrite Hp. apply IH.
  intros g0 G0 Hin. apply Hext. by right.
Qed.

(** The loop of [copy_heap_to_stack] finds the first owner of the chain
    whose [stack_stop] lies above [stop], given fuel for the chain. *)
Lemma find_owner_with_more_stack_spec gs o l :
  owner_chain gs o l ->
  forall fuel stop s, greenlets s = gs -> (length l < fuel)%nat ->
  exists skipped rest,
    l = skipped ++ rest /\
    Forall (fun g => stop_of gs g <= stop) skipped /\
    match rest with
    | [] => True
    | g :: _ => stop < stop_of gs g
    end /\
    find_owner_with_more_stack fuel stop o s = Ret (head rest) s.
Proof.
  induction 1 as [|g G l Hg Hc IH]; intros fuel stop s Hs Hfuel.
  - exists [], []. repeat split; [constructor|]. by destruct fuel.
  - destruct fuel as [|fuel]; [simpl in Hfuel; lia|].
    simpl. rewrite (bind_Ret _ _ _ _ _ (deref_Some g s G ltac:(by rewrite Hs))).
    destruct (stack_stop (stack_state G) <=? stop) eqn:Hle.
    + destruct (IH fuel stop s Hs) as (sk & rest & -> & Hsk & Hrest & Hrun);
        [simpl in Hfuel; lia|].
      exists (g :: sk), rest. repeat split; try assumption.
      constructor; [|assumption]. unfold stop_of. rewrite Hg. lia.
    + exists [], (g :: l). repeat split; [constructor|].
      unfold stop_of. rewrite Hg. lia.
Qed.

Lemma stop_of_insert_same_stop gs g G G' x :
  gs !! g = Some G ->
  stack_stop (stack_state G') = stack_stop (stack_state G) ->
  stop_of (<[g := G']> gs) x = stop_of gs x.
Proof.
  intros Hg Hs. unfold stop_of. destruct (decide (g = x)) as [->|Hne].
  - by rewrite lookup_insert_eq, Hg.
  - by rewrite lookup_insert_ne.
Qed.

Lemma owner_chain_insert_same_prev gs g G G' o l :
  gs !! g = Some G ->
  stack_prev (stack_state G') = stack_prev (stack_state G) ->
  owner_chain gs o l -> owner_chain (<[g := G']> gs) o l.
Proof.
  intros Hg Hp Hc. eapply owner_chain_ext; [exact Hc|].
  intros x X _ Hx. destruct (decide (g = x)) as [->|Hne].
  - exists G'. rewrite lookup_insert_eq. split; [reflexivity|]. congruence.
  - exists X. by rewrite lookup_insert_ne.
Qed.

Lemma memcpy_to_stack_inside m dst src i :
  0 <= i < Z.of_nat (length src) ->
  memcpy_to_stack m dst src (dst + i) = nth (Z.to_nat i) src x00.
Proof.
  intros Hi. unfold memcpy_to_stack.
  replace (dst + i - dst) with i by lia.
  destruct (dst <=? dst + i) eqn:H1; [|lia].
  destruct (dst + i <? dst + Z.of_nat (length src)) eqn:H2; [reflexivity|lia].
Qed.

Lemma memcpy_to_stack_outside m dst src a :
  ~ (dst <= a < dst + Z.of_nat (length src)) ->
  memcpy_to_stack m dst src a = m a.
Proof.
  intros Ha. unfold memcpy_to_stack.
  destruct (dst <=? a) eqn:H1; [|reflexivity].
  destruct (a <? dst + Z.of_nat (length src)) eqn:H2; [lia|reflexivity].
Qed.

Lemma copy_heap_to_stack_spec fuel this current s T C l :
  greenlets s !! this = Some T ->
  greenlets s !! current = Some C ->
  0 <= _stack_saved (stack_state T) ->
  (_stack_saved (stack_state T) <> 0 ->
   exists buf, stack_copy (stack_state T) = Some buf /\
               _stack_saved (stack_state T) <= Z.of_nat (length buf)) ->
  owner_chain (greenlets s)
    (if active (stack_state C) then Some current
     else stack_prev (stack_state C)) l ->
  (length l < fuel)%nat ->
  exists s',
    copy_heap_to_stack fuel this current s = Ret tt s' /\
    restored s s' this T l.
Proof.
  intros Ht Hc Hpos Hbuf Hchain Hfuel.
  unfold copy_heap_to_stack.
  rewrite (bind_Ret _ _ _ _ _ (deref_Some _ _ _ Ht)).
  set (ss := stack_state T) in *.
  set (T1 := with_stack_state
               (if _stack_saved ss =? 0 then ss else free_stack_copy ss) T).
  assert (Hfirst : exists s1,
    (if negb (_stack_saved ss =? 0)
     then match stack_copy ss with
          | Some buf =>
              (if _stack_saved ss <=? Z.of_nat (length buf) then ret tt else crash) ;;;
              modify (fun s0 => with_cstack
                (memcpy_to_stack (cstack s0) (_stack_start ss)
                   (take (Z.to_nat (_stack_saved ss)) buf)) s0) ;;;
              update_stack this free_stack_copy
          | None => crash
          end
     else ret tt) s = Ret tt s1 /\
    greenlets s1 = <[this := T1]> (greenlets s) /\
    (forall buf i, stack_copy ss = Some buf -> 0 <= i < _stack_saved ss ->
       cstack s1 (_stack_start ss + i) = nth (Z.to_nat i) buf x00) /\
    (forall a, ~ (_stack_start ss <= a < _stack_start ss + _stack_saved ss) ->
       cstack s1 a = cstack s a) /\
    (_stack_saved ss = 0 -> cstack s1 = cstack s) /\
    threads s1 = threads s /\ this_thread s1 = this_thread s /\
    switching_thread_state s1 = switching_thread_state s /\
    pyerr s1 = pyerr s /\ tstate s1 = tstate s /\ run_log s1 = run_log s /\
    switches s1 = switches s).
  { subst T1. destruct (_stack_saved ss =? 0) eqn:Hz; simpl.
    - apply Z.eqb_eq in Hz. exists s. split; [reflexivity|].
      split.
      { symmetry. apply insert_id. rewrite Ht. by destruct T. }
      repeat split; try reflexivity; intros; lia.
    - apply Z.eqb_neq in Hz. destruct (Hbuf Hz) as (buf & Hcopy & Hlen).
      rewrite Hcopy.
      destruct (_stack_saved ss <=? Z.of_nat (length buf)) eqn:Hle; [|lia].
      unfold bind at 1. simpl. unfold bind at 1. simpl.
      rewrite update_stack_Some with (G := T) by exact Ht.
      eexists. split; [reflexivity|]. simpl.
      split; [reflexivity|].
      assert (Hl : Z.of_nat (length (take (Z.to_nat (_stack_saved ss)) buf))
                   = _stack_saved ss).
      { rewrite length_take. lia. }
      repeat split; try reflexivity.
      + intros buf' i Hb' Hi.
        assert (buf' = buf) as -> by (unfold ss in *; congruence).
        rewrite memcpy_to_stack_inside by lia.
        rewrite <- (firstn_skipn (Z.to_nat (_stack_saved ss)) buf) at 2.
        rewrite app_nth1; [reflexivity|]. rewrite length_take. lia.
      + intros a Ha. apply memcpy_to_stack_outside. rewrite Hl. exact Ha.
      + intros; lia. }
  destruct Hfirst as (s1 & Hrun1 & Hgs1 & Hb & Hf & Hn & Hr).
  rewrite (bind_Ret _ _ _ _ _ Hrun1).
  assert (Ht1 : greenlets s1 !! this = Some T1)
    by (rewrite Hgs1; apply lookup_insert_eq).
  assert (Hsame : stack_prev (stack_state T1) = stack_prev ss
                  /\ stack_stop (stack_state T1) = stack_stop ss
                  /\ _stack_start (stack_state T1) = _stack_start ss).
  { subst T1. simpl. by destruct (_stack_saved ss =? 0). }
  destruct Hsame as (Hp1 & Hs1 & Hst1).
  (* the greenlet current in the new store *)
  assert (Hc1 : exists C1, greenlets s1 !! current = Some C1 /\
                  active (stack_state C1) = active (stack_state C) /\
                  stack_prev (stack_state C1) = stack_prev (stack_state C)).
  { destruct (decide (this = current)) as [->|Hne].
    - exists T1. split; [exact Ht1|]. rewrite Ht in Hc. injection Hc as <-.
      unfold active. fold ss. by rewrite Hst1, Hp1.
    - exists C. rewrite Hgs1, lookup_insert_ne by exact Hne. by split. }
  destruct Hc1 as (C1 & Hc1 & Hact & Hprev).
  rewrite (bind_Ret _ _ _ _ _ (deref_Some _ _ _ Hc1)).
  rewrite Hact, Hprev.
  assert (Hchain1 : owner_chain (greenlets s1)
            (if active (stack_state C) then Some current
             else stack_prev (stack_state C)) l).
  { rewrite Hgs1. eapply owner_chain_insert_same_prev; eauto. }
  destruct (find_owner_with_more_stack_spec _ _ _ Hchain1 fuel (stack_stop ss)
              s1 eq_refl Hfuel) as (sk & rest & Hl & Hsk & Hrest & Hrun2).
  rewrite (bind_Ret _ _ _ _ _ Hrun2).
  rewrite update_stack_Some with (G := T1) by exact Ht1.
  eexists. split; [reflexivity|].
  assert (Hstop : forall x, stop_of (greenlets s1) x = stop_of (greenlets s) x).
  { intros x. rewrite Hgs1. eapply stop_of_insert_same_stop; eauto. }
  constructor; simpl; try assumption.
  exists sk, rest. split; [exact Hl|]. split.
  { eapply Forall_impl; [exact Hsk|]. intros x. simpl. by rewrite Hstop. }
  split.
  { destruct rest; [exact I|]. by rewrite <- Hstop. }
  rewrite Hgs1, insert_insert_eq. f_equal.
Qed.

(** ** Stack restoration on arrival *)

(** C6. Postcondition of stack restoration.  For a coroutine [this]
    arriving in a switch, with [current] the greenlet the thread state
    still names, [copy_heap_to_stack] returns, and afterwards:
    the saved heap bytes are back on the native stack from [stack_start]
    on and no other byte of the stack changed; the saved-byte count is
    zero and, when there were saved bytes, the heap buffer is freed;
    [stack_prev] is the nearest greenlet of the ownership chain (the
    chain from [current], or from its [stack_prev] when [current] is
    dying) whose region reaches above this coroutine's [stack_stop],
    every owner skipped on the way ending at or below it; with a
    saved-byte count of zero the native stack is untouched, no byte is
    copied; and no other greenlet is modified.  The chain must end at
    the null pointer after fewer owners than the fuel given, and the
    buffer must hold the bytes it is said to hold. *)
Theorem C6_copy_heap_to_stack_postcondition fuel this current s T C l :
  greenlets s !! this = Some T ->
  greenlets s !! current = Some C ->
  0 <= _stack_saved (stack_state T) ->
  (_stack_saved (stack_state T) <> 0 ->
   exists buf, stack_copy (stack_state T) = Some buf /\
               _stack_saved (stack_state T) <= Z.of_nat (length buf)) ->
  owner_chain (greenlets s)
    (if active (stack_state C) then Some current
     else stack_prev (stack_state C)) l ->
  (length l < fuel)%nat ->
  exists s' T',
    copy_heap_to_stack fuel this current s = Ret tt s' /\
    greenlets s' !! this = Some T' /\
    (forall buf i, stack_copy (stack_state T) = Some buf ->
       0 <= i < _stack_saved (stack_state T) ->
       cstack s' (_stack_start (stack_state T) + i)
       = nth (Z.to_nat i) buf x00) /\
    (forall a,
       ~ (_stack_start (stack_state T) <= a
          < _stack_start (stack_state T) + _stack_saved (stack_state T)) ->
       cstack s' a = cstack s a) /\
    _stack_saved (stack_state T') = 0 /\
    (_stack_saved (stack_state T) <> 0 -> stack_copy (stack_state T') = None) /\
    _stack_start (stack_state T') = _stack_start (stack_state T) /\
    stack_stop (stack_state T') = stack_stop (stack_state T) /\
    (exists skipped rest,
       l = skipped ++ rest /\
       Forall (fun g => stop_of (greenlets s) g <= stack_stop (stack_state T))
         skipped /\
       match rest with
       | [] => True
       | g :: _ => stack_stop (stack_state T) < stop_of (greenlets s) g
       end /\
       stack_prev (stack_state T') = head rest) /\
    (_stack_saved (stack_state T) = 0 -> cstack s' = cstack s) /\
    (forall g, g <> this -> greenlets s' !! g = greenlets s !! g).
Proof.
  intros Ht Hc Hpos Hbuf Hchain Hfuel.
  destruct (copy_heap_to_stack_spec fuel this current s T C l)
    as (s' & Hrun & [Hb Hf Hn (sk & rest & Hl & Hsk & Hrest & Hgs) _]);
    try assumption.
  exists s', (with_stack_state (restored_state (stack_state T) (head rest)) T).
  split; [exact Hrun|].
  split; [rewrite Hgs; apply lookup_insert_eq|].
  split; [exact Hb|]. split; [exact Hf|].
  unfold restored_state. simpl.
  destruct (_stack_saved (stack_state T) =? 0) eqn:Hz; simpl.
  - apply Z.eqb_eq in Hz.
    repeat split; try reflexivity; try assumption; try (intros; lia).
    + exists sk, rest. by repeat split.
    + intros g Hne. rewrite Hgs. by apply lookup_insert_ne.
  - repeat split; try reflexivity; try assumption.
    + exists sk, rest. by repeat split.
    + intros g Hne. rewrite Hgs. by apply lookup_insert_ne.
Qed.

Lemma C6_copy_heap_to_stack_postcondition_witness :
  exists s' T',
    copy_heap_to_stack 2 1%nat 0%nat ex_suspended_child = Ret tt s' /\
    greenlets s' !! 1%nat = Some T' /\
    cstack s' 701 = x02 /\
    _stack_saved (stack_state T') = 0 /\
    stack_copy (stack_state T') = None /\
    stack_prev (stack_state T') = Some 0%nat.
Proof.
  destruct (C6_copy_heap_to_stack_postcondition 2 1%nat 0%nat
              ex_suspended_child ex_child_saved ex_main_running [0%nat])
    as (s' & T' & Hrun & Ht & Hb & _ & Hsaved & Hcopy & _ & _ & Hprev & _).
  - reflexivity.
  - reflexivity.
  - simpl. lia.
  - intros _. exists [x01; x02; x03]%byte. split; [reflexivity|simpl; lia].
  - simpl. econstructor; [reflexivity|]. simpl. constructor.
  - simpl. lia.
  - exists s', T'. split; [exact Hrun|]. split; [exact Ht|].
    split.
    { apply (Hb [x01; x02; x03]%byte 1); [reflexivity|simpl; lia]. }
    split; [exact Hsaved|].
    split; [apply Hcopy; simpl; lia|].
    destruct Hprev as (sk & rest & Hl & Hsk & Hrest & ->).
    destruct sk as [|g sk].
    + simpl in Hl. subst rest. reflexivity.
    + exfalso. injection Hl as <- Hl'. apply Forall_cons in Hsk as [Hsk _].
      vm_compute in Hsk. apply Hsk. reflexivity.
Defined.

(** ** The value a switch delivers *)

(** C10. Payload packaging rule.  A switch payload of positional
    arguments [args] (a tuple) and keyword arguments [kwargs] (a dict,
    or absent) is delivered as: the args tuple when kwargs is absent or
    empty; the kwargs dict when kwargs is not empty and args is;
    otherwise the 2-tuple [(args, kwargs)].  The delivery clears the
    source [SwitchingArgs]: it tests false afterwards, and delivering
    from it again yields the null reference, not the payload. *)
Theorem C10_payload_packaging (args : list PyObject)
  (kwargs : option (list (PyObject * PyObject))) :
  let rhs := mkSwitchingArgs (Some (PyTuple args)) (PyDict <$> kwargs) in
  (kwargs = None \/ kwargs = Some [] ->
   fst (deliver rhs) = Some (PyTuple args)) /\
  (forall kw, kwargs = Some kw -> kw <> [] -> args = [] ->
   fst (deliver rhs) = Some (PyDict kw)) /\
  (forall kw, kwargs = Some kw -> kw <> [] -> args <> [] ->
   fst (deliver rhs) = Some (PyTuple [PyTuple args; PyDict kw])) /\
  snd (deliver rhs) = SwitchingArgs_empty /\
  SwitchingArgs_bool (snd (deliver rhs)) = false /\
  fst (deliver (snd (deliver rhs))) = None.
Proof.
  simpl. unfold deliver; simpl.
  destruct kwargs as [[|kv kw]|]; simpl.
  - repeat split; try reflexivity; intros; congruence.
  - destruct args as [|a args]; simpl;
      (split; [intros [H|H]; discriminate|]);
      repeat split; try reflexivity; intros kw' H; injection H as <-;
      intros H1 H2; first [reflexivity | discriminate | by destruct H2].
  - repeat split; try reflexivity; intros; congruence.
Qed.

(** ** Reparenting *)

Lemma parent_chain_check_cyclic gs p c k :
  in_parent_chain gs p c k ->
  forall n m s, greenlets s = gs -> (k < n)%nat ->
  parent_chain_check n c (Some p) m s =
  Throw PyErrOccurred
    (with_pyerr (Some (PyErr_SetString PyExc_ValueError "cyclic parent chain")) s).
Proof.
  induction 1 as [c|p P q c k Hp Hq Hc IH]; intros n m s Hs Hn.
  - destruct n as [|n]; [lia|]. simpl. rewrite Nat.eqb_refl. reflexivity.
  - destruct n as [|n]; [lia|]. simpl.
    destruct (Nat.eqb p c) eqn:Heq; [reflexivity|].
    rewrite (bind_Ret _ _ _ _ _ (deref_Some p s P ltac:(by rewrite Hs))).
    rewrite Hq. apply IH; [exact Hs|lia].
Qed.

(** C8, as amended.  Rejecting a parent cycle changes nothing: for a
    greenlet [c] and a new parent [p] that is [c] itself or has [c] in
    its parent chain, [green_setparent] answers [-1] with the error
    indicator set and the state otherwise exactly as before, so every
    parent link is what it was.  For a user greenlet the error is
    ValueError "cyclic parent chain"; for a main greenlet it is
    AttributeError "cannot set the parent of a main greenlet". *)
Theorem C8_parent_cycle_rejected_atomically fuel s c C p k :
  greenlets s !! c = Some C ->
  in_parent_chain (greenlets s) p c k ->
  (k < fuel)%nat ->
  green_setparent fuel c (Some p) s =
  Ret (-1)
    (with_pyerr
       (Some match kind C with
             | UserGreenlet _ _ _ =>
                 PyErr_SetString PyExc_ValueError "cyclic parent chain"
             | MainGreenlet _ =>
                 PyErr_SetString PyExc_AttributeError
                   "cannot set the parent of a main greenlet"
             end) s).
Proof.
  intros Hc Hchain Hk. unfold green_setparent, catch_PyErrOccurred.
  rewrite (bind_Ret _ _ _ _ _ (deref_Some _ _ _ Hc)).
  destruct (kind C) as [ts|pa mg r].
  - reflexivity.
  - unfold UserGreenlet_set_parent.
    unfold bind at 1.
    unfold bind at 1.
    rewrite (parent_chain_check_cyclic _ _ _ _ Hchain fuel None s eq_refl Hk).
    reflexivity.
Qed.

(** Greenlet 1 is a child of the main greenlet 0. *)
Lemma C8_parent_cycle_rejected_atomically_witness :
  green_setparent 2 1%nat (Some 1%nat) ex_suspended_child =
  Ret (-1)
    (with_pyerr
       (Some (PyErr_SetString PyExc_ValueError "cyclic parent chain"))
       ex_suspended_child).
Proof.
  apply (C8_parent_cycle_rejected_atomically 2 ex_suspended_child 1%nat
           ex_child_saved 1%nat 0).
  - reflexivity.
  - constructor.
  - lia.
Defined.

(** The main greenlet 0 is in the parent chain of its child 1, and
    making the child its parent does not raise ValueError. *)
Lemma C8_counterexample_main_greenlet :
  in_parent_chain (greenlets ex_suspended_child) 1%nat 0%nat 1 /\
  green_setparent 2 0%nat (Some 1%nat) ex_suspended_child =
  Ret (-1)
    (with_pyerr
       (Some (PyErr_SetString PyExc_AttributeError
                "cannot set the parent of a main greenlet"))
       ex_suspended_child) /\
  ~ cyclic_parent_raises_ValueError 2 ex_suspended_child 0%nat 1%nat.
Proof.
  split.
  { econstructor; [reflexivity|reflexivity|constructor]. }
  split; [reflexivity|].
  intros (s' & Hrun & Herr & _).
  vm_compute in Hrun. injection Hrun as <-. vm_compute in Herr. discriminate.
Qed.

(** ** Thread affinity *)

Lemma find_main_greenlet_in_lineage_spec ndebug gs g r k :
  lineage_main ndebug gs g r k ->
  forall fuel s, greenlets s = gs -> (k < fuel)%nat ->
  find_main_greenlet_in_lineage ndebug fuel g s = Ret r s.
Proof.
  induction 1 as [g G ts Hg Hk|g G p m r Hg Hk Hst Hm|g G m r Hg Hk Hst
                 |g G p m r res k Hg Hk Hst Hl IH];
    intros fuel s Hs Hfuel; (destruct fuel as [|fuel]; [lia|]); simpl;
    rewrite (bind_Ret _ _ _ _ _ (deref_Some g s G ltac:(by rewrite Hs)));
    rewrite Hk; try rewrite Hst; try reflexivity.
  - unfold bind at 1. rewrite assert_holds; [reflexivity|].
    intros Hn. apply bool_decide_eq_true_2. auto.
  - apply IH; [exact Hs|lia].
Qed.

(** The lineage does not look at the switch arguments. *)
Lemma lineage_main_with_switch_args ndebug gs g r k x X a :
  gs !! x = Some X ->
  lineage_main ndebug gs g r k ->
  lineage_main ndebug (<[x := with_switch_args a X]> gs) g r k.
Proof.
  intros Hx. induction 1 as [g G ts Hg Hk|g G p m r Hg Hk Hst Hm|g G m r Hg Hk Hst
                 |g G p m r res k Hg Hk Hst Hl IH].
  - destruct (decide (x = g)) as [->|Hne].
    + eapply lineage_main_main; [apply lookup_insert_eq|].
      simpl. rewrite Hx in Hg. injection Hg as ->. exact Hk.
    + eapply lineage_main_main; [by rewrite lookup_insert_ne|exact Hk].
  - destruct (decide (x = g)) as [->|Hne].
    + rewrite Hx in Hg. injection Hg as ->.
      eapply lineage_main_started; [apply lookup_insert_eq|exact Hk|exact Hst|exact Hm].
    + eapply lineage_main_started; [by rewrite lookup_insert_ne|exact Hk|exact Hst|exact Hm].
  - destruct (decide (x = g)) as [->|Hne].
    + rewrite Hx in Hg. injection Hg as ->.
      eapply lineage_main_orphan; [apply lookup_insert_eq|exact Hk|exact Hst].
    + eapply lineage_main_orphan; [by rewrite lookup_insert_ne|exact Hk|exact Hst].
  - destruct (decide (x = g)) as [->|Hne].
    + rewrite Hx in Hg. injection Hg as ->.
      eapply lineage_main_parent; [apply lookup_insert_eq|exact Hk|exact Hst|exact IH].
    + eapply lineage_main_parent; [by rewrite lookup_insert_ne|exact Hk|exact Hst|exact IH].
Qed.

Lemma thread_state_with_switch_args gs x X a G :
  gs !! x = Some X ->
  thread_state (<[x := with_switch_args a X]> gs) G = thread_state gs G.
Proof.
  intros Hx. unfold thread_state. destruct (kind G) as [|p [m|] r]; try reflexivity.
  destruct (decide (x = m)) as [->|Hne].
  - rewrite lookup_insert_eq, Hx. by destruct X.
  - by rewrite lookup_insert_ne.
Qed.

Lemma check_switch_allowed_refuses ndebug fuel this s r k ts :
  lineage_main ndebug (greenlets s) this r k ->
  (k < fuel)%nat ->
  threads s !! this_thread s = Some ts ->
  is_Some (greenlets s !! this) ->
  wrong_thread (greenlets s) (ts_main_greenlet ts) r ->
  exists msg,
    check_switch_allowed ndebug fuel this s =
    Throw PyErrOccurred
      (with_pyerr (Some (PyErr_SetString PyExc_GreenletError msg)) s).
Proof.
  intros Hl Hk Hts [T Ht] Hw. unfold check_switch_allowed.
  rewrite (bind_Ret _ _ _ _ _
             (find_main_greenlet_in_lineage_spec _ _ _ _ _ Hl fuel s eq_refl Hk)).
  destruct r as [m|]; [|eexists; reflexivity].
  destruct Hw as (Mg & Hm & Hw).
  rewrite (bind_Ret _ _ _ _ _ (deref_Some _ _ _ Hm)).
  unfold bind at 1. simpl.
  destruct (thread_state (greenlets s) Mg) as [t|] eqn:Hthr; simpl.
  - destruct Hw as [Hw|Hw]; [discriminate|].
    unfold GET_THREAD_STATE, bind at 1. rewrite Hts.
    rewrite (bind_Ret _ _ _ _ _ (deref_Some _ _ _ Ht)).
    destruct (Nat.eqb (ts_main_greenlet ts) m) eqn:Heq.
    + apply Nat.eqb_eq in Heq. congruence.
    + simpl. eexists; reflexivity.
  - eexists; reflexivity.
Qed.

(** C3. Thread affinity is enforced before any stack mutation.  When
    the main greenlet reachable from the target of a switch is absent,
    belongs to a thread that has exited, or is not the main greenlet of
    the calling thread, [green_switch] returns null with greenlet.error
    in the error indicator.  The failed call clears the payload it had
    stored in the target and changes nothing else: no [StackState], no
    byte of the native stack, no thread state, and no stack switch is
    counted. *)
Theorem C3_thread_affinity_before_stack_mutation
  ndebug realloc_ok getattr_run call_trace fuel mark stackref
  target T args kwargs s r k ts :
  greenlets s !! target = Some T ->
  threads s !! this_thread s = Some ts ->
  lineage_main ndebug (greenlets s) target r k ->
  (k < fuel)%nat ->
  wrong_thread (greenlets s) (ts_main_greenlet ts) r ->
  exists msg,
    green_switch ndebug realloc_ok getattr_run call_trace fuel mark stackref
      target args kwargs s =
    Ret None
      (with_pyerr (Some (PyErr_SetString PyExc_GreenletError msg))
         (with_greenlets
            (<[target := with_switch_args SwitchingArgs_empty T]> (greenlets s))
            s)).
Proof.
  intros Ht Hts Hl Hk Hw.
  set (a := mkSwitchingArgs (Some args) kwargs).
  set (s1 := with_greenlets (<[target := with_switch_args a T]> (greenlets s)) s).
  assert (Ht1 : greenlets s1 !! target = Some (with_switch_args a T))
    by apply lookup_insert_eq.
  destruct (check_switch_allowed_refuses ndebug fuel target s1 r k ts)
    as (msg & Hcheck).
  { by apply lineage_main_with_switch_args. }
  { exact Hk. }
  { exact Hts. }
  { eauto. }
  { destruct r as [m|]; [|exact I]. destruct Hw as (Mg & Hm & Hw).
    destruct (decide (target = m)) as [->|Hne].
    - exists (with_switch_args a T). split; [exact Ht1|].
      rewrite Ht in Hm. injection Hm as <-.
      simpl. rewrite (thread_state_with_switch_args _ _ _ _ _ Ht).
      destruct Hw as [Hw|Hw]; [left|by right].
      by destruct T.
    - exists Mg. split; [simpl; by rewrite lookup_insert_ne|].
      simpl. by rewrite (thread_state_with_switch_args _ _ _ _ _ Ht). }
  exists msg. unfold green_switch.
  rewrite (bind_Ret _ _ _ _ _ (update_Some _ _ _ _ Ht)). fold a. fold s1.
  assert (Hsw : g_switch ndebug realloc_ok getattr_run call_trace fuel mark
                  stackref target s1 =
                Throw PyErrOccurred
                  (with_greenlets
                     (<[target := with_switch_args SwitchingArgs_empty
                                    (with_switch_args a T)]> (greenlets s1))
                     (with_pyerr (Some (PyErr_SetString PyExc_GreenletError msg))
                        s1))).
  { unfold g_switch.
    rewrite (bind_Ret _ _ _ _ _ (deref_Some _ _ _ Ht1)). simpl.
    assert (Hcatch : catch_PyErrOccurred
              (check_switch_allowed ndebug fuel target)
              (release_args target ;;; throw PyErrOccurred) s1 =
            Throw PyErrOccurred
              (with_greenlets
                 (<[target := with_switch_args SwitchingArgs_empty
                                (with_switch_args a T)]> (greenlets s1))
                 (with_pyerr (Some (PyErr_SetString PyExc_GreenletError msg))
                    s1))).
    { unfold catch_PyErrOccurred. rewrite Hcheck.
      unfold release_args.
      erewrite bind_Ret by (apply update_Some; exact Ht1).
      reflexivity. }
    destruct (kind T) as [tst|p m0 r0].
    - unfold MainGreenlet_g_switch. by rewrite (bind_Throw _ _ _ _ _ Hcatch).
    - unfold UserGreenlet_g_switch.
      rewrite (bind_Ret _ _ _ _ _ (args_or_error_Some _ _ _ Ht1)).
      erewrite bind_Ret by (apply assert_holds; reflexivity).
      by rewrite (bind_Throw _ _ _ _ _ Hcatch). }
  unfold catch_PyErrOccurred. rewrite (bind_Throw _ _ _ _ _ Hsw).
  unfold ret. f_equal. unfold s1, with_greenlets, with_pyerr. simpl.
  f_equal. by rewrite insert_insert_eq.
Qed.

Lemma C3_thread_affinity_before_stack_mutation_witness :
  exists msg T,
    greenlets ex_two_threads !! 3%nat = Some T /\
    green_switch false ex_realloc_ok ex_getattr_run ex_call_trace 3 1000 900
      3%nat (PyTuple [PyInt 1]) None ex_two_threads =
    Ret None
      (with_pyerr (Some (PyErr_SetString PyExc_GreenletError msg))
         (with_greenlets
            (<[3%nat := with_switch_args SwitchingArgs_empty T]>
               (greenlets ex_two_threads))
            ex_two_threads)).
Proof.
  destruct (C3_thread_affinity_before_stack_mutation false ex_realloc_ok
              ex_getattr_run ex_call_trace 3 1000 900 3%nat
              (mkGreenlet SwitchingArgs_empty
                 (mkStackState 500 600 None 0 (Some 2%nat))
                 (mkPythonState (Some 7) 1)
                 (UserGreenlet (Some 2%nat) (Some 2%nat) None))
              (PyTuple [PyInt 1]) None ex_two_threads (Some 2%nat) 0
              (mkThreadState 0%nat 0%nat None)) as (msg & Hrun).
  - reflexivity.
  - reflexivity.
  - eapply lineage_main_started; [reflexivity|reflexivity|reflexivity|].
    intros _. by eexists.
  - lia.
  - eexists. split; [reflexivity|]. right. discriminate.
  - exists msg. eexists. split; [reflexivity|]. exact Hrun.
Defined.

(** ** Switches the calling thread may perform *)

Lemma check_switch_allowed_accepts ndebug fuel g s k :
  switch_allowed ndebug s g k -> (k < fuel)%nat ->
  check_switch_allowed ndebug fuel g s = Ret tt s.
Proof.
  intros (ts & Mg & Hts & Hl & Hm & [t Ht] & [G Hg]) Hk.
  unfold check_switch_allowed.
  rewrite (bind_Ret _ _ _ _ _
             (find_main_greenlet_in_lineage_spec _ _ _ _ _ Hl fuel s eq_refl Hk)).
  rewrite (bind_Ret _ _ _ _ _ (deref_Some _ _ _ Hm)).
  rewrite bind_get. rewrite Ht. simpl.
  unfold GET_THREAD_STATE, bind at 1. rewrite Hts.
  rewrite (bind_Ret _ _ _ _ _ (deref_Some _ _ _ Hg)).
  rewrite Nat.eqb_refl. simpl. rewrite andb_false_r. rewrite bind_assoc.
  rewrite (bind_Ret _ _ _ _ _ (deref_Some _ _ _ Hm)).
  rewrite bind_ret. rewrite Ht. reflexivity.
Qed.

Lemma switch_allowed_with_switch_args ndebug s g k x X a :
  greenlets s !! x = Some X ->
  switch_allowed ndebug s g k ->
  switch_allowed ndebug
    (with_greenlets (<[x := with_switch_args a X]> (greenlets s)) s) g k.
Proof.
  intros Hx (ts & Mg & Hts & Hl & Hm & Ht & Hg).
  assert (Hlk : forall y, is_Some (greenlets s !! y) ->
            exists Y, <[x := with_switch_args a X]> (greenlets s) !! y = Some Y /\
                      kind Y = match greenlets s !! y with
                               | Some Y0 => kind Y0 | None => kind Y end).
  { intros y [Y Hy]. destruct (decide (x = y)) as [->|Hne].
    - exists (with_switch_args a X). rewrite lookup_insert_eq. split; [done|].
      rewrite Hx. reflexivity.
    - exists Y. rewrite lookup_insert_ne by done. split; [done|]. by rewrite Hy. }
  destruct (Hlk (ts_main_greenlet ts)) as (Mg' & HMg' & Hk'); [eauto|].
  exists ts, Mg'. simpl. split; [exact Hts|].
  split; [by apply lineage_main_with_switch_args|].
  split; [exact HMg'|].
  split.
  - rewrite (thread_state_with_switch_args _ _ _ _ _ Hx).
    rewrite Hm in Hk'. unfold thread_state in *. by rewrite Hk'.
  - destruct Hg as [G Hg]. destruct (Hlk g) as (G' & HG' & _); eauto.
Qed.

(** ** What [g_switchstack] and the loop of [g_switch] can answer *)

(** Case analysis on the first [match] of the goal, closing the cases
    that contradict a hypothesis. *)
Ltac destruct_match :=
  match goal with
  | |- context [match ?c with _ => _ end] =>
      destruct c eqn:?; try discriminate
  end.

Lemma g_switchstack_status ndebug realloc_ok fuel stackref this s err s' :
  g_switchstack ndebug realloc_ok fuel stackref this s = Ret err s' ->
  (status err <? 0) = false.
Proof.
  unfold g_switchstack. unfold bind.
  repeat (destruct_match; simpl in *).
  all: intros H; injection H as <- _; simpl; try reflexivity; assumption.
Qed.

(** ** Falling back to an ancestor *)

Lemma dead_chain_with_switch_args gs d r k x X a :
  gs !! x = Some X ->
  dead_chain gs d r k ->
  dead_chain (<[x := with_switch_args a X]> gs) d r k.
Proof.
  intros Hx. induction 1 as [d D r Hd Hdead Hp|d D d' r k Hd Hdead Hp Hc IH].
  - destruct (decide (x = d)) as [->|Hne].
    + rewrite Hx in Hd. injection Hd as ->.
      eapply dead_chain_parent; [apply lookup_insert_eq|exact Hdead|exact Hp].
    + eapply dead_chain_parent; [by rewrite lookup_insert_ne|exact Hdead|exact Hp].
  - destruct (decide (x = d)) as [->|Hne].
    + rewrite Hx in Hd. injection Hd as ->.
      eapply dead_chain_step; [apply lookup_insert_eq|exact Hdead|exact Hp|exact IH].
    + eapply dead_chain_step; [by rewrite lookup_insert_ne|exact Hdead|exact Hp|exact IH].
Qed.

Section Fallback.

Variable ndebug : bool.
Variable realloc_ok : Z -> bool.
Variable getattr_run : gid -> M OwnedObject.
Variable call_trace : PyObject -> bool -> gid -> gid -> M unit.
Variables (fuel : nat) (mark stackref : Z).

Local Abbreviation switchstack := (g_switchstack ndebug realloc_ok fuel stackref).

(** The loop of [g_switch] walks past dead greenlets without touching
    the state. *)
Lemma g_switch_loop_skips_dead gs d r k :
  dead_chain gs d r k ->
  forall n this twm wis s, greenlets s = gs ->
  g_switch_loop ndebug realloc_ok getattr_run (k + n) fuel mark stackref
    this (Some d) twm wis s =
  g_switch_loop ndebug realloc_ok getattr_run n fuel mark stackref
    this (Some r) false wis s.
Proof.
  induction 1 as [d D r Hd Hdead Hp|d D d' r k Hd Hdead Hp Hc IH];
    intros n this twm wis s Hs; simpl;
    rewrite (bind_Ret _ _ _ _ _ (deref_Some d s D ltac:(by rewrite Hs)));
    unfold is_dead in Hdead; apply andb_true_iff in Hdead as [Hst Hact];
    apply negb_true_iff in Hact; rewrite Hact, Hst, Hp; simpl.
  - reflexivity.
  - by apply IH.
Qed.

(** After the loop, [g_switch] finishes the same way whatever the loop
    remembers about how it reached an active target. *)
Lemma after_switchstack_irrelevant this1 this2 R twm1 twm2 wis1 wis2 s :
  (let* x := (let* err := switchstack R in
              ret (mk_switch_loop_exit err (Some R) twm1 wis1)) in
   if status (loop_err x) <? 0 then
     on_switchstack_or_initialstub_failure ndebug this1 (loop_target x)
       (loop_err x) (loop_target_was_me x) (loop_was_initial_stub x)
   else
     let* g := deref_opt (the_new_current_greenlet (loop_err x)) in
     g_switch_finish ndebug call_trace g (loop_err x)) s =
  (let* err := switchstack R in
   if status err <? 0 then
     on_switchstack_or_initialstub_failure ndebug this2 (Some R) err twm2 wis2
   else
     let* g := deref_opt (the_new_current_greenlet err) in
     g_switch_finish ndebug call_trace g err) s.
Proof.
  rewrite bind_assoc. unfold bind at 1. unfold bind at 3.
  destruct (switchstack R s) as [err s'| | | | |] eqn:E; try reflexivity.
  rewrite bind_ret. simpl.
  by rewrite (g_switchstack_status _ _ _ _ _ _ _ _ E).
Qed.

Lemma g_switch_loop_active n this R R0 wis s :
  greenlets s !! R = Some R0 ->
  active (stack_state R0) = true ->
  g_switch_loop ndebug realloc_ok getattr_run (S n) fuel mark stackref
    this (Some R) true wis s =
  (let* err := switchstack R in
   ret (mk_switch_loop_exit err (Some R) true wis)) s.
Proof.
  intros HR Hact. simpl.
  rewrite (bind_Ret _ _ _ _ _ (deref_Some _ _ _ HR)).
  rewrite Hact. reflexivity.
Qed.

Lemma g_switch_active_target R R0 s k :
  greenlets s !! R = Some R0 ->
  active (stack_state R0) = true ->
  switch_allowed ndebug s R k -> (k < fuel)%nat ->
  (ndebug = false ->
   SwitchingArgs_bool (switch_args R0) || bool_decide (is_Some (pyerr s)) = true) ->
  g_switch ndebug realloc_ok getattr_run call_trace fuel mark stackref R s =
  (let* err := switchstack R in
   if status err <? 0 then
     on_switchstack_or_initialstub_failure ndebug R (Some R) err true false
   else
     let* g := deref_opt (the_new_current_greenlet err) in
     g_switch_finish ndebug call_trace g err) s.
Proof.
  intros HR Hact Hallowed Hk Hargs. unfold g_switch.
  rewrite (bind_Ret _ _ _ _ _ (deref_Some _ _ _ HR)).
  assert (Hcheck : catch_PyErrOccurred (check_switch_allowed ndebug fuel R)
                     (release_args R ;;; throw PyErrOccurred) s = Ret tt s).
  { unfold catch_PyErrOccurred.
    by rewrite (check_switch_allowed_accepts _ _ _ _ _ Hallowed Hk). }
  destruct (kind R0) as [t|p m r].
  - unfold MainGreenlet_g_switch. by rewrite (bind_Ret _ _ _ _ _ Hcheck).
  - unfold UserGreenlet_g_switch.
    rewrite (bind_Ret _ _ _ _ _ (args_or_error_Some _ _ _ HR)).
    erewrite bind_Ret by (apply assert_holds; exact Hargs).
    rewrite (bind_Ret _ _ _ _ _ Hcheck).
    destruct fuel as [|n] eqn:Hfuel; [lia|]. rewrite <- Hfuel.
    unfold bind at 1.
    rewrite Hfuel at 1.
    rewrite (g_switch_loop_active n R R R0 false s HR Hact).
    fold (bind (let* err := switchstack R in
                ret (mk_switch_loop_exit err (Some R) true false))
            (fun x => if status (loop_err x) <? 0 then
               on_switchstack_or_initialstub_failure ndebug R (loop_target x)
                 (loop_err x) (loop_target_was_me x) (loop_was_initial_stub x)
             else
               let* g := deref_opt (the_new_current_greenlet (loop_err x)) in
               g_switch_finish ndebug call_trace g (loop_err x)) s).
    apply after_switchstack_irrelevant.
Qed.

Lemma failure_branch_irrelevant {A} R (F1 F2 G : switchstack_result_t -> M A) s :
  (let* err := switchstack R in
   if status err <? 0 then F1 err else G err) s =
  (let* err := switchstack R in
   if status err <? 0 then F2 err else G err) s.
Proof.
  unfold bind.
  destruct (switchstack R s) as [err s'| | | | |] eqn:E; try reflexivity.
  by rewrite (g_switchstack_status _ _ _ _ _ _ _ _ E).
Qed.

Lemma dead_chain_head gs d r k :
  dead_chain gs d r k ->
  exists D p m c, gs !! d = Some D /\ kind D = UserGreenlet p m c /\
                  is_dead D = true.
Proof.
  intros H. assert (exists D q, gs !! d = Some D /\ is_dead D = true
                                /\ parent D = Some q) as (D & q & Hd & Hdead & Hp).
  { destruct H; eauto 10. }
  unfold parent in Hp. destruct (kind D) as [|p m c] eqn:Hk; [discriminate|].
  eauto 10.
Qed.

Lemma bind_congr {A B} (c c' : M A) (k : A -> M B) s :
  c s = c' s -> bind c k s = bind c' k s.
Proof. unfold bind. by intros ->. Qed.

(** A switch to a dead greenlet whose nearest live ancestor [R] is
    active: the payload is moved to [R], and [R] is switched to. *)
Lemma g_switch_dead_target T T0 R R0 s k kT :
  greenlets s !! T = Some T0 ->
  dead_chain (greenlets s) T R k ->
  greenlets s !! R = Some R0 ->
  active (stack_state R0) = true ->
  switch_allowed ndebug s T kT -> (kT < fuel)%nat -> (k < fuel)%nat ->
  (ndebug = false ->
   SwitchingArgs_bool (switch_args T0) || bool_decide (is_Some (pyerr s)) = true) ->
  g_switch ndebug realloc_ok getattr_run call_trace fuel mark stackref T s =
  (let* err := switchstack R in
   if status err <? 0 then
     on_switchstack_or_initialstub_failure ndebug T (Some R) err false false
   else
     let* g := deref_opt (the_new_current_greenlet err) in
     g_switch_finish ndebug call_trace g err)
    (with_greenlets
       (<[T := with_switch_args SwitchingArgs_empty T0]>
          (<[R := with_switch_args (switch_args T0) R0]> (greenlets s))) s).
Proof.
  intros HT Hchain HR Hact Hallowed HkT Hk Hargs.
  destruct (dead_chain_head _ _ _ _ Hchain) as (D & p & m & c & HD & Hkind & Hdead).
  rewrite HT in HD. injection HD as <-.
  assert (Hne : R <> T).
  { intros ->. rewrite HT in HR. injection HR as <-.
    unfold is_dead in Hdead. rewrite Hact in Hdead.
    by rewrite andb_false_r in Hdead. }
  unfold g_switch.
  rewrite (bind_Ret _ _ _ _ _ (deref_Some _ _ _ HT)). rewrite Hkind.
  unfold UserGreenlet_g_switch.
  rewrite (bind_Ret _ _ _ _ _ (args_or_error_Some _ _ _ HT)).
  erewrite bind_Ret by (apply assert_holds; exact Hargs).
  assert (Hcheck : catch_PyErrOccurred (check_switch_allowed ndebug fuel T)
                     (release_args T ;;; throw PyErrOccurred) s = Ret tt s).
  { unfold catch_PyErrOccurred.
    by rewrite (check_switch_allowed_accepts _ _ _ _ _ Hallowed HkT). }
  rewrite (bind_Ret _ _ _ _ _ Hcheck).
  erewrite bind_congr; cycle 1.
  { replace fuel with (k + S (fuel - S k))%nat at 1 by lia.
    apply (g_switch_loop_skips_dead _ _ _ _ Hchain _ T true false s eq_refl). }
  simpl g_switch_loop.
  rewrite !bind_assoc.
  rewrite (bind_Ret _ _ _ _ _ (deref_Some _ _ _ HR)).
  rewrite Hact. simpl negb. cbv iota.
  (* the payload moves to the resolved target *)
  assert (Hmove : move_args R T s =
            Ret tt (with_greenlets
                      (<[T := with_switch_args SwitchingArgs_empty T0]>
                         (<[R := with_switch_args (switch_args T0) R0]>
                            (greenlets s))) s)).
  { unfold move_args. apply Nat.eqb_neq in Hne. rewrite Hne.
    rewrite (bind_Ret _ _ _ _ _ (deref_Some _ _ _ HT)).
    rewrite (bind_Ret _ _ _ _ _ (update_Some _ _ _ _ HR)).
    erewrite update_Some
      by (simpl; rewrite lookup_insert_ne by (apply Nat.eqb_neq in Hne; done);
          exact HT).
    reflexivity. }
  rewrite !bind_assoc.
  rewrite (bind_Ret _ _ _ _ _ Hmove).
  rewrite !bind_assoc.
  erewrite bind_Ret by (apply deref_Some; simpl; apply lookup_insert_eq).
  erewrite bind_Ret by (apply assert_holds; reflexivity).
  rewrite !bind_assoc.
  unfold bind.
  by destruct (switchstack R _).
Qed.


Lemma with_payload_lookup g G a s :
  greenlets (with_payload g G a s) !! g = Some (with_switch_args a G).
Proof. apply lookup_insert_eq. Qed.

Lemma with_payload_lookup_ne g G a s x :
  g <> x -> greenlets (with_payload g G a s) !! x = greenlets s !! x.
Proof. intros. simpl. by rewrite lookup_insert_ne. Qed.

(** X19. Ancestor fallback on one thread.  Let [T] be a dead greenlet
    holding no stale payload, and [R] the greenlet found by walking up
    from [T] past dead greenlets only ([k] of them, [T] included).  Then
    - target resolution: the loop of [g_switch], started at [T], goes on
      from [R] in the same state, as a target that is not the greenlet
      [g_switch] was called on; so when [R] is active or not started the
      switch arguments of the caller are moved to [R] there;
    - when [R] is active and the calling thread may switch to [T] and to
      [R], [g_switch] on [T] with payload [a] does exactly what
      [g_switch] on [R] with payload [a] does: same outcome, same final
      state; and so does [green_switch] in a build without
      assertions. *)
Theorem X19_ancestor_fallback T T0 R R0 k kT kR (a : SwitchingArgs) s :
  greenlets s !! T = Some T0 ->
  switch_args T0 = SwitchingArgs_empty ->
  dead_chain (greenlets s) T R k ->
  greenlets s !! R = Some R0 ->
  active (stack_state R0) = true ->
  switch_allowed ndebug s T kT ->
  switch_allowed ndebug s R kR ->
  (kT < fuel)%nat -> (kR < fuel)%nat -> (k < fuel)%nat ->
  (forall n this twm wis,
     g_switch_loop ndebug realloc_ok getattr_run (k + n) fuel mark stackref
       this (Some T) twm wis s =
     g_switch_loop ndebug realloc_ok getattr_run n fuel mark stackref
       this (Some R) false wis s) /\
  g_switch ndebug realloc_ok getattr_run call_trace fuel mark stackref T
    (with_payload T T0 a s) =
  g_switch ndebug realloc_ok getattr_run call_trace fuel mark stackref R
    (with_payload R R0 a s) /\
  (ndebug = true -> forall args kwargs,
     green_switch ndebug realloc_ok getattr_run call_trace fuel mark stackref
       T args kwargs s =
     green_switch ndebug realloc_ok getattr_run call_trace fuel mark stackref
       R args kwargs s).
Proof.
  intros HT Hempty Hchain HR Hact HaT HaR HkT HkR Hk.
  split.
  { intros n this twm wis.
    exact (g_switch_loop_skips_dead _ _ _ _ Hchain n this twm wis s eq_refl). }
  destruct (dead_chain_head _ _ _ _ Hchain) as (D & p & m & c & HD & Hkind & Hdead).
  rewrite HT in HD. injection HD as <-.
  assert (Hne : T <> R).
  { intros ->. rewrite HT in HR. injection HR as <-.
    unfold is_dead in Hdead. rewrite Hact in Hdead.
    by rewrite andb_false_r in Hdead. }
  assert (Hgs : forall a0, g_switch ndebug realloc_ok getattr_run call_trace fuel mark stackref T
    (with_payload T T0 a0 s) =
  g_switch ndebug realloc_ok getattr_run call_trace fuel mark stackref R
    (with_payload R R0 a0 s)).
  { clear a. intros a.
    set (sT := with_payload T T0 a s). set (sR := with_payload R R0 a s).
    assert (HTT : greenlets sT !! T = Some (with_switch_args a T0))
      by apply with_payload_lookup.
    assert (HRR : greenlets sR !! R = Some (with_switch_args a R0))
      by apply with_payload_lookup.
    assert (HTR : greenlets sT !! R = Some R0)
      by (unfold sT; rewrite with_payload_lookup_ne; done).
    assert (Hmoved :
      with_greenlets
        (<[T := with_switch_args SwitchingArgs_empty (with_switch_args a T0)]>
           (<[R := with_switch_args (switch_args (with_switch_args a T0)) R0]>
              (greenlets sT))) sT = sR).
    { unfold sT, sR, with_payload, with_greenlets. simpl. f_equal.
      replace (with_switch_args SwitchingArgs_empty (with_switch_args a T0))
        with T0 by (destruct T0; simpl in *; by subst).
      rewrite (insert_insert_ne _ T R) by done.
      rewrite insert_insert_eq.
      rewrite (insert_id _ T T0) by exact HT. reflexivity. }
    destruct (decide (ndebug = false /\
                SwitchingArgs_bool a || bool_decide (is_Some (pyerr s)) = false))
      as [[Hnd Hno]|Hok].
    - (* a build with assertions refuses a switch that carries nothing *)
      transitivity (@Crash OwnedObject).
      + unfold g_switch.
        rewrite (bind_Ret _ _ _ _ _ (deref_Some _ _ _ HTT)). simpl. rewrite Hkind.
        unfold UserGreenlet_g_switch.
        rewrite (bind_Ret _ _ _ _ _ (args_or_error_Some _ _ _ HTT)).
        simpl. rewrite Hno. unfold bind, assert. by rewrite Hnd.
      + symmetry. unfold g_switch.
        rewrite (bind_Ret _ _ _ _ _ (deref_Some _ _ _ HRR)). simpl.
        destruct (kind R0) as [t|p' m' c'].
        * unfold MainGreenlet_g_switch.
          assert (Hcheck : catch_PyErrOccurred (check_switch_allowed ndebug fuel R)
                     (release_args R ;;; throw PyErrOccurred) sR = Ret tt sR).
          { unfold catch_PyErrOccurred.
            rewrite (check_switch_allowed_accepts ndebug fuel R sR kR); [done| |done].
            by apply switch_allowed_with_switch_args. }
          rewrite (bind_Ret _ _ _ _ _ Hcheck).
          unfold g_switchstack. rewrite !bind_assoc.
          rewrite (bind_Ret _ _ _ _ _ (args_or_error_Some _ _ _ HRR)).
          simpl. rewrite Hno. unfold bind, assert. by rewrite Hnd.
        * unfold UserGreenlet_g_switch.
          rewrite (bind_Ret _ _ _ _ _ (args_or_error_Some _ _ _ HRR)).
          simpl. rewrite Hno. unfold bind, assert. by rewrite Hnd.
    - assert (Hargs : ndebug = false ->
                SwitchingArgs_bool a || bool_decide (is_Some (pyerr s)) = true).
      { intros Hnd. destruct (SwitchingArgs_bool a || _) eqn:E; [done|].
        exfalso. by apply Hok. }
      rewrite (g_switch_dead_target T (with_switch_args a T0) R R0 sT k kT);
        try assumption.
      + rewrite Hmoved.
        rewrite (g_switch_active_target R (with_switch_args a R0) sR kR);
          try assumption.
        * apply failure_branch_irrelevant.
        * by apply switch_allowed_with_switch_args.
      + by apply dead_chain_with_switch_args.
      + by apply switch_allowed_with_switch_args. }
  split; [apply Hgs|].
  intros Hnd args kwargs. unfold green_switch.
  rewrite (bind_Ret _ _ _ _ _ (update_Some _ _ _ _ HT)).
  rewrite (bind_Ret _ _ _ _ _ (update_Some _ _ _ _ HR)).
  fold (with_payload T T0 (mkSwitchingArgs (Some args) kwargs) s).
  fold (with_payload R R0 (mkSwitchingArgs (Some args) kwargs) s).
  unfold catch_PyErrOccurred, bind at 1. unfold bind at 3.
  rewrite Hgs. rewrite Hnd. reflexivity.
Qed.

End Fallback.


Lemma ex_dead_sibling_allowed g :
  (g < 3)%nat -> switch_allowed false ex_dead_sibling g 0.
Proof.
  intros Hg. exists (mkThreadState 0%nat 2%nat None), ex_ds_main.
  split; [reflexivity|].
  destruct g as [|[|[|g]]]; [| | |lia].
  - split; [eapply lineage_main_main; reflexivity|].
    split; [reflexivity|]. split; by eexists.
  - split.
    { eapply lineage_main_started; try reflexivity. intros _. by eexists. }
    split; [reflexivity|]. split; by eexists.
  - split.
    { eapply lineage_main_started; try reflexivity. intros _. by eexists. }
    split; [reflexivity|]. split; by eexists.
Defined.

Lemma X19_ancestor_fallback_witness :
  g_switch false ex_realloc_ok ex_getattr_run ex_call_trace 3 850 800 1%nat
    (with_payload 1%nat ex_ds_dead
       (mkSwitchingArgs (Some (PyTuple [PyInt 5])) None) ex_dead_sibling) =
  g_switch false ex_realloc_ok ex_getattr_run ex_call_trace 3 850 800 0%nat
    (with_payload 0%nat ex_ds_main
       (mkSwitchingArgs (Some (PyTuple [PyInt 5])) None) ex_dead_sibling) /\
  exists s',
    green_switch false ex_realloc_ok ex_getattr_run ex_call_trace 3 850 800
      1%nat (PyTuple [PyInt 5]) None ex_dead_sibling = Ret (Some (PyInt 5)) s' /\
    ts_current_greenlet <$> (threads s' !! 0%nat) = Some 0%nat.
Proof.
  split.
  - refine (proj1 (proj2 (X19_ancestor_fallback false ex_realloc_ok
              ex_getattr_run ex_call_trace 3 850 800 1%nat ex_ds_dead 0%nat
              ex_ds_main 1 0 0 _ ex_dead_sibling _ _ _ _ _ _ _ _ _ _))).
    + reflexivity.
    + reflexivity.
    + eapply dead_chain_parent; reflexivity.
    + reflexivity.
    + reflexivity.
    + apply ex_dead_sibling_allowed. lia.
    + apply ex_dead_sibling_allowed. lia.
    + lia.
    + lia.
    + lia.
  - eexists. split; vm_compute; reflexivity.
Defined.


(** C2. Ancestor fallback.  A switch to a dead greenlet does not always
    behave as a switch to its active parent: the parent may belong to
    another thread.  In [ex_cross_thread], from thread 0, the parent
    setter accepts greenlet 0 as parent of greenlet 4, which has not
    started, and then greenlet 3 as parent of the dead greenlet 1, whose
    main greenlet ends the chain 3, 4, 0.  A switch to greenlet 3 is then
    refused, "cannot switch to a different thread", and switches
    nothing; a switch to the dead greenlet 1 passes the check, which
    [g_switch] makes on the greenlet it is called on only, falls back to
    its parent 3 and switches stacks to it from thread 0: greenlet 3
    becomes the current greenlet of thread 1, the interpreter state of
    thread 0 is stored in the main greenlet 2 of thread 1, and the call
    returns the payload. *)
Lemma C2_fallback_crosses_threads :
  exists s1 s2 sT sR T2 R2 Mg,
    green_setparent 4 4%nat (Some 0%nat) ex_cross_thread = Ret 0 s1 /\
    green_setparent 4 1%nat (Some 3%nat) s1 = Ret 0 s2 /\
    this_thread s2 = 0%nat /\
    greenlets s2 !! 1%nat = Some T2 /\
    is_dead T2 = true /\ parent T2 = Some 3%nat /\
    greenlets s2 !! 3%nat = Some R2 /\
    active (stack_state R2) = true /\
    thread_state (greenlets s2) R2 = Some 1%nat /\
    green_switch false ex_realloc_ok ex_getattr_run ex_call_trace 5 850 800
      3%nat (PyTuple [PyInt 5]) None s2 = Ret None sR /\
    pyerr sR =
      Some (PyErr_SetString PyExc_GreenletError
              "cannot switch to a different thread") /\
    switches sR = 0%nat /\
    green_switch false ex_realloc_ok ex_getattr_run ex_call_trace 5 850 800
      1%nat (PyTuple [PyInt 5]) None s2 = Ret (Some (PyInt 5)) sT /\
    switches sT = 1%nat /\
    ts_current_greenlet <$> (threads sT !! 1%nat) = Some 3%nat /\
    greenlets sT !! 2%nat = Some Mg /\
    python_state Mg = mkPythonState (Some 40) 1 /\
    green_switch false ex_realloc_ok ex_getattr_run ex_call_trace 5 850 800
      1%nat (PyTuple [PyInt 5]) None s2 <>
    green_switch false ex_realloc_ok ex_getattr_run ex_call_trace 5 850 800
      3%nat (PyTuple [PyInt 5]) None s2.
Proof.
  do 7 eexists.
  split; [vm_compute; reflexivity|].
  split; [vm_compute; reflexivity|].
  split; [reflexivity|].
  split; [vm_compute; reflexivity|].
  split; [reflexivity|]. split; [reflexivity|].
  split; [vm_compute; reflexivity|].
  split; [reflexivity|]. split; [vm_compute; reflexivity|].
  split; [vm_compute; reflexivity|].
  split; [reflexivity|]. split; [reflexivity|].
  split; [vm_compute; reflexivity|].
  split; [reflexivity|]. split; [vm_compute; reflexivity|].
  split; [vm_compute; reflexivity|].
  split; [reflexivity|].
  intros H. vm_compute in H. discriminate H.
Qed.


(** ** Arriving: [g_switch_finish] *)

Lemma deliver_snd a : snd (deliver a) = SwitchingArgs_empty.
Proof.
  unfold deliver. destruct (_kwargs a) as [kw|]; [|reflexivity].
  destruct (PyDict_Size kw =? 0); [reflexivity|].
  destruct (_args a) as [x|]; [|reflexivity].
  by destruct (PySequence_Length x =? 0).
Qed.

Lemma deref_thread_state_Some g G t ts s :
  greenlets s !! g = Some G ->
  thread_state (greenlets s) G = Some t ->
  threads s !! t = Some ts ->
  deref_thread_state g s = Ret (t, ts) s.
Proof.
  intros Hg Ht Hts. unfold deref_thread_state.
  rewrite (bind_Ret _ _ _ _ _ (deref_Some _ _ _ Hg)). by rewrite Ht, Hts.
Qed.

Lemma thread_state_insert_args gs x X a :
  gs !! x = Some X ->
  thread_state (<[x := with_switch_args a X]> gs) (with_switch_args a X)
  = thread_state gs X.
Proof.
  intros Hx. rewrite (thread_state_with_switch_args _ _ _ _ _ Hx).
  by destruct X.
Qed.

Lemma catch_Ret {A} (c h : M A) a s s' :
  c s = Ret a s' -> catch_PyErrOccurred c h s = Ret a s'.
Proof. unfold catch_PyErrOccurred. by intros ->. Qed.

Lemma catch_Throw {A} (c h : M A) s s' :
  c s = Throw PyErrOccurred s' -> catch_PyErrOccurred c h s = h s'.
Proof. unfold catch_PyErrOccurred. by intros ->. Qed.

Section Arrival.

Variable ndebug : bool.
Variable call_trace : PyObject -> bool -> gid -> gid -> M unit.

(** A greenlet arrives with a payload, no error pending and no trace
    hook installed: the payload is delivered and consumed. *)
Lemma g_switch_finish_delivers g G t ts err s :
  greenlets s !! g = Some G ->
  thread_state (greenlets s) G = Some t ->
  threads s !! t = Some ts ->
  ts_current_greenlet ts = g ->
  ts_tracefunc ts = None ->
  pyerr s = None ->
  SwitchingArgs_bool (switch_args G) = true ->
  the_new_current_greenlet err = Some g ->
  (status err <? 0) = false ->
  g_switch_finish ndebug call_trace g err s =
  Ret (fst (deliver (switch_args G)))
    (with_greenlets (<[g := with_switch_args SwitchingArgs_empty G]> (greenlets s)) s).
Proof.
  intros Hg Ht Hts Hcur Htr Herr Hargs Hnew Hst.
  unfold g_switch_finish.
  erewrite bind_Ret
    by (apply assert_holds; intros _; by apply bool_decide_eq_true_2).
  rewrite (bind_Ret _ _ _ _ _ (deref_thread_state_Some _ _ _ _ _ Hg Ht Hts)).
  rewrite (bind_Ret _ _ _ _ _ (deref_Some _ _ _ Hg)).
  rewrite Hargs, deliver_snd. rewrite ?bind_assoc.
  rewrite (bind_Ret _ _ _ _ _ (update_Some _ _ _ _ Hg)).
  rewrite bind_ret.
  erewrite bind_Ret by (apply deref_Some; apply lookup_insert_eq).
  erewrite bind_Ret by (apply assert_holds; reflexivity).
  apply catch_Ret.
  erewrite bind_Ret
    by (apply assert_holds; intros _; apply Z.leb_le; apply Z.ltb_ge; exact Hst).
  rewrite bind_get. simpl. rewrite Hts. rewrite ?bind_assoc.
  erewrite bind_Ret
    by (apply assert_holds; intros _; rewrite Hcur; apply Nat.eqb_refl).
  rewrite Htr. rewrite bind_ret, bind_get. simpl. rewrite Herr. reflexivity.
Qed.

(** A greenlet arrives with an error pending and no trace hook
    installed: the arrival throws. *)
Lemma g_switch_finish_throws g G t ts err s :
  greenlets s !! g = Some G ->
  thread_state (greenlets s) G = Some t ->
  threads s !! t = Some ts ->
  ts_current_greenlet ts = g ->
  ts_tracefunc ts = None ->
  is_Some (pyerr s) ->
  the_new_current_greenlet err = Some g ->
  (status err <? 0) = false ->
  g_switch_finish ndebug call_trace g err s =
  Throw PyErrOccurred
    (with_greenlets (<[g := with_switch_args SwitchingArgs_empty G]> (greenlets s)) s).
Proof.
  intros Hg Ht Hts Hcur Htr Herr Hnew Hst.
  unfold g_switch_finish.
  erewrite bind_Ret
    by (apply assert_holds; intros _; by apply bool_decide_eq_true_2).
  rewrite (bind_Ret _ _ _ _ _ (deref_thread_state_Some _ _ _ _ _ Hg Ht Hts)).
  rewrite (bind_Ret _ _ _ _ _ (deref_Some _ _ _ Hg)).
  assert (Hfirst : exists r,
    (if SwitchingArgs_bool (switch_args G)
     then update g (with_switch_args (snd (deliver (switch_args G)))) ;;;
          ret (fst (deliver (switch_args G)))
     else let* s0 := get in
          assert ndebug (bool_decide (is_Some (pyerr s0))) ;;; ret None) s =
    Ret r (with_greenlets
             (<[g := with_switch_args SwitchingArgs_empty G]> (greenlets s)) s)).
  { destruct (SwitchingArgs_bool (switch_args G)) eqn:Hb.
    - eexists. rewrite deliver_snd.
      rewrite (bind_Ret _ _ _ _ _ (update_Some _ _ _ _ Hg)). reflexivity.
    - exists None. rewrite bind_get.
      erewrite bind_Ret
        by (apply assert_holds; intros _; by apply bool_decide_eq_true_2).
      unfold ret. f_equal. unfold with_greenlets.
      rewrite insert_id; [by destruct s|]. rewrite Hg. f_equal.
      destruct G as [[[a|] [kw|]] ? ? ?]; simpl in *; try discriminate.
      reflexivity. }
  destruct Hfirst as (r & Hfirst).
  rewrite (bind_Ret _ _ _ _ _ Hfirst).
  erewrite bind_Ret by (apply deref_Some; apply lookup_insert_eq).
  erewrite bind_Ret by (apply assert_holds; reflexivity).
  erewrite catch_Throw; cycle 1.
  { erewrite bind_Ret
      by (apply assert_holds; intros _; apply Z.leb_le; apply Z.ltb_ge; exact Hst).
    rewrite bind_get. simpl. rewrite Hts. rewrite ?bind_assoc.
    erewrite bind_Ret
      by (apply assert_holds; intros _; rewrite Hcur; apply Nat.eqb_refl).
    rewrite Htr. rewrite bind_ret, bind_get. simpl.
    rewrite (bool_decide_eq_true_2 _ Herr). reflexivity. }
  unfold release_args.
  erewrite bind_Ret by (apply update_Some; apply lookup_insert_eq).
  unfold throw. f_equal. unfold with_greenlets. simpl.
  by rewrite insert_insert_eq.
Qed.

End Arrival.


(** ** Switching to the running greenlet *)

Section Degenerate.

Variable ndebug : bool.
Variable realloc_ok : Z -> bool.
Variable getattr_run : gid -> M OwnedObject.
Variable call_trace : PyObject -> bool -> gid -> gid -> M unit.
Variables (fuel : nat) (mark stackref : Z).

(** [g_switchstack] on the greenlet that is running: "Hmm, nothing to
    do." *)
Lemma g_switchstack_current cur C t ts s :
  greenlets s !! cur = Some C ->
  thread_state (greenlets s) C = Some t ->
  threads s !! t = Some ts ->
  ts_current_greenlet ts = cur ->
  (ndebug = false ->
   SwitchingArgs_bool (switch_args C) || bool_decide (is_Some (pyerr s)) = true) ->
  g_switchstack ndebug realloc_ok fuel stackref cur s =
  Ret (mk_switchstack_result 0 (Some cur) (Some cur)) s.
Proof.
  intros Hc Ht Hts Hcur Hargs. unfold g_switchstack.
  rewrite (bind_Ret _ _ _ _ _ (args_or_error_Some _ _ _ Hc)).
  erewrite bind_Ret by (apply assert_holds; exact Hargs).
  rewrite (bind_Ret _ _ _ _ _ (deref_thread_state_Some _ _ _ _ _ Hc Ht Hts)).
  simpl. rewrite Hcur, Nat.eqb_refl. reflexivity.
Qed.

Lemma g_switch_degenerate target T0 cur C ts k kT a s :
  threads s !! this_thread s = Some ts ->
  ts_current_greenlet ts = cur ->
  greenlets s !! cur = Some C ->
  active (stack_state C) = true ->
  thread_state (greenlets s) C = Some (this_thread s) ->
  greenlets s !! target = Some T0 ->
  target = cur \/ dead_chain (greenlets s) target cur k ->
  switch_allowed ndebug s target kT ->
  (kT < fuel)%nat -> (k < fuel)%nat ->
  (ndebug = false ->
   SwitchingArgs_bool a || bool_decide (is_Some (pyerr s)) = true) ->
  g_switch ndebug realloc_ok getattr_run call_trace fuel mark stackref target
    (with_payload target T0 a s) =
  g_switch_finish ndebug call_trace cur
    (mk_switchstack_result 0 (Some cur) (Some cur))
    (payload_at_current target cur T0 C a s).
Proof.
  intros Hts Hcur Hc Hact Hthr Ht Hcase Hallowed HkT Hk Hargs.
  assert (Hallowed' : switch_allowed ndebug (with_payload target T0 a s) target kT)
    by (by apply switch_allowed_with_switch_args).
  destruct Hcase as [->|Hchain].
  - rewrite Hc in Ht. injection Ht as <-.
    assert (Heq : payload_at_current cur cur C C a s = with_payload cur C a s).
    { unfold payload_at_current, with_payload. by rewrite insert_insert_eq. }
    rewrite Heq.
    erewrite g_switch_active_target;
      [|apply with_payload_lookup|exact Hact|exact Hallowed'|exact HkT|exact Hargs].
    erewrite bind_Ret; cycle 1.
    { eapply g_switchstack_current with (t := this_thread s);
        [apply with_payload_lookup| |exact Hts|exact Hcur|exact Hargs].
      simpl. by rewrite thread_state_insert_args. }
    reflexivity.
  - assert (Hne : target <> cur).
    { intros ->. destruct (dead_chain_head _ _ _ _ Hchain)
        as (D & p & m & c & HD & _ & Hdead).
      rewrite Hc in HD. injection HD as <-.
      unfold is_dead in Hdead. rewrite Hact in Hdead.
      by rewrite andb_false_r in Hdead. }
    assert (Hc' : greenlets (with_payload target T0 a s) !! cur = Some C)
      by (rewrite with_payload_lookup_ne; done).
    erewrite g_switch_dead_target;
      [|apply with_payload_lookup
       |apply dead_chain_with_switch_args; [exact Ht|exact Hchain]
       |exact Hc'|exact Hact|exact Hallowed'|exact HkT|exact Hk|exact Hargs].
    assert (Heq :
      with_greenlets
        (<[target := with_switch_args SwitchingArgs_empty (with_switch_args a T0)]>
           (<[cur := with_switch_args (switch_args (with_switch_args a T0)) C]>
              (greenlets (with_payload target T0 a s))))
        (with_payload target T0 a s) = payload_at_current target cur T0 C a s).
    { unfold payload_at_current, with_payload, with_greenlets. simpl. f_equal.
      rewrite (insert_insert_ne _ target cur) by done.
      rewrite insert_insert_eq. reflexivity. }
    rewrite Heq.
    assert (Hcc : greenlets (payload_at_current target cur T0 C a s) !! cur
                  = Some (with_switch_args a C)) by apply lookup_insert_eq.
    erewrite bind_Ret; cycle 1.
    { eapply g_switchstack_current with (t := this_thread s);
        [exact Hcc| |exact Hts|exact Hcur|exact Hargs].
      unfold payload_at_current. simpl.
      rewrite thread_state_with_switch_args
        by (rewrite lookup_insert_ne; [exact Hc|done]).
      rewrite (thread_state_with_switch_args _ _ _ _ _ Ht).
      replace (thread_state (greenlets s) (with_switch_args a C))
        with (thread_state (greenlets s) C) by (by destruct C).
      exact Hthr. }
    reflexivity.
Qed.

End Degenerate.


(** ** The degenerate switch *)

Lemma deliver_fst_Some x kw :
  is_Some (single_result (fst (deliver (mkSwitchingArgs (Some x) kw)))).
Proof.
  assert (H : forall r, is_Some r -> is_Some (single_result r)).
  { intros r [y ->]. destruct y as [| | |[|? [|]]| |]; simpl; by eexists. }
  apply H. unfold deliver. simpl. destruct kw as [kw|]; [|by eexists].
  destruct (PyDict_Size kw =? 0); [by eexists|].
  destruct (PySequence_Length x =? 0); by eexists.
Qed.

Lemma GET_THREAD_STATE_Some s ts :
  threads s !! this_thread s = Some ts -> GET_THREAD_STATE s = Ret ts s.
Proof. unfold GET_THREAD_STATE. by intros ->. Qed.

Section DegenerateSwitch.

Variable ndebug : bool.
Variable realloc_ok : Z -> bool.
Variable getattr_run : gid -> M OwnedObject.
Variable call_trace : PyObject -> bool -> gid -> gid -> M unit.
Variables (fuel : nat) (mark stackref : Z).

(** X20. Degenerate switch.  Let [cur] be the greenlet running
    on the calling thread, with no trace hook installed, and let the
    target of a switch be [cur] itself, or a dead greenlet from which the
    walk up the parent links, past dead greenlets only, arrives at
    [cur].  Then
    - [green_switch] returns the payload (a 1-tuple unwrapped) to its
      caller;
    - [g_switch] entered with an error pending, which is how
      [throw] encodes an exception to raise, throws with that error
      still pending;
    - in both cases the final state is the initial one with the payload
      consumed: no stack switch is counted, the thread states, the C
      stack, and the stack and Python state of every greenlet are what
      they were. *)
Theorem X20_degenerate_switch target T0 cur C ts k kT s :
  threads s !! this_thread s = Some ts ->
  ts_current_greenlet ts = cur ->
  ts_tracefunc ts = None ->
  greenlets s !! cur = Some C ->
  active (stack_state C) = true ->
  thread_state (greenlets s) C = Some (this_thread s) ->
  greenlets s !! target = Some T0 ->
  target = cur \/ dead_chain (greenlets s) target cur k ->
  switch_allowed ndebug s target kT ->
  (kT < fuel)%nat -> (k < fuel)%nat ->
  (pyerr s = None -> forall args kwargs,
     green_switch ndebug realloc_ok getattr_run call_trace fuel mark stackref
       target args kwargs s =
     Ret (single_result (fst (deliver (mkSwitchingArgs (Some args) kwargs))))
       (payload_consumed target cur T0 C s)) /\
  (is_Some (pyerr s) -> forall a,
     g_switch ndebug realloc_ok getattr_run call_trace fuel mark stackref
       target (with_payload target T0 a s) =
     Throw PyErrOccurred (payload_consumed target cur T0 C s)) /\
  switches (payload_consumed target cur T0 C s) = switches s /\
  threads (payload_consumed target cur T0 C s) = threads s /\
  cstack (payload_consumed target cur T0 C s) = cstack s /\
  pyerr (payload_consumed target cur T0 C s) = pyerr s /\
  (forall g,
     with_switch_args SwitchingArgs_empty
       <$> (greenlets (payload_consumed target cur T0 C s) !! g) =
     with_switch_args SwitchingArgs_empty <$> (greenlets s !! g)).
Proof.
  intros Hts Hcur Htr Hc Hact Hthr Ht Hcase Hallowed HkT Hk.
  assert (Hcc : forall a, greenlets (payload_at_current target cur T0 C a s) !! cur
                = Some (with_switch_args a C)) by (intros; apply lookup_insert_eq).
  assert (Hthr' : forall a,
    thread_state (greenlets (payload_at_current target cur T0 C a s))
      (with_switch_args a C) = Some (this_thread s)).
  { intros a. unfold payload_at_current. simpl.
    destruct (decide (target = cur)) as [->|Hne].
    - rewrite insert_insert_eq. by rewrite thread_state_insert_args.
    - rewrite thread_state_with_switch_args
        by (rewrite lookup_insert_ne; [exact Hc|done]).
      rewrite (thread_state_with_switch_args _ _ _ _ _ Ht).
      replace (thread_state (greenlets s) (with_switch_args a C))
        with (thread_state (greenlets s) C) by (by destruct C).
      exact Hthr. }
  assert (Hdone : forall a,
    with_greenlets
      (<[cur := with_switch_args SwitchingArgs_empty (with_switch_args a C)]>
         (greenlets (payload_at_current target cur T0 C a s)))
      (payload_at_current target cur T0 C a s) =
    payload_consumed target cur T0 C s).
  { intros a. unfold payload_consumed, payload_at_current, with_greenlets. simpl.
    by rewrite insert_insert_eq. }
  split; [|split].
  - intros Herr args kwargs. unfold green_switch.
    rewrite (bind_Ret _ _ _ _ _ (update_Some _ _ _ _ Ht)).
    apply catch_Ret.
    erewrite bind_Ret; cycle 1.
    { fold (with_payload target T0 (mkSwitchingArgs (Some args) kwargs) s).
      erewrite g_switch_degenerate; try eassumption; [|by intros _].
      erewrite g_switch_finish_delivers;
        [|apply Hcc|apply Hthr'|exact Hts|exact Hcur|exact Htr|exact Herr
         |reflexivity|reflexivity|reflexivity].
      rewrite Hdone. reflexivity. }
    simpl.
    erewrite bind_Ret with (a := tt); cycle 1.
    { destruct ndebug eqn:Hnd; [reflexivity|].
      assert (Hself : exists T1, greenlets (payload_consumed target cur T0 C s) !! target
                        = Some T1 /\ switch_args T1 = SwitchingArgs_empty).
      { unfold payload_consumed, payload_at_current. simpl.
        destruct (decide (target = cur)) as [->|Hne].
        - rewrite lookup_insert_eq. by eexists.
        - rewrite lookup_insert_ne by done. rewrite lookup_insert_eq. by eexists. }
      destruct Hself as (T1 & HT1 & Hempty).
      rewrite (bind_Ret _ _ _ _ _ (deref_Some _ _ _ HT1)).
      rewrite Hempty. simpl. rewrite bind_ret.
      erewrite bind_Ret by (apply GET_THREAD_STATE_Some; exact Hts).
      rewrite Hcur.
      erewrite bind_Ret by (apply deref_Some; apply Hcc). reflexivity. }
    rewrite bind_get.
    destruct (deliver_fst_Some args kwargs) as [y Hy].
    rewrite Hy. reflexivity.
  - intros Herr a.
    erewrite g_switch_degenerate; try eassumption;
      [|intros _; rewrite (bool_decide_eq_true_2 _ Herr); apply orb_true_r].
    erewrite g_switch_finish_throws;
      [|apply Hcc|apply Hthr'|exact Hts|exact Hcur|exact Htr|exact Herr
       |reflexivity|reflexivity].
    by rewrite Hdone.
  - repeat split; try reflexivity.
    intros g. unfold payload_consumed, payload_at_current. simpl.
    destruct (decide (g = cur)) as [->|Hne1].
    + rewrite lookup_insert_eq, Hc. reflexivity.
    + rewrite lookup_insert_ne by done.
      destruct (decide (g = target)) as [->|Hne2].
      * rewrite lookup_insert_eq, Ht. reflexivity.
      * by rewrite lookup_insert_ne.
Qed.

End DegenerateSwitch.


Lemma X20_degenerate_switch_witness :
  green_switch false ex_realloc_ok ex_getattr_run ex_call_trace 3 850 800
    1%nat (PyTuple [PyInt 5]) None ex_dead_child =
  Ret (Some (PyInt 5)) (payload_consumed 1%nat 0%nat ex_ds_dead ex_dc_main ex_dead_child).
Proof.
  refine (proj1 (X20_degenerate_switch false ex_realloc_ok ex_getattr_run
            ex_call_trace 3 850 800 1%nat ex_ds_dead 0%nat ex_dc_main
            (mkThreadState 0%nat 0%nat None) 1 0 ex_dead_child
            _ _ _ _ _ _ _ _ _ _ _) eq_refl (PyTuple [PyInt 5]) None).
  - reflexivity.
  - reflexivity.
  - reflexivity.
  - reflexivity.
  - reflexivity.
  - reflexivity.
  - reflexivity.
  - right. eapply dead_chain_parent; reflexivity.
  - exists (mkThreadState 0%nat 0%nat None), ex_dc_main.
    split; [reflexivity|]. split.
    { eapply lineage_main_started; try reflexivity. intros _. by eexists. }
    split; [reflexivity|]. split; by eexists.
  - lia.
  - lia.
Defined.

(** C5. Degenerate switch.  A switch to a dead greenlet is not always
    the call that just returns its arguments, which is also what the
    docstring of [green_switch] promises ("If the greenlet is dead, or
    is the current greenlet then this function will simply return the
    arguments"): greenlet 2, running, switches to its dead sibling 1;
    [g_switch] walks up to their parent and the call switches stacks,
    once, to the main greenlet 0, which becomes the running greenlet
    and receives the payload. *)
Lemma C5_dead_sibling_switch_pivots :
  greenlets ex_dead_sibling !! 1%nat = Some ex_ds_dead /\
  is_dead ex_ds_dead = true /\
  ts_current_greenlet <$> (threads ex_dead_sibling !! 0%nat) = Some 2%nat /\
  switches ex_dead_sibling = 0%nat /\
  (exists s',
     green_switch false ex_realloc_ok ex_getattr_run ex_call_trace 3 850 800
       1%nat (PyTuple [PyInt 5]) None ex_dead_sibling = Ret (Some (PyInt 5)) s' /\
     switches s' = 1%nat /\
     ts_current_greenlet <$> (threads s' !! 0%nat) = Some 0%nat) /\
  ~ switch_is_noop false ex_realloc_ok ex_getattr_run ex_call_trace 3 850 800
      1%nat (PyTuple [PyInt 5]) None ex_dead_sibling.
Proof.
  split; [reflexivity|]. split; [reflexivity|]. split; [reflexivity|].
  split; [reflexivity|]. split.
  - eexists. split; [|split]; vm_compute; reflexivity.
  - intros (s' & Hrun & Hsw & _).
    assert (E : switches <$> out_state
                  (green_switch false ex_realloc_ok ex_getattr_run ex_call_trace
                     3 850 800 1%nat (PyTuple [PyInt 5]) None ex_dead_sibling)
                = Some 1%nat) by (vm_compute; reflexivity).
    rewrite Hrun in E. simpl in E. rewrite Hsw in E. discriminate E.
Qed.


(** ** Saving stacks to the heap *)

Lemma same_frame_refl G : same_frame G G.
Proof. by repeat split. Qed.

Lemma same_frame_trans G1 G2 G3 :
  same_frame G1 G2 -> same_frame G2 G3 -> same_frame G1 G3.
Proof.
  intros (H1 & H2 & H3 & H4 & H5 & H6 & H7) (K1 & K2 & K3 & K4 & K5 & K6 & K7).
  repeat split; try congruence.
  intros Hin. rewrite K7; [by apply H7|].
  unfold active in *. by rewrite H4.
Qed.

Lemma saved_more_refl gs : saved_more gs gs.
Proof. intros g. destruct (gs !! g); [apply same_frame_refl|exact I]. Qed.

Lemma saved_more_trans gs1 gs2 gs3 :
  saved_more gs1 gs2 -> saved_more gs2 gs3 -> saved_more gs1 gs3.
Proof.
  intros H12 H23 g. specialize (H12 g). specialize (H23 g).
  destruct (gs1 !! g), (gs2 !! g), (gs3 !! g); try done.
  by eapply same_frame_trans.
Qed.

Lemma saved_more_lookup gs gs' g G :
  saved_more gs gs' -> gs !! g = Some G ->
  exists G', gs' !! g = Some G' /\ same_frame G G'.
Proof.
  intros H Hg. specialize (H g). rewrite Hg in H.
  destruct (gs' !! g) as [G'|]; [|done]. by exists G'.
Qed.

Lemma saved_more_lookup_inv gs gs' g G' :
  saved_more gs gs' -> gs' !! g = Some G' ->
  exists G, gs !! g = Some G /\ same_frame G G'.
Proof.
  intros H Hg. specialize (H g). rewrite Hg in H.
  destruct (gs !! g) as [G|]; [|done]. by exists G.
Qed.

Lemma saved_more_insert gs g G G' :
  gs !! g = Some G -> same_frame G G' -> saved_more gs (<[g := G']> gs).
Proof.
  intros Hg Hf x. destruct (decide (g = x)) as [->|Hne].
  - by rewrite lookup_insert_eq, Hg.
  - rewrite lookup_insert_ne by done.
    destruct (gs !! x); [apply same_frame_refl|exact I].
Qed.

Lemma saved_more_owner_chain gs gs' o l :
  saved_more gs gs' -> owner_chain gs o l -> owner_chain gs' o l.
Proof.
  intros H Hc. eapply owner_chain_ext; [exact Hc|].
  intros g G _ Hg. destruct (saved_more_lookup _ _ _ _ H Hg) as (G' & Hg' & Hf).
  exists G'. split; [exact Hg'|]. apply Hf.
Qed.

Lemma saved_more_stop_of gs gs' g :
  saved_more gs gs' -> stop_of gs' g = stop_of gs g.
Proof.
  intros H. unfold stop_of. specialize (H g).
  destruct (gs !! g), (gs' !! g); try done. apply H.
Qed.

Lemma length_read_stack m a n : length (read_stack m a n) = n.
Proof. unfold read_stack. by rewrite length_map, length_seq. Qed.

Lemma with_greenlets_id s : with_greenlets (greenlets s) s = s.
Proof. by destruct s. Qed.

Section Saving.

Variable ndebug : bool.
Variable realloc_ok : Z -> bool.
Hypothesis realloc_succeeds : forall n, realloc_ok n = true.

(** [copy_stack_to_heap_up_to] on a running greenlet succeeds, and only
    adds to what that greenlet has saved. *)
Lemma copy_stack_to_heap_up_to_ok g G stop s :
  greenlets s !! g = Some G ->
  active (stack_state G) = true ->
  all_heap_ok (greenlets s) ->
  exists gs',
    copy_stack_to_heap_up_to ndebug realloc_ok g stop s
    = Ret 0 (with_greenlets gs' s) /\
    saved_more (greenlets s) gs' /\ all_heap_ok gs'.
Proof.
  intros Hg Hact Hheap. unfold copy_stack_to_heap_up_to.
  rewrite (bind_Ret _ _ _ _ _ (deref_Some _ _ _ Hg)).
  erewrite bind_Ret by (apply assert_holds; intros _; exact Hact).
  set (ss := stack_state G). set (sz1 := _stack_saved ss).
  set (sz2 := intptr (stop - _stack_start ss)).
  destruct (sz2 >? sz1) eqn:Hgt.
  - apply Z.gtb_lt in Hgt. rewrite realloc_succeeds. rewrite bind_get.
    rewrite (bind_Ret _ _ _ _ _ (update_stack_Some _ _ _ _ Hg)).
    eexists. split; [reflexivity|]. split.
    + apply saved_more_insert with (G := G); [exact Hg|].
      repeat split. intros Hin. congruence.
    + intros x X Hx. destruct (decide (g = x)) as [->|Hne].
      * rewrite lookup_insert_eq in Hx. injection Hx as <-. simpl.
        destruct (Hheap _ _ Hg) as [Hpos _]. fold ss sz1 in Hpos.
        unfold heap_ok. simpl. split; [lia|]. split; [|lia].
        intros _. eexists. split; [reflexivity|].
        rewrite length_app, length_take, length_resize, length_read_stack. lia.
      * rewrite lookup_insert_ne in Hx by done. by eapply Hheap.
  - exists (greenlets s). rewrite with_greenlets_id.
    split; [reflexivity|]. split; [apply saved_more_refl|exact Hheap].
Qed.

End Saving.


Lemma saved_more_all_active gs gs' l :
  saved_more gs gs' -> all_active gs l -> all_active gs' l.
Proof.
  intros H Ha g Hin. destruct (Ha g Hin) as (G & Hg & Hact).
  destruct (saved_more_lookup _ _ _ _ H Hg) as (G' & Hg' & Hf).
  exists G'. split; [exact Hg'|].
  destruct Hf as (_ & _ & _ & Hs & _). unfold active in *. by rewrite Hs.
Qed.

Section SavingOwners.

Variable ndebug : bool.
Variable realloc_ok : Z -> bool.
Hypothesis realloc_succeeds : forall n, realloc_ok n = true.

(** The loop of [copy_stack_to_heap] over a chain of running owners, one
    of which reaches up to [target_stop]. *)
Lemma copy_owners_to_heap_ok l :
  forall fuel this target_stop o s,
    owner_chain (greenlets s) o l ->
    all_active (greenlets s) l ->
    Exists (fun g => target_stop <= stop_of (greenlets s) g) l ->
    all_heap_ok (greenlets s) ->
    (length l < fuel)%nat ->
    exists gs',
      copy_owners_to_heap ndebug realloc_ok fuel this target_stop o s
      = Ret 0 (with_greenlets gs' s) /\
      saved_more (greenlets s) gs' /\ all_heap_ok gs'.
Proof.
  induction l as [|a l IH]; intros fuel this target_stop o s Hc Hact Hex Hheap Hfuel.
  - inversion Hex.
  - inversion Hc as [|a' G l' Ha Hc' Ho Hl]; subst.
    destruct fuel as [|fuel]; [simpl in Hfuel; lia|]. simpl.
    rewrite bind_ret. rewrite (bind_Ret _ _ _ _ _ (deref_Some _ _ _ Ha)).
    assert (HactG : active (stack_state G) = true).
    { destruct (Hact a) as (G0 & HG0 & HactG); [left|]. congruence. }
    destruct (stack_stop (stack_state G) <? target_stop) eqn:Hlt.
    + apply Z.ltb_lt in Hlt.
      destruct (copy_stack_to_heap_up_to_ok ndebug realloc_ok realloc_succeeds
                  a G (stack_stop (stack_state G)) s Ha HactG Hheap)
        as (gs1 & Hrun1 & Hmore1 & Hheap1).
      rewrite (bind_Ret _ _ _ _ _ Hrun1). simpl.
      destruct (IH fuel this target_stop (stack_prev (stack_state G))
                  (with_greenlets gs1 s)) as (gs2 & Hrun2 & Hmore2 & Hheap2).
      * simpl. by eapply saved_more_owner_chain.
      * simpl. eapply saved_more_all_active; [exact Hmore1|].
        intros g Hin. apply Hact. by right.
      * simpl. apply Exists_cons in Hex as [Hhd|Htl].
        { unfold stop_of in Hhd. rewrite Ha in Hhd. lia. }
        eapply Exists_impl; [exact Htl|]. intros x Hx. simpl.
        by rewrite (saved_more_stop_of _ _ _ Hmore1).
      * exact Hheap1.
      * simpl in Hfuel. lia.
      * exists gs2. split; [exact Hrun2|]. split; [|exact Hheap2].
        by eapply saved_more_trans.
    + destruct (Nat.eqb a this).
      * exists (greenlets s). rewrite with_greenlets_id.
        split; [reflexivity|]. split; [apply saved_more_refl|exact Hheap].
      * simpl.
        destruct (copy_stack_to_heap_up_to_ok ndebug realloc_ok realloc_succeeds
                    a G target_stop s Ha HactG Hheap)
          as (gs1 & Hrun1 & Hmore1 & Hheap1).
        rewrite (bind_Ret _ _ _ _ _ Hrun1). simpl. by exists gs1.
Qed.

End SavingOwners.


(** ** The chain of the running greenlet *)

Lemma stop_of_ext gs gs' :
  (forall g, stack_stop <$> (stack_state <$> gs' !! g)
             = stack_stop <$> (stack_state <$> gs !! g)) ->
  forall g, is_Some (gs !! g) -> stop_of gs' g = stop_of gs g.
Proof.
  intros H g [G Hg]. specialize (H g). unfold stop_of. rewrite Hg in *.
  destruct (gs' !! g); simpl in H; [by injection H|discriminate].
Qed.

Lemma chain_sorted_ext gs gs' l :
  (forall g, g ∈ l -> stop_of gs' g = stop_of gs g) ->
  chain_sorted gs l -> chain_sorted gs' l.
Proof.
  induction l as [|x l IH]; intros Hs; [done|]. simpl. intros [Hx Hl].
  split.
  - rewrite Forall_forall in *. intros y Hy.
    rewrite !Hs; [by apply Hx|by right|by left].
  - apply IH; [|exact Hl]. intros g Hg. apply Hs. by right.
Qed.

Lemma owner_chain_head gs o l : owner_chain gs o l -> o = head l.
Proof. by destruct 1. Qed.

Lemma owner_chain_lookup gs o l g :
  owner_chain gs o l -> g ∈ l -> is_Some (gs !! g).
Proof.
  induction 1 as [|x X l Hx Hc IH]; intros Hin; [by apply elem_of_nil in Hin|].
  apply elem_of_cons in Hin as [->|Hin]; [by eexists|by apply IH].
Qed.

Lemma owner_chain_suffix gs o skipped rest :
  owner_chain gs o (skipped ++ rest) -> owner_chain gs (head rest) rest.
Proof.
  revert o. induction skipped as [|x sk IH]; intros o Hc; simpl in Hc.
  - by rewrite <- (owner_chain_head _ _ _ Hc).
  - inversion Hc; subst. by eapply IH.
Qed.

Lemma chain_sorted_suffix gs skipped rest :
  chain_sorted gs (skipped ++ rest) -> chain_sorted gs rest.
Proof. induction skipped as [|x sk IH]; simpl; [done|]. intros [_ H]. by apply IH. Qed.

Lemma chain_ok_head_active gs cur l :
  chain_ok gs (Some cur) l ->
  exists C, gs !! cur = Some C /\ active (stack_state C) = true.
Proof.
  intros [Hlinks Hact _ _]. apply Hact. inversion Hlinks; subst. by left.
Qed.

Section SavingCurrent.

Variable ndebug : bool.
Variable realloc_ok : Z -> bool.
Hypothesis realloc_succeeds : forall n, realloc_ok n = true.

Lemma suspended_at_same_frame gs A A0 stackref x X :
  gs !! A = Some A0 ->
  gs !! x = Some X ->
  exists X', suspended_at stackref A A0 gs !! x = Some X' /\
    switch_args X' = switch_args X /\ python_state X' = python_state X /\
    kind X' = kind X /\
    stack_stop (stack_state X') = stack_stop (stack_state X) /\
    stack_prev (stack_state X') = stack_prev (stack_state X) /\
    stack_copy (stack_state X') = stack_copy (stack_state X) /\
    _stack_saved (stack_state X') = _stack_saved (stack_state X) /\
    (stackref <> 0 -> active (stack_state X') = active (stack_state X)) /\
    (x <> A -> X' = X) /\
    (active (stack_state X) = false -> X' = X).
Proof.
  intros HA Hx. unfold suspended_at.
  destruct (active (stack_state A0)) eqn:Hact; [|exists X; by repeat split].
  destruct (decide (A = x)) as [<-|Hne].
  - rewrite HA in Hx. injection Hx as <-. eexists.
    rewrite lookup_insert_eq. split; [reflexivity|]. repeat split; simpl.
    + intros Href. rewrite Hact. unfold active. simpl.
      by apply negb_true_iff, Z.eqb_neq.
    + congruence.
    + congruence.
  - exists X. rewrite lookup_insert_ne by done. by repeat split.
Qed.

Lemma suspended_at_chain_ok gs A A0 o l stackref :
  gs !! A = Some A0 -> stackref <> 0 ->
  chain_ok gs o l -> chain_ok (suspended_at stackref A A0 gs) o l.
Proof.
  intros HA Href [Hlinks Hact Hsorted Htop].
  assert (Hstop0 : forall g, g ∈ l ->
            stop_of (suspended_at stackref A A0 gs) g = stop_of gs g).
  { intros g Hg. destruct (owner_chain_lookup _ _ _ _ Hlinks Hg) as [G HG].
    destruct (suspended_at_same_frame gs A A0 stackref g G HA HG)
      as (G' & HG' & _ & _ & _ & Hs & _).
    unfold stop_of. by rewrite HG', HG. }
  constructor.
  - eapply owner_chain_ext; [exact Hlinks|]. intros g G _ HG.
    destruct (suspended_at_same_frame gs A A0 stackref g G HA HG)
      as (G' & HG' & _ & _ & _ & _ & Hp & _).
    by exists G'.
  - intros g Hin. destruct (Hact g Hin) as (G & HG & HactG).
    destruct (suspended_at_same_frame gs A A0 stackref g G HA HG)
      as (G' & HG' & _ & _ & _ & _ & _ & _ & _ & Ha & _).
    exists G'. split; [exact HG'|]. by rewrite Ha.
  - by eapply chain_sorted_ext.
  - apply Exists_exists in Htop as (m & Hm & Hmstop).
    apply Exists_exists. exists m. split; [exact Hm|]. by rewrite Hstop0.
Qed.

Lemma suspended_at_heap_ok gs A A0 stackref :
  gs !! A = Some A0 ->
  all_heap_ok gs -> all_heap_ok (suspended_at stackref A A0 gs).
Proof.
  intros HA Hheap g G' Hg. unfold suspended_at in Hg.
  destruct (active (stack_state A0)); [|by eapply Hheap].
  destruct (decide (A = g)) as [<-|Hne].
  - rewrite lookup_insert_eq in Hg. injection Hg as <-. exact (Hheap _ _ HA).
  - rewrite lookup_insert_ne in Hg by done. by eapply Hheap.
Qed.

(** [copy_stack_to_heap]: the running greenlet [A] is suspended at
    [stackref], unless it is dying, and the owners of the stack below
    the [stack_stop] of the target are saved. *)
Lemma copy_stack_to_heap_ok fuel T T0 A A0 l stackref s :
  greenlets s !! T = Some T0 ->
  greenlets s !! A = Some A0 ->
  _stack_saved (stack_state A0) = 0 ->
  chain_ok (greenlets s) (first_owner A A0) l ->
  all_heap_ok (greenlets s) ->
  stack_stop (stack_state T0) <= ADDR_MAX ->
  stackref <> 0 ->
  (length l < fuel)%nat ->
  exists gs',
    copy_stack_to_heap ndebug realloc_ok fuel T stackref A s
    = Ret 0 (with_greenlets gs' s) /\
    saved_more (suspended_at stackref A A0 (greenlets s)) gs' /\
    all_heap_ok gs'.
Proof.
  intros HT HA Hsaved Hchain Hheap Hstop Href Hfuel.
  unfold copy_stack_to_heap.
  rewrite (bind_Ret _ _ _ _ _ (deref_Some _ _ _ HT)).
  rewrite (bind_Ret _ _ _ _ _ (deref_Some _ _ _ HA)).
  erewrite bind_Ret
    by (apply assert_holds; intros _; rewrite Hsaved; reflexivity).
  set (gs0 := suspended_at stackref A A0 (greenlets s)).
  assert (Hchain0 : chain_ok gs0 (first_owner A A0) l)
    by (by apply suspended_at_chain_ok).
  assert (Hheap0 : all_heap_ok gs0) by (by apply suspended_at_heap_ok).
  assert (Hfirst :
    (if negb (active (stack_state A0))
     then ret (stack_prev (stack_state A0))
     else update_stack A (with_stack_start stackref) ;;; ret (Some A)) s
    = Ret (first_owner A A0) (with_greenlets gs0 s)).
  { unfold gs0, suspended_at, first_owner.
    destruct (active (stack_state A0)); simpl.
    - by rewrite (bind_Ret _ _ _ _ _ (update_stack_Some _ _ _ _ HA)).
    - by rewrite with_greenlets_id. }
  rewrite (bind_Ret _ _ _ _ _ Hfirst).
  destruct Hchain0 as [Hlinks0 Hact0 _ Htop0].
  apply (copy_owners_to_heap_ok ndebug realloc_ok realloc_succeeds l fuel T
           (stack_stop (stack_state T0)) (first_owner A A0)
           (with_greenlets gs0 s)); try assumption.
  eapply Exists_impl; [exact Htop0|]. intros g Hg. simpl in *. lia.
Qed.

End SavingCurrent.


(** ** What a stack switch keeps *)

Lemma frame_kept_refl G : frame_kept G G.
Proof. by repeat split. Qed.

Lemma frame_kept_trans G1 G2 G3 :
  frame_kept G1 G2 -> frame_kept G2 G3 -> frame_kept G1 G3.
Proof.
  intros (H3 & H4 & H5 & H6) (K3 & K4 & K5 & K6).
  repeat split; try congruence.
  intros Hin. rewrite K6; [by apply H6|]. by rewrite H5.
Qed.

Lemma same_frame_kept G G' : same_frame G G' -> frame_kept G G'.
Proof.
  intros (H1 & H2 & H3 & H4 & H5 & H6 & H7). repeat split; try assumption.
  - unfold active. by rewrite H4.
  - intros Hin. by rewrite H7.
Qed.

Lemma frames_kept_refl gs : frames_kept gs gs.
Proof. intros g. destruct (gs !! g); [apply frame_kept_refl|exact I]. Qed.

Lemma frames_kept_trans gs1 gs2 gs3 :
  frames_kept gs1 gs2 -> frames_kept gs2 gs3 -> frames_kept gs1 gs3.
Proof.
  intros H12 H23 g. specialize (H12 g). specialize (H23 g).
  destruct (gs1 !! g), (gs2 !! g), (gs3 !! g); try done.
  by eapply frame_kept_trans.
Qed.

Lemma saved_more_frames_kept gs gs' : saved_more gs gs' -> frames_kept gs gs'.
Proof.
  intros H g. specialize (H g).
  destruct (gs !! g), (gs' !! g); try done. by apply same_frame_kept.
Qed.

Lemma frames_kept_insert gs g G G' :
  gs !! g = Some G -> frame_kept G G' -> frames_kept gs (<[g := G']> gs).
Proof.
  intros Hg Hf x. destruct (decide (g = x)) as [->|Hne].
  - by rewrite lookup_insert_eq, Hg.
  - rewrite lookup_insert_ne by done.
    destruct (gs !! x); [apply frame_kept_refl|exact I].
Qed.

Lemma frames_kept_lookup gs gs' g G :
  frames_kept gs gs' -> gs !! g = Some G ->
  exists G', gs' !! g = Some G' /\ frame_kept G G'.
Proof.
  intros H Hg. specialize (H g). rewrite Hg in H.
  destruct (gs' !! g) as [G'|]; [|done]. by exists G'.
Qed.

Lemma frames_kept_kinds gs gs' g :
  frames_kept gs gs' -> kind <$> (gs' !! g) = kind <$> (gs !! g).
Proof.
  intros H. specialize (H g). destruct (gs !! g), (gs' !! g); try done.
  simpl. f_equal. apply H.
Qed.

Lemma thread_state_kinds gs gs' G G' :
  (forall g, kind <$> (gs' !! g) = kind <$> (gs !! g)) ->
  kind G' = kind G ->
  thread_state gs' G' = thread_state gs G.
Proof.
  intros Hk HG. unfold thread_state. rewrite HG.
  destruct (kind G) as [|p [m|] r]; try reflexivity.
  specialize (Hk m).
  destruct (gs !! m) as [[? ? ? k]|], (gs' !! m) as [[? ? ? k']|];
    simpl in Hk; try discriminate; [|reflexivity].
  injection Hk as ->. reflexivity.
Qed.

Lemma frames_kept_thread_state gs gs' G G' :
  frames_kept gs gs' -> frame_kept G G' ->
  thread_state gs' G' = thread_state gs G.
Proof.
  intros H HG. apply thread_state_kinds; [|apply HG].
  intros g. by apply frames_kept_kinds.
Qed.

Lemma frames_kept_stop_of gs gs' g :
  frames_kept gs gs' -> stop_of gs' g = stop_of gs g.
Proof.
  intros H. unfold stop_of. specialize (H g).
  destruct (gs !! g), (gs' !! g); try done. apply H.
Qed.


Lemma suspended_at_frames_kept gs A A0 stackref :
  gs !! A = Some A0 -> stackref <> 0 ->
  frames_kept gs (suspended_at stackref A A0 gs).
Proof.
  intros HA Href x. destruct (gs !! x) as [X|] eqn:HX.
  - destruct (suspended_at_same_frame gs A A0 stackref x X HA HX)
      as (X' & HX' & _ & _ & Hk & Hs & _ & _ & _ & Ha & _ & Hin).
    rewrite HX'. repeat split; try assumption; [by apply Ha|].
    intros Hinact. by rewrite (Hin Hinact).
  - unfold suspended_at. destruct (active (stack_state A0)); [|by rewrite HX].
    rewrite lookup_insert_ne; [by rewrite HX|]. intros <-. congruence.
Qed.

Lemma args_kept_refl gs : args_kept gs gs.
Proof. by intros g. Qed.

Lemma args_kept_trans gs1 gs2 gs3 :
  args_kept gs1 gs2 -> args_kept gs2 gs3 -> args_kept gs1 gs3.
Proof. intros H12 H23 g. by rewrite H23, H12. Qed.

Lemma args_kept_insert gs g G G' :
  gs !! g = Some G -> switch_args G' = switch_args G ->
  args_kept gs (<[g := G']> gs).
Proof.
  intros Hg Ha x. destruct (decide (g = x)) as [->|Hne].
  - rewrite lookup_insert_eq, Hg. simpl. by rewrite Ha.
  - by rewrite lookup_insert_ne.
Qed.

Lemma saved_more_args_kept gs gs' : saved_more gs gs' -> args_kept gs gs'.
Proof.
  intros H g. specialize (H g).
  destruct (gs !! g), (gs' !! g); try done. simpl. f_equal. apply H.
Qed.

Lemma suspended_at_args_kept gs A A0 stackref :
  gs !! A = Some A0 -> args_kept gs (suspended_at stackref A A0 gs).
Proof.
  intros HA. unfold suspended_at. destruct (active (stack_state A0)).
  - by apply args_kept_insert with (G := A0).
  - apply args_kept_refl.
Qed.

Lemma args_kept_lookup gs gs' g G :
  args_kept gs gs' -> gs !! g = Some G ->
  exists G', gs' !! g = Some G' /\ switch_args G' = switch_args G.
Proof.
  intros H Hg. specialize (H g). rewrite Hg in H.
  destruct (gs' !! g) as [G'|]; simpl in H; [|discriminate].
  exists G'. split; [reflexivity|]. by injection H.
Qed.

Section Pivot.

Variable ndebug : bool.
Variable realloc_ok : Z -> bool.
Hypothesis realloc_succeeds : forall n, realloc_ok n = true.

(** The pivot into a suspended greenlet [T], from the running greenlet
    [A]: it answers [0], the stack of the thread is now the chain of
    [T], and every greenlet is what it was but for its stack
    bookkeeping. *)
Lemma slp_switch_active fuel stackref T T0 A A0 t ts l s :
  switching_thread_state s = Some T ->
  greenlets s !! T = Some T0 ->
  active (stack_state T0) = true ->
  T <> A ->
  thread_state (greenlets s) T0 = Some t ->
  threads s !! t = Some ts ->
  ts_current_greenlet ts = A ->
  greenlets s !! A = Some A0 ->
  _stack_saved (stack_state A0) = 0 ->
  chain_ok (greenlets s) (first_owner A A0) l ->
  all_heap_ok (greenlets s) ->
  stack_stop (stack_state T0) <= ADDR_MAX ->
  stackref <> 0 ->
  (length l < fuel)%nat ->
  exists s' T' l',
    slp_switch ndebug realloc_ok fuel stackref s = Ret 0 s' /\
    same_registers s s' /\
    switches s' = S (switches s) /\
    frames_kept (greenlets s) (greenlets s') /\
    all_heap_ok (greenlets s') /\
    greenlets s' !! T = Some T' /\
    switch_args T' = switch_args T0 /\
    _stack_saved (stack_state T') = 0 /\
    chain_ok (greenlets s') (Some T) l' /\
    (length l' <= S (length l))%nat /\
    args_kept (greenlets s) (greenlets s').
Proof.
  intros Hsw HT HactT Hne Hthr Hts Hcur HA Hsaved Hchain Hheap Hstop Href Hfuel.
  unfold slp_switch. rewrite bind_get, Hsw. simpl. rewrite bind_ret.
  rewrite (bind_Ret _ _ _ _ _ (deref_thread_state_Some _ _ _ _ _ HT Hthr Hts)).
  simpl. rewrite Hcur.
  destruct (copy_stack_to_heap_ok ndebug realloc_ok realloc_succeeds fuel
              T T0 A A0 l stackref s HT HA Hsaved Hchain Hheap Hstop Href Hfuel)
    as (gs1 & Hrun1 & Hmore1 & Hheap1).
  rewrite (bind_Ret _ _ _ _ _ Hrun1). simpl. rewrite bind_modify.
  set (gs0 := suspended_at stackref A A0 (greenlets s)) in *.
  set (s2 := with_switches (S (switches (with_greenlets gs1 s)))
               (with_greenlets gs1 s)).
  (* from the store [gs] to [gs0], where [A] is suspended *)
  assert (Hchain0 : chain_ok gs0 (first_owner A A0) l)
    by (by apply suspended_at_chain_ok).
  destruct Hchain as [Hlinks Hact Hsorted Htop].
  assert (Hkept0 : frames_kept (greenlets s) gs0)
    by (by apply suspended_at_frames_kept).
  assert (Hkept1 : frames_kept (greenlets s) gs1).
  { eapply frames_kept_trans; [exact Hkept0|]. by apply saved_more_frames_kept. }
  assert (Hlinks1 : owner_chain gs1 (first_owner A A0) l).
  { eapply saved_more_owner_chain; [exact Hmore1|]. by destruct Hchain0. }
  (* the target in the store [gs1] *)
  assert (HT0 : gs0 !! T = Some T0).
  { destruct (suspended_at_same_frame _ A A0 stackref T T0 HA HT)
      as (T0' & HT0' & _ & _ & _ & _ & _ & _ & _ & _ & Hsame & _).
    by rewrite <- (Hsame Hne). }
  destruct (saved_more_lookup _ _ _ _ Hmore1 HT0) as (T1 & HT1 & HfT).
  assert (HT1k : frame_kept T0 T1) by (by apply same_frame_kept).
  destruct HT1k as (HkindT & HstopT & HactT1 & _).
  rewrite (bind_Ret _ _ _ _ _ (deref_Some _ s2 _ HT1)).
  rewrite HactT1, HactT. simpl.
  assert (Hthr1 : thread_state gs1 T1 = Some t).
  { rewrite <- Hthr. apply frames_kept_thread_state; [exact Hkept1|].
    by apply same_frame_kept. }
  rewrite (bind_Ret _ _ _ _ _
             (deref_thread_state_Some _ _ _ _ s2 HT1 Hthr1 Hts)).
  simpl. rewrite Hcur.
  (* the running greenlet in the store [gs1] *)
  destruct (suspended_at_same_frame _ A A0 stackref A A0 HA HA)
    as (A0' & HA0 & _ & _ & _ & _ & HprevA0 & _ & _ & HactA0 & _).
  destruct (saved_more_lookup _ _ _ _ Hmore1 HA0) as (A1 & HA1 & HfA).
  assert (HfirstA1 : first_owner A A1 = first_owner A A0).
  { destruct HfA as (_ & _ & _ & Hs & _ & Hp & _). unfold first_owner, active.
    rewrite Hs, Hp, HprevA0. fold (active (stack_state A0')).
    by rewrite (HactA0 Href). }
  destruct (copy_heap_to_stack_spec fuel T A s2 T1 A1 l HT1 HA1)
    as (s3 & Hrun3 & [_ _ _ (sk & rest & Hl & Hsk & Hrest & Hgs3) Hreg]).
  { by destruct (Hheap1 _ _ HT1). }
  { by destruct (Hheap1 _ _ HT1) as (_ & Hbuf & _). }
  { fold (first_owner A A1). by rewrite HfirstA1. }
  { exact Hfuel. }
  rewrite (bind_Ret _ _ _ _ _ Hrun3).
  set (T3 := with_stack_state (restored_state (stack_state T1) (head rest)) T1)
    in *.
  assert (HsaveT3 : _stack_saved (stack_state T3) = 0).
  { unfold T3, restored_state. simpl.
    destruct (_stack_saved (stack_state T1) =? 0) eqn:Hz; simpl;
      [by apply Z.eqb_eq|reflexivity]. }
  assert (HfT3 : frame_kept T1 T3).
  { unfold T3, restored_state. repeat split; simpl.
    - by destruct (_stack_saved (stack_state T1) =? 0).
    - unfold active. by destruct (_stack_saved (stack_state T1) =? 0).
    - rewrite HactT1, HactT. discriminate. }
  assert (HargsT3 : switch_args T3 = switch_args T0)
    by (unfold T3; simpl; apply HfT).
  assert (Hkept3 : frames_kept (greenlets s) (greenlets s3)).
  { rewrite Hgs3. eapply frames_kept_trans; [exact Hkept1|].
    by apply frames_kept_insert with (G := T1). }
  (* the stops of the stores agree *)
  assert (Hstop1 : forall g, stop_of (greenlets s2) g = stop_of (greenlets s) g)
    by (intros g; by apply frames_kept_stop_of).
  assert (Hstop3 : forall g, stop_of (greenlets s3) g = stop_of (greenlets s) g)
    by (intros g; by apply frames_kept_stop_of).
  assert (Hsorted_rest : chain_sorted (greenlets s) rest)
    by (rewrite Hl in Hsorted; by eapply chain_sorted_suffix).
  assert (Habove : Forall (fun g => stack_stop (stack_state T0) < stop_of (greenlets s) g)
                     rest).
  { destruct rest as [|r rest']; [constructor|].
    rewrite Hstop1, HstopT in Hrest. constructor; [exact Hrest|].
    destruct Hsorted_rest as [Hr _].
    eapply Forall_impl; [exact Hr|]. intros x Hx. simpl in Hx. lia. }
  assert (Hrest_ne : forall g, g ∈ rest -> g <> T).
  { intros g Hin ->. rewrite Forall_forall in Habove.
    specialize (Habove T Hin). unfold stop_of in Habove. rewrite HT in Habove.
    lia. }
  exists s3, T3, (T :: rest).
  split; [reflexivity|].
  destruct Hreg as (Hr1 & Hr2 & Hr3 & Hr4 & Hr5 & Hr6 & Hr7).
  split; [by repeat split|].
  split; [exact Hr7|].
  split; [exact Hkept3|].
  split.
  { rewrite Hgs3. intros g G Hg. destruct (decide (T = g)) as [<-|HneT].
    - rewrite lookup_insert_eq in Hg. injection Hg as <-.
      split; [lia|]. split; [intros Hnz; by rewrite HsaveT3 in Hnz|].
      intros _. unfold T3, restored_state. simpl.
      destruct (_stack_saved (stack_state T1) =? 0) eqn:Hz; [|reflexivity].
      simpl. apply Z.eqb_eq in Hz. by apply (Hheap1 _ _ HT1).
    - rewrite lookup_insert_ne in Hg by done. by eapply Hheap1. }
  split; [rewrite Hgs3; apply lookup_insert_eq|].
  split; [exact HargsT3|].
  split; [exact HsaveT3|].
  split; [|split; [rewrite Hl, length_app; simpl; lia|]]; cycle 1.
  { rewrite Hgs3.
    eapply args_kept_trans; [by apply suspended_at_args_kept|].
    eapply args_kept_trans; [by apply saved_more_args_kept|].
    apply args_kept_insert with (G := T1); [exact HT1|reflexivity]. }
  constructor.
  - econstructor; [rewrite Hgs3; apply lookup_insert_eq|].
    replace (stack_prev (stack_state T3)) with (head rest) by reflexivity.
    eapply owner_chain_ext.
    { apply (owner_chain_suffix gs1 (first_owner A A0) sk rest).
      by rewrite <- Hl. }
    intros g G Hin Hg. exists G. split; [|reflexivity].
    rewrite Hgs3, lookup_insert_ne; [exact Hg|].
    intros <-. by apply (Hrest_ne T Hin).
  - intros g Hin. apply elem_of_cons in Hin as [->|Hin].
    + exists T3. split; [rewrite Hgs3; apply lookup_insert_eq|].
      destruct HfT3 as (_ & _ & Ha3 & _). by rewrite Ha3, HactT1.
    + destruct (Hact g) as (G & HG & HactG).
      { rewrite Hl. apply elem_of_app. by right. }
      destruct (frames_kept_lookup _ _ _ _ Hkept3 HG) as (G' & HG' & HfG).
      exists G'. split; [exact HG'|].
      destruct HfG as (_ & _ & Ha & _). by rewrite Ha.
  - simpl. split.
    + eapply Forall_impl; [exact Habove|]. intros x Hx. simpl in Hx.
      rewrite !Hstop3. unfold stop_of at 1. rewrite HT. exact Hx.
    + eapply chain_sorted_ext; [|exact Hsorted_rest]. intros g _. apply Hstop3.
  - destruct (decide (stack_stop (stack_state T0) = ADDR_MAX)) as [Hmax|Hnmax].
    + apply Exists_cons_hd. rewrite Hstop3. unfold stop_of. by rewrite HT.
    + apply Exists_cons_tl. rewrite Hl in Htop.
      apply Exists_app in Htop as [Hin_sk|Hin_rest].
      * exfalso. apply Exists_exists in Hin_sk as (m & Hm & Hmstop).
        rewrite Forall_forall in Hsk. specialize (Hsk m Hm).
        rewrite Hstop1, HstopT in Hsk. lia.
      * eapply Exists_impl; [exact Hin_rest|]. intros x Hx. simpl in Hx.
        by rewrite Hstop3.
Qed.

End Pivot.


(** ** Switching into a suspended greenlet *)

Lemma same_stacks_insert gs g G G' :
  gs !! g = Some G -> stack_state G' = stack_state G ->
  same_stacks gs (<[g := G']> gs).
Proof.
  intros Hg Hs x. destruct (decide (g = x)) as [->|Hne].
  - rewrite lookup_insert_eq, Hg. simpl. by rewrite Hs.
  - by rewrite lookup_insert_ne.
Qed.

Lemma same_stacks_lookup gs gs' g G :
  same_stacks gs gs' -> gs !! g = Some G ->
  exists G', gs' !! g = Some G' /\ stack_state G' = stack_state G.
Proof.
  intros H Hg. specialize (H g). rewrite Hg in H.
  destruct (gs' !! g) as [G'|]; simpl in H; [|discriminate].
  exists G'. split; [reflexivity|]. by injection H.
Qed.

Lemma same_stacks_sym gs gs' : same_stacks gs gs' -> same_stacks gs' gs.
Proof. intros H g. by rewrite H. Qed.

Lemma same_stacks_stop_of gs gs' g :
  same_stacks gs gs' -> stop_of gs' g = stop_of gs g.
Proof.
  intros H. unfold stop_of. specialize (H g).
  destruct (gs !! g), (gs' !! g); simpl in H; try discriminate; [|reflexivity].
  injection H as H. by rewrite H.
Qed.

Lemma chain_ok_same_stacks gs gs' cur l :
  same_stacks gs gs' -> chain_ok gs cur l -> chain_ok gs' cur l.
Proof.
  intros H [Hlinks Hact Hsorted Htop]. constructor.
  - eapply owner_chain_ext; [exact Hlinks|]. intros g G _ Hg.
    destruct (same_stacks_lookup _ _ _ _ H Hg) as (G' & Hg' & Hs).
    exists G'. by rewrite Hs.
  - intros g Hin. destruct (Hact g Hin) as (G & Hg & HactG).
    destruct (same_stacks_lookup _ _ _ _ H Hg) as (G' & Hg' & Hs).
    exists G'. by rewrite Hs.
  - eapply chain_sorted_ext; [|exact Hsorted]. intros g _.
    by apply same_stacks_stop_of.
  - eapply Exists_impl; [exact Htop|]. intros g Hg. simpl in Hg.
    by rewrite (same_stacks_stop_of _ _ _ H).
Qed.

Lemma all_heap_ok_same_stacks gs gs' :
  same_stacks gs gs' -> all_heap_ok gs -> all_heap_ok gs'.
Proof.
  intros H Hheap g G' Hg.
  destruct (same_stacks_lookup _ _ _ _ (same_stacks_sym _ _ H) Hg)
    as (G & HG & Hs).
  rewrite <- Hs. by eapply Hheap.
Qed.

Lemma same_stacks_frames_kept gs gs' :
  same_stacks gs gs' ->
  (forall g, kind <$> (gs' !! g) = kind <$> (gs !! g)) ->
  frames_kept gs gs'.
Proof.
  intros Hs Hk g. specialize (Hs g). specialize (Hk g).
  destruct (gs !! g) as [G|], (gs' !! g) as [G'|]; simpl in *; try discriminate;
    [|exact I].
  injection Hs as Hs. injection Hk as Hk. repeat split; congruence.
Qed.

Lemma lineage_main_frames_kept ndebug gs gs' g r k :
  frames_kept gs gs' ->
  lineage_main ndebug gs g r k -> lineage_main ndebug gs' g r k.
Proof.
  intros H.
  induction 1 as [g G ts Hg Hk|g G p m r Hg Hk Hst Hm|g G m r Hg Hk Hst
                 |g G p m r res k Hg Hk Hst Hl IH];
    destruct (frames_kept_lookup _ _ _ _ H Hg) as (G' & Hg' & Hk' & Hs' & _).
  - eapply lineage_main_main; [exact Hg'|]. by rewrite Hk'.
  - eapply lineage_main_started; [exact Hg'|by rewrite Hk'| |exact Hm].
    unfold started. by rewrite Hs'.
  - eapply lineage_main_orphan; [exact Hg'|by rewrite Hk'|].
    unfold started. by rewrite Hs'.
  - eapply lineage_main_parent; [exact Hg'|by rewrite Hk'| |exact IH].
    unfold started. by rewrite Hs'.
Qed.

Lemma switch_allowed_kept ndebug s s' g k :
  frames_kept (greenlets s) (greenlets s') ->
  same_mains s s' ->
  switch_allowed ndebug s g k -> switch_allowed ndebug s' g k.
Proof.
  intros Hk [Hthis Hmains] (ts & Mg & Hts & Hl & Hm & Ht & [G Hg]).
  specialize (Hmains (this_thread s)). rewrite Hts in Hmains.
  destruct (threads s' !! this_thread s) as [ts'|] eqn:Hts';
    simpl in Hmains; [|discriminate].
  injection Hmains as Hmain.
  destruct (frames_kept_lookup _ _ _ _ Hk Hm) as (Mg' & Hm' & HfM).
  destruct (frames_kept_lookup _ _ _ _ Hk Hg) as (G' & Hg' & _).
  exists ts', Mg'. rewrite Hthis, Hmain.
  split; [exact Hts'|].
  split; [by eapply lineage_main_frames_kept|].
  split; [exact Hm'|].
  split; [|by eexists].
  by rewrite (frames_kept_thread_state _ _ _ _ Hk HfM).
Qed.

Lemma thread_state_insert_same_kind gs x X X' G G' :
  gs !! x = Some X -> kind X' = kind X -> kind G' = kind G ->
  thread_state (<[x := X']> gs) G' = thread_state gs G.
Proof.
  intros Hx Hk HG. apply thread_state_kinds; [|exact HG].
  intros g. destruct (decide (x = g)) as [->|Hne].
  - rewrite lookup_insert_eq, Hx. simpl. by rewrite Hk.
  - by rewrite lookup_insert_ne.
Qed.

Lemma g_switchstack_success_ok T T3 t ts s :
  greenlets s !! T = Some T3 ->
  thread_state (greenlets s) T3 = Some t ->
  threads s !! t = Some ts ->
  g_switchstack_success T s =
  Ret (ts_current_greenlet ts)
    (with_threads
       (alter (fun ts => mkThreadState (ts_main_greenlet ts) T (ts_tracefunc ts))
          t (threads s))
       (with_greenlets
          (<[T := with_python_state
                    (mkPythonState None (recursion_depth (python_state T3))) T3]>
             (greenlets s))
          (with_tstate
             (mkPyThreadState (_top_frame (python_state T3))
                (recursion_depth (python_state T3))) s))).
Proof.
  intros HT Hthr Hts. unfold g_switchstack_success.
  rewrite (bind_Ret _ _ _ _ _ (deref_Some _ _ _ HT)).
  rewrite bind_modify.
  erewrite bind_Ret by (apply update_Some; exact HT).
  erewrite bind_Ret; cycle 1.
  { eapply deref_thread_state_Some with (t := t);
      [apply lookup_insert_eq| |exact Hts].
    simpl. by rewrite (thread_state_insert_same_kind _ _ _ _ T3 _ HT). }
  reflexivity.
Qed.


Section Resume.

Variable ndebug : bool.
Variable realloc_ok : Z -> bool.
Hypothesis realloc_succeeds : forall n, realloc_ok n = true.
Variables (fuel : nat) (stackref : Z).
Hypothesis stackref_not_null : stackref <> 0.

(** [g_switchstack] into a suspended greenlet [T], from the running
    greenlet [A]. *)
Lemma g_switchstack_active T T0 A A0 t ts l s :
  greenlets s !! T = Some T0 ->
  active (stack_state T0) = true ->
  T <> A ->
  thread_state (greenlets s) T0 = Some t ->
  threads s !! t = Some ts ->
  ts_current_greenlet ts = A ->
  greenlets s !! A = Some A0 ->
  _stack_saved (stack_state A0) = 0 ->
  chain_ok (greenlets s) (first_owner A A0) l ->
  all_heap_ok (greenlets s) ->
  stack_stop (stack_state T0) <= ADDR_MAX ->
  (length l < fuel)%nat ->
  (ndebug = false ->
   SwitchingArgs_bool (switch_args T0) || bool_decide (is_Some (pyerr s)) = true) ->
  exists s' T' l',
    g_switchstack ndebug realloc_ok fuel stackref T s
    = Ret (mk_switchstack_result 0 (Some T) (Some A)) s' /\
    threads s' =
      alter (fun ts => mkThreadState (ts_main_greenlet ts) T (ts_tracefunc ts))
        t (threads s) /\
    this_thread s' = this_thread s /\
    pyerr s' = pyerr s /\
    run_log s' = run_log s /\
    switches s' = S (switches s) /\
    frames_kept (greenlets s) (greenlets s') /\
    all_heap_ok (greenlets s') /\
    greenlets s' !! T = Some T' /\
    switch_args T' = switch_args T0 /\
    _stack_saved (stack_state T') = 0 /\
    chain_ok (greenlets s') (Some T) l' /\
    (length l' <= S (length l))%nat /\
    args_kept (greenlets s) (greenlets s').
Proof.
  intros HT HactT Hne Hthr Hts Hcur HA Hsaved Hchain Hheap Hstop Hfuel Hargs.
  unfold g_switchstack.
  rewrite (bind_Ret _ _ _ _ _ (args_or_error_Some _ _ _ HT)).
  erewrite bind_Ret by (apply assert_holds; exact Hargs).
  rewrite (bind_Ret _ _ _ _ _ (deref_thread_state_Some _ _ _ _ _ HT Hthr Hts)).
  simpl. rewrite Hcur.
  destruct (Nat.eqb A T) eqn:Heq; [apply Nat.eqb_eq in Heq; congruence|].
  rewrite bind_get.
  rewrite (bind_Ret _ _ _ _ _ (update_Some _ _ _ _ HA)).
  rewrite bind_modify.
  set (A0p := with_python_state
                (mkPythonState (tstate_frame (tstate s))
                   (tstate_recursion_depth (tstate s))) A0).
  set (s2 := with_switching (Some T)
               (with_greenlets (<[A := A0p]> (greenlets s)) s)).
  assert (Hss : same_stacks (greenlets s) (greenlets s2))
    by (by apply same_stacks_insert with (G := A0)).
  assert (HT2 : greenlets s2 !! T = Some T0)
    by (simpl; rewrite lookup_insert_ne; done).
  assert (HA2 : greenlets s2 !! A = Some A0p) by apply lookup_insert_eq.
  assert (Hthr2 : thread_state (greenlets s2) T0 = Some t).
  { simpl. by rewrite (thread_state_insert_same_kind _ _ _ A0p T0 T0 HA). }
  rewrite (bind_Ret _ _ _ _ _ (args_or_error_Some _ s2 _ HT2)).
  erewrite bind_Ret by (apply assert_holds; exact Hargs).
  destruct (slp_switch_active ndebug realloc_ok realloc_succeeds fuel stackref
              T T0 A A0p t ts l s2 eq_refl HT2 HactT Hne Hthr2 Hts Hcur HA2 Hsaved)
    as (s3 & T3 & l3 & Hrun3 & Hreg3 & Hsw3 & Hkept3 & Hheap3 & HT3 & Hargs3
        & Hsaved3 & Hchain3 & Hlen3 & Hargskept3);
    [by eapply chain_ok_same_stacks|by eapply all_heap_ok_same_stacks
    |exact Hstop|exact stackref_not_null|exact Hfuel|].
  rewrite (bind_Ret _ _ _ _ _ Hrun3). simpl. rewrite bind_get.
  destruct Hreg3 as (Hr1 & Hr2 & Hr3 & Hr4 & Hr5 & Hr6).
  rewrite Hr3. simpl. rewrite bind_ret, bind_modify.
  set (s4 := with_switching None s3).
  assert (Hthr3 : thread_state (greenlets s4) T3 = Some t).
  { rewrite <- Hthr2. simpl.
    destruct (frames_kept_lookup _ _ _ _ Hkept3 HT2) as (T3' & HT3' & HfT).
    rewrite HT3 in HT3'. injection HT3' as <-.
    by apply frames_kept_thread_state. }
  assert (Hts4 : threads s4 !! t = Some ts) by (simpl; by rewrite Hr1).
  rewrite (bind_Ret _ _ _ _ _ (g_switchstack_success_ok T T3 t ts s4 HT3 Hthr3 Hts4)).
  set (T5 := with_python_state
               (mkPythonState None (recursion_depth (python_state T3))) T3).
  erewrite bind_Ret; cycle 1.
  { apply args_or_error_Some with (G := T5). apply lookup_insert_eq. }
  erewrite bind_Ret; cycle 1.
  { apply assert_holds. simpl. rewrite Hargs3, Hr4. exact Hargs. }
  rewrite Hcur.
  assert (Hss5 : same_stacks (greenlets s3) (<[T := T5]> (greenlets s3)))
    by (by apply same_stacks_insert with (G := T3)).
  eexists _, T5, l3. split; [reflexivity|]. simpl.
  split; [by rewrite Hr1|]. split; [exact Hr2|]. split; [exact Hr4|].
  split; [exact Hr6|]. split; [exact Hsw3|].
  split.
  { eapply frames_kept_trans; [|eapply frames_kept_trans; [exact Hkept3|]].
    - apply frames_kept_insert with (G := A0); [exact HA|]. by repeat split.
    - apply frames_kept_insert with (G := T3); [exact HT3|]. by repeat split. }
  split; [by eapply all_heap_ok_same_stacks|].
  split; [apply lookup_insert_eq|].
  split; [exact Hargs3|]. split; [exact Hsaved3|].
  split; [by eapply chain_ok_same_stacks|]. split; [exact Hlen3|].
  eapply args_kept_trans;
    [apply (args_kept_insert _ A A0 A0p HA); reflexivity|].
  eapply args_kept_trans; [exact Hargskept3|].
  by apply args_kept_insert with (G := T3).
Qed.

End Resume.


(** ** A thread ready to switch *)

Lemma resumable_kept ndebug s s' g k :
  frames_kept (greenlets s) (greenlets s') ->
  same_mains s s' ->
  resumable ndebug s g k -> resumable ndebug s' g k.
Proof.
  intros Hk Hm (G & Hg & Hact & Hthr & Hallowed).
  destruct (frames_kept_lookup _ _ _ _ Hk Hg) as (G' & Hg' & HfG).
  exists G'. split; [exact Hg'|].
  split; [destruct HfG as (_ & _ & Ha & _); by rewrite Ha|].
  split; [|by eapply switch_allowed_kept].
  rewrite (frames_kept_thread_state _ _ _ _ Hk HfG).
  destruct Hm as [-> _]. exact Hthr.
Qed.

Lemma frames_kept_bounds gs gs' :
  frames_kept gs gs' ->
  (forall g G, gs !! g = Some G -> stack_stop (stack_state G) <= ADDR_MAX) ->
  forall g G, gs' !! g = Some G -> stack_stop (stack_state G) <= ADDR_MAX.
Proof.
  intros Hk Hb g G' Hg. specialize (Hk g). rewrite Hg in Hk.
  destruct (gs !! g) as [G|] eqn:HG; [|done].
  destruct Hk as (_ & Hs & _). rewrite Hs. by eapply Hb.
Qed.

Lemma arrived_ready s s' R l' :
  arrived s s' R l' ->
  pyerr s = None ->
  (forall g G, greenlets s !! g = Some G ->
               stack_stop (stack_state G) <= ADDR_MAX) ->
  switch_ready s' R l'.
Proof.
  intros [Hthread Herr Hchain Hheap (C & HC & Hsaved & _) Hkept _ _ _] Hnone Hb.
  constructor; try assumption.
  - by rewrite Herr.
  - by exists C.
  - by eapply frames_kept_bounds.
Qed.

Section RoundTrip.

Variable ndebug : bool.
Variable realloc_ok : Z -> bool.
Hypothesis realloc_succeeds : forall n, realloc_ok n = true.
Variable getattr_run : gid -> M OwnedObject.
Variable call_trace : PyObject -> bool -> gid -> gid -> M unit.
Variables (fuel : nat) (mark stackref : Z).
Hypothesis stackref_not_null : stackref <> 0.

(** [g_switch] on a target [T] that is suspended, or dead with the
    suspended greenlet [R] as its nearest ancestor that is not dead,
    called while [A] is the current greenlet (running or dying): the
    stack is switched to [R]; the call [R] was suspended in returns the
    payload held by [T], or throws when an error is pending. *)
Lemma g_switch_resumes A A0 T T0 R R0 ts l k kT s :
  threads s !! this_thread s = Some ts ->
  ts_current_greenlet ts = A ->
  ts_tracefunc ts = None ->
  greenlets s !! A = Some A0 ->
  _stack_saved (stack_state A0) = 0 ->
  chain_ok (greenlets s) (first_owner A A0) l ->
  all_heap_ok (greenlets s) ->
  (forall g G, greenlets s !! g = Some G ->
               stack_stop (stack_state G) <= ADDR_MAX) ->
  greenlets s !! T = Some T0 ->
  T = R \/ dead_chain (greenlets s) T R k ->
  greenlets s !! R = Some R0 ->
  active (stack_state R0) = true ->
  thread_state (greenlets s) R0 = Some (this_thread s) ->
  R <> A ->
  switch_allowed ndebug s T kT ->
  (kT < fuel)%nat -> (k < fuel)%nat -> (length l < fuel)%nat ->
  (pyerr s = None -> SwitchingArgs_bool (switch_args T0) = true) ->
  exists s' l',
    g_switch ndebug realloc_ok getattr_run call_trace fuel mark stackref T s =
      (if bool_decide (is_Some (pyerr s)) then Throw PyErrOccurred s'
       else Ret (fst (deliver (switch_args T0))) s') /\
    arrived s s' R l' /\
    (length l' <= S (length l))%nat /\
    (exists T', greenlets s' !! T = Some T' /\
                switch_args T' = SwitchingArgs_empty).
Proof.
  intros Hts Hcur Htr HA Hsaved Hchain Hheap Hbounds HT Hcase HR HactR HthrR
         HneA Hallowed HkT Hk Hfuel Hpayload.
  assert (Hargs : ndebug = false ->
            SwitchingArgs_bool (switch_args T0)
            || bool_decide (is_Some (pyerr s)) = true).
  { intros _. destruct (pyerr s) as [e|] eqn:He.
    - rewrite bool_decide_eq_true_2 by (by eexists). apply orb_true_r.
    - by rewrite Hpayload. }
  (* the switch is a switch of stacks to [R], in a state [sX] where [R]
     holds the payload *)
  assert (Hstep1 : exists gsX RX F,
    g_switch ndebug realloc_ok getattr_run call_trace fuel mark stackref T s =
      (let* err := g_switchstack ndebug realloc_ok fuel stackref R in
       if status err <? 0 then F err
       else let* g := deref_opt (the_new_current_greenlet err) in
            g_switch_finish ndebug call_trace g err) (with_greenlets gsX s) /\
    gsX !! R = Some RX /\
    switch_args RX = switch_args T0 /\
    stack_state RX = stack_state R0 /\
    kind RX = kind R0 /\
    same_stacks (greenlets s) gsX /\
    (forall g, kind <$> (gsX !! g) = kind <$> (greenlets s !! g)) /\
    (T <> R -> exists TX, gsX !! T = Some TX /\
                          switch_args TX = SwitchingArgs_empty)).
  { destruct Hcase as [->|Hchain_dead].
    - rewrite HT in HR. injection HR as <-.
      exists (greenlets s), T0. eexists. rewrite with_greenlets_id.
      split; [by eapply g_switch_active_target|].
      split; [exact HT|]. repeat split; try done.
    - assert (Hne : T <> R).
      { intros ->. destruct (dead_chain_head _ _ _ _ Hchain_dead)
          as (D & p & m & c & HD & _ & Hdead).
        rewrite HR in HD. injection HD as <-.
        unfold is_dead in Hdead. rewrite HactR in Hdead.
        by rewrite andb_false_r in Hdead. }
      eexists _, (with_switch_args (switch_args T0) R0), _.
      split; [by eapply g_switch_dead_target|].
      split; [rewrite lookup_insert_ne by done; apply lookup_insert_eq|].
      split; [reflexivity|]. split; [reflexivity|]. split; [reflexivity|].
      split; [|split].
      + intros g. destruct (decide (T = g)) as [<-|HneT].
        { rewrite lookup_insert_eq, HT. reflexivity. }
        rewrite lookup_insert_ne by done.
        destruct (decide (R = g)) as [<-|HneR].
        { rewrite lookup_insert_eq, HR. reflexivity. }
        by rewrite lookup_insert_ne.
      + intros g. destruct (decide (T = g)) as [<-|HneT].
        { rewrite lookup_insert_eq, HT. reflexivity. }
        rewrite lookup_insert_ne by done.
        destruct (decide (R = g)) as [<-|HneR].
        { rewrite lookup_insert_eq, HR. reflexivity. }
        by rewrite lookup_insert_ne.
      + intros _. eexists. split; [apply lookup_insert_eq|reflexivity]. }
  destruct Hstep1 as (gsX & RX & F & Hrun1 & HRX & HargsX & HssRX & HkRX & HssX
                      & HkX & HTX).
  set (sX := with_greenlets gsX s) in *.
  destruct (same_stacks_lookup _ _ _ _ HssX HA) as (AX & HAX & HssAX).
  assert (HthrX : thread_state (greenlets sX) RX = Some (this_thread s)).
  { rewrite <- HthrR. by apply thread_state_kinds. }
  destruct (g_switchstack_active ndebug realloc_ok realloc_succeeds fuel stackref
              stackref_not_null R RX A AX (this_thread s) ts l sX)
    as (s2 & R2 & l2 & Hrun2 & Hthreads2 & Hthis2 & Herr2 & Hlog2 & Hsw2 & Hkept2
        & Hheap2 & HR2 & Hargs2 & Hsaved2 & Hchain2 & Hlen2 & Hargskept2).
  { exact HRX. }
  { by rewrite HssRX. }
  { exact HneA. }
  { exact HthrX. }
  { exact Hts. }
  { exact Hcur. }
  { exact HAX. }
  { by rewrite HssAX. }
  { unfold first_owner. rewrite HssAX. fold (first_owner A A0).
    by eapply chain_ok_same_stacks. }
  { by eapply all_heap_ok_same_stacks. }
  { rewrite HssRX. by eapply Hbounds. }
  { exact Hfuel. }
  { rewrite HargsX. exact Hargs. }
  set (ts2 := mkThreadState (ts_main_greenlet ts) R (ts_tracefunc ts)).
  assert (Hts2 : threads s2 !! this_thread s = Some ts2).
  { rewrite Hthreads2. simpl. rewrite lookup_alter_eq, Hts. reflexivity. }
  assert (Hthr2 : thread_state (greenlets s2) R2 = Some (this_thread s)).
  { rewrite <- HthrX.
    destruct (frames_kept_lookup _ _ _ _ Hkept2 HRX) as (R2' & HR2' & HfR).
    rewrite HR2 in HR2'. injection HR2' as <-.
    by apply frames_kept_thread_state. }
  set (s3 := with_greenlets
               (<[R := with_switch_args SwitchingArgs_empty R2]> (greenlets s2)) s2).
  assert (Hss3 : same_stacks (greenlets s2) (greenlets s3))
    by (by apply same_stacks_insert with (G := R2)).
  exists s3, l2. split.
  { rewrite Hrun1. rewrite (bind_Ret _ _ _ _ _ Hrun2).
    cbv beta iota delta [status the_new_current_greenlet deref_opt].
    change (0 <? 0) with false. cbv iota. rewrite bind_ret.
    destruct (pyerr s) as [e|] eqn:He.
    - rewrite bool_decide_eq_true_2 by (by eexists).
      erewrite g_switch_finish_throws;
        [reflexivity|exact HR2|exact Hthr2|exact Hts2|reflexivity|exact Htr
        |rewrite Herr2; simpl; rewrite He; by eexists|reflexivity|reflexivity].
    - rewrite bool_decide_eq_false_2 by (by intros [? ?]).
      erewrite g_switch_finish_delivers;
        [|exact HR2|exact Hthr2|exact Hts2|reflexivity|exact Htr
         |rewrite Herr2; exact He|rewrite Hargs2, HargsX; by apply Hpayload
         |reflexivity|reflexivity].
      by rewrite Hargs2, HargsX. }
  split.
  { constructor.
    - exists ts2. simpl. rewrite Hthis2. by repeat split.
    - exact Herr2.
    - by eapply chain_ok_same_stacks.
    - by eapply all_heap_ok_same_stacks.
    - eexists. split; [apply lookup_insert_eq|]. by split.
    - eapply frames_kept_trans; [by apply same_stacks_frames_kept|].
      eapply frames_kept_trans; [exact Hkept2|].
      apply frames_kept_insert with (G := R2); [exact HR2|]. by repeat split.
    - split; [exact Hthis2|]. intros t. simpl. rewrite Hthreads2. simpl.
      destruct (decide (this_thread s = t)) as [<-|Hnet].
      + rewrite lookup_alter_eq, Hts. reflexivity.
      + by rewrite lookup_alter_ne.
    - exact Hsw2.
    - exact Hlog2. }
  split; [exact Hlen2|].
  destruct (decide (T = R)) as [->|HneTR].
  - eexists. split; [apply lookup_insert_eq|reflexivity].
  - destruct (HTX HneTR) as (TX & HTX' & HTXargs).
    destruct (args_kept_lookup _ _ _ _ Hargskept2 HTX') as (T2 & HT2 & HT2args).
    exists T2. split; [simpl; by rewrite lookup_insert_ne|congruence].
Qed.

(** A switch into a suspended greenlet [T]: the call [T] was suspended
    in returns the payload, [T] is running, the thread is ready to
    switch again, and every greenlet is what it was but for its stack
    bookkeeping, its payload and its interpreter state. *)
Lemma green_switch_resumes A T l k args kwargs s :
  switch_ready s A l ->
  resumable ndebug s T k ->
  T <> A ->
  (length l < fuel)%nat -> (k < fuel)%nat ->
  exists s' l',
    green_switch ndebug realloc_ok getattr_run call_trace fuel mark stackref
      T args kwargs s =
    Ret (single_result (fst (deliver (mkSwitchingArgs (Some args) kwargs)))) s' /\
    switch_ready s' T l' /\
    (length l' <= S (length l))%nat /\
    switches s' = S (switches s) /\
    frames_kept (greenlets s) (greenlets s') /\
    same_mains s s' /\
    run_log s' = run_log s.
Proof.
  intros [(ts & Hts & Hcur & Htr) Herr Hchain Hheap (A0 & HA & Hsaved) Hbounds]
         (T0 & HT & HactT & Hthr & Hallowed) Hne Hfuel Hk.
  set (a := mkSwitchingArgs (Some args) kwargs).
  set (s1 := with_payload T T0 a s).
  assert (HT1 : greenlets s1 !! T = Some (with_switch_args a T0))
    by apply with_payload_lookup.
  assert (HA1 : greenlets s1 !! A = Some A0)
    by (unfold s1; rewrite with_payload_lookup_ne; done).
  assert (Hss1 : same_stacks (greenlets s) (greenlets s1))
    by (by apply same_stacks_insert with (G := T0)).
  assert (Hkept1 : frames_kept (greenlets s) (greenlets s1)).
  { apply frames_kept_insert with (G := T0); [exact HT|]. by repeat split. }
  destruct (chain_ok_head_active _ _ _ Hchain) as (A0' & HA' & HactA).
  rewrite HA in HA'. injection HA' as <-.
  destruct (g_switch_resumes A A0 T (with_switch_args a T0) T
              (with_switch_args a T0) ts l 0 k s1)
    as (s3 & l3 & Hrun3 & Harr & Hlen3 & (T3 & HT3 & HT3args)).
  { exact Hts. }
  { exact Hcur. }
  { exact Htr. }
  { exact HA1. }
  { exact Hsaved. }
  { unfold first_owner. rewrite HactA. by eapply chain_ok_same_stacks. }
  { by eapply all_heap_ok_same_stacks. }
  { eapply frames_kept_bounds; [exact Hkept1|exact Hbounds]. }
  { exact HT1. }
  { by left. }
  { exact HT1. }
  { exact HactT. }
  { simpl. by rewrite thread_state_insert_args. }
  { exact Hne. }
  { unfold s1. by apply switch_allowed_with_switch_args. }
  { exact Hk. }
  { lia. }
  { exact Hfuel. }
  { reflexivity. }
  assert (Hready3 : switch_ready s3 T l3).
  { eapply arrived_ready; [exact Harr|exact Herr|].
    eapply frames_kept_bounds; [exact Hkept1|exact Hbounds]. }
  destruct Harr as [(ts3 & Hts3 & Hcur3 & Htr3) Herr3 _ _ (C3 & HC3 & _ & HC3args)
                    Hkept3 Hmains3 Hsw3 Hlog3].
  exists s3, l3. split.
  { unfold green_switch.
    rewrite (bind_Ret _ _ _ _ _ (update_Some _ _ _ _ HT)).
    apply catch_Ret.
    fold (with_payload T T0 a s). fold s1.
    assert (Hrun3' :
      g_switch ndebug realloc_ok getattr_run call_trace fuel mark stackref T s1
      = Ret (fst (deliver a)) s3).
    { rewrite Hrun3. simpl pyerr. rewrite Herr.
      by rewrite bool_decide_eq_false_2 by (by intros [? ?]). }
    rewrite (bind_Ret _ _ _ _ _ Hrun3').
    erewrite bind_Ret with (a := tt); cycle 1.
    { destruct ndebug eqn:Hnd; [reflexivity|].
      erewrite bind_Ret by (apply deref_Some; exact HT3).
      rewrite HT3args. simpl. rewrite bind_ret.
      erewrite bind_Ret by (apply GET_THREAD_STATE_Some; exact Hts3).
      rewrite Hcur3.
      erewrite bind_Ret by (apply deref_Some; exact HC3).
      by rewrite HC3args. }
    rewrite bind_get.
    destruct (deliver_fst_Some args kwargs) as [y Hy]. fold a in Hy.
    rewrite Hy. reflexivity. }
  split; [exact Hready3|]. split; [exact Hlen3|]. split; [exact Hsw3|].
  split; [by eapply frames_kept_trans|].
  split; [|exact Hlog3].
  destruct Hmains3 as [H1 H2]. by split.
Qed.

End RoundTrip.


(** ** Switching into a greenlet for the first time *)

Lemma saved_more_chain_ok gs gs' cur l :
  saved_more gs gs' -> chain_ok gs cur l -> chain_ok gs' cur l.
Proof.
  intros H [Hlinks Hact Hsorted Htop]. constructor.
  - by eapply saved_more_owner_chain.
  - by eapply saved_more_all_active.
  - eapply chain_sorted_ext; [|exact Hsorted]. intros g _.
    by apply saved_more_stop_of.
  - eapply Exists_impl; [exact Htop|]. intros g Hg. simpl in Hg.
    by rewrite (saved_more_stop_of _ _ _ H).
Qed.

Section FirstPivot.

Variable ndebug : bool.
Variable realloc_ok : Z -> bool.
Hypothesis realloc_succeeds : forall n, realloc_ok n = true.

(** The pivot into a greenlet [T] that has no stack yet: the running
    greenlet [A] is suspended, what lies below the [stack_stop] of [T]
    is saved, and the answer is [1]. *)
Lemma slp_switch_fresh fuel stackref T T0 A A0 t ts l s :
  switching_thread_state s = Some T ->
  greenlets s !! T = Some T0 ->
  active (stack_state T0) = false ->
  T <> A ->
  thread_state (greenlets s) T0 = Some t ->
  threads s !! t = Some ts ->
  ts_current_greenlet ts = A ->
  greenlets s !! A = Some A0 ->
  _stack_saved (stack_state A0) = 0 ->
  chain_ok (greenlets s) (Some A) l ->
  all_heap_ok (greenlets s) ->
  stack_stop (stack_state T0) <= ADDR_MAX ->
  stackref <> 0 ->
  (length l < fuel)%nat ->
  exists gs',
    slp_switch ndebug realloc_ok fuel stackref s
    = Ret 1 (with_switches (S (switches s)) (with_greenlets gs' s)) /\
    frames_kept (greenlets s) gs' /\
    all_heap_ok gs' /\
    gs' !! T = Some T0 /\
    chain_ok gs' (Some A) l.
Proof.
  intros Hsw HT HactT Hne Hthr Hts Hcur HA Hsaved Hchain Hheap Hstop Href Hfuel.
  unfold slp_switch. rewrite bind_get, Hsw. simpl. rewrite bind_ret.
  rewrite (bind_Ret _ _ _ _ _ (deref_thread_state_Some _ _ _ _ _ HT Hthr Hts)).
  simpl. rewrite Hcur.
  destruct (chain_ok_head_active _ _ _ Hchain) as (A0' & HA' & HactA).
  rewrite HA in HA'. injection HA' as <-.
  assert (Hchain' : chain_ok (greenlets s) (first_owner A A0) l)
    by (unfold first_owner; by rewrite HactA).
  destruct (copy_stack_to_heap_ok ndebug realloc_ok realloc_succeeds fuel
              T T0 A A0 l stackref s HT HA Hsaved Hchain' Hheap Hstop Href Hfuel)
    as (gs1 & Hrun1 & Hmore1 & Hheap1).
  rewrite (bind_Ret _ _ _ _ _ Hrun1). simpl. rewrite bind_modify.
  assert (HT0 : suspended_at stackref A A0 (greenlets s) !! T = Some T0).
  { destruct (suspended_at_same_frame _ A A0 stackref T T0 HA HT)
      as (T0' & HT0' & _ & _ & _ & _ & _ & _ & _ & _ & Hsame & _).
    by rewrite <- (Hsame Hne). }
  destruct (saved_more_lookup _ _ _ _ Hmore1 HT0) as (T1 & HT1 & HfT).
  assert (T1 = T0) as -> by (by apply HfT).
  erewrite bind_Ret by (apply deref_Some; exact HT1).
  rewrite HactT. simpl.
  exists gs1. split; [reflexivity|].
  split.
  { eapply frames_kept_trans; [by apply suspended_at_frames_kept|].
    by apply saved_more_frames_kept. }
  split; [exact Hheap1|]. split; [exact HT1|].
  eapply saved_more_chain_ok; [exact Hmore1|].
  by apply suspended_at_chain_ok.
Qed.

End FirstPivot.


Section Start.

Variable ndebug : bool.
Variable realloc_ok : Z -> bool.
Hypothesis realloc_succeeds : forall n, realloc_ok n = true.
Variables (fuel : nat) (stackref : Z).
Hypothesis stackref_not_null : stackref <> 0.

(** [g_switchstack] into a greenlet [T] that has no stack yet, from the
    running greenlet [A]: the answer is [1], [T] is the current
    greenlet, and the stack of the thread is still the chain of [A]. *)
Lemma g_switchstack_fresh T T0 A A0 t ts l s :
  greenlets s !! T = Some T0 ->
  active (stack_state T0) = false ->
  _top_frame (python_state T0) = None ->
  T <> A ->
  thread_state (greenlets s) T0 = Some t ->
  threads s !! t = Some ts ->
  ts_current_greenlet ts = A ->
  greenlets s !! A = Some A0 ->
  _stack_saved (stack_state A0) = 0 ->
  chain_ok (greenlets s) (Some A) l ->
  all_heap_ok (greenlets s) ->
  stack_stop (stack_state T0) <= ADDR_MAX ->
  (length l < fuel)%nat ->
  (ndebug = false ->
   SwitchingArgs_bool (switch_args T0) || bool_decide (is_Some (pyerr s)) = true) ->
  exists s',
    g_switchstack ndebug realloc_ok fuel stackref T s
    = Ret (mk_switchstack_result 1 (Some T) (Some A)) s' /\
    threads s' =
      alter (fun ts => mkThreadState (ts_main_greenlet ts) T (ts_tracefunc ts))
        t (threads s) /\
    this_thread s' = this_thread s /\
    pyerr s' = pyerr s /\
    run_log s' = run_log s /\
    switches s' = S (switches s) /\
    frames_kept (greenlets s) (greenlets s') /\
    all_heap_ok (greenlets s') /\
    greenlets s' !! T = Some T0 /\
    chain_ok (greenlets s') (Some A) l.
Proof.
  intros HT HactT Hframe Hne Hthr Hts Hcur HA Hsaved Hchain Hheap Hstop Hfuel Hargs.
  unfold g_switchstack.
  rewrite (bind_Ret _ _ _ _ _ (args_or_error_Some _ _ _ HT)).
  erewrite bind_Ret by (apply assert_holds; exact Hargs).
  rewrite (bind_Ret _ _ _ _ _ (deref_thread_state_Some _ _ _ _ _ HT Hthr Hts)).
  simpl. rewrite Hcur.
  destruct (Nat.eqb A T) eqn:Heq; [apply Nat.eqb_eq in Heq; congruence|].
  rewrite bind_get.
  rewrite (bind_Ret _ _ _ _ _ (update_Some _ _ _ _ HA)).
  rewrite bind_modify.
  set (A0p := with_python_state
                (mkPythonState (tstate_frame (tstate s))
                   (tstate_recursion_depth (tstate s))) A0).
  set (s2 := with_switching (Some T)
               (with_greenlets (<[A := A0p]> (greenlets s)) s)).
  assert (Hss : same_stacks (greenlets s) (greenlets s2))
    by (by apply same_stacks_insert with (G := A0)).
  assert (HT2 : greenlets s2 !! T = Some T0)
    by (simpl; rewrite lookup_insert_ne; done).
  assert (HA2 : greenlets s2 !! A = Some A0p) by apply lookup_insert_eq.
  assert (Hthr2 : thread_state (greenlets s2) T0 = Some t).
  { simpl. by rewrite (thread_state_insert_same_kind _ _ _ A0p T0 T0 HA). }
  rewrite (bind_Ret _ _ _ _ _ (args_or_error_Some _ s2 _ HT2)).
  erewrite bind_Ret by (apply assert_holds; exact Hargs).
  destruct (slp_switch_fresh ndebug realloc_ok realloc_succeeds fuel stackref
              T T0 A A0p t ts l s2 eq_refl HT2 HactT Hne Hthr2 Hts Hcur HA2 Hsaved)
    as (gs3 & Hrun3 & Hkept3 & Hheap3 & HT3 & Hchain3);
    [by eapply chain_ok_same_stacks|by eapply all_heap_ok_same_stacks
    |exact Hstop|exact stackref_not_null|exact Hfuel|].
  rewrite (bind_Ret _ _ _ _ _ Hrun3).
  change (1 <? 0) with false. cbv iota. rewrite bind_get.
  cbn [switching_thread_state with_switches with_greenlets s2 with_switching
       deref_opt].
  rewrite bind_ret, bind_modify.
  set (s4 := with_switching None
               (with_switches (S (switches s2)) (with_greenlets gs3 s2))).
  assert (Hthr3 : thread_state (greenlets s4) T0 = Some t).
  { rewrite <- Hthr2. simpl.
    apply frames_kept_thread_state; [exact Hkept3|apply frame_kept_refl]. }
  assert (Hts4 : threads s4 !! t = Some ts) by exact Hts.
  rewrite (bind_Ret _ _ _ _ _ (g_switchstack_success_ok T T0 t ts s4 HT3 Hthr3 Hts4)).
  assert (HT5 : with_python_state
                  (mkPythonState None (recursion_depth (python_state T0))) T0 = T0).
  { destruct T0 as [a0 ss0 [fr d] k0]. simpl in *. by subst. }
  rewrite HT5.
  erewrite bind_Ret; cycle 1.
  { apply args_or_error_Some with (G := T0). apply lookup_insert_eq. }
  erewrite bind_Ret by (apply assert_holds; exact Hargs).
  rewrite Hcur.
  assert (Hid : <[T := T0]> (greenlets s4) = gs3) by (by apply insert_id).
  eexists. split; [reflexivity|]. simpl.
  split; [reflexivity|]. split; [reflexivity|]. split; [reflexivity|].
  split; [reflexivity|]. split; [reflexivity|].
  simpl in Hid. rewrite Hid.
  split.
  { eapply frames_kept_trans; [|exact Hkept3].
    apply frames_kept_insert with (G := A0); [exact HA|]. by repeat split. }
  split; [exact Hheap3|]. split; [exact HT3|exact Hchain3].
Qed.

End Start.


Lemma bind_Enter {A B} (c : M A) (k : A -> M B) s g o r s' :
  c s = Enter g o r s' -> bind c k s = Enter g o r s'.
Proof. unfold bind. by intros ->. Qed.

Lemma with_pyerr_restore s : with_pyerr (pyerr s) (with_pyerr None s) = s.
Proof. by destruct s. Qed.

Lemma chain_ok_insert_other gs cur l g G' :
  g ∉ l -> chain_ok gs cur l -> chain_ok (<[g := G']> gs) cur l.
Proof.
  intros Hnin [Hlinks Hact Hsorted Htop].
  assert (Hlk : forall x, x ∈ l -> <[g := G']> gs !! x = gs !! x).
  { intros x Hx. apply lookup_insert_ne. intros ->. contradiction. }
  assert (Hstop : forall x, x ∈ l -> stop_of (<[g := G']> gs) x = stop_of gs x).
  { intros x Hx. unfold stop_of. by rewrite Hlk. }
  constructor.
  - eapply owner_chain_ext; [exact Hlinks|]. intros x X Hx HX.
    exists X. by rewrite Hlk.
  - intros x Hx. rewrite Hlk by done. by apply Hact.
  - by eapply chain_sorted_ext.
  - apply Exists_exists in Htop as (m & Hm & Hmstop).
    apply Exists_exists. exists m. split; [exact Hm|].
    rewrite Hstop; [exact Hmstop|exact Hm].
Qed.

Section FirstSwitch.

Variable ndebug : bool.
Variable realloc_ok : Z -> bool.
Hypothesis realloc_succeeds : forall n, realloc_ok n = true.
Variable getattr_run : gid -> M OwnedObject.
Variables (fuel : nat) (mark stackref : Z).
Hypothesis stackref_not_null : stackref <> 0.
Hypothesis mark_bound : mark <= ADDR_MAX.

(** [g_initialstub] on a greenlet [T] that has not started, when the
    lookup of [run] runs no code: the stack is switched and the function
    goes on into [inner_bootstrap]. *)
Lemma g_initialstub_enters T T1 p m r A A0 ts Mg l k run s :
  greenlets s !! T = Some T1 ->
  kind T1 = UserGreenlet p m r ->
  started (stack_state T1) = false ->
  active (stack_state T1) = false ->
  lookup_runs_no_code getattr_run T run s ->
  switch_allowed ndebug s T k -> (k < fuel)%nat ->
  threads s !! this_thread s = Some ts ->
  ts_current_greenlet ts = A ->
  greenlets s !! ts_main_greenlet ts = Some Mg ->
  kind Mg = MainGreenlet (Some (this_thread s)) ->
  greenlets s !! A = Some A0 ->
  _stack_saved (stack_state A0) = 0 ->
  chain_ok (greenlets s) (Some A) l ->
  all_heap_ok (greenlets s) ->
  (length l < fuel)%nat ->
  (ndebug = false ->
   SwitchingArgs_bool (switch_args T1) || bool_decide (is_Some (pyerr s)) = true) ->
  exists s',
    g_initialstub ndebug realloc_ok getattr_run fuel mark stackref T s
    = Enter T A run s' /\
    threads s' =
      alter (fun ts => mkThreadState (ts_main_greenlet ts) T (ts_tracefunc ts))
        (this_thread s) (threads s) /\
    this_thread s' = this_thread s /\
    pyerr s' = pyerr s /\
    run_log s' = run_log s /\
    switches s' = S (switches s) /\
    frames_kept
      (<[T := started_from mark A A0 (ts_main_greenlet ts)
                (tstate_recursion_depth (tstate s)) T1]> (greenlets s))
      (greenlets s') /\
    all_heap_ok (greenlets s') /\
    greenlets s' !! T =
      Some (started_from mark A A0 (ts_main_greenlet ts)
              (tstate_recursion_depth (tstate s)) T1) /\
    chain_ok (greenlets s') (Some A) l.
Proof.
  intros HT Hkind Hst HactT Hpure Hallowed Hk Hts Hcur HM HkM HA Hsaved Hchain
         Hheap Hfuel Hargs.
  destruct (chain_ok_head_active _ _ _ Hchain) as (A0' & HA' & HactA).
  rewrite HA in HA'. injection HA' as <-.
  assert (Hne : T <> A) by (intros ->; congruence).
  unfold g_initialstub.
  rewrite (bind_Ret _ _ _ _ _ (deref_Some _ _ _ HT)). rewrite Hkind.
  rewrite bind_get, bind_modify.
  rewrite (bind_Ret _ _ _ _ _ Hpure).
  rewrite bind_modify, with_pyerr_restore.
  rewrite (bind_Ret _ _ _ _ _ (check_switch_allowed_accepts _ _ _ _ _ Hallowed Hk)).
  rewrite (bind_Ret _ _ _ _ _ (deref_Some _ _ _ HT)). rewrite Hst.
  rewrite (bind_Ret _ _ _ _ _ (GET_THREAD_STATE_Some _ _ Hts)).
  rewrite Hcur.
  rewrite (bind_Ret _ _ _ _ _ (deref_Some _ _ _ HA)).
  cbn [StackState_assign StackState_mark _stack_saved Z.eqb negb].
  rewrite bind_get.
  rewrite (bind_Ret _ _ _ _ _ (update_Some _ _ _ _ HT)).
  cbn [_stack_start stack_stop stack_copy _stack_saved stack_prev].
  set (Tb := started_from mark A A0 (ts_main_greenlet ts)
               (tstate_recursion_depth (tstate s)) T1).
  match goal with
  | |- context [with_greenlets (<[T := ?X]> (greenlets s)) s] =>
      change X with Tb
  end.
  set (sb := with_greenlets (<[T := Tb]> (greenlets s)) s).
  assert (HneM : ts_main_greenlet ts <> T).
  { intros Heq. rewrite Heq, HT in HM. injection HM as <-. congruence. }
  assert (Hnin : T ∉ l).
  { intros Hin. destruct Hchain as [_ Hact _ _].
    destruct (Hact T Hin) as (G & HG & HactG). congruence. }
  destruct (g_switchstack_fresh ndebug realloc_ok realloc_succeeds fuel stackref
              stackref_not_null T Tb A A0 (this_thread s) ts l sb)
    as (s' & Hrun & Hthreads & Hthis & Herr & Hlog & Hsw & Hkept & Hheap' & HT'
        & Hchain').
  - apply lookup_insert_eq.
  - reflexivity.
  - reflexivity.
  - exact Hne.
  - unfold thread_state, Tb, started_from. simpl. rewrite Hkind.
    rewrite lookup_insert_ne by (intros Heq; by apply HneM).
    rewrite HM. destruct Mg as [? ? ? kM]. simpl in HkM. by rewrite HkM.
  - exact Hts.
  - exact Hcur.
  - simpl. rewrite lookup_insert_ne; done.
  - exact Hsaved.
  - by apply chain_ok_insert_other.
  - intros g G Hg. simpl in Hg. destruct (decide (T = g)) as [<-|HneT].
    + rewrite lookup_insert_eq in Hg. injection Hg as <-.
      split; simpl; [lia|split; [intros Hnz; by contradiction Hnz|done]].
    + rewrite lookup_insert_ne in Hg by done. by eapply Hheap.
  - exact mark_bound.
  - exact Hfuel.
  - exact Hargs.
  - rewrite (bind_Ret _ _ _ _ _ Hrun).
    cbv beta iota delta [status origin_greenlet deref_opt].
    change (1 =? 1) with true. cbv iota. rewrite bind_ret.
    exists s'. split; [reflexivity|].
    split; [exact Hthreads|]. split; [exact Hthis|]. split; [exact Herr|].
    split; [exact Hlog|]. split; [exact Hsw|]. split; [exact Hkept|].
    split; [exact Hheap'|]. split; [exact HT'|exact Hchain'].
Qed.

End FirstSwitch.


Lemma frames_kept_but_lookup T gs gs' x X :
  frames_kept_but T gs gs' -> x <> T -> gs !! x = Some X ->
  exists X', gs' !! x = Some X' /\ frame_kept X X'.
Proof.
  intros H Hne HX. specialize (H x Hne). rewrite HX in H.
  destruct (gs' !! x) as [X'|]; [|done]. by exists X'.
Qed.

Lemma frames_kept_but_lookup_inv T gs gs' x X' :
  frames_kept_but T gs gs' -> x <> T -> gs' !! x = Some X' ->
  exists X, gs !! x = Some X /\ frame_kept X X'.
Proof.
  intros H Hne HX. specialize (H x Hne). rewrite HX in H.
  destruct (gs !! x) as [X|]; [|done]. by exists X.
Qed.

Lemma frames_kept_but_of_insert T Tb gs gs' :
  frames_kept (<[T := Tb]> gs) gs' -> frames_kept_but T gs gs'.
Proof.
  intros H x Hne. specialize (H x). by rewrite lookup_insert_ne in H.
Qed.

Lemma frames_kept_but_insert T Tc gs gs' :
  frames_kept_but T gs gs' -> frames_kept_but T gs (<[T := Tc]> gs').
Proof.
  intros H x Hne. specialize (H x Hne). by rewrite lookup_insert_ne.
Qed.

Lemma frames_kept_but_insert_l T Tc gs gs' :
  frames_kept_but T (<[T := Tc]> gs) gs' -> frames_kept_but T gs gs'.
Proof.
  intros H x Hne. specialize (H x Hne). by rewrite lookup_insert_ne in H.
Qed.

Lemma frames_kept_but_of_frames_kept T gs gs' :
  frames_kept gs gs' -> frames_kept_but T gs gs'.
Proof. intros H x _. apply H. Qed.

Lemma frames_kept_but_trans T gs1 gs2 gs3 :
  frames_kept_but T gs1 gs2 -> frames_kept_but T gs2 gs3 ->
  frames_kept_but T gs1 gs3.
Proof.
  intros H12 H23 x Hne. specialize (H12 x Hne). specialize (H23 x Hne).
  destruct (gs1 !! x), (gs2 !! x), (gs3 !! x); try done.
  by eapply frame_kept_trans.
Qed.

(** A started greenlet other than [T] stays resumable whatever happens
    to [T], as long as [T] is not the main greenlet of the thread. *)
Lemma resumable_started_kept ndebug s s' T g k :
  resumable ndebug s g k ->
  (exists G, greenlets s !! g = Some G /\ started (stack_state G) = true) ->
  g <> T ->
  (forall ts, threads s !! this_thread s = Some ts -> ts_main_greenlet ts <> T) ->
  frames_kept_but T (greenlets s) (greenlets s') ->
  same_mains s s' ->
  resumable ndebug s' g 0.
Proof.
  intros (G & Hg & Hact & Hthr & (ts & Mg & Hts & Hl & Hm & Ht & _))
         (G0 & Hg0 & Hst) Hne HneM Hkept [Hthis Hmains].
  rewrite Hg in Hg0. injection Hg0 as <-.
  specialize (HneM ts Hts).
  destruct (frames_kept_but_lookup _ _ _ _ _ Hkept Hne Hg) as (G' & Hg' & HfG).
  destruct (frames_kept_but_lookup _ _ _ _ _ Hkept HneM Hm) as (Mg' & Hm' & HfM).
  pose proof (Hmains (this_thread s)) as Hmain. rewrite Hts in Hmain.
  destruct (threads s' !! this_thread s) as [ts'|] eqn:Hts';
    simpl in Hmain; [|discriminate].
  injection Hmain as Hmain.
  destruct HfG as (HkG & HsG & HaG & _). destruct HfM as (HkM & _).
  assert (Hst' : started (stack_state G') = true)
    by (unfold started in *; by rewrite HsG).
  assert (Hthr' : thread_state (greenlets s') G' = thread_state (greenlets s) G
                  /\ lineage_main ndebug (greenlets s') g
                       (Some (ts_main_greenlet ts)) 0
                  /\ kind Mg = MainGreenlet (Some (this_thread s))).
  { inversion Hl as [g1 G1 t1 Hg1 Hk1|g1 G1 p1 m1 r1 Hg1 Hk1 Hst1 Hm1
                    |g1 G1 m1 r1 Hg1 Hk1 Hst1|g1 G1 p1 m1 r1 res k1 Hg1 Hk1 Hst1 Hl1];
      subst; rewrite Hg in Hg1; injection Hg1 as <-; try congruence.
    - split; [|split].
      + unfold thread_state. by rewrite HkG, Hk1.
      + eapply lineage_main_main; [exact Hg'|]. by rewrite HkG.
      + rewrite Hg in Hm. injection Hm as <-.
        unfold thread_state in Hthr. rewrite Hk1 in Hthr. by rewrite Hk1, Hthr.
    - assert (HMk : kind Mg = MainGreenlet (Some (this_thread s))).
      { unfold thread_state in Hthr. rewrite Hk1, Hm in Hthr.
        destruct Mg as [? ? ? [t0|? ? ?]]; simpl in *; [by subst|discriminate]. }
      split; [|split; [|exact HMk]].
      + unfold thread_state. rewrite HkG, Hk1, Hm', Hm.
        destruct Mg, Mg'. simpl in *. by subst.
      + eapply lineage_main_started; [exact Hg'|by rewrite HkG|exact Hst'|].
        intros _. by eexists. }
  destruct Hthr' as (Hthr' & Hl' & HMk).
  exists G'. split; [exact Hg'|]. split; [by rewrite HaG|].
  split; [by rewrite Hthr', Hthis|].
  exists ts', Mg'. rewrite Hthis, Hmain.
  split; [exact Hts'|]. split; [exact Hl'|]. split; [exact Hm'|].
  split; [|by eexists].
  unfold thread_state. rewrite HkM, HMk. by eexists.
Qed.

Section Bootstrap.

Variable ndebug : bool.
Variable call_trace : PyObject -> bool -> gid -> gid -> M unit.

Lemma thread_state_running_from gs T Tb :
  gs !! T = Some Tb ->
  thread_state (<[T := running_from Tb]> gs) (running_from Tb)
  = thread_state gs Tb.
Proof.
  intros HT. unfold thread_state. simpl.
  destruct (kind Tb) as [t|p [m|] r] eqn:Hk; simpl; try reflexivity.
  destruct (decide (T = m)) as [<-|Hne].
  - rewrite lookup_insert_eq, HT. unfold running_from. rewrite Hk.
    destruct Tb. simpl in *. by subst.
  - by rewrite lookup_insert_ne.
Qed.

(** [inner_bootstrap] up to the call of [run], with arguments and no
    trace hook: [run] is called with the arguments of the switch. *)
Lemma inner_bootstrap_enter_runs T Tb origin run t ts s :
  greenlets s !! T = Some Tb ->
  active (stack_state Tb) = false ->
  SwitchingArgs_bool (switch_args Tb) = true ->
  thread_state (greenlets s) Tb = Some t ->
  threads s !! t = Some ts ->
  ts_current_greenlet ts = T ->
  ts_tracefunc ts = None ->
  inner_bootstrap_enter ndebug call_trace T origin run s =
  Ret (Some (switch_args Tb))
    (with_run_log (T :: run_log s)
       (with_greenlets (<[T := running_from Tb]> (greenlets s)) s)).
Proof.
  intros HT Hact Hargs Hthr Hts Hcur Htr. unfold inner_bootstrap_enter.
  rewrite (bind_Ret _ _ _ _ _ (deref_thread_state_Some _ _ _ _ _ HT Hthr Hts)).
  erewrite bind_Ret
    by (apply assert_holds; intros _; simpl; rewrite Hcur; apply Nat.eqb_refl).
  rewrite (bind_Ret _ _ _ _ _ (deref_Some _ _ _ HT)).
  erewrite bind_Ret by (apply assert_holds; intros _; by rewrite Hact).
  rewrite (bind_Ret _ _ _ _ _ (update_stack_Some _ _ _ _ HT)).
  erewrite bind_Ret by (apply deref_Some; apply lookup_insert_eq).
  erewrite bind_Ret by (apply update_Some; apply lookup_insert_eq).
  erewrite bind_Ret by (apply update_Some; apply lookup_insert_eq).
  erewrite bind_Ret; cycle 1.
  { eapply deref_thread_state_Some with (t := t);
      [apply lookup_insert_eq| |exact Hts].
    simpl. rewrite !insert_insert_eq.
    change (with_kind _ (with_switch_args _ (with_stack_state _ Tb)))
      with (running_from Tb).
    by rewrite thread_state_running_from. }
  cbn [snd]. rewrite Htr. rewrite bind_ret.
  cbn [switch_args with_stack_state]. rewrite Hargs.
  unfold bind, modify, ret, with_run_log, with_greenlets. simpl.
  rewrite !insert_insert_eq. reflexivity.
Qed.

End Bootstrap.


Lemma catch_Enter {A} (c h : M A) s g o r s' :
  c s = Enter g o r s' -> catch_PyErrOccurred c h s = Enter g o r s'.
Proof. unfold catch_PyErrOccurred. by intros ->. Qed.

Section FirstSwitchFromPython.

Variable ndebug : bool.
Variable realloc_ok : Z -> bool.
Hypothesis realloc_succeeds : forall n, realloc_ok n = true.
Variable getattr_run : gid -> M OwnedObject.
Variable call_trace : PyObject -> bool -> gid -> gid -> M unit.
Variables (fuel : nat) (mark stackref : Z).
Hypothesis stackref_not_null : stackref <> 0.
Hypothesis mark_bound : mark <= ADDR_MAX.

(** [g_switch] on a greenlet that has not started goes where
    [g_initialstub] goes, when that is into the greenlet. *)
Lemma g_switch_fresh_target T T1 p m r k s o run s' :
  greenlets s !! T = Some T1 ->
  kind T1 = UserGreenlet p m r ->
  started (stack_state T1) = false ->
  active (stack_state T1) = false ->
  switch_allowed ndebug s T k -> (k < fuel)%nat ->
  (ndebug = false ->
   SwitchingArgs_bool (switch_args T1) || bool_decide (is_Some (pyerr s)) = true) ->
  g_initialstub ndebug realloc_ok getattr_run fuel mark stackref T s
  = Enter T o run s' ->
  g_switch ndebug realloc_ok getattr_run call_trace fuel mark stackref T s
  = Enter T o run s'.
Proof.
  intros HT Hkind Hst Hact Hallowed Hk Hargs Hstub. unfold g_switch.
  rewrite (bind_Ret _ _ _ _ _ (deref_Some _ _ _ HT)). rewrite Hkind.
  unfold UserGreenlet_g_switch.
  rewrite (bind_Ret _ _ _ _ _ (args_or_error_Some _ _ _ HT)).
  erewrite bind_Ret by (apply assert_holds; exact Hargs).
  erewrite bind_Ret; cycle 1.
  { apply catch_Ret. by apply check_switch_allowed_accepts with (k := k). }
  apply bind_Enter.
  destruct fuel as [|n]; [lia|].
  cbn [g_switch_loop].
  rewrite (bind_Ret _ _ _ _ _ (deref_Some _ _ _ HT)).
  rewrite Hact, Hst. cbn [negb].
  erewrite bind_Ret; cycle 1.
  { apply assert_holds. intros _. unfold started in Hst. unfold main.
    apply negb_false_iff, Z.eqb_eq in Hst. rewrite Hst. reflexivity. }
  rewrite bind_ret. by rewrite Hstub.
Qed.

(** The first switch into a greenlet [T], from the running greenlet
    [A], when the lookup of [run] runs no code: the stack is switched,
    [run] is called with the arguments of the switch, once, the thread
    is ready to switch again with [T] running, and every other greenlet
    is kept. *)
Lemma green_switch_starts A T T1 p m r l k run args kwargs s :
  switch_ready s A l ->
  main_of_thread s ->
  greenlets s !! T = Some T1 ->
  kind T1 = UserGreenlet p m r ->
  started (stack_state T1) = false ->
  active (stack_state T1) = false ->
  lookup_runs_no_code getattr_run T run
    (with_payload T T1 (mkSwitchingArgs (Some args) kwargs) s) ->
  switch_allowed ndebug s T k -> (k < fuel)%nat ->
  mark < stop_of (greenlets s) A ->
  (length l < fuel)%nat ->
  exists s1 s2,
    green_switch ndebug realloc_ok getattr_run call_trace fuel mark stackref
      T args kwargs s = Enter T A run s1 /\
    inner_bootstrap_enter ndebug call_trace T A run s1 =
      Ret (Some (mkSwitchingArgs (Some args) kwargs)) s2 /\
    switch_ready s2 T (T :: l) /\
    run_log s2 = T :: run_log s /\
    switches s2 = S (switches s) /\
    frames_kept_but T (greenlets s) (greenlets s2) /\
    same_mains s s2 /\
    stop_of (greenlets s2) T = mark.
Proof.
  intros [(ts & Hts & Hcur & Htr) Herr Hchain Hheap (A0 & HA & Hsaved) Hbounds]
         (ts' & Mg & Hts' & HM & HkM) HT Hkind Hst Hact Hpure Hallowed Hk Hmark
         Hfuel.
  rewrite Hts in Hts'. injection Hts' as <-.
  destruct (chain_ok_head_active _ _ _ Hchain) as (A0' & HA' & HactA).
  rewrite HA in HA'. injection HA' as <-.
  assert (HneA : T <> A) by (intros ->; congruence).
  assert (HneM : ts_main_greenlet ts <> T).
  { intros Heq. rewrite Heq, HT in HM. injection HM as <-. congruence. }
  assert (Hnin : T ∉ l).
  { intros Hin. destruct Hchain as [_ Hall _ _].
    destruct (Hall T Hin) as (G & HG & HactG). congruence. }
  set (a := mkSwitchingArgs (Some args) kwargs).
  set (s0 := with_payload T T1 a s).
  assert (Hss0 : same_stacks (greenlets s) (greenlets s0))
    by (by apply same_stacks_insert with (G := T1)).
  destruct (g_initialstub_enters ndebug realloc_ok realloc_succeeds getattr_run
              fuel mark stackref stackref_not_null mark_bound
              T (with_switch_args a T1) p m r A A0 ts Mg l k run s0)
    as (s1 & Hstub & Hthreads1 & Hthis1 & Herr1 & Hlog1 & Hsw1 & Hkept1 & Hheap1
        & HT1 & Hchain1).
  { apply with_payload_lookup. }
  { exact Hkind. }
  { exact Hst. }
  { exact Hact. }
  { exact Hpure. }
  { unfold s0. by apply switch_allowed_with_switch_args. }
  { exact Hk. }
  { exact Hts. }
  { exact Hcur. }
  { unfold s0. rewrite with_payload_lookup_ne; [exact HM|]. by intros ->. }
  { exact HkM. }
  { unfold s0. rewrite with_payload_lookup_ne; [exact HA|exact HneA]. }
  { exact Hsaved. }
  { by eapply chain_ok_same_stacks. }
  { by eapply all_heap_ok_same_stacks. }
  { exact Hfuel. }
  { by intros _. }
  set (Tb := started_from mark A A0 (ts_main_greenlet ts)
               (tstate_recursion_depth (tstate s0)) (with_switch_args a T1)) in *.
  set (ts1 := mkThreadState (ts_main_greenlet ts) T (ts_tracefunc ts)).
  assert (Hts1 : threads s1 !! this_thread s = Some ts1).
  { rewrite Hthreads1. simpl. rewrite lookup_alter_eq, Hts. reflexivity. }
  assert (Hkept01 : frames_kept_but T (greenlets s) (greenlets s1)).
  { eapply frames_kept_but_insert_l with (Tc := with_switch_args a T1).
    eapply frames_kept_but_of_insert. exact Hkept1. }
  destruct (frames_kept_but_lookup _ _ _ _ _ Hkept01 HneM HM)
    as (Mg' & HM' & HkM' & _).
  assert (Hthr1 : thread_state (greenlets s1) Tb = Some (this_thread s)).
  { unfold thread_state, Tb, started_from. simpl. rewrite Hkind, HM'.
    destruct Mg' as [? ? ? kM']. simpl in HkM'. by rewrite HkM', HkM. }
  set (s2 := with_run_log (T :: run_log s1)
               (with_greenlets (<[T := running_from Tb]> (greenlets s1)) s1)).
  assert (Hstop2 : forall x, x <> T -> stop_of (greenlets s2) x = stop_of (greenlets s) x).
  { intros x Hne. unfold stop_of. simpl. rewrite lookup_insert_ne by done.
    specialize (Hkept01 x Hne).
    destruct (greenlets s !! x) as [X|], (greenlets s1 !! x) as [X'|]; try done.
    apply Hkept01. }
  exists s1, s2. split.
  { unfold green_switch.
    rewrite (bind_Ret _ _ _ _ _ (update_Some _ _ _ _ HT)).
    apply catch_Enter, bind_Enter.
    fold (with_payload T T1 a s). fold s0.
    eapply g_switch_fresh_target with (k := k);
      [apply with_payload_lookup|exact Hkind|exact Hst|exact Hact
      |unfold s0; by apply switch_allowed_with_switch_args|exact Hk
      |by intros _|exact Hstub]. }
  split.
  { by rewrite (inner_bootstrap_enter_runs ndebug call_trace T Tb A run
                  (this_thread s) ts1 s1 HT1 eq_refl eq_refl Hthr1 Hts1 eq_refl Htr). }
  split.
  { constructor.
    - exists ts1. simpl. rewrite Hthis1. by repeat split.
    - simpl. by rewrite Herr1.
    - constructor.
      + econstructor; [apply lookup_insert_eq|].
        simpl. rewrite HactA.
        destruct (chain_ok_insert_other _ _ _ T (running_from Tb) Hnin Hchain1)
          as [Hlinks _ _ _]. exact Hlinks.
      + intros g Hin. apply elem_of_cons in Hin as [->|Hin].
        * eexists. split; [apply lookup_insert_eq|reflexivity].
        * destruct (chain_ok_insert_other _ _ _ T (running_from Tb) Hnin Hchain1)
            as [_ Hall _ _]. by apply Hall.
      + destruct Hchain as [Hlinks _ Hsorted _].
        assert (Hl : exists l', l = A :: l') by (inversion Hlinks; by eexists).
        destruct Hl as (l' & ->). destruct Hsorted as [HA_lt Hsorted'].
        assert (HT2 : stop_of (greenlets s2) T = mark).
        { unfold stop_of. simpl. by rewrite lookup_insert_eq. }
        split.
        * rewrite HT2. constructor.
          { rewrite Hstop2 by (by intros ->). exact Hmark. }
          rewrite Forall_forall in *. intros y Hy.
          rewrite Hstop2.
          { specialize (HA_lt y Hy). lia. }
          intros ->. apply Hnin. by right.
        * eapply chain_sorted_ext; [|split; [exact HA_lt|exact Hsorted']].
          intros g Hg. apply Hstop2. intros ->. contradiction.
      + apply Exists_cons_tl.
        destruct Hchain as [_ _ _ Htop].
        apply Exists_exists in Htop as (x & Hx & Hxstop).
        apply Exists_exists. exists x. split; [exact Hx|].
        rewrite Hstop2; [exact Hxstop|]. intros ->. contradiction.
    - intros g G Hg. simpl in Hg. destruct (decide (T = g)) as [<-|Hne].
      + rewrite lookup_insert_eq in Hg. injection Hg as <-.
        split; simpl; [lia|split; [intros Hnz; by contradiction Hnz|done]].
      + rewrite lookup_insert_ne in Hg by done. by eapply Hheap1.
    - eexists. split; [apply lookup_insert_eq|reflexivity].
    - intros g G Hg.
      destruct (decide (T = g)) as [<-|Hne].
      + simpl in Hg. rewrite lookup_insert_eq in Hg. injection Hg as <-.
        exact mark_bound.
      + assert (Hs : stop_of (greenlets s2) g = stack_stop (stack_state G))
          by (unfold stop_of; by rewrite Hg).
        rewrite <- Hs, Hstop2 by done. unfold stop_of.
        destruct (greenlets s !! g) as [X|] eqn:HX; [by eapply Hbounds|].
        unfold ADDR_MAX. lia. }
  split; [simpl; by rewrite Hlog1|].
  split; [exact Hsw1|].
  split; [by apply frames_kept_but_insert|].
  split; [|unfold stop_of; simpl; by rewrite lookup_insert_eq].
  split; [exact Hthis1|]. intros t. simpl. rewrite Hthreads1. simpl.
  destruct (decide (this_thread s = t)) as [<-|Hnet].
  - rewrite lookup_alter_eq, Hts. reflexivity.
  - by rewrite lookup_alter_ne.
Qed.

End FirstSwitchFromPython.


(** ** The round trip *)

Lemma switch_ready_running s cur l : switch_ready s cur l -> running s = Some cur.
Proof. intros [(ts & Hts & Hcur & _) _ _ _ _ _]. unfold running. by rewrite Hts, <- Hcur. Qed.

Section RoundTripSwitch.

Variable ndebug : bool.
Variable realloc_ok : Z -> bool.
Variable getattr_run : gid -> M OwnedObject.
Variable call_trace : PyObject -> bool -> gid -> gid -> M unit.
Variables (fuel : nat) (mark stackref : Z).

(** C1. Round-trip switch delivery.  Let [A] be the greenlet running on
    the calling thread, ready to switch, and [B] another greenlet of the
    thread; the allocator serves every request.
    - When [B] is suspended: the call [B] is suspended in returns the
      payload of [A], with [B] running; and when [B] then switches to
      [A] with [args] and [kwargs], the switch call of [A] returns that
      payload, with [A] running.
    - When [B] has not started and the lookup of its [run] runs no
      code: the switch enters [B], [run] is called with the payload
      of [A]; and when [run] then switches to [A] with [args] and
      [kwargs], the switch call of [A] returns that payload, with [A]
      running.
    The payload returned is [args] and [kwargs] packed as
    [g_switch_finish] delivers them, a 1-tuple unwrapped. *)
Theorem C1_round_trip_switch A B l kA kB args' kwargs' args kwargs s :
  (forall n, realloc_ok n = true) ->
  stackref <> 0 ->
  0 < mark <= ADDR_MAX ->
  switch_ready s A l ->
  resumable ndebug s A kA ->
  A <> B ->
  (S (length l) < fuel)%nat -> (kA < fuel)%nat -> (kB < fuel)%nat ->
  (resumable ndebug s B kB ->
   exists s1 s2,
     green_switch ndebug realloc_ok getattr_run call_trace fuel mark stackref
       B args' kwargs' s =
     Ret (single_result (fst (deliver (mkSwitchingArgs (Some args') kwargs')))) s1 /\
     running s1 = Some B /\
     green_switch ndebug realloc_ok getattr_run call_trace fuel mark stackref
       A args kwargs s1 =
     Ret (single_result (fst (deliver (mkSwitchingArgs (Some args) kwargs)))) s2 /\
     running s2 = Some A /\
     switches s2 = S (S (switches s))) /\
  (forall B1 p m r run,
     greenlets s !! B = Some B1 ->
     kind B1 = UserGreenlet p m r ->
     started (stack_state B1) = false ->
     active (stack_state B1) = false ->
     (forall s0, getattr_run B s0 = Ret run s0) ->
     switch_allowed ndebug s B kB ->
     main_of_thread s ->
     mark < stop_of (greenlets s) A ->
     exists s1 s1' s2,
       green_switch ndebug realloc_ok getattr_run call_trace fuel mark stackref
         B args' kwargs' s = Enter B A run s1 /\
       inner_bootstrap_enter ndebug call_trace B A run s1 =
         Ret (Some (mkSwitchingArgs (Some args') kwargs')) s1' /\
       running s1' = Some B /\
       run_log s1' = B :: run_log s /\
       green_switch ndebug realloc_ok getattr_run call_trace fuel mark stackref
         A args kwargs s1' =
       Ret (single_result (fst (deliver (mkSwitchingArgs (Some args) kwargs)))) s2 /\
       running s2 = Some A /\
       switches s2 = S (S (switches s))).
Proof.
  intros Hrealloc Href [Hmark0 Hmark] Hready HresA Hne Hfuel HkA HkB.
  split.
  - intros HresB.
    destruct (green_switch_resumes ndebug realloc_ok Hrealloc getattr_run
                call_trace fuel mark stackref Href A B l kB args' kwargs' s
                Hready HresB) as (s1 & l1 & Hrun1 & Hready1 & Hlen1 & Hsw1
                                  & Hkept1 & Hmains1 & _);
      [congruence|lia|exact HkB|].
    assert (HresA1 : resumable ndebug s1 A kA) by (by eapply resumable_kept).
    destruct (green_switch_resumes ndebug realloc_ok Hrealloc getattr_run
                call_trace fuel mark stackref Href B A l1 kA args kwargs s1
                Hready1 HresA1) as (s2 & l2 & Hrun2 & Hready2 & _ & Hsw2 & _);
      [exact Hne|lia|exact HkA|].
    exists s1, s2. split; [exact Hrun1|].
    split; [by eapply switch_ready_running|].
    split; [exact Hrun2|].
    split; [by eapply switch_ready_running|]. by rewrite Hsw2, Hsw1.
  - intros B1 p m r run HB Hkind Hst Hact Hpure Hallowed Hmain HmarkA.
    destruct (green_switch_starts ndebug realloc_ok Hrealloc getattr_run
                call_trace fuel mark stackref Href Hmark A B B1 p m r l kB run
                args' kwargs' s Hready Hmain HB Hkind Hst Hact (Hpure _) Hallowed HkB
                HmarkA) as (s1 & s1' & Hrun1 & Henter & Hready1 & Hlog & Hsw1
                            & Hkept1 & Hmains1 & _);
      [lia|].
    assert (HresA1 : resumable ndebug s1' A 0).
    { eapply resumable_started_kept with (T := B);
        [exact HresA| |exact Hne| |exact Hkept1|exact Hmains1].
      - destruct HresA as (A0 & HA & _). exists A0. split; [exact HA|].
        unfold stop_of in HmarkA. rewrite HA in HmarkA.
        unfold started. apply negb_true_iff, Z.eqb_neq. lia.
      - intros ts Hts Heq. destruct Hmain as (ts' & Mg & Hts' & HM & HkM).
        rewrite Hts in Hts'. injection Hts' as <-.
        rewrite Heq, HB in HM. injection HM as <-. congruence. }
    destruct (green_switch_resumes ndebug realloc_ok Hrealloc getattr_run
                call_trace fuel mark stackref Href B A (B :: l) 0 args kwargs s1'
                Hready1 HresA1) as (s2 & l2 & Hrun2 & Hready2 & _ & Hsw2 & _);
      [exact Hne|simpl; lia|lia|].
    exists s1, s1', s2. split; [exact Hrun1|]. split; [exact Henter|].
    split; [by eapply switch_ready_running|]. split; [exact Hlog|].
    split; [exact Hrun2|].
    split; [by eapply switch_ready_running|]. by rewrite Hsw2, Hsw1.
Qed.

End RoundTripSwitch.


(** Case analysis on a lookup in a store given by its insertions. *)
Ltac ex_store_cases Hg :=
  repeat (apply lookup_insert_Some in Hg as [[<- <-]|[? Hg]]);
  [..|by rewrite lookup_empty in Hg].

Lemma ex_main_chain_ok gs :
  gs !! (O : gid) = Some ex_main_running -> chain_ok gs (Some 0%nat) [0%nat].
Proof.
  intros H0. constructor.
  - econstructor; [exact H0|constructor].
  - intros g Hg. apply list_elem_of_singleton in Hg as ->.
    by exists ex_main_running.
  - by split.
  - apply Exists_cons_hd. cbv beta. unfold stop_of.
    by replace (gs !! (O : gid)) with (Some ex_main_running).
Qed.

Lemma ex_main_resumable s :
  greenlets s !! (O : gid) = Some ex_main_running ->
  threads s !! this_thread s = Some (mkThreadState 0%nat 0%nat None) ->
  this_thread s = 0%nat ->
  resumable false s 0%nat 0.
Proof.
  intros H0 Hts Hthis. exists ex_main_running.
  split; [exact H0|]. split; [reflexivity|]. split; [by rewrite Hthis|].
  exists (mkThreadState 0%nat 0%nat None), ex_main_running.
  split; [exact Hts|]. split; [eapply lineage_main_main; [exact H0|reflexivity]|].
  split; [exact H0|]. split; by eexists.
Qed.

Lemma C1_round_trip_switch_witness :
  (exists s1 s2,
     green_switch false ex_realloc_ok ex_getattr_run ex_call_trace 5 850 800
       1%nat (PyTuple [PyInt 7]) None ex_suspended_child =
     Ret (Some (PyInt 7)) s1 /\
     running s1 = Some 1%nat /\
     green_switch false ex_realloc_ok ex_getattr_run ex_call_trace 5 850 800
       0%nat (PyTuple [PyInt 8]) None s1 =
     Ret (Some (PyInt 8)) s2 /\
     running s2 = Some 0%nat /\
     switches s2 = 2%nat) /\
  (exists s1 s1' s2,
     green_switch false ex_realloc_ok ex_getattr_plain ex_call_trace 5 850 800
       1%nat (PyTuple [PyInt 7]) None ex_fresh_child =
     Enter 1%nat 0%nat (Some (PyOpaque 7)) s1 /\
     inner_bootstrap_enter false ex_call_trace 1%nat 0%nat (Some (PyOpaque 7)) s1 =
     Ret (Some (mkSwitchingArgs (Some (PyTuple [PyInt 7])) None)) s1' /\
     running s1' = Some 1%nat /\
     run_log s1' = [1%nat] /\
     green_switch false ex_realloc_ok ex_getattr_plain ex_call_trace 5 850 800
       0%nat (PyTuple [PyInt 8]) None s1' =
     Ret (Some (PyInt 8)) s2 /\
     running s2 = Some 0%nat /\
     switches s2 = 2%nat).
Proof.
  split.
  - refine (proj1 (C1_round_trip_switch false ex_realloc_ok ex_getattr_run
                     ex_call_trace 5 850 800 0%nat 1%nat [0%nat] 0 0
                     (PyTuple [PyInt 7]) None (PyTuple [PyInt 8]) None
                     ex_suspended_child _ _ _ _ _ _ _ _ _) _).
    + reflexivity.
    + discriminate.
    + unfold ADDR_MAX. lia.
    + constructor.
      * exists (mkThreadState 0%nat 0%nat None). by repeat split.
      * reflexivity.
      * by apply ex_main_chain_ok.
      * intros g G Hg. unfold ex_suspended_child in Hg. cbn [greenlets] in Hg.
        ex_store_cases Hg; (split; [simpl; lia|split; simpl; [|try done; lia]]);
          [|lia].
        intros _. eexists. split; [reflexivity|simpl; lia].
      * by exists ex_main_running.
      * intros g G Hg. unfold ex_suspended_child in Hg. cbn [greenlets] in Hg.
        ex_store_cases Hg; simpl; unfold ADDR_MAX; lia.
    + by apply ex_main_resumable.
    + discriminate.
    + simpl. lia.
    + lia.
    + lia.
    + exists ex_child_saved. split; [reflexivity|]. split; [reflexivity|].
      split; [reflexivity|].
      exists (mkThreadState 0%nat 0%nat None), ex_main_running.
      split; [reflexivity|]. split.
      { eapply lineage_main_started; try reflexivity. intros _. by eexists. }
      split; [reflexivity|]. split; by eexists.
  - refine (proj2 (C1_round_trip_switch false ex_realloc_ok ex_getattr_plain
                     ex_call_trace 5 850 800 0%nat 1%nat [0%nat] 0 1
                     (PyTuple [PyInt 7]) None (PyTuple [PyInt 8]) None
                     ex_fresh_child _ _ _ _ _ _ _ _ _)
              ex_fresh (Some 0%nat) None (Some (PyOpaque 7)) (Some (PyOpaque 7))
              _ _ _ _ _ _ _ _).
    + reflexivity.
    + discriminate.
    + unfold ADDR_MAX. lia.
    + constructor.
      * exists (mkThreadState 0%nat 0%nat None). by repeat split.
      * reflexivity.
      * by apply ex_main_chain_ok.
      * intros g G Hg. unfold ex_fresh_child in Hg. cbn [greenlets] in Hg.
        ex_store_cases Hg; (split; [simpl; lia|split; simpl; [lia|done]]).
      * by exists ex_main_running.
      * intros g G Hg. unfold ex_fresh_child in Hg. cbn [greenlets] in Hg.
        ex_store_cases Hg; simpl; unfold ADDR_MAX; lia.
    + by apply ex_main_resumable.
    + discriminate.
    + simpl. lia.
    + lia.
    + lia.
    + reflexivity.
    + reflexivity.
    + reflexivity.
    + reflexivity.
    + reflexivity.
    + exists (mkThreadState 0%nat 0%nat None), ex_main_running.
      split; [reflexivity|]. split.
      { eapply lineage_main_parent; try reflexivity.
        eapply lineage_main_main; reflexivity. }
      split; [reflexivity|]. split; by eexists.
    + exists (mkThreadState 0%nat 0%nat None), ex_main_running. by repeat split.
    + vm_compute. reflexivity.
Defined.


(** ** The end of a greenlet *)

Lemma g_handle_exit_spec greenlet_result s :
  g_handle_exit greenlet_result s =
  Ret (fst (handled greenlet_result (pyerr s)))
    (with_pyerr (snd (handled greenlet_result (pyerr s))) s).
Proof.
  unfold g_handle_exit, handled. rewrite bind_get.
  destruct (negb (bool_decide (is_Some greenlet_result))
            && GreenletExit_matches (pyerr s)) eqn:Hc.
  - rewrite bind_modify. destruct (pyerr s) as [[t [v|]]|]; reflexivity.
  - simpl. destruct greenlet_result; unfold ret; f_equal; by destruct s.
Qed.

Lemma identity_kept_lookup gs gs' x X :
  identity_kept gs gs' -> gs !! x = Some X ->
  exists X', gs' !! x = Some X' /\ kind X' = kind X /\
             stack_stop (stack_state X') = stack_stop (stack_state X).
Proof.
  intros H HX. destruct (H x) as [Hk Hs]. unfold stop_of in Hs.
  rewrite HX in Hk, Hs. destruct (gs' !! x) as [X'|]; simpl in Hk; [|discriminate].
  exists X'. split; [reflexivity|]. split; [by injection Hk|exact Hs].
Qed.

Lemma identity_kept_trans gs1 gs2 gs3 :
  identity_kept gs1 gs2 -> identity_kept gs2 gs3 -> identity_kept gs1 gs3.
Proof.
  intros H12 H23 x. destruct (H12 x) as [Hk2 Hs2]. destruct (H23 x) as [Hk3 Hs3].
  split; [by rewrite Hk3|by rewrite Hs3].
Qed.

Lemma identity_kept_insert gs g G G' :
  gs !! g = Some G -> kind G' = kind G ->
  stack_stop (stack_state G') = stack_stop (stack_state G) ->
  identity_kept gs (<[g := G']> gs).
Proof.
  intros Hg Hk Hs x. unfold stop_of. destruct (decide (g = x)) as [->|Hne].
  - rewrite lookup_insert_eq, Hg. simpl. by rewrite Hk, Hs.
  - by rewrite lookup_insert_ne.
Qed.

Lemma lineage_main_identity_kept ndebug gs gs' g r k :
  identity_kept gs gs' ->
  lineage_main ndebug gs g r k -> lineage_main ndebug gs' g r k.
Proof.
  intros H.
  induction 1 as [g G ts Hg Hk|g G p m r Hg Hk Hst Hm|g G m r Hg Hk Hst
                 |g G p m r res k Hg Hk Hst Hl IH];
    destruct (identity_kept_lookup _ _ _ _ H Hg) as (G' & Hg' & Hk' & Hs').
  - eapply lineage_main_main; [exact Hg'|]. by rewrite Hk'.
  - eapply lineage_main_started; [exact Hg'|by rewrite Hk'| |exact Hm].
    unfold started. by rewrite Hs'.
  - eapply lineage_main_orphan; [exact Hg'|by rewrite Hk'|].
    unfold started. by rewrite Hs'.
  - eapply lineage_main_parent; [exact Hg'|by rewrite Hk'| |exact IH].
    unfold started. by rewrite Hs'.
Qed.

Lemma switch_allowed_identity_kept ndebug s s' g k :
  identity_kept (greenlets s) (greenlets s') ->
  threads s' = threads s -> this_thread s' = this_thread s ->
  switch_allowed ndebug s g k -> switch_allowed ndebug s' g k.
Proof.
  intros Hk Hthreads Hthis (ts & Mg & Hts & Hl & Hm & Ht & [G Hg]).
  destruct (identity_kept_lookup _ _ _ _ Hk Hm) as (Mg' & Hm' & HkM & _).
  destruct (identity_kept_lookup _ _ _ _ Hk Hg) as (G' & Hg' & _).
  exists ts, Mg'. rewrite Hthreads, Hthis.
  split; [exact Hts|].
  split; [by eapply lineage_main_identity_kept|].
  split; [exact Hm'|]. split; [|by eexists].
  replace (thread_state (greenlets s') Mg') with (thread_state (greenlets s) Mg);
    [exact Ht|].
  symmetry. apply thread_state_kinds; [|exact HkM]. intros x. apply Hk.
Qed.

(** A chain of dead greenlets is still one when the dead greenlets still
    are dead and have the parents they had. *)
Lemma dead_chain_ext gs gs' d r k :
  (forall x X, gs !! x = Some X -> is_dead X = true ->
     exists X', gs' !! x = Some X' /\ is_dead X' = true /\ parent X' = parent X) ->
  dead_chain gs d r k -> dead_chain gs' d r k.
Proof.
  intros H. induction 1 as [d D r Hd Hdead Hp|d D d' r k Hd Hdead Hp Hc IH];
    destruct (H _ _ Hd Hdead) as (D' & Hd' & Hdead' & Hp').
  - eapply dead_chain_parent; [exact Hd'|exact Hdead'|by rewrite Hp'].
  - eapply dead_chain_step; [exact Hd'|exact Hdead'|by rewrite Hp'|exact IH].
Qed.


Lemma set_inactive_spec ss :
  _stack_start (set_inactive ss) = 0 /\
  stack_stop (set_inactive ss) = stack_stop ss /\
  stack_prev (set_inactive ss) = stack_prev ss /\
  _stack_saved (set_inactive ss) = 0 /\
  (heap_ok ss -> stack_copy (set_inactive ss) = None).
Proof.
  unfold set_inactive. simpl.
  destruct (_stack_saved ss =? 0) eqn:Hz; simpl; repeat split; try done.
  - by apply Z.eqb_eq.
  - intros (_ & _ & Hnone). apply Hnone. by apply Z.eqb_eq.
Qed.

Section Exit.

Variable ndebug : bool.
Variable realloc_ok : Z -> bool.
Hypothesis realloc_succeeds : forall n, realloc_ok n = true.
Variable getattr_run : gid -> M OwnedObject.
Variable call_trace : PyObject -> bool -> gid -> gid -> M unit.
Variables (fuel : nat) (mark stackref : Z).
Hypothesis stackref_not_null : stackref <> 0.

(** The end of [inner_bootstrap] in the running greenlet [D], whose
    parent is [P] and whose nearest ancestor that is not dead is the
    suspended greenlet [R], when no switch arguments are left pending
    in [D]: [D] is dead, the stack is switched to [R], and the call [R]
    was suspended in returns what [g_handle_exit] makes of the result,
    or throws when it leaves an error pending. *)
Lemma inner_bootstrap_exit_forwards D D0 P P0 R R0 ts l k kP result s :
  threads s !! this_thread s = Some ts ->
  ts_current_greenlet ts = D ->
  ts_tracefunc ts = None ->
  greenlets s !! D = Some D0 ->
  thread_state (greenlets s) D0 = Some (this_thread s) ->
  chain_ok (greenlets s) (Some D) (D :: l) ->
  stack_stop (stack_state D0) < ADDR_MAX ->
  all_heap_ok (greenlets s) ->
  (forall g G, greenlets s !! g = Some G ->
               stack_stop (stack_state G) <= ADDR_MAX) ->
  parent D0 = Some P ->
  greenlets s !! P = Some P0 ->
  P = R \/ dead_chain (greenlets s) P R k ->
  greenlets s !! R = Some R0 ->
  active (stack_state R0) = true ->
  thread_state (greenlets s) R0 = Some (this_thread s) ->
  R <> D ->
  switch_allowed ndebug s P kP ->
  (kP < fuel)%nat -> (k < fuel)%nat -> (length l < fuel)%nat ->
  negb (bool_decide (is_Some result)) && GreenletExit_matches (pyerr s)
    && SwitchingArgs_bool (switch_args D0) = false ->
  is_Some result \/ is_Some (pyerr s) ->
  exists s' l',
    inner_bootstrap_exit ndebug realloc_ok getattr_run call_trace fuel mark
      stackref D result s =
      (if bool_decide (is_Some (snd (handled result (pyerr s))))
       then Throw PyErrOccurred s'
       else Ret (fst (handled result (pyerr s))) s') /\
    pyerr s' = snd (handled result (pyerr s)) /\
    terminated s' D D0 /\
    running s' = Some R /\
    chain_ok (greenlets s') (Some R) l' /\
    all_heap_ok (greenlets s') /\
    identity_kept (greenlets s) (greenlets s') /\
    switches s' = S (switches s) /\
    run_log s' = run_log s /\
    frames_kept_but D (greenlets s) (greenlets s').
Proof.
  intros Hts Hcur Htr HD HthrD Hchain HstopD Hheap Hbounds Hparent HP Hcase HR
         HactR HthrR HneR Hallowed HkP Hk Hfuel Hbranch Hsome.
  destruct (chain_ok_head_active _ _ _ Hchain) as (D0' & HD' & HactD).
  rewrite HD in HD'. injection HD' as <-.
  assert (HneP : P <> D).
  { intros ->. destruct Hcase as [->|Hdead]; [done|].
    destruct (dead_chain_head _ _ _ _ Hdead) as (X & p & m & c & HX & _ & Hd).
    rewrite HD in HX. injection HX as <-.
    unfold is_dead in Hd. rewrite HactD in Hd. by rewrite andb_false_r in Hd. }
  set (result' := fst (handled result (pyerr s))).
  set (e' := snd (handled result (pyerr s))).
  set (D1 := finished D0).
  set (P1 := with_switch_args (SwitchingArgs_of_object result') P0).
  set (gsd := <[P := P1]> (<[D := D1]> (greenlets s))).
  set (sd := with_greenlets gsd (with_pyerr e' s)).
  (* the run of [inner_bootstrap] up to the switch *)
  assert (Hrun : inner_bootstrap_exit ndebug realloc_ok getattr_run call_trace
                   fuel mark stackref D result s =
                 match g_switch ndebug realloc_ok getattr_run call_trace fuel
                         mark stackref P sd with
                 | Throw PyErrOccurred s' =>
                     if Nat.eqb (switches s') (switches sd) then
                       (let* P := deref P in
                        switch_to_parents ndebug realloc_ok getattr_run call_trace
                          (pred fuel) fuel mark stackref D (parent P) None) s'
                     else Throw PyErrOccurred s'
                 | Ret r s' =>
                     if Nat.eqb (switches s') (switches sd) then
                       (assert ndebug (negb (bool_decide (is_Some r))) ;;;
                        let* P := deref P in
                        switch_to_parents ndebug realloc_ok getattr_run call_trace
                          (pred fuel) fuel mark stackref D (parent P) r) s'
                     else Ret r s'
                 | o => o
                 end).
  { unfold inner_bootstrap_exit.
    rewrite (bind_Ret _ _ _ _ _ (deref_Some _ _ _ HD)). rewrite bind_get.
    rewrite Hbranch. rewrite bind_ret.
    unfold release_args.
    rewrite (bind_Ret _ _ _ _ _ (update_Some _ _ _ _ HD)).
    rewrite (bind_Ret _ _ _ _ _ (g_handle_exit_spec _ _)).
    erewrite bind_Ret; cycle 1.
    { eapply deref_thread_state_Some with (t := this_thread s);
        [apply lookup_insert_eq| |exact Hts].
      simpl. by rewrite thread_state_insert_args. }
    erewrite bind_Ret
      by (apply assert_holds; intros _; simpl; rewrite Hcur; apply Nat.eqb_refl).
    erewrite bind_Ret by (apply update_stack_Some; apply lookup_insert_eq).
    erewrite bind_Ret by (apply deref_Some; apply lookup_insert_eq).
    replace (parent (with_stack_state (set_inactive
               (stack_state (with_switch_args SwitchingArgs_empty D0)))
               (with_switch_args SwitchingArgs_empty D0))) with (Some P)
      by (by rewrite <- Hparent).
    destruct fuel as [|n]; [lia|]. cbn [switch_to_parents pred].
    erewrite bind_Ret; cycle 1.
    { apply update_Some with (G := P0). simpl.
      rewrite insert_insert_eq. rewrite lookup_insert_ne by done. exact HP. }
    simpl pyerr. fold result' e'.
    replace (with_greenlets _ _) with sd; [reflexivity|].
    unfold sd, gsd, with_greenlets, with_pyerr. simpl.
    rewrite insert_insert_eq. reflexivity. }
  (* the store the switch starts from *)
  assert (HDd : gsd !! D = Some D1).
  { unfold gsd. rewrite lookup_insert_ne by done. apply lookup_insert_eq. }
  assert (HPd : gsd !! P = Some P1) by apply lookup_insert_eq.
  destruct (set_inactive_spec (stack_state D0))
    as (Hstart1 & Hstop1 & Hprev1 & Hsaved1 & Hcopy1).
  assert (Hidentity : identity_kept (greenlets s) gsd).
  { eapply identity_kept_trans.
    - apply identity_kept_insert with (G := D0) (G' := D1);
        [exact HD|reflexivity|exact Hstop1].
    - apply identity_kept_insert with (G := P0) (G' := P1);
        [by rewrite lookup_insert_ne|reflexivity|reflexivity]. }
  assert (Hnin : D ∉ l).
  { intros Hin. destruct Hchain as [_ _ [Hlt _] _].
    rewrite Forall_forall in Hlt. specialize (Hlt D Hin). lia. }
  assert (Hother : forall x X, x <> D -> greenlets s !! x = Some X ->
            exists X', gsd !! x = Some X' /\ stack_state X' = stack_state X /\
                       kind X' = kind X).
  { intros x X Hne HX. unfold gsd. destruct (decide (P = x)) as [<-|HneP'].
    - rewrite HP in HX. injection HX as <-. exists P1.
      by rewrite lookup_insert_eq.
    - exists X. rewrite !lookup_insert_ne by done. by split. }
  assert (Hchaind : chain_ok gsd (first_owner D D1) l).
  { unfold first_owner, D1, finished, active. simpl. rewrite Hstart1, Hprev1. simpl.
    destruct Hchain as [Hlinks Hact [Hlt Hsorted] Htop].
    inversion Hlinks as [|d0 D0'' l0 HD0 Hlinks0]; subst.
    rewrite HD in HD0. injection HD0 as <-.
    assert (Hstopd : forall x, x ∈ l -> stop_of gsd x = stop_of (greenlets s) x).
    { intros x Hx. apply Hidentity. }
    constructor.
    - eapply owner_chain_ext; [exact Hlinks0|]. intros x X Hx HX.
      destruct (Hother x X) as (X' & HX' & Hss & _); [by intros ->|exact HX|].
      exists X'. by rewrite Hss.
    - intros x Hx. destruct (Hact x) as (X & HX & HactX); [by right|].
      destruct (Hother x X) as (X' & HX' & Hss & _); [by intros ->|exact HX|].
      exists X'. by rewrite Hss.
    - by eapply chain_sorted_ext.
    - apply Exists_cons in Htop as [Hhd|Htl].
      + unfold stop_of in Hhd. rewrite HD in Hhd. lia.
      + apply Exists_exists in Htl as (m & Hm & Hmstop).
        apply Exists_exists. exists m. split; [exact Hm|]. by rewrite Hstopd. }
  assert (Hheapd : all_heap_ok gsd).
  { intros x X' HX'. destruct (decide (x = D)) as [->|Hne].
    - rewrite HDd in HX'. injection HX' as <-. unfold D1, finished. simpl.
      split; [lia|]. split; [by intros Hnz|]. intros _. apply Hcopy1.
      by eapply Hheap.
    - destruct (greenlets s !! x) as [X|] eqn:HX.
      + destruct (Hother x X Hne HX) as (X'' & HX'' & Hss & _).
        rewrite HX' in HX''. injection HX'' as <-. rewrite Hss. by eapply Hheap.
      + destruct (Hidentity x) as [Hkx _]. rewrite HX, HX' in Hkx. discriminate. }
  assert (Hboundsd : forall g G, gsd !! g = Some G ->
                       stack_stop (stack_state G) <= ADDR_MAX).
  { intros x X' HX'. destruct (Hidentity x) as [_ Hs]. unfold stop_of in Hs.
    rewrite HX' in Hs. rewrite Hs.
    destruct (greenlets s !! x) as [X|] eqn:HX; [by eapply Hbounds|].
    unfold ADDR_MAX. lia. }
  assert (HRd : exists Rd, gsd !! R = Some Rd /\ stack_state Rd = stack_state R0
                           /\ kind Rd = kind R0)
    by (by apply Hother).
  destruct HRd as (Rd & HRd & HssR & HkR).
  assert (Hcased : P = R \/ dead_chain gsd P R k).
  { destruct Hcase as [->|Hdead]; [by left|right].
    eapply dead_chain_ext; [|exact Hdead]. intros x X HX Hd.
    assert (Hne : x <> D).
    { intros ->. rewrite HD in HX. injection HX as <-.
      unfold is_dead in Hd. rewrite HactD in Hd. by rewrite andb_false_r in Hd. }
    destruct (Hother x X Hne HX) as (X' & HX' & Hss & HkX).
    exists X'. split; [exact HX'|]. unfold is_dead, parent. by rewrite Hss, HkX. }
  destruct (g_switch_resumes ndebug realloc_ok realloc_succeeds getattr_run
              call_trace fuel mark stackref stackref_not_null
              D D1 P P1 R Rd ts l k kP sd)
    as (s' & l' & Hswitch & Harr & _ & _).
  { exact Hts. }
  { exact Hcur. }
  { exact Htr. }
  { exact HDd. }
  { exact Hsaved1. }
  { exact Hchaind. }
  { exact Hheapd. }
  { exact Hboundsd. }
  { exact HPd. }
  { exact Hcased. }
  { exact HRd. }
  { by rewrite HssR. }
  { transitivity (thread_state (greenlets s) R0); [|exact HthrR].
    apply thread_state_kinds; [|exact HkR]. intros x. apply Hidentity. }
  { exact HneR. }
  { eapply switch_allowed_identity_kept; [| | |exact Hallowed]; done. }
  { exact HkP. }
  { exact Hk. }
  { exact Hfuel. }
  { simpl. fold e'. intros He'. unfold result', e', handled in *.
    destruct (negb (bool_decide (is_Some result))
              && GreenletExit_matches (pyerr s)); [reflexivity|].
    simpl in He'. destruct Hsome as [[r ->]|[e He]]; [reflexivity|].
    rewrite He in He'. discriminate. }
  destruct Harr as [(ts' & Hts' & Hcur' & _) Herr' Hchain' Hheap' _ Hkept'
                    [Hthis' _] Hsw' Hlog'].
  assert (Hneq : Nat.eqb (switches s') (switches sd) = false).
  { rewrite Hsw'. apply Nat.eqb_neq. lia. }
  exists s', l'. split.
  { rewrite Hrun, Hswitch. simpl pyerr. fold e'.
    destruct (bool_decide (is_Some e')); rewrite Hneq; [reflexivity|].
    simpl switch_args. unfold deliver. simpl. reflexivity. }
  split; [exact Herr'|].
  split.
  { destruct (frames_kept_lookup _ _ _ _ Hkept' HDd) as (D' & HD'' & _ & _ & _ & Hin).
    exists D'. split; [exact HD''|]. rewrite Hin; [reflexivity|].
    unfold D1, finished, active. simpl. by rewrite Hstart1. }
  split; [unfold running; by rewrite Hts', <- Hcur'|].
  split; [exact Hchain'|]. split; [exact Hheap'|].
  split.
  { eapply identity_kept_trans; [exact Hidentity|].
    intros x. split.
    - by apply frames_kept_kinds.
    - by apply frames_kept_stop_of. }
  split; [exact Hsw'|]. split; [exact Hlog'|].
  eapply frames_kept_but_trans with (gs2 := gsd);
    [|apply frames_kept_but_of_frames_kept; exact Hkept'].
  intros x Hne. unfold gsd. destruct (decide (P = x)) as [<-|HneP'].
  - rewrite lookup_insert_eq, HP. by repeat split.
  - rewrite !lookup_insert_ne by done.
    destruct (greenlets s !! x); [apply frame_kept_refl|exact I].
Qed.

End Exit.


(** ** Cooperative termination *)


Section CooperativeTermination.

Variable ndebug : bool.
Variable realloc_ok : Z -> bool.
Variable getattr_run : gid -> M OwnedObject.
Variable call_trace : PyObject -> bool -> gid -> gid -> M unit.
Variables (fuel : nat) (mark stackref : Z).


End CooperativeTermination.



(** ** The stack bytes of greenlets that are not running *)

Lemma holds_no_bytes_inactive ss : holds_no_bytes ss -> active ss = false.
Proof. intros (H & _). unfold active. by rewrite H. Qed.

Lemma no_bytes_unless_alive_inactive G :
  no_bytes_unless_alive G -> active (stack_state G) = false ->
  holds_no_bytes (stack_state G).
Proof.
  intros [Hns Hd] Hact. destruct (started (stack_state G)) eqn:Hst.
  - apply Hd. unfold is_dead. by rewrite Hst, Hact.
  - by apply Hns.
Qed.

Lemma no_bytes_unless_alive_new G :
  holds_no_bytes (stack_state G) -> no_bytes_unless_alive G.
Proof. by split. Qed.

Lemma no_bytes_unless_alive_running G :
  started (stack_state G) = true -> active (stack_state G) = true ->
  no_bytes_unless_alive G.
Proof.
  intros Hst Hact. split; [congruence|]. unfold is_dead. rewrite Hact.
  by rewrite andb_false_r.
Qed.

Lemma no_bytes_unless_alive_kept G G' :
  frame_kept G G' -> no_bytes_unless_alive G -> no_bytes_unless_alive G'.
Proof.
  intros (_ & Hs & Ha & Hin) Hinv.
  assert (Hst : started (stack_state G') = started (stack_state G))
    by (unfold started; by rewrite Hs).
  destruct (active (stack_state G)) eqn:Hact.
  - split.
    + intros Hns. rewrite Hst in Hns. destruct Hinv as [Hinv _].
      pose proof (holds_no_bytes_inactive _ (Hinv Hns)). congruence.
    + unfold is_dead. rewrite Ha. by rewrite andb_false_r.
  - pose proof (no_bytes_unless_alive_inactive _ Hinv Hact) as Hnb.
    unfold no_bytes_unless_alive. rewrite (Hin eq_refl). by split.
Qed.

Lemma stack_byte_invariant_kept T gs gs' :
  stack_byte_invariant gs ->
  frames_kept_but T gs gs' ->
  (forall T', gs' !! T = Some T' -> no_bytes_unless_alive T') ->
  stack_byte_invariant gs'.
Proof.
  intros Hinv Hkept HT x X' HX'. destruct (decide (x = T)) as [->|Hne].
  - by apply HT.
  - destruct (frames_kept_but_lookup_inv _ _ _ _ _ Hkept Hne HX') as (X & HX & Hf).
    eapply no_bytes_unless_alive_kept; [exact Hf|]. by eapply Hinv.
Qed.

Lemma stack_byte_invariant_insert gs g G' :
  stack_byte_invariant gs -> no_bytes_unless_alive G' ->
  stack_byte_invariant (<[g := G']> gs).
Proof.
  intros Hinv HG x X HX. destruct (decide (g = x)) as [->|Hne].
  - rewrite lookup_insert_eq in HX. by injection HX as <-.
  - rewrite lookup_insert_ne in HX by done. by eapply Hinv.
Qed.

(** [deactivate_and_free] leaves a greenlet that was running or
    suspended with a fresh stack state, and anything else as it was. *)
Lemma deactivate_and_free_spec ndebug g G s :
  greenlets s !! g = Some G ->
  exists G',
    deactivate_and_free ndebug g s
    = Ret tt (with_greenlets (<[g := G']> (greenlets s)) s) /\
    kind G' = kind G /\
    (active (stack_state G) = true -> stack_state G' = StackState_new) /\
    (active (stack_state G) = false -> G' = G).
Proof.
  intros Hg. unfold deactivate_and_free.
  rewrite (bind_Ret _ _ _ _ _ (deref_Some _ _ _ Hg)).
  destruct (active (stack_state G)) eqn:Hact; simpl.
  - rewrite (bind_Ret _ _ _ _ _ (update_stack_Some _ _ _ _ Hg)).
    erewrite bind_Ret by (apply assert_holds; reflexivity).
    erewrite update_Some by apply lookup_insert_eq.
    eexists. split.
    { unfold with_greenlets. simpl. rewrite insert_insert_eq. reflexivity. }
    split; [reflexivity|]. split; [reflexivity|discriminate].
  - exists G. split.
    { unfold ret. f_equal. unfold with_greenlets.
      rewrite insert_id by exact Hg. by destruct s. }
    split; [reflexivity|]. split; [discriminate|reflexivity].
Qed.

(** [murder_in_place] does the same, and forgets the main greenlet. *)
Lemma murder_in_place_spec ndebug g G s :
  greenlets s !! g = Some G ->
  (ndebug = false -> is_currently_running_in_some_thread G = false) ->
  exists G',
    murder_in_place ndebug g s
    = Ret tt (with_greenlets (<[g := G']> (greenlets s)) s) /\
    (active (stack_state G) = true -> stack_state G' = StackState_new) /\
    (active (stack_state G) = false -> stack_state G' = stack_state G).
Proof.
  intros Hg Hnot. unfold murder_in_place.
  rewrite (bind_Ret _ _ _ _ _ (deref_Some _ _ _ Hg)).
  set (G1 := match kind G with
             | UserGreenlet p _ r => with_kind (UserGreenlet p None r) G
             | MainGreenlet _ => G
             end).
  assert (Hfirst :
    match kind G with
    | MainGreenlet _ => ret ()
    | UserGreenlet p _ r => update g (with_kind (UserGreenlet p None r))
    end s = Ret tt (with_greenlets (<[g := G1]> (greenlets s)) s)).
  { unfold G1. destruct (kind G).
    - unfold ret. f_equal. unfold with_greenlets.
      rewrite insert_id by exact Hg. by destruct s.
    - by rewrite (update_Some _ _ _ _ Hg). }
  rewrite (bind_Ret _ _ _ _ _ Hfirst).
  erewrite bind_Ret by (apply deref_Some; apply lookup_insert_eq).
  assert (Hss1 : stack_state G1 = stack_state G /\ python_state G1 = python_state G)
    by (unfold G1; by destruct (kind G)).
  destruct Hss1 as [Hss1 Hps1]. rewrite Hss1.
  destruct (active (stack_state G)) eqn:Hact.
  - erewrite bind_Ret; cycle 1.
    { apply assert_holds. intros Hnd. specialize (Hnot Hnd).
      unfold is_currently_running_in_some_thread in *.
      rewrite Hss1, Hps1, Hact. rewrite Hact in Hnot. by rewrite Hnot. }
    destruct (deactivate_and_free_spec ndebug g G1
                (with_greenlets (<[g := G1]> (greenlets s)) s))
      as (G' & Hrun & _ & Hnew & _); [apply lookup_insert_eq|].
    rewrite Hrun. exists G'. split.
    { unfold with_greenlets. simpl. by rewrite insert_insert_eq. }
    split; [|discriminate]. intros _. apply Hnew. by rewrite Hss1.
  - exists G1. split; [reflexivity|]. split; [discriminate|by intros _].
Qed.


Section StackBytes.

Variable ndebug : bool.
Variable realloc_ok : Z -> bool.
Variable getattr_run : gid -> M OwnedObject.
Variable call_trace : PyObject -> bool -> gid -> gid -> M unit.
Variables (fuel : nat) (mark stackref : Z).

Hypothesis realloc_succeeds : forall n, realloc_ok n = true.
Hypothesis stackref_not_null : stackref <> 0.
Hypothesis mark_bounds : 0 < mark <= ADDR_MAX.

Lemma holds_no_bytes_new : holds_no_bytes StackState_new.
Proof. by repeat split. Qed.

Lemma holds_no_bytes_set_inactive ss :
  heap_ok ss -> holds_no_bytes (set_inactive ss).
Proof.
  intros Hheap. destruct (set_inactive_spec ss) as (H1 & _ & _ & H2 & H3).
  split; [exact H1|]. split; [exact H2|by apply H3].
Qed.

(** What a kill leaves of the greenlet killed. *)
Lemma killed_holds_no_bytes G G' :
  no_bytes_unless_alive G ->
  (active (stack_state G) = true -> stack_state G' = StackState_new) ->
  (active (stack_state G) = false -> stack_state G' = stack_state G) ->
  holds_no_bytes (stack_state G').
Proof.
  intros Hinv Hnew Hsame. destruct (active (stack_state G)) eqn:Hact.
  - rewrite (Hnew eq_refl). apply holds_no_bytes_new.
  - rewrite (Hsame eq_refl). by apply no_bytes_unless_alive_inactive.
Qed.

(** A death leaves the invariant, and the dead greenlet without
    bytes. *)
Lemma dies_invariant g s s' :
  stack_byte_invariant (greenlets s) ->
  dies ndebug realloc_ok getattr_run call_trace fuel mark stackref g s s' ->
  stack_byte_invariant (greenlets s') /\
  exists G', greenlets s' !! g = Some G' /\ holds_no_bytes (stack_state G').
Proof.
  intros Hinv Hdies.
  destruct Hdies as
    [D s s' Hfin
    |g G s s' Hg Hrun
    |g G s s' Hg Hnot Hrun].
  - destruct Hfin as
      [D D0 P P0 R R0 ts l k kP result s s' Hts Hcur Htr HD HthrD Hchain HstopD
         Hheap Hbounds Hparent HP Hcase HR HactR HthrR HneR Hallowed HkP Hk Hfuel
         Hbranch Hsome Hout].
    destruct (inner_bootstrap_exit_forwards ndebug realloc_ok realloc_succeeds
                getattr_run call_trace fuel mark stackref stackref_not_null
                D D0 P P0 R R0 ts l k kP result s)
      as (s'' & l' & Hrun & _ & (D' & HD' & HssD) & _ & _ & _ & _ & _ & _ & Hkept);
      try assumption.
    assert (s'' = s') as ->.
    { rewrite Hrun in Hout.
      destruct (bool_decide (is_Some (snd (handled result (pyerr s)))));
        simpl in Hout; by injection Hout. }
    pose proof (holds_no_bytes_set_inactive _ (Hheap _ _ HD)) as Hnb.
    rewrite <- HssD in Hnb.
    split; [|by exists D'].
    eapply stack_byte_invariant_kept with (T := D); [exact Hinv|exact Hkept|].
    intros D'' HD''. rewrite HD' in HD''. injection HD'' as <-. by split.
  - destruct (deactivate_and_free_spec ndebug g G s Hg)
      as (G' & Hrun' & _ & Hnew & Hsame).
    rewrite Hrun in Hrun'. injection Hrun' as ->.
    assert (Hnb : holds_no_bytes (stack_state G')).
    { eapply killed_holds_no_bytes; [by eapply Hinv|exact Hnew|].
      intros Hin. by rewrite (Hsame Hin). }
    split.
    + apply stack_byte_invariant_insert; [exact Hinv|].
      by apply no_bytes_unless_alive_new.
    + exists G'. split; [apply lookup_insert_eq|exact Hnb].
  - destruct (murder_in_place_spec ndebug g G s Hg Hnot)
      as (G' & Hrun' & Hnew & Hsame).
    rewrite Hrun in Hrun'. injection Hrun' as ->.
    assert (Hnb : holds_no_bytes (stack_state G')).
    { eapply killed_holds_no_bytes; [by eapply Hinv|exact Hnew|exact Hsame]. }
    split.
    + apply stack_byte_invariant_insert; [exact Hinv|].
      by apply no_bytes_unless_alive_new.
    + exists G'. split; [apply lookup_insert_eq|exact Hnb].
Qed.

Lemma lifecycle_step_invariant s s' :
  stack_byte_invariant (greenlets s) ->
  lifecycle_step ndebug realloc_ok getattr_run call_trace fuel mark stackref
    s s' ->
  stack_byte_invariant (greenlets s').
Proof.
  intros Hinv Hstep.
  destruct Hstep as [s s' Hstep|g s s' Hdies]; [|by eapply dies_invariant].
  destruct Hstep as
    [g G s Hfresh Hnew
    |A T l k args kwargs r s s' Hready Hres Hne Hfuel Hk Hrun
    |A T T1 p m r l k run args kwargs a s s1 s2 Hready Hmain HT Hkind Hst Hact
       Hpure Hallowed Hk Hmark Hfuel Hrun Henter
    |D s s' Hfin].
  - apply stack_byte_invariant_insert; [exact Hinv|].
    apply no_bytes_unless_alive_new. rewrite Hnew. apply holds_no_bytes_new.
  - destruct (green_switch_resumes ndebug realloc_ok realloc_succeeds
                getattr_run call_trace fuel mark stackref stackref_not_null
                A T l k args kwargs s Hready Hres Hne Hfuel Hk)
      as (s'' & l' & Hrun' & _ & _ & _ & Hkept & _).
    rewrite Hrun in Hrun'. injection Hrun' as _ <-.
    eapply stack_byte_invariant_kept with (T := T);
      [exact Hinv|by apply frames_kept_but_of_frames_kept|].
    intros T' HT'. destruct Hres as (T0 & HT0 & HactT & _).
    destruct (frames_kept_lookup _ _ _ _ Hkept HT0) as (T'' & HT'' & Hf).
    rewrite HT' in HT''. injection HT'' as <-.
    eapply no_bytes_unless_alive_kept; [exact Hf|]. by eapply Hinv.
  - destruct mark_bounds as [Hmark0 Hmark1].
    destruct (green_switch_starts ndebug realloc_ok realloc_succeeds
                getattr_run call_trace fuel mark stackref stackref_not_null
                Hmark1 A T T1 p m r l k run args kwargs s Hready Hmain HT Hkind
                Hst Hact Hpure Hallowed Hk Hmark Hfuel)
      as (s1' & s2' & Hrun' & Henter' & Hready2 & _ & _ & Hkept & _ & HstopT).
    rewrite Hrun in Hrun'. injection Hrun' as <-.
    rewrite Henter in Henter'. injection Henter' as _ <-.
    eapply stack_byte_invariant_kept with (T := T); [exact Hinv|exact Hkept|].
    intros T' HT'. destruct Hready2 as [_ _ Hchain2 _ _ _].
    destruct (chain_ok_head_active _ _ _ Hchain2) as (T'' & HT'' & HactT'').
    rewrite HT' in HT''. injection HT'' as <-.
    apply no_bytes_unless_alive_running; [|exact HactT''].
    unfold stop_of in HstopT. rewrite HT' in HstopT.
    unfold started. rewrite HstopT. apply negb_true_iff, Z.eqb_neq. lia.
  - eapply dies_invariant; [exact Hinv|]. apply dies_finish. exact Hfin.
Qed.

End StackBytes.

(** C9. Stack-byte invariant of the lifecycle.  A greenlet that has not
    started holds no byte of the native stack and no heap copy
    ([stack_start] is unset as [stack_stop] is, the saved-byte count is
    zero and there is no buffer), and so does a dead one.  This holds of
    a new greenlet, and every operation of the lifecycle (creation,
    switch into a suspended greenlet, first switch into a greenlet,
    end of [run], death) keeps it, so it holds after any sequence of them.  Death by
    completion of [run], by [murder_in_place] or by
    [deactivate_and_free] leaves the greenlet without bytes:
    [set_inactive] clears [stack_start] and frees the heap copy, the
    other two assign a fresh [StackState]. *)
Theorem C9_stack_byte_invariant ndebug realloc_ok getattr_run call_trace
  fuel mark stackref :
  (forall n, realloc_ok n = true) ->
  stackref <> 0 ->
  0 < mark <= ADDR_MAX ->
  (started StackState_new = false /\ holds_no_bytes StackState_new) /\
  (forall s s',
     stack_byte_invariant (greenlets s) ->
     rtc (lifecycle_step ndebug realloc_ok getattr_run call_trace fuel mark
            stackref) s s' ->
     stack_byte_invariant (greenlets s')) /\
  (forall g s s',
     stack_byte_invariant (greenlets s) ->
     dies ndebug realloc_ok getattr_run call_trace fuel mark stackref g s s' ->
     exists G', greenlets s' !! g = Some G' /\
                active (stack_state G') = false /\
                holds_no_bytes (stack_state G')) /\
  (forall ss, heap_ok ss ->
     holds_no_bytes (set_inactive ss) /\
     stack_stop (set_inactive ss) = stack_stop ss).
Proof.
  intros Hrealloc Href Hmark.
  split; [split; [reflexivity|apply holds_no_bytes_new]|].
  split.
  { intros s s' Hinv Hsteps. induction Hsteps as [s|s s1 s' Hstep _ IH];
      [exact Hinv|].
    apply IH. by eapply lifecycle_step_invariant. }
  split.
  { intros g s s' Hinv Hdies.
    destruct (dies_invariant ndebug realloc_ok getattr_run call_trace fuel mark
                stackref Hrealloc Href g s s' Hinv Hdies)
      as (_ & G' & HG' & Hnb).
    exists G'. split; [exact HG'|]. split; [|exact Hnb].
    by apply holds_no_bytes_inactive. }
  intros ss Hheap. split; [by apply holds_no_bytes_set_inactive|].
  by destruct (set_inactive_spec ss) as (_ & H & _).
Qed.


Lemma C9_stack_byte_invariant_witness :
  exists s' G',
    deactivate_and_free false 1%nat ex_suspended_child = Ret tt s' /\
    greenlets s' !! 1%nat = Some G' /\
    active (stack_state G') = false /\
    holds_no_bytes (stack_state G').
Proof.
  destruct (deactivate_and_free_spec false 1%nat ex_child_saved
              ex_suspended_child eq_refl) as (G0 & Hrun & _).
  eexists.
  assert (Hinv : stack_byte_invariant (greenlets ex_suspended_child)).
  { intros g G Hg. unfold ex_suspended_child in Hg. cbn [greenlets] in Hg.
    ex_store_cases Hg; by apply no_bytes_unless_alive_running. }
  assert (Hrealloc : forall n, ex_realloc_ok n = true) by reflexivity.
  assert (Href : (800 : Z) <> 0) by discriminate.
  assert (Hmark : 0 < 850 <= ADDR_MAX) by (unfold ADDR_MAX; lia).
  destruct (proj1 (proj2 (proj2
              (C9_stack_byte_invariant false ex_realloc_ok ex_getattr_run
                 ex_call_trace 3 850 800 Hrealloc Href Hmark)))
              1%nat ex_suspended_child _ Hinv
              (dies_deactivate false ex_realloc_ok ex_getattr_run ex_call_trace
                 3 850 800 1%nat ex_child_saved ex_suspended_child _ eq_refl Hrun))
    as (G' & HG' & Hact & Hnb).
  exists G'. split; [exact Hrun|]. by split.
Defined.


(** ** Starting a greenlet once *)

Lemma reads_only_ret {A} (a : A) : reads_only (ret a).
Proof. by intros s. Qed.

Lemma reads_only_bind {A B} (c : M A) (k : A -> M B) :
  reads_only c -> (forall a, reads_only (k a)) -> reads_only (bind c k).
Proof.
  intros Hc Hk s. unfold bind. specialize (Hc s).
  destruct (c s) as [a s'| | | | |]; try done. subst. apply Hk.
Qed.

Lemma reads_only_deref g : reads_only (deref g).
Proof. intros s. unfold deref. by destruct (greenlets s !! g). Qed.

Lemma reads_only_get : reads_only get.
Proof. by intros s. Qed.

Lemma reads_only_assert ndebug b : reads_only (assert ndebug b).
Proof. intros s. unfold assert. by destruct ndebug, b. Qed.






Section RacingStart.

Variable ndebug : bool.
Variable realloc_ok : Z -> bool.
Variable getattr_run : gid -> M OwnedObject.
Variable call_trace : PyObject -> bool -> gid -> gid -> M unit.
Variables (fuel : nat) (mark stackref : Z).




End RacingStart.



Section RacingSwitch.

Variable ndebug : bool.
Variable realloc_ok : Z -> bool.
Variable getattr_run : gid -> M OwnedObject.
Variable call_trace : PyObject -> bool -> gid -> gid -> M unit.
Variables (fuel : nat) (mark stackref : Z).


End RacingSwitch.




Section Once.

Variable ndebug : bool.
Variable realloc_ok : Z -> bool.
Hypothesis realloc_succeeds : forall n, realloc_ok n = true.
Variable getattr_run : gid -> M OwnedObject.
Variable call_trace : PyObject -> bool -> gid -> gid -> M unit.
Variables (fuel : nat) (mark stackref : Z).
Hypothesis stackref_not_null : stackref <> 0.
Hypothesis mark_bounds : 0 < mark <= ADDR_MAX.



End Once.











(** C4. Bootstrap exactly once.  The [run] of a greenlet can be called a
    second time.  In [ex_ran_in_dead_thread] the [run] of greenlet 3
    was called once, on a thread that has exited since.  Reading its
    [dead] attribute answers [True] and, through [deactivate_and_free],
    leaves it with a fresh stack state: it counts as not started.  The
    parent setter, which checks the thread of a started greenlet only,
    then accepts the main greenlet 0 of thread 0 as its parent, and a
    switch to it from thread 0, where the lookup of [run] still finds a
    callable (a method of a subclass), passes [check_switch_allowed]
    and the test of [g_initialstub] for a greenlet started in the
    meantime, and enters [inner_bootstrap], which calls [run] again. *)
Lemma C4_run_called_twice_after_reset :
  exists s1 s2 s3 s4 T1,
    run_log ex_ran_in_dead_thread = [3%nat] /\
    green_getdead false 3%nat ex_ran_in_dead_thread = Ret true s1 /\
    greenlets s1 !! 3%nat = Some T1 /\
    started (stack_state T1) = false /\
    green_setparent 3 3%nat (Some 0%nat) s1 = Ret 0 s2 /\
    green_switch false ex_realloc_ok ex_getattr_plain ex_call_trace 5 850 800
      3%nat (PyTuple [PyInt 7]) None s2
    = Enter 3%nat 0%nat (Some (PyOpaque 7)) s3 /\
    inner_bootstrap_enter false ex_call_trace 3%nat 0%nat (Some (PyOpaque 7)) s3
    = Ret (Some (mkSwitchingArgs (Some (PyTuple [PyInt 7])) None)) s4 /\
    run_log s4 = [3%nat; 3%nat] /\
    ~ NoDup (run_log s4).
Proof.
  do 5 eexists.
  split; [reflexivity|].
  split; [vm_compute; reflexivity|].
  split; [vm_compute; reflexivity|].
  split; [reflexivity|].
  split; [vm_compute; reflexivity|].
  split; [vm_compute; reflexivity|].
  split; [vm_compute; reflexivity|].
  split; [reflexivity|].
  simpl. intros H. apply NoDup_cons in H as [H _].
  apply H. by left.
Qed.


(** * Further properties of the code *)

(** ** Saving and restoring stack bytes (TStackState.cpp) *)

Lemma nth_read_stack m a n i :
  (i < n)%nat -> nth i (read_stack m a n) x00 = m (a + Z.of_nat i).
Proof.
  intros Hi. unfold read_stack.
  rewrite (nth_indep _ x00 (m (a + Z.of_nat 0))) by (by rewrite length_map, length_seq).
  rewrite (map_nth (fun i => m (a + Z.of_nat i)) (seq 0 n) 0%nat i).
  by rewrite seq_nth.
Qed.

Lemma intptr_small z : - 2 ^ 63 <= z < 2 ^ 63 -> intptr z = z.
Proof. intros Hz. unfold intptr. rewrite Z.mod_small; lia. Qed.

Section SaveRestore.

Variable ndebug : bool.
Variable realloc_ok : Z -> bool.

(** What [copy_stack_to_heap_up_to] does to a running greenlet none of
    whose stack is saved yet, when the allocator serves the request. *)
Lemma copy_stack_to_heap_up_to_first g G stop s :
  greenlets s !! g = Some G ->
  active (stack_state G) = true ->
  _stack_saved (stack_state G) = 0 ->
  0 < stop - _stack_start (stack_state G) < 2 ^ 63 ->
  realloc_ok (stop - _stack_start (stack_state G)) = true ->
  copy_stack_to_heap_up_to ndebug realloc_ok g stop s =
  Ret 0
    (with_greenlets
       (<[g := with_stack_state
                 (with_stack_copy
                    (Some (read_stack (cstack s) (_stack_start (stack_state G))
                             (Z.to_nat (stop - _stack_start (stack_state G)))))
                    (stop - _stack_start (stack_state G)) (stack_state G)) G]>
          (greenlets s)) s).
Proof.
  intros Hg Hact Hsaved Hrange Hrealloc. unfold copy_stack_to_heap_up_to.
  rewrite (bind_Ret _ _ _ _ _ (deref_Some _ _ _ Hg)).
  erewrite bind_Ret by (apply assert_holds; intros _; exact Hact).
  rewrite Hsaved, intptr_small by lia.
  replace (stop - _stack_start (stack_state G) >? 0) with true
    by (symmetry; apply Z.gtb_lt; lia).
  rewrite Hrealloc, bind_get.
  rewrite (bind_Ret _ _ _ _ _ (update_stack_Some _ _ _ _ Hg)).
  unfold ret. simpl. rewrite Z.add_0_r, Z.sub_0_r. reflexivity.
Qed.

(** X1. Round trip of the stack bytes.  A running greenlet [g] none of
    whose stack is saved has the bytes from its [stack_start] up to
    [stop] copied to the heap by [copy_stack_to_heap_up_to]; when
    [copy_heap_to_stack] later restores it, whatever was written to
    the native stack in between, those addresses hold the bytes they
    held when the copy was made, no other address is written, and the
    greenlet owns no heap copy any more. *)
Theorem X1_stack_bytes_round_trip g G stop s :
  greenlets s !! g = Some G ->
  active (stack_state G) = true ->
  _stack_saved (stack_state G) = 0 ->
  0 < stop - _stack_start (stack_state G) < 2 ^ 63 ->
  realloc_ok (stop - _stack_start (stack_state G)) = true ->
  exists s1 G1,
    copy_stack_to_heap_up_to ndebug realloc_ok g stop s = Ret 0 s1 /\
    greenlets s1 !! g = Some G1 /\
    cstack s1 = cstack s /\
    _stack_saved (stack_state G1) = stop - _stack_start (stack_state G) /\
    (forall fuel cur C l s2,
     greenlets s2 !! g = Some G1 ->
     greenlets s2 !! cur = Some C ->
     owner_chain (greenlets s2)
       (if active (stack_state C) then Some cur else stack_prev (stack_state C))
       l ->
     (length l < fuel)%nat ->
     exists s3 G3,
       copy_heap_to_stack fuel g cur s2 = Ret tt s3 /\
       (forall a, _stack_start (stack_state G) <= a < stop ->
                  cstack s3 a = cstack s a) /\
       (forall a, ~ (_stack_start (stack_state G) <= a < stop) ->
                  cstack s3 a = cstack s2 a) /\
       greenlets s3 !! g = Some G3 /\
       _stack_saved (stack_state G3) = 0 /\
       stack_copy (stack_state G3) = None).
Proof.
  intros Hg Hact Hsaved Hrange Hrealloc.
  set (start := _stack_start (stack_state G)) in *.
  set (n := stop - start) in *.
  set (buf := read_stack (cstack s) start (Z.to_nat n)).
  set (G1 := with_stack_state (with_stack_copy (Some buf) n (stack_state G)) G).
  exists (with_greenlets (<[g := G1]> (greenlets s)) s), G1.
  split; [by apply copy_stack_to_heap_up_to_first|].
  split; [apply lookup_insert_eq|]. split; [reflexivity|]. split; [reflexivity|].
  intros fuel cur C l s2 Hg2 Hcur Hchain Hfuel.
  destruct (copy_heap_to_stack_spec fuel g cur s2 G1 C l Hg2 Hcur) as (s3 & Hrun & Hres).
  { simpl. lia. }
  { intros _. exists buf. split; [reflexivity|].
    simpl. unfold buf. rewrite length_read_stack. lia. }
  { exact Hchain. }
  { exact Hfuel. }
  destruct Hres as [Hbytes Hframe _ (skipped & rest & _ & _ & _ & Hgs3) _].
  eexists s3, _. split; [exact Hrun|]. split.
  { intros a Ha.
    pose proof (Hbytes buf (a - start) eq_refl) as Hb.
    change (_stack_saved (stack_state G1)) with n in Hb.
    change (_stack_start (stack_state G1)) with start in Hb.
    replace (start + (a - start)) with a in Hb by lia.
    rewrite Hb by lia.
    unfold buf. rewrite nth_read_stack by lia. f_equal. lia. }
  split.
  { intros a Ha. apply Hframe.
    change (_stack_saved (stack_state G1)) with n.
    change (_stack_start (stack_state G1)) with start. lia. }
  split; [rewrite Hgs3; apply lookup_insert_eq|].
  simpl. replace (n =? 0) with false by (symmetry; apply Z.eqb_neq; lia).
  by split.
Qed.

End SaveRestore.

Lemma X1_stack_bytes_round_trip_witness :
  exists s1 s3,
    copy_stack_to_heap_up_to false ex_realloc_ok 0%nat 903 ex_suspended_child
    = Ret 0 s1 /\
    copy_heap_to_stack 3 0%nat 1%nat (with_cstack (fun _ => x01) s1) = Ret tt s3 /\
    cstack s3 900 = x00 /\ cstack s3 902 = x00 /\ cstack s3 903 = x01.
Proof.
  destruct (X1_stack_bytes_round_trip false ex_realloc_ok 0%nat ex_main_running
              903 ex_suspended_child eq_refl eq_refl eq_refl)
    as (s1 & G1 & Hrun & HG1 & Hc & Hsaved & Hback).
  { simpl. lia. }
  { reflexivity. }
  assert (H1 : greenlets s1 !! 1%nat = Some ex_child_saved).
  { rewrite (copy_stack_to_heap_up_to_first false ex_realloc_ok 0%nat
               ex_main_running 903 ex_suspended_child eq_refl eq_refl eq_refl)
      in Hrun; [|simpl; lia|reflexivity].
    injection Hrun as <-. reflexivity. }
  destruct (Hback 3%nat 1%nat ex_child_saved [1%nat; 0%nat]
              (with_cstack (fun _ => x01) s1) HG1 H1)
    as (s3 & G3 & Hrun3 & Hin & Hout & _).
  { simpl. econstructor; [exact H1|]. simpl.
    econstructor; [exact HG1|].
    rewrite (copy_stack_to_heap_up_to_first false ex_realloc_ok 0%nat
               ex_main_running 903 ex_suspended_child eq_refl eq_refl eq_refl)
      in Hrun; [|simpl; lia|reflexivity].
    injection Hrun as <-. simpl in HG1. rewrite lookup_insert_eq in HG1.
    injection HG1 as <-. constructor. }
  { simpl. lia. }
  exists s1, s3. split; [exact Hrun|]. split; [exact Hrun3|].
  split; [rewrite Hin by (simpl; lia); reflexivity|].
  split; [rewrite Hin by (simpl; lia); reflexivity|].
  rewrite Hout by (simpl; lia). reflexivity.
Defined.

Lemma read_stack_S m a n :
  read_stack m a (S n) = m a :: read_stack m (a + 1) n.
Proof.
  unfold read_stack. simpl. rewrite Z.add_0_r. f_equal.
  rewrite <- seq_shift, map_map. apply map_ext. intros i. f_equal. lia.
Qed.

Lemma read_stack_app m a n1 n2 :
  read_stack m a (n1 + n2) =
  read_stack m a n1 ++ read_stack m (a + Z.of_nat n1) n2.
Proof.
  revert a. induction n1 as [|n1 IH]; intros a.
  - simpl. by rewrite Z.add_0_r.
  - change (S n1 + n2)%nat with (S (n1 + n2)). rewrite !read_stack_S, IH.
    simpl. do 3 f_equal. lia.
Qed.

Section SaveMore.

Variable ndebug : bool.
Variable realloc_ok : Z -> bool.
Hypothesis realloc_succeeds : forall n, realloc_ok n = true.

(** X2. Saving more of a stack.  Two calls of
    [copy_stack_to_heap_up_to] on a running greenlet, the second up to
    an address that is not lower, leave what the second call alone
    leaves: the bytes saved first are kept and the rest is added.  The
    allocator serves every request. *)
Theorem X2_saving_accumulates g G stop1 stop2 s :
  greenlets s !! g = Some G ->
  active (stack_state G) = true ->
  0 <= _stack_saved (stack_state G) ->
  - 2 ^ 63 <= stop1 - _stack_start (stack_state G) ->
  stop1 <= stop2 ->
  stop2 - _stack_start (stack_state G) < 2 ^ 63 ->
  (copy_stack_to_heap_up_to ndebug realloc_ok g stop1 ;;;
   copy_stack_to_heap_up_to ndebug realloc_ok g stop2) s =
  copy_stack_to_heap_up_to ndebug realloc_ok g stop2 s.
Proof.
  intros Hg Hact Hpos Hlo Hle Hhi.
  set (ss := stack_state G) in *.
  set (start := _stack_start ss) in *. set (sz := _stack_saved ss) in *.
  assert (Hone : forall stop, - 2 ^ 63 <= stop - start < 2 ^ 63 ->
    copy_stack_to_heap_up_to ndebug realloc_ok g stop s =
    if stop - start >? sz then
      Ret 0 (with_greenlets
               (<[g := with_stack_state
                         (with_stack_copy
                            (Some (take (Z.to_nat sz)
                                     (resize (Z.to_nat (stop - start)) x00
                                        (default [] (stack_copy ss))) ++
                                   read_stack (cstack s) (start + sz)
                                     (Z.to_nat (stop - start - sz))))
                            (stop - start) ss) G]> (greenlets s)) s)
    else Ret 0 s).
  { intros stop Hstop. unfold copy_stack_to_heap_up_to.
    rewrite (bind_Ret _ _ _ _ _ (deref_Some _ _ _ Hg)).
    erewrite bind_Ret by (apply assert_holds; intros _; exact Hact).
    fold ss. fold start. fold sz. rewrite intptr_small by exact Hstop.
    destruct (stop - start >? sz); [|reflexivity].
    rewrite realloc_succeeds, bind_get.
    by rewrite (bind_Ret _ _ _ _ _ (update_stack_Some _ _ _ _ Hg)). }
  rewrite (Hone stop2) by lia.
  unfold bind at 1. rewrite (Hone stop1) by lia.
  destruct (stop1 - start >? sz) eqn:H1.
  2:{ by rewrite (Hone stop2) by lia. }
  apply Z.gtb_lt in H1.
  replace (stop2 - start >? sz) with true by (symmetry; apply Z.gtb_lt; lia).
  set (c1 := take (Z.to_nat sz)
               (resize (Z.to_nat (stop1 - start)) x00 (default [] (stack_copy ss)))
             ++ read_stack (cstack s) (start + sz) (Z.to_nat (stop1 - start - sz))).
  assert (Hlen1 : length c1 = Z.to_nat (stop1 - start)).
  { unfold c1. rewrite length_app, length_take, length_resize, length_read_stack.
    lia. }
  assert (Hc : take (Z.to_nat (stop1 - start))
                 (resize (Z.to_nat (stop2 - start)) x00 c1) ++
               read_stack (cstack s) (start + (stop1 - start))
                 (Z.to_nat (stop2 - start - (stop1 - start))) =
               take (Z.to_nat sz)
                 (resize (Z.to_nat (stop2 - start)) x00 (default [] (stack_copy ss)))
               ++ read_stack (cstack s) (start + sz) (Z.to_nat (stop2 - start - sz))).
  { rewrite take_resize, Nat.min_l by lia.
    rewrite resize_all_alt by (symmetry; exact Hlen1).
    unfold c1. rewrite <- app_assoc. f_equal.
    { by rewrite !take_resize, !Nat.min_l by lia. }
    replace (Z.to_nat (stop2 - start - sz))
      with (Z.to_nat (stop1 - start - sz) + Z.to_nat (stop2 - start - (stop1 - start)))%nat
      by lia.
    rewrite read_stack_app. f_equal. f_equal. lia. }
  set (G1 := with_stack_state (with_stack_copy (Some c1) (stop1 - start) ss) G).
  unfold copy_stack_to_heap_up_to.
  erewrite bind_Ret by (apply deref_Some; apply lookup_insert_eq).
  erewrite bind_Ret by (apply assert_holds; intros _; exact Hact).
  change (_stack_start (stack_state G1)) with start.
  change (_stack_saved (stack_state G1)) with (stop1 - start).
  rewrite intptr_small by lia.
  destruct (stop2 - start >? stop1 - start) eqn:H2.
  - rewrite realloc_succeeds, bind_get.
    erewrite bind_Ret by (apply update_stack_Some; apply lookup_insert_eq).
    unfold ret. f_equal. unfold with_greenlets. simpl.
    rewrite insert_insert_eq. f_equal. f_equal.
    unfold with_stack_state, with_stack_copy. simpl. fold ss. fold start.
    f_equal. f_equal. f_equal. exact Hc.
  - assert (stop2 = stop1) as -> by (rewrite Z.gtb_ltb in H2; apply Z.ltb_ge in H2; lia).
    reflexivity.
Qed.

End SaveMore.

Lemma X2_saving_accumulates_witness :
  (copy_stack_to_heap_up_to false ex_realloc_ok 0%nat 902 ;;;
   copy_stack_to_heap_up_to false ex_realloc_ok 0%nat 905) ex_suspended_child =
  copy_stack_to_heap_up_to false ex_realloc_ok 0%nat 905 ex_suspended_child.
Proof.
  apply (X2_saving_accumulates false ex_realloc_ok (fun _ => eq_refl) 0%nat
           ex_main_running 902 905 ex_suspended_child eq_refl eq_refl);
    simpl; lia.
Defined.


(** ** The outcomes of a stack switch (TGreenlet.cpp) *)

Section SwitchstackOutcomes.

Variable ndebug : bool.
Variable realloc_ok : Z -> bool.
Variables (fuel : nat) (stackref : Z).

(** The pivot answers [-1], [0] or [1]. *)
Lemma slp_switch_answers s r s' :
  slp_switch ndebug realloc_ok fuel stackref s = Ret r s' ->
  r = -1 \/ r = 0 \/ r = 1.
Proof.
  unfold slp_switch, bind.
  repeat (destruct_match; simpl in * );
    intros H; injection H as <- _; auto.
Qed.

(** X3. [g_switchstack] of a [UserGreenlet] or [MainGreenlet] never
    returns a failure: when it returns, the status is [0] (a switch into
    a greenlet that has a stack, or no switch at all) or [1] (the first
    switch into a greenlet), and the result names the greenlet that is
    now running and the one that was. *)
Theorem X3_switchstack_returns_no_failure this s err s' :
  g_switchstack ndebug realloc_ok fuel stackref this s = Ret err s' ->
  (status err = 0 \/ status err = 1) /\
  is_Some (the_new_current_greenlet err) /\
  is_Some (origin_greenlet err).
Proof.
  unfold g_switchstack. unfold bind.
  repeat match goal with
         | |- context [match slp_switch ?a ?b ?c ?d ?e with _ => _ end] =>
             destruct (slp_switch a b c d e) as [r sr| | | | |] eqn:Hslp;
             try discriminate
         | _ => destruct_match; simpl in *
         end.
  all: intros H; injection H as <- _; simpl.
  all: try (split; [by left|by split; eexists]).
  apply slp_switch_answers in Hslp.
  split; [|by split; eexists].
  destruct Hslp as [->|[->| ->]]; [discriminate|by left|by right].
Qed.

End SwitchstackOutcomes.

Lemma X3_switchstack_returns_no_failure_witness :
  exists err s',
    g_switchstack false ex_realloc_ok 5 800 1%nat
      (with_payload 1%nat ex_child_saved
         (mkSwitchingArgs (Some (PyTuple [PyInt 7])) None) ex_suspended_child)
    = Ret err s' /\
    status err = 0 /\
    the_new_current_greenlet err = Some 1%nat /\
    origin_greenlet err = Some 0%nat.
Proof.
  destruct (g_switchstack false ex_realloc_ok 5 800 1%nat
              (with_payload 1%nat ex_child_saved
                 (mkSwitchingArgs (Some (PyTuple [PyInt 7])) None)
                 ex_suspended_child)) as [err s'| | | | |] eqn:E;
    try (vm_compute in E; discriminate).
  exists err, s'. split; [reflexivity|].
  destruct (X3_switchstack_returns_no_failure false ex_realloc_ok 5 800 1%nat
              _ err s' E) as ([H|H] & _ & _).
  - split; [exact H|]. vm_compute in E. injection E as <- _. by split.
  - vm_compute in E. injection E as <- _. discriminate.
Defined.

Section FailedSave.

Variable ndebug : bool.
Variable realloc_ok : Z -> bool.
Variables (fuel : nat) (stackref : Z).

(** X4. Running out of memory in a switch.  When the running greenlet
    [A] has bytes on the stack below the [stack_stop] of the target
    [T] and [PyMem_Realloc] cannot serve the copy of them, the switch
    does not return: [g_switchstack] ends in [Py_FatalError], with
    [MemoryError] set and no stack switched. *)
Theorem X4_failed_save_is_fatal T T0 A A0 t ts s :
  greenlets s !! T = Some T0 ->
  T <> A ->
  thread_state (greenlets s) T0 = Some t ->
  threads s !! t = Some ts ->
  ts_current_greenlet ts = A ->
  greenlets s !! A = Some A0 ->
  active (stack_state A0) = true ->
  _stack_saved (stack_state A0) = 0 ->
  stackref <> 0 ->
  0 < Z.min (stack_stop (stack_state A0)) (stack_stop (stack_state T0))
      - stackref < 2 ^ 63 ->
  realloc_ok (Z.min (stack_stop (stack_state A0)) (stack_stop (stack_state T0))
              - stackref) = false ->
  (ndebug = false ->
   SwitchingArgs_bool (switch_args T0) || bool_decide (is_Some (pyerr s)) = true) ->
  (1 <= fuel)%nat ->
  exists s',
    g_switchstack ndebug realloc_ok fuel stackref T s =
    Fatal
      "greenlet: Failed low-level slp_switch(). The stack is probably corrupt."
      s' /\
    pyerr s' = Some (mkPyErr PyExc_MemoryError None) /\
    switches s' = switches s /\
    threads s' = threads s.
Proof.
  intros HT Hne Hthr Hts Hcur HA HactA Hsaved Href Hn Hrealloc Hargs Hfuel.
  unfold g_switchstack.
  rewrite (bind_Ret _ _ _ _ _ (args_or_error_Some _ _ _ HT)).
  erewrite bind_Ret by (apply assert_holds; exact Hargs).
  rewrite (bind_Ret _ _ _ _ _ (deref_thread_state_Some _ _ _ _ _ HT Hthr Hts)).
  simpl. rewrite Hcur.
  destruct (Nat.eqb A T) eqn:Heq; [apply Nat.eqb_eq in Heq; congruence|].
  rewrite bind_get.
  rewrite (bind_Ret _ _ _ _ _ (update_Some _ _ _ _ HA)).
  rewrite bind_modify.
  set (A0p := with_python_state
                (mkPythonState (tstate_frame (tstate s))
                   (tstate_recursion_depth (tstate s))) A0).
  set (s2 := with_switching (Some T)
               (with_greenlets (<[A := A0p]> (greenlets s)) s)).
  assert (HT2 : greenlets s2 !! T = Some T0)
    by (simpl; rewrite lookup_insert_ne; done).
  assert (HA2 : greenlets s2 !! A = Some A0p) by apply lookup_insert_eq.
  assert (Hthr2 : thread_state (greenlets s2) T0 = Some t).
  { simpl. by rewrite (thread_state_insert_same_kind _ _ _ A0p T0 T0 HA). }
  rewrite (bind_Ret _ _ _ _ _ (args_or_error_Some _ s2 _ HT2)).
  erewrite bind_Ret by (apply assert_holds; exact Hargs).
  set (A1 := with_stack_state (with_stack_start stackref (stack_state A0p)) A0p).
  set (s3 := with_greenlets (<[A := A1]> (greenlets s2)) s2).
  assert (Hslp :
    slp_switch ndebug realloc_ok fuel stackref s2 =
    Ret (-1) (with_pyerr (Some (mkPyErr PyExc_MemoryError None)) s3)).
  { unfold slp_switch. rewrite bind_get. simpl. rewrite bind_ret.
    rewrite (bind_Ret _ _ _ _ _
               (deref_thread_state_Some _ _ _ _ _ HT2 Hthr2 Hts)).
    simpl. rewrite Hcur.
    assert (Hcopy :
      copy_stack_to_heap ndebug realloc_ok fuel T stackref A s2 =
      Ret (-1) (with_pyerr (Some (mkPyErr PyExc_MemoryError None)) s3)).
    { unfold copy_stack_to_heap.
      rewrite (bind_Ret _ _ _ _ _ (deref_Some _ _ _ HT2)).
      rewrite (bind_Ret _ _ _ _ _ (deref_Some _ _ _ HA2)).
      erewrite bind_Ret
        by (apply assert_holds; intros _; simpl; rewrite Hsaved; reflexivity).
      change (active (stack_state A0p)) with (active (stack_state A0)).
      rewrite HactA. simpl negb. cbv iota.
      rewrite bind_assoc.
      rewrite (bind_Ret _ _ _ _ _ (update_stack_Some _ _ _ _ HA2)).
      rewrite bind_ret. fold A1. fold s3.
      assert (HA3 : greenlets s3 !! A = Some A1) by apply lookup_insert_eq.
      assert (Hup : forall stop,
        stop - stackref =
          Z.min (stack_stop (stack_state A0)) (stack_stop (stack_state T0))
          - stackref ->
        copy_stack_to_heap_up_to ndebug realloc_ok A stop s3 =
        Ret (-1) (with_pyerr (Some (mkPyErr PyExc_MemoryError None)) s3)).
      { intros stop Hstop. unfold copy_stack_to_heap_up_to.
        rewrite (bind_Ret _ _ _ _ _ (deref_Some _ _ _ HA3)).
        erewrite bind_Ret; cycle 1.
        { apply assert_holds. intros _. unfold active. simpl.
          apply negb_true_iff, Z.eqb_neq. exact Href. }
        change (_stack_start (stack_state A1)) with stackref.
        change (_stack_saved (stack_state A1)) with (_stack_saved (stack_state A0)).
        rewrite Hsaved, Hstop, intptr_small by lia.
        replace (_ >? 0) with true by (symmetry; apply Z.gtb_lt; lia).
        rewrite Hrealloc. reflexivity. }
      destruct fuel as [|f]; [lia|]. cbn [copy_owners_to_heap deref_opt].
      rewrite bind_ret.
      rewrite (bind_Ret _ _ _ _ _ (deref_Some _ _ _ HA3)).
      change (stack_stop (stack_state A1)) with (stack_stop (stack_state A0)).
      destruct (stack_stop (stack_state A0) <? stack_stop (stack_state T0)) eqn:Hlt.
      - apply Z.ltb_lt in Hlt.
        rewrite (bind_Ret _ _ _ _ _
                   (Hup (stack_stop (stack_state A0)) ltac:(lia))).
        reflexivity.
      - apply Z.ltb_ge in Hlt.
        rewrite Heq. cbn [negb].
        rewrite (bind_Ret _ _ _ _ _
                   (Hup (stack_stop (stack_state T0)) ltac:(lia))).
        reflexivity. }
    rewrite (bind_Ret _ _ _ _ _ Hcopy). reflexivity. }
  rewrite (bind_Ret _ _ _ _ _ Hslp). simpl.
  eexists. split; [reflexivity|]. by repeat split.
Qed.

End FailedSave.

Lemma X4_failed_save_is_fatal_witness :
  exists s',
    g_switchstack false (fun _ => false) 5 800 1%nat
      (with_payload 1%nat ex_child_saved
         (mkSwitchingArgs (Some (PyTuple [PyInt 7])) None) ex_suspended_child)
    = Fatal
        "greenlet: Failed low-level slp_switch(). The stack is probably corrupt."
        s' /\
    pyerr s' = Some (mkPyErr PyExc_MemoryError None).
Proof.
  destruct (X4_failed_save_is_fatal false (fun _ => false) 5 800 1%nat
              (with_switch_args (mkSwitchingArgs (Some (PyTuple [PyInt 7])) None)
                 ex_child_saved)
              0%nat ex_main_running 0%nat (mkThreadState 0%nat 0%nat None)
              (with_payload 1%nat ex_child_saved
                 (mkSwitchingArgs (Some (PyTuple [PyInt 7])) None)
                 ex_suspended_child))
    as (s' & Hrun & Herr & _); try reflexivity; try discriminate.
  - simpl. unfold ADDR_MAX. lia.
  - lia.
  - exists s'. by split.
Defined.


(** ** The interpreter state across a switch (TGreenlet.cpp, TPythonState.cpp) *)

Lemma bind_Ret_inv {A B} (c : M A) (k : A -> M B) s b s' :
  bind c k s = Ret b s' ->
  exists a s1, c s = Ret a s1 /\ k a s1 = Ret b s'.
Proof.
  unfold bind. destruct (c s) as [a s1| | | | |]; try discriminate.
  intros H. by exists a, s1.
Qed.

Lemma only_stacks_differ_refl s : only_stacks_differ s s.
Proof. by repeat split. Qed.

Lemma only_stacks_differ_trans s1 s2 s3 :
  only_stacks_differ s1 s2 -> only_stacks_differ s2 s3 ->
  only_stacks_differ s1 s3.
Proof.
  intros (H1 & H2 & H3 & H4 & H5) (K1 & K2 & K3 & K4 & K5).
  split; [congruence|]. split; [congruence|]. split; [congruence|].
  split; [congruence|]. intros g.
  destruct (H5 g) as (Ha & Hb & Hc), (K5 g) as (Ka & Kb & Kc).
  split; [by rewrite Ka|]. split; [by rewrite Kb|by rewrite Kc].
Qed.

Lemma moves_stacks_only_ret {A} (a : A) : moves_stacks_only (ret a).
Proof. intros s a' s' H. injection H as _ <-. apply only_stacks_differ_refl. Qed.

Lemma moves_stacks_only_bind {A B} (c : M A) (k : A -> M B) :
  moves_stacks_only c -> (forall a, moves_stacks_only (k a)) ->
  moves_stacks_only (bind c k).
Proof.
  intros Hc Hk s b s' H.
  apply bind_Ret_inv in H as (a & s1 & H1 & H2).
  eapply only_stacks_differ_trans; [by eapply Hc|by eapply Hk].
Qed.

Lemma moves_stacks_only_reads {A} (c : M A) :
  reads_only c -> moves_stacks_only c.
Proof.
  intros Hc s a s' H. specialize (Hc s). rewrite H in Hc. subst.
  apply only_stacks_differ_refl.
Qed.

Lemma reads_only_deref_opt g : reads_only (deref_opt g).
Proof. intros s. by destruct g. Qed.

Lemma reads_only_crash {A} : reads_only (@crash A).
Proof. by intros s. Qed.

Lemma reads_only_diverge {A} : reads_only (@diverge A).
Proof. by intros s. Qed.

Lemma reads_only_deref_thread_state g : reads_only (deref_thread_state g).
Proof.
  apply reads_only_bind; [apply reads_only_deref|]. intros G s.
  destruct (thread_state (greenlets s) G) as [t|]; [|done].
  by destruct (threads s !! t).
Qed.

Lemma moves_stacks_only_modify f :
  (forall s, only_stacks_differ s (f s)) -> moves_stacks_only (modify f).
Proof. intros Hf s a s' H. injection H as _ <-. apply Hf. Qed.

Lemma moves_stacks_only_update_stack g f : moves_stacks_only (update_stack g f).
Proof.
  intros s a s' H. unfold update_stack, update in H.
  apply bind_Ret_inv in H as (G & s1 & H1 & H2).
  unfold deref in H1. destruct (greenlets s !! g) as [G0|] eqn:Hg; [|discriminate].
  injection H1 as <- <-. injection H2 as _ <-.
  repeat split; try reflexivity; simpl;
    (destruct (decide (g = g0)) as [->|Hne];
     [by rewrite lookup_insert_eq, Hg|by rewrite lookup_insert_ne]).
Qed.

Ltac moves_stacks_only_step :=
  first
    [ apply moves_stacks_only_ret
    | apply moves_stacks_only_update_stack
    | apply moves_stacks_only_reads;
      first [ apply reads_only_deref | apply reads_only_deref_opt
            | apply reads_only_get | apply reads_only_assert
            | apply reads_only_crash | apply reads_only_diverge
            | apply reads_only_deref_thread_state ]
    | apply moves_stacks_only_modify; intros ?; by repeat split
    | apply moves_stacks_only_bind; [|intro]
    | match goal with
      | |- moves_stacks_only (if ?b then _ else _) => destruct b
      | |- moves_stacks_only (match ?x with _ => _ end) => destruct x
      end ].

Lemma moves_stacks_only_find_owner fuel stop owner :
  moves_stacks_only (find_owner_with_more_stack fuel stop owner).
Proof.
  revert owner. induction fuel as [|fuel IH]; intros [o|]; simpl;
    repeat moves_stacks_only_step.
  apply IH.
Qed.

Lemma moves_stacks_only_copy_heap_to_stack fuel this current :
  moves_stacks_only (copy_heap_to_stack fuel this current).
Proof.
  unfold copy_heap_to_stack.
  repeat first [ apply moves_stacks_only_find_owner | moves_stacks_only_step ].
Qed.

Section MovesStacksOnly.

Variable ndebug : bool.
Variable realloc_ok : Z -> bool.

Lemma moves_stacks_only_copy_up_to g stop :
  moves_stacks_only (copy_stack_to_heap_up_to ndebug realloc_ok g stop).
Proof. unfold copy_stack_to_heap_up_to. repeat moves_stacks_only_step. Qed.

Lemma moves_stacks_only_copy_owners fuel this target_stop owner :
  moves_stacks_only
    (copy_owners_to_heap ndebug realloc_ok fuel this target_stop owner).
Proof.
  revert owner. induction fuel as [|fuel IH]; intros owner; simpl;
    repeat first [ apply moves_stacks_only_copy_up_to | apply IH
                 | moves_stacks_only_step ].
Qed.

Lemma moves_stacks_only_copy_stack_to_heap fuel this stackref current :
  moves_stacks_only
    (copy_stack_to_heap ndebug realloc_ok fuel this stackref current).
Proof.
  unfold copy_stack_to_heap.
  repeat first [ apply moves_stacks_only_copy_owners | moves_stacks_only_step ].
Qed.

(** The pivot changes nothing but stack states and stack bytes. *)
Lemma moves_stacks_only_slp_switch fuel stackref :
  moves_stacks_only (slp_switch ndebug realloc_ok fuel stackref).
Proof.
  unfold slp_switch.
  repeat first [ apply moves_stacks_only_copy_stack_to_heap
               | apply moves_stacks_only_copy_heap_to_stack
               | moves_stacks_only_step ].
Qed.

End MovesStacksOnly.

Lemma reads_only_Ret {A} (c : M A) s a s' :
  reads_only c -> c s = Ret a s' -> s' = s.
Proof. intros Hc H. specialize (Hc s). by rewrite H in Hc. Qed.

Section InterpreterState.

Variable ndebug : bool.
Variable realloc_ok : Z -> bool.
Variables (fuel : nat) (stackref : Z).

(** What a switch of stacks from the running greenlet [A] to another
    greenlet [T] does to the interpreter state: the frame and the
    recursion depth of the thread are stored in [A], those stored in [T]
    are installed, and no other greenlet is touched. *)
Lemma g_switchstack_interpreter_state T T0 A t ts s err s' :
  greenlets s !! T = Some T0 ->
  thread_state (greenlets s) T0 = Some t ->
  threads s !! t = Some ts ->
  ts_current_greenlet ts = A ->
  T <> A ->
  g_switchstack ndebug realloc_ok fuel stackref T s = Ret err s' ->
  tstate s' =
    mkPyThreadState (_top_frame (python_state T0))
      (recursion_depth (python_state T0)) /\
  python_state <$> (greenlets s' !! A) =
    Some (mkPythonState (tstate_frame (tstate s))
            (tstate_recursion_depth (tstate s))) /\
  python_state <$> (greenlets s' !! T) =
    Some (mkPythonState None (recursion_depth (python_state T0))) /\
  forall g, g <> A -> g <> T ->
    python_state <$> (greenlets s' !! g) = python_state <$> (greenlets s !! g).
Proof.
  intros HT Hthr Hts Hcur Hne H. unfold g_switchstack in H.
  rewrite (bind_Ret _ _ _ _ _ (args_or_error_Some _ _ _ HT)) in H.
  apply bind_Ret_inv in H as ([] & s0 & Ha & H).
  apply reads_only_Ret in Ha as ->; [|apply reads_only_assert].
  rewrite (bind_Ret _ _ _ _ _ (deref_thread_state_Some _ _ _ _ _ HT Hthr Hts)) in H.
  simpl in H. rewrite Hcur in H.
  destruct (Nat.eqb A T) eqn:Heq; [apply Nat.eqb_eq in Heq; congruence|].
  rewrite bind_get in H.
  apply bind_Ret_inv in H as ([] & s1 & Hupd & H).
  unfold update in Hupd. apply bind_Ret_inv in Hupd as (A0 & sa & HA & Hupd).
  unfold deref in HA. destruct (greenlets s !! A) as [A0'|] eqn:HA0; [|discriminate].
  injection HA as <- <-. injection Hupd as <-.
  rewrite bind_modify in H.
  set (A0p := with_python_state
                (mkPythonState (tstate_frame (tstate s))
                   (tstate_recursion_depth (tstate s))) A0') in *.
  set (s2 := with_switching (Some T)
               (with_greenlets (<[A := A0p]> (greenlets s)) s)) in *.
  assert (HT2 : greenlets s2 !! T = Some T0)
    by (simpl; rewrite lookup_insert_ne; done).
  rewrite (bind_Ret _ _ _ _ _ (args_or_error_Some _ s2 _ HT2)) in H.
  apply bind_Ret_inv in H as ([] & s0 & Ha & H).
  apply reads_only_Ret in Ha as ->; [|apply reads_only_assert].
  apply bind_Ret_inv in H as (r & sr & Hslp & H).
  apply moves_stacks_only_slp_switch in Hslp as (Hr1 & Hr2 & Hr3 & Hr4 & Hr5).
  destruct (r <? 0); [discriminate|].
  rewrite bind_get in H. rewrite Hr4 in H. simpl in H.
  rewrite bind_ret, bind_modify in H.
  destruct (Hr5 T) as (HpT & _ & _). rewrite HT2 in HpT.
  destruct (greenlets sr !! T) as [T3|] eqn:HT3; [|discriminate].
  injection HpT as HpT.
  unfold g_switchstack_success in H.
  rewrite bind_assoc in H.
  erewrite bind_Ret in H by (apply deref_Some; exact HT3).
  rewrite bind_assoc, bind_modify in H.
  rewrite bind_assoc in H.
  erewrite bind_Ret in H by (apply update_Some; exact HT3).
  rewrite bind_assoc in H.
  apply bind_Ret_inv in H as ([t' ts'] & s0 & Hd & H).
  apply reads_only_Ret in Hd as ->; [|apply reads_only_deref_thread_state].
  rewrite bind_assoc in H. unfold set_current in H. rewrite bind_modify in H.
  rewrite bind_ret in H.
  apply bind_Ret_inv in H as (ok & s0 & Ha & H).
  unfold args_or_error in Ha.
  apply reads_only_Ret in Ha as ->;
    [|apply reads_only_bind; [apply reads_only_deref|intros ?];
      apply reads_only_bind; [apply reads_only_get|intros ?];
      apply reads_only_ret].
  apply bind_Ret_inv in H as ([] & s0 & Ha & H).
  apply reads_only_Ret in Ha as ->; [|apply reads_only_assert].
  injection H as _ <-. simpl.
  split; [by rewrite HpT|]. split.
  { rewrite lookup_insert_ne by done. destruct (Hr5 A) as (HpA & _ & _).
    rewrite HpA. simpl. by rewrite lookup_insert_eq. }
  split.
  { rewrite lookup_insert_eq. simpl. by rewrite HpT. }
  intros g HgA HgT. rewrite lookup_insert_ne by done.
  destruct (Hr5 g) as (Hpg & _ & _). rewrite Hpg. simpl.
  by rewrite lookup_insert_ne.
Qed.

(** X5. The interpreter state comes back.  When the running greenlet
    [A] switches stacks to [B], and some greenlet later switches stacks
    back to [A], the interpreter has the frame and the recursion depth
    it had when [A] left, whatever the interpreter state was in between,
    as long as the state saved in [A] was left alone. *)
Theorem X5_interpreter_state_round_trip A B B0 t ts s e1 s1 :
  greenlets s !! B = Some B0 ->
  thread_state (greenlets s) B0 = Some t ->
  threads s !! t = Some ts ->
  ts_current_greenlet ts = A ->
  B <> A ->
  g_switchstack ndebug realloc_ok fuel stackref B s = Ret e1 s1 ->
  forall A1 t' ts' s1' e2 s2,
    greenlets s1' !! A = Some A1 ->
    python_state <$> (greenlets s1 !! A) = Some (python_state A1) ->
    thread_state (greenlets s1') A1 = Some t' ->
    threads s1' !! t' = Some ts' ->
    ts_current_greenlet ts' <> A ->
    g_switchstack ndebug realloc_ok fuel stackref A s1' = Ret e2 s2 ->
    tstate s2 = tstate s.
Proof.
  intros HB Hthr Hts Hcur Hne H1 A1 t' ts' s1' e2 s2 HA1 Hsaved Hthr' Hts' Hcur' H2.
  destruct (g_switchstack_interpreter_state B B0 A t ts s e1 s1
              HB Hthr Hts Hcur Hne H1) as (_ & HpA & _).
  destruct (g_switchstack_interpreter_state A A1 (ts_current_greenlet ts') t' ts'
              s1' e2 s2 HA1 Hthr' Hts' eq_refl ltac:(congruence) H2)
    as (Ht2 & _).
  rewrite Ht2. rewrite HpA in Hsaved. injection Hsaved as <-. simpl.
  by destruct (tstate s).
Qed.

End InterpreterState.

Lemma X5_interpreter_state_round_trip_witness :
  exists e1 s1 e2 s2,
    g_switchstack false ex_realloc_ok 5 800 1%nat
      (with_payload 1%nat ex_child_saved
         (mkSwitchingArgs (Some (PyTuple [PyInt 7])) None) ex_suspended_child)
    = Ret e1 s1 /\
    g_switchstack false ex_realloc_ok 5 800 0%nat (ex_while_away s1)
    = Ret e2 s2 /\
    tstate s2 = mkPyThreadState (Some 40) 1.
Proof.
  destruct (g_switchstack false ex_realloc_ok 5 800 1%nat
              (with_payload 1%nat ex_child_saved
                 (mkSwitchingArgs (Some (PyTuple [PyInt 7])) None)
                 ex_suspended_child)) as [e1 s1| | | | |] eqn:E1;
    try (vm_compute in E1; discriminate).
  destruct (g_switchstack false ex_realloc_ok 5 800 0%nat (ex_while_away s1))
    as [e2 s2| | | | |] eqn:E2;
    try (vm_compute in E1; injection E1 as <- <-; vm_compute in E2; discriminate).
  exists e1, s1, e2, s2. split; [reflexivity|]. split; [exact E2|].
  pose proof (X5_interpreter_state_round_trip false ex_realloc_ok 5 800
                0%nat 1%nat
                (with_switch_args
                   (mkSwitchingArgs (Some (PyTuple [PyInt 7])) None)
                   ex_child_saved)
                0%nat (mkThreadState 0%nat 0%nat None)
                (with_payload 1%nat ex_child_saved
                   (mkSwitchingArgs (Some (PyTuple [PyInt 7])) None)
                   ex_suspended_child) e1 s1
                eq_refl eq_refl eq_refl eq_refl ltac:(discriminate) E1) as Hround.
  pose proof E1 as E1'. vm_compute in E1'. injection E1' as _ <-.
  match type of E2 with
  | g_switchstack _ _ _ _ _ ?x = _ =>
      eapply (Hround _ 0%nat _ x e2 s2);
        [lazy; reflexivity|reflexivity|reflexivity|reflexivity|
         vm_compute; discriminate|exact E2]
  end.
Defined.


(** ** Trace functions (TGreenlet.cpp) *)

Section TraceRaises.

Variable ndebug : bool.
Variable call_trace : PyObject -> bool -> gid -> gid -> M unit.

(** X6. A trace function that raises.  When a greenlet [g] arrives from
    a switch on a thread that has a trace function installed and the
    trace function raises, the switch raises in [g] instead of
    delivering the value; the exception is the one the trace function
    left (an error that was pending before the call is dropped), the
    trace function of the executing thread is removed and the arguments
    of [g] are released. *)
Theorem X6_raising_trace_function_is_removed g G G' t ts f o err s st :
  greenlets s !! g = Some G ->
  thread_state (greenlets s) G = Some t ->
  threads s !! t = Some ts ->
  ts_current_greenlet ts = g ->
  ts_tracefunc ts = Some f ->
  SwitchingArgs_bool (switch_args G) = true \/ is_Some (pyerr s) ->
  the_new_current_greenlet err = Some g ->
  origin_greenlet err = Some o ->
  (status err <? 0) = false ->
  call_trace f
    (bool_decide (is_Some (if SwitchingArgs_bool (switch_args G)
                           then fst (deliver (switch_args G)) else None)))
    o g
    (with_pyerr None
       (with_greenlets
          (<[g := with_switch_args SwitchingArgs_empty G]> (greenlets s)) s))
  = Throw PyErrOccurred st ->
  greenlets st !! g = Some G' ->
  exists s',
    g_switch_finish ndebug call_trace g err s = Throw PyErrOccurred s' /\
    threads s' =
      alter (fun ts => mkThreadState (ts_main_greenlet ts)
                         (ts_current_greenlet ts) None)
        (this_thread st) (threads st) /\
    greenlets s' = <[g := with_switch_args SwitchingArgs_empty G']> (greenlets st) /\
    pyerr s' = pyerr st.
Proof.
  intros Hg Ht Hts Hcur Htr Hin Hnew Horig Hst Hcall Hg'.
  eexists. split.
  - unfold g_switch_finish.
    erewrite bind_Ret
      by (apply assert_holds; intros _; by apply bool_decide_eq_true_2).
    rewrite (bind_Ret _ _ _ _ _ (deref_thread_state_Some _ _ _ _ _ Hg Ht Hts)).
    rewrite (bind_Ret _ _ _ _ _ (deref_Some _ _ _ Hg)).
    assert (Hfirst :
      (if SwitchingArgs_bool (switch_args G)
       then update g (with_switch_args (snd (deliver (switch_args G)))) ;;;
            ret (fst (deliver (switch_args G)))
       else let* s0 := get in
            assert ndebug (bool_decide (is_Some (pyerr s0))) ;;; ret None) s =
      Ret (if SwitchingArgs_bool (switch_args G)
           then fst (deliver (switch_args G)) else None)
        (with_greenlets
           (<[g := with_switch_args SwitchingArgs_empty G]> (greenlets s)) s)).
    { destruct (SwitchingArgs_bool (switch_args G)) eqn:Hb.
      - rewrite deliver_snd.
        rewrite (bind_Ret _ _ _ _ _ (update_Some _ _ _ _ Hg)). reflexivity.
      - destruct Hin as [Hin|Hin]; [discriminate|].
        rewrite bind_get.
        erewrite bind_Ret
          by (apply assert_holds; intros _; by apply bool_decide_eq_true_2).
        unfold ret. f_equal. unfold with_greenlets.
        rewrite insert_id; [by destruct s|]. rewrite Hg. f_equal.
        destruct G as [[[a|] [kw|]] ? ? ?]; simpl in *; try discriminate.
        reflexivity. }
    rewrite (bind_Ret _ _ _ _ _ Hfirst).
    erewrite bind_Ret by (apply deref_Some; apply lookup_insert_eq).
    erewrite bind_Ret by (apply assert_holds; reflexivity).
    erewrite catch_Throw; cycle 1.
    + erewrite bind_Ret
        by (apply assert_holds; intros _; apply Z.leb_le; apply Z.ltb_ge;
            exact Hst).
      rewrite bind_get. cbn [threads with_greenlets fst]. rewrite Hts. rewrite ?bind_assoc.
      erewrite bind_Ret
        by (apply assert_holds; intros _; rewrite Hcur; apply Nat.eqb_refl).
      rewrite Htr, Horig. simpl deref_opt. rewrite ?bind_assoc, bind_ret.
      unfold g_calltrace. rewrite ?bind_assoc, bind_get, ?bind_assoc, bind_modify.
      rewrite ?bind_assoc.
      erewrite bind_Throw; [reflexivity|].
      erewrite catch_Throw by exact Hcall.
      rewrite bind_get. unfold set_tracefunc. rewrite bind_modify. reflexivity.
    + unfold release_args.
      erewrite bind_Ret by (apply update_Some; simpl; exact Hg').
      reflexivity.
  - simpl. done.
Qed.

End TraceRaises.

Lemma X6_raising_trace_function_is_removed_witness :
  exists s',
    g_switch_finish false ex_call_trace_raising 0%nat
      (mk_switchstack_result 0 (Some 0%nat) (Some 1%nat)) ex_traced
    = Throw PyErrOccurred s' /\
    threads s' = <[0%nat := mkThreadState 0%nat 0%nat None]> ∅ /\
    switch_args <$> (greenlets s' !! 0%nat) = Some SwitchingArgs_empty /\
    pyerr s' = Some (PyErr_SetString (PyExc_Other 0) "trace").
Proof.
  destruct (X6_raising_trace_function_is_removed false ex_call_trace_raising
              0%nat
              (with_switch_args (mkSwitchingArgs (Some (PyTuple [PyInt 7])) None)
                 ex_main_running)
              (with_switch_args SwitchingArgs_empty
                 (with_switch_args (mkSwitchingArgs (Some (PyTuple [PyInt 7])) None)
                    ex_main_running))
              0%nat (mkThreadState 0%nat 0%nat (Some (PyOpaque 5))) (PyOpaque 5)
              1%nat (mk_switchstack_result 0 (Some 0%nat) (Some 1%nat))
              ex_traced _
              eq_refl eq_refl eq_refl eq_refl eq_refl (or_introl eq_refl)
              eq_refl eq_refl eq_refl eq_refl eq_refl)
    as (s' & Hrun & Hthreads & Hgreenlets & Herr).
  exists s'. split; [exact Hrun|]. split; [|split].
  - rewrite Hthreads. by vm_compute.
  - rewrite Hgreenlets. by rewrite lookup_insert_eq.
  - rewrite Herr. reflexivity.
Defined.


Section TraceReturns.

Variable ndebug : bool.
Variable call_trace : PyObject -> bool -> gid -> gid -> M unit.

(** X7. Tracing is transparent to the switch.  When a greenlet [g]
    arrives on a thread with a trace function installed and the trace
    function returns, the arrival ends as it would without tracing,
    whatever the trace function did to the error indicator: a value is
    delivered with no error set, and an error that was pending (hidden
    from the trace function while it ran) is put back and raised in
    [g]. *)
Theorem X7_trace_function_is_transparent g G G' t ts f o err s st :
  greenlets s !! g = Some G ->
  thread_state (greenlets s) G = Some t ->
  threads s !! t = Some ts ->
  ts_current_greenlet ts = g ->
  ts_tracefunc ts = Some f ->
  (pyerr s = None /\ is_Some (fst (deliver (switch_args G)))) \/
  (is_Some (pyerr s) /\ SwitchingArgs_bool (switch_args G) = false) ->
  the_new_current_greenlet err = Some g ->
  origin_greenlet err = Some o ->
  (status err <? 0) = false ->
  call_trace f
    (bool_decide (is_Some (if SwitchingArgs_bool (switch_args G)
                           then fst (deliver (switch_args G)) else None)))
    o g
    (with_pyerr None
       (with_greenlets
          (<[g := with_switch_args SwitchingArgs_empty G]> (greenlets s)) s))
  = Ret tt st ->
  greenlets st !! g = Some G' ->
  g_switch_finish ndebug call_trace g err s =
  match pyerr s with
  | None => Ret (fst (deliver (switch_args G))) (with_pyerr None st)
  | Some e =>
      Throw PyErrOccurred
        (with_greenlets
           (<[g := with_switch_args SwitchingArgs_empty G']> (greenlets st))
           (with_pyerr (Some e) st))
  end.
Proof.
  intros Hg Ht Hts Hcur Htr Hin Hnew Horig Hst Hcall Hg'.
  assert (Hb : SwitchingArgs_bool (switch_args G) =
               negb (bool_decide (is_Some (pyerr s)))).
  { destruct Hin as [[He Hv]|[He Hb]].
    - rewrite He. rewrite bool_decide_eq_false_2 by (by intros [? ?]).
      destruct G as [[[a|] [kw|]] ? ? ?]; simpl in *; try done.
    - rewrite Hb. by rewrite bool_decide_eq_true_2. }
  unfold g_switch_finish.
  erewrite bind_Ret
    by (apply assert_holds; intros _; by apply bool_decide_eq_true_2).
  rewrite (bind_Ret _ _ _ _ _ (deref_thread_state_Some _ _ _ _ _ Hg Ht Hts)).
  rewrite (bind_Ret _ _ _ _ _ (deref_Some _ _ _ Hg)).
  assert (Hfirst :
    (if SwitchingArgs_bool (switch_args G)
     then update g (with_switch_args (snd (deliver (switch_args G)))) ;;;
          ret (fst (deliver (switch_args G)))
     else let* s0 := get in
          assert ndebug (bool_decide (is_Some (pyerr s0))) ;;; ret None) s =
    Ret (if SwitchingArgs_bool (switch_args G)
         then fst (deliver (switch_args G)) else None)
      (with_greenlets
         (<[g := with_switch_args SwitchingArgs_empty G]> (greenlets s)) s)).
  { destruct (SwitchingArgs_bool (switch_args G)) eqn:Hb'.
    - rewrite deliver_snd.
      rewrite (bind_Ret _ _ _ _ _ (update_Some _ _ _ _ Hg)). reflexivity.
    - symmetry in Hb. apply negb_false_iff, bool_decide_eq_true_1 in Hb.
      rewrite bind_get.
      erewrite bind_Ret
        by (apply assert_holds; intros _; by apply bool_decide_eq_true_2).
      unfold ret. f_equal. unfold with_greenlets.
      rewrite insert_id; [by destruct s|]. rewrite Hg. f_equal.
      destruct G as [[[a|] [kw|]] ? ? ?]; simpl in *; try discriminate.
      reflexivity. }
  rewrite (bind_Ret _ _ _ _ _ Hfirst).
  erewrite bind_Ret by (apply deref_Some; apply lookup_insert_eq).
  erewrite bind_Ret by (apply assert_holds; reflexivity).
  set (r := if SwitchingArgs_bool (switch_args G)
            then fst (deliver (switch_args G)) else None) in *.
  set (S1 := with_greenlets
               (<[g := with_switch_args SwitchingArgs_empty G]> (greenlets s)) s)
    in *.
  assert (Hev : bool_decide (is_Some r) = negb (bool_decide (is_Some (pyerr s)))).
  { destruct Hin as [[He Hv]|[He Hb']].
    - rewrite He. rewrite (bool_decide_eq_false_2 (is_Some None))
        by (by intros [? ?]).
      apply bool_decide_eq_true_2. unfold r.
      rewrite Hb, He. by rewrite bool_decide_eq_false_2 by (by intros [? ?]).
    - rewrite (bool_decide_eq_true_2 _ He). apply bool_decide_eq_false_2.
      unfold r. rewrite Hb'. by intros [? ?]. }
  assert (Htrace :
    (match threads S1 !! fst (t, ts) with
     | None => crash
     | Some state =>
         assert ndebug (Nat.eqb (ts_current_greenlet state) g) ;;;
         match ts_tracefunc state with
         | Some tracefunc =>
             let* origin := deref_opt (origin_greenlet err) in
             g_calltrace ndebug call_trace tracefunc (bool_decide (is_Some r))
               origin g
         | None => ret tt
         end
     end) S1 = Ret tt (with_pyerr (pyerr s) st)).
  { cbn [threads with_greenlets fst S1]. rewrite Hts.
    erewrite bind_Ret
      by (apply assert_holds; intros _; rewrite Hcur; apply Nat.eqb_refl).
    rewrite Htr, Horig. simpl deref_opt. rewrite bind_ret.
    unfold g_calltrace. rewrite bind_get, ?bind_assoc, bind_modify.
    erewrite bind_Ret by (apply catch_Ret; exact Hcall).
    rewrite bind_modify, bind_get.
    apply assert_holds. intros _. simpl. rewrite Hev.
    by destruct (bool_decide (is_Some (pyerr s))). }
  assert (Hpos : assert ndebug (0 <=? status err) S1 = Ret tt S1)
    by (apply assert_holds; intros _; apply Z.leb_le; apply Z.ltb_ge;
        exact Hst).
  destruct (pyerr s) as [e|] eqn:He.
  - erewrite catch_Throw; cycle 1.
    + rewrite (bind_Ret _ _ _ _ _ Hpos), bind_get.
      rewrite (bind_Ret _ _ _ _ _ Htrace).
      rewrite bind_get. reflexivity.
    + unfold release_args.
      erewrite bind_Ret by (apply update_Some; simpl; exact Hg').
      reflexivity.
  - apply catch_Ret.
    rewrite (bind_Ret _ _ _ _ _ Hpos), bind_get.
    rewrite (bind_Ret _ _ _ _ _ Htrace).
    rewrite bind_get. simpl.
    unfold ret, r. rewrite Hb. reflexivity.
Qed.

End TraceReturns.

Lemma X7_trace_function_is_transparent_witness :
  exists s',
    g_switch_finish false ex_call_trace 0%nat
      (mk_switchstack_result 0 (Some 0%nat) (Some 1%nat)) ex_traced
    = Ret (Some (PyTuple [PyInt 7])) s' /\
    pyerr s' = None.
Proof.
  eexists. split; [|shelve].
  exact (X7_trace_function_is_transparent false ex_call_trace
           0%nat
           (with_switch_args (mkSwitchingArgs (Some (PyTuple [PyInt 7])) None)
              ex_main_running)
           (with_switch_args SwitchingArgs_empty
              (with_switch_args (mkSwitchingArgs (Some (PyTuple [PyInt 7])) None)
                 ex_main_running))
           0%nat (mkThreadState 0%nat 0%nat (Some (PyOpaque 5))) (PyOpaque 5)
           1%nat (mk_switchstack_result 0 (Some 0%nat) (Some 1%nat))
           ex_traced _
           eq_refl eq_refl eq_refl eq_refl eq_refl
           (or_introl (conj eq_refl (ex_intro _ _ eq_refl)))
           eq_refl eq_refl eq_refl eq_refl eq_refl).
  Unshelve. reflexivity.
Defined.


(** ** Reparenting keeps the parent chains finite (TUserGreenlet.cpp) *)

Lemma parent_chain_check_Ret n this o m s r s' :
  parent_chain_check n this o m s = Ret r s' ->
  s' = s /\ exists k, parent_chain_avoids (greenlets s) this o k.
Proof.
  revert o m. induction n as [|n IH]; intros o m H.
  - destruct o as [g|]; [discriminate|]. injection H as _ <-.
    split; [done|]. exists 0%nat. constructor.
  - destruct o as [g|].
    + simpl in H. destruct (Nat.eqb g this) eqn:Heq; [discriminate|].
      apply Nat.eqb_neq in Heq.
      apply bind_Ret_inv in H as (G & s1 & HG & H).
      unfold deref in HG. destruct (greenlets s !! g) as [G'|] eqn:Hg;
        [|discriminate].
      injection HG as <- <-.
      apply IH in H as (-> & k & Hk). split; [done|].
      exists (S k). by econstructor.
    + injection H as _ <-. split; [done|]. exists 0%nat. constructor.
Qed.

Lemma parent_chain_avoids_insert gs this X o k :
  parent_chain_avoids gs this o k ->
  parent_chain_ends (<[this := X]> gs) o k.
Proof.
  induction 1 as [|g G k Hne Hg _ IH]; [constructor|].
  econstructor; [|exact IH]. by rewrite lookup_insert_ne.
Qed.

Lemma parent_chain_ends_reparented gs this X p kp o k :
  parent X = Some p ->
  parent_chain_avoids gs this (Some p) kp ->
  parent_chain_ends gs o k ->
  exists k', parent_chain_ends (<[this := X]> gs) o k'.
Proof.
  intros HX Hp. induction 1 as [|g G k Hg _ [k' IH]].
  - exists 0%nat. constructor.
  - destruct (decide (g = this)) as [->|Hne].
    + exists (S kp). econstructor; [apply lookup_insert_eq|].
      rewrite HX. by apply parent_chain_avoids_insert.
    + exists (S k'). econstructor; [|exact IH]. by rewrite lookup_insert_ne.
Qed.

(** X8. Reparenting keeps every parent chain finite.  In a store where
    the parent chain of every greenlet ends, a [green_setparent] that
    succeeds makes the new parent the parent of the greenlet, leaves
    every other greenlet as it was, and the parent chain of every
    greenlet still ends: no assignment of [parent] creates a cycle. *)
Theorem X8_reparenting_keeps_chains_finite fuel self p s s' :
  parents_well_founded (greenlets s) ->
  green_setparent fuel self (Some p) s = Ret 0 s' ->
  parents_well_founded (greenlets s') /\
  parent <$> (greenlets s' !! self) = Some (Some p) /\
  forall g, g <> self -> greenlets s' !! g = greenlets s !! g.
Proof.
  intros Hwf H. unfold green_setparent, catch_PyErrOccurred in H.
  match type of H with
  | match ?c with _ => _ end = _ => destruct c as [z s0|[] s0| | | |] eqn:Hc
  end; try discriminate.
  injection H as -> ->.
  apply bind_Ret_inv in Hc as (Self & s0 & Hself & Hc).
  unfold deref in Hself.
  destruct (greenlets s !! self) as [Self'|] eqn:Hs; [|discriminate].
  injection Hself as <- <-.
  apply bind_Ret_inv in Hc as ([] & s1 & Hc & Hr).
  unfold ret in Hr. injection Hr as ->.
  destruct (kind Self') as [mts|pa mg r] eqn:Hkind; [discriminate|].
  unfold UserGreenlet_set_parent in Hc.
  apply bind_Ret_inv in Hc as (m & s0 & Hchain & Hc).
  apply parent_chain_check_Ret in Hchain as (-> & kp & Hchain).
  destruct m as [m|]; [|discriminate].
  rewrite (bind_Ret _ _ _ _ _ (deref_Some _ _ _ Hs)) in Hc.
  match type of Hc with
  | (if ?b then _ else _) _ = _ => destruct b; [discriminate|]
  end.
  rewrite (update_Some _ _ _ _ Hs) in Hc. injection Hc as <-.
  rewrite Hkind. simpl.
  set (X := with_kind (UserGreenlet (Some p) mg r) Self').
  split; [|split].
  - intros g Hg. destruct (decide (g = self)) as [->|Hne].
    + exists (S kp). econstructor; [apply lookup_insert_eq|].
      by apply parent_chain_avoids_insert.
    + rewrite lookup_insert_ne in Hg by done.
      destruct (Hwf g Hg) as (k & Hk).
      by apply (parent_chain_ends_reparented _ self X p kp _ k).
  - by rewrite lookup_insert_eq.
  - intros g Hne. by rewrite lookup_insert_ne.
Qed.

Lemma X8_reparenting_keeps_chains_finite_witness :
  exists s',
    green_setparent 3 1%nat (Some 2%nat) ex_dead_sibling = Ret 0 s' /\
    parents_well_founded (greenlets s') /\
    parent <$> (greenlets s' !! 1%nat) = Some (Some 2%nat).
Proof.
  destruct (green_setparent 3 1%nat (Some 2%nat) ex_dead_sibling)
    as [z s'| | | | |] eqn:E; try (vm_compute in E; discriminate).
  assert (Hz : z = 0) by (vm_compute in E; by injection E as <- _).
  subst z. exists s'. split; [reflexivity|].
  assert (Hwf : parents_well_founded (greenlets ex_dead_sibling)).
  { assert (H0 : parent_chain_ends (greenlets ex_dead_sibling) (Some 0%nat) 1)
      by (econstructor; [reflexivity|constructor]).
    intros g [G Hg]. unfold ex_dead_sibling in Hg. simpl in Hg.
    ex_store_cases Hg.
    - exists 2%nat. econstructor; [reflexivity|exact H0].
    - exists 2%nat. econstructor; [reflexivity|exact H0].
    - by exists 1%nat. }
  destruct (X8_reparenting_keeps_chains_finite 3 1%nat 2%nat ex_dead_sibling s'
              Hwf E) as (Hwf' & Hp & _).
  by split.
Defined.


(** The loop of the parent setter on a chain that ends at the root [q]
    without meeting [this]: it answers the main greenlet of the root. *)
Lemma parent_chain_check_root gs this p q Q k :
  in_parent_chain gs p q k ->
  gs !! q = Some Q ->
  parent Q = None ->
  (forall j, ~ in_parent_chain gs p this j) ->
  forall n m s, greenlets s = gs -> (k < n)%nat ->
  parent_chain_check n this (Some p) m s = Ret (main_greenlet q Q) s.
Proof.
  intros Hchain HQ Hroot.
  induction Hchain as [c|p P q' c k Hp Hq' Hc IH]; intros Havoid n m s Hs Hn.
  - destruct n as [|n]; [lia|]. simpl.
    destruct (Nat.eqb c this) eqn:Heq.
    { apply Nat.eqb_eq in Heq as ->. destruct (Havoid 0%nat). constructor. }
    rewrite (bind_Ret _ _ _ _ _ (deref_Some c s Q ltac:(by rewrite Hs))).
    rewrite Hroot. by destruct n.
  - destruct n as [|n]; [lia|]. simpl.
    destruct (Nat.eqb p this) eqn:Heq.
    { apply Nat.eqb_eq in Heq as ->. destruct (Havoid 0%nat). constructor. }
    rewrite (bind_Ret _ _ _ _ _ (deref_Some p s P ltac:(by rewrite Hs))).
    rewrite Hq'. apply IH; [exact HQ| |exact Hs|lia].
    intros j Hj. apply (Havoid (S j)). by econstructor.
Qed.

(** X9. A started greenlet stays on its thread.  Let the parent chain
    of the new parent [p] end at the root [q], whose main greenlet is
    [m], without meeting the greenlet [self].  For a user greenlet that
    has started and whose main greenlet is not [m], [green_setparent]
    answers [-1] with ValueError "parent cannot be on a different
    thread" and changes nothing else; in every other case (the greenlet
    has not started, or [m] is its main greenlet) it answers [0] and
    [p] is the parent. *)
Theorem X9_reparenting_across_threads fuel s self Self pa mg r p q Q m k :
  greenlets s !! self = Some Self ->
  kind Self = UserGreenlet pa mg r ->
  in_parent_chain (greenlets s) p q k ->
  greenlets s !! q = Some Q ->
  parent Q = None ->
  main_greenlet q Q = Some m ->
  (forall j, ~ in_parent_chain (greenlets s) p self j) ->
  (k < fuel)%nat ->
  green_setparent fuel self (Some p) s =
  if started (stack_state Self) && negb (bool_decide (mg = Some m)) then
    Ret (-1)
      (with_pyerr
         (Some (PyErr_SetString PyExc_ValueError
                  "parent cannot be on a different thread")) s)
  else
    Ret 0
      (with_greenlets
         (<[self := with_kind (UserGreenlet (Some p) mg r) Self]> (greenlets s))
         s).
Proof.
  intros Hself Hkind Hchain HQ Hroot Hm Havoid Hk.
  unfold green_setparent, catch_PyErrOccurred.
  rewrite (bind_Ret _ _ _ _ _ (deref_Some _ _ _ Hself)). rewrite Hkind.
  unfold UserGreenlet_set_parent. rewrite bind_assoc.
  rewrite (bind_Ret _ _ _ _ _
             (parent_chain_check_root _ self p q Q k Hchain HQ Hroot Havoid
                fuel None s eq_refl Hk)).
  rewrite Hm. rewrite bind_assoc.
  rewrite (bind_Ret _ _ _ _ _ (deref_Some _ _ _ Hself)).
  assert (Hmg : main_greenlet self Self = mg)
    by (unfold main_greenlet; by rewrite Hkind).
  rewrite Hmg.
  destruct (started (stack_state Self) && negb (bool_decide (mg = Some m))).
  - reflexivity.
  - rewrite (bind_Ret _ _ _ _ _ (update_Some _ _ _ _ Hself)).
    rewrite Hkind. reflexivity.
Qed.

(** Greenlet 3 has started on thread 1; the main greenlet 0 of thread 0
    cannot become its parent. *)
Lemma X9_reparenting_across_threads_witness :
  green_setparent 2 3%nat (Some 0%nat) ex_two_threads =
  Ret (-1)
    (with_pyerr
       (Some (PyErr_SetString PyExc_ValueError
                "parent cannot be on a different thread")) ex_two_threads).
Proof.
  refine (X9_reparenting_across_threads 2 ex_two_threads 3%nat _
            (Some 2%nat) (Some 2%nat) None 0%nat 0%nat ex_main_running 0%nat 0
            eq_refl eq_refl (in_parent_chain_here _ _) eq_refl eq_refl eq_refl
            _ ltac:(lia)).
  intros j Hj. inversion Hj as [|? P q ? ? HP Hq ?]; subst.
  vm_compute in HP. injection HP as <-. discriminate.
Defined.


(** ** The attributes [dead] and [run] (greenlet.cpp) *)

Lemma was_running_in_dead_thread_kinds gs gs' G G' :
  (forall g, kind <$> (gs' !! g) = kind <$> (gs !! g)) ->
  kind G' = kind G ->
  was_running_in_dead_thread gs' G' = was_running_in_dead_thread gs G.
Proof.
  intros Hk HG. unfold was_running_in_dead_thread.
  rewrite (thread_state_kinds gs gs' G G' Hk HG). by rewrite HG.
Qed.

(** X10. Reading [dead] cleans up once.  Whatever [green_getdead]
    answers for a greenlet, asking again in the state it leaves gives
    the same answer and changes nothing more; no other greenlet is
    touched; the answer is [True] exactly when the thread of the
    greenlet has died or the greenlet has started and is no longer
    active; and a greenlet reported dead is not active afterwards (its
    truth value is false), also when it was suspended in a thread that
    died. *)
Theorem X10_getdead_cleans_up_once ndebug self G s b s1 :
  greenlets s !! self = Some G ->
  green_getdead ndebug self s = Ret b s1 ->
  green_getdead ndebug self s1 = Ret b s1 /\
  b = was_running_in_dead_thread (greenlets s) G
      || (started (stack_state G) && negb (active (stack_state G))) /\
  (b = true -> green_bool self s1 = Ret false s1) /\
  forall g, g <> self -> greenlets s1 !! g = greenlets s !! g.
Proof.
  intros Hself. unfold green_getdead, _green_not_dead.
  rewrite ?bind_assoc, bind_get, ?bind_assoc.
  rewrite (bind_Ret _ _ _ _ _ (deref_Some _ _ _ Hself)).
  destruct (was_running_in_dead_thread (greenlets s) G) eqn:Hdead.
  - destruct (deactivate_and_free_spec ndebug self G s Hself)
      as (G' & Hrun & Hkind & Hact & Hinact).
    rewrite bind_assoc, (bind_Ret _ _ _ _ _ Hrun), bind_ret.
    intros H. injection H as <- <-.
    set (s1 := with_greenlets (<[self := G']> (greenlets s)) s).
    assert (Hself1 : greenlets s1 !! self = Some G')
      by apply lookup_insert_eq.
    assert (Hinactive : active (stack_state G') = false).
    { destruct (active (stack_state G)) eqn:Ha.
      - by rewrite (Hact eq_refl).
      - by rewrite (Hinact eq_refl). }
    assert (Hdead1 : was_running_in_dead_thread (greenlets s1) G' = true).
    { rewrite <- Hdead. apply was_running_in_dead_thread_kinds; [|exact Hkind].
      intros g. simpl. destruct (decide (g = self)) as [->|Hne].
      - rewrite lookup_insert_eq, Hself. simpl. by rewrite Hkind.
      - by rewrite lookup_insert_ne. }
    split; [|split; [|split]].
    + rewrite ?bind_assoc, bind_get, ?bind_assoc.
      rewrite (bind_Ret _ _ _ _ _ (deref_Some _ _ _ Hself1)).
      rewrite Hdead1.
      destruct (deactivate_and_free_spec ndebug self G' s1 Hself1)
        as (G'' & Hrun' & _ & _ & Hsame).
      rewrite bind_assoc, (bind_Ret _ _ _ _ _ Hrun'), bind_ret.
      rewrite (Hsame Hinactive). unfold ret. f_equal.
      unfold s1, with_greenlets. simpl. by rewrite insert_insert_eq.
    + reflexivity.
    + intros _. unfold green_bool.
      rewrite (bind_Ret _ _ _ _ _ (deref_Some _ _ _ Hself1)).
      by rewrite Hinactive.
    + intros g Hne. simpl. by rewrite lookup_insert_ne.
  - rewrite bind_ret. intros H.
    assert (Hb : b = started (stack_state G) && negb (active (stack_state G))
                 /\ s1 = s).
    { destruct (active (stack_state G)), (started (stack_state G));
        simpl in H; by injection H as <- <-. }
    destruct Hb as [-> ->].
    split; [|split; [|split]].
    + rewrite ?bind_assoc, bind_get, ?bind_assoc.
      rewrite (bind_Ret _ _ _ _ _ (deref_Some _ _ _ Hself)).
      rewrite Hdead, bind_ret.
      by destruct (active (stack_state G)), (started (stack_state G)).
    + reflexivity.
    + intros Hb. unfold green_bool.
      rewrite (bind_Ret _ _ _ _ _ (deref_Some _ _ _ Hself)).
      apply andb_true_iff in Hb as [_ Hb]. apply negb_true_iff in Hb.
      by rewrite Hb.
    + done.
Qed.

Lemma X10_getdead_cleans_up_once_witness :
  exists s1,
    green_getdead false 3%nat ex_thread_died = Ret true s1 /\
    green_getdead false 3%nat s1 = Ret true s1 /\
    green_bool 3%nat s1 = Ret false s1.
Proof.
  destruct (green_getdead false 3%nat ex_thread_died) as [b s1| | | | |] eqn:E;
    try (vm_compute in E; discriminate).
  assert (Hb : b = true) by (vm_compute in E; by injection E as <- _).
  subst b. exists s1. split; [reflexivity|].
  destruct (X10_getdead_cleans_up_once false 3%nat _ ex_thread_died true s1
              eq_refl E) as (Hagain & _ & Hbool & _).
  split; [exact Hagain|by apply Hbool].
Defined.


(** X11. The attribute [run] before the start.  For a user greenlet
    that has not started, [green_setrun] answers [0], touches no other
    greenlet and nothing of the greenlet but the callable, and
    [green_getrun] then answers the callable just stored; after the
    deletion of the attribute (a null callable) it answers null with
    AttributeError "run". *)
Theorem X11_run_round_trip self G pa mg r0 nrun s :
  greenlets s !! self = Some G ->
  kind G = UserGreenlet pa mg r0 ->
  started (stack_state G) = false ->
  let s1 :=
    with_greenlets
      (<[self := with_kind (UserGreenlet pa mg nrun) G]> (greenlets s)) s in
  green_setrun self nrun s = Ret 0 s1 /\
  green_getrun self s1 =
  match nrun with
  | Some r => Ret (Some r) s1
  | None =>
      Ret None
        (with_pyerr (Some (PyErr_SetString PyExc_AttributeError "run")) s1)
  end.
Proof.
  intros Hself Hkind Hstarted s1. split.
  - unfold green_setrun, catch_PyErrOccurred.
    rewrite (bind_Ret _ _ _ _ _ (deref_Some _ _ _ Hself)). rewrite Hkind.
    unfold UserGreenlet_set_run. rewrite bind_assoc.
    rewrite (bind_Ret _ _ _ _ _ (deref_Some _ _ _ Hself)). rewrite Hstarted.
    rewrite (bind_Ret _ _ _ _ _ (update_Some _ _ _ _ Hself)).
    by rewrite Hkind.
  - assert (Hself1 : greenlets s1 !! self
                     = Some (with_kind (UserGreenlet pa mg nrun) G))
      by apply lookup_insert_eq.
    unfold green_getrun, catch_PyErrOccurred.
    rewrite (bind_Ret _ _ _ _ _ (deref_Some _ _ _ Hself1)).
    cbn [kind with_kind]. unfold UserGreenlet_run.
    rewrite (bind_Ret _ _ _ _ _ (deref_Some _ _ _ Hself1)).
    cbn [kind with_kind stack_state]. rewrite Hstarted. by destruct nrun.
Qed.

Lemma X11_run_round_trip_witness :
  exists s1,
    green_setrun 1%nat (Some (PyOpaque 9)) ex_fresh_child = Ret 0 s1 /\
    green_getrun 1%nat s1 = Ret (Some (PyOpaque 9)) s1.
Proof.
  eexists.
  exact (X11_run_round_trip 1%nat ex_fresh _ _ _ (Some (PyOpaque 9))
           ex_fresh_child eq_refl eq_refl eq_refl).
Defined.


(** ** Throwing into a greenlet (greenlet.cpp) *)

Lemma ex_suspended_child_ready : switch_ready ex_suspended_child 0%nat [0%nat].
Proof.
  constructor.
  - exists (mkThreadState 0%nat 0%nat None). by repeat split.
  - reflexivity.
  - by apply ex_main_chain_ok.
  - intros g G Hg. unfold ex_suspended_child in Hg. cbn [greenlets] in Hg.
    ex_store_cases Hg; (split; [simpl; lia|split; simpl; [|try done; lia]]);
      [|lia].
    intros _. eexists. split; [reflexivity|simpl; lia].
  - by exists ex_main_running.
  - intros g G Hg. unfold ex_suspended_child in Hg. cbn [greenlets] in Hg.
    ex_store_cases Hg; simpl; unfold ADDR_MAX; lia.
Qed.

Lemma ex_suspended_child_resumable : resumable false ex_suspended_child 1%nat 0.
Proof.
  exists ex_child_saved. split; [reflexivity|]. split; [reflexivity|].
  split; [reflexivity|].
  exists (mkThreadState 0%nat 0%nat None), ex_main_running.
  split; [reflexivity|]. split.
  { eapply lineage_main_started; try reflexivity. intros _. by eexists. }
  split; [reflexivity|]. split; by eexists.
Qed.

Section ThrowSuspended.

Variable ndebug : bool.
Variable realloc_ok : Z -> bool.
Hypothesis realloc_succeeds : forall n, realloc_ok n = true.
Variable getattr_run : gid -> M OwnedObject.
Variable call_trace : PyObject -> bool -> gid -> gid -> M unit.
Variables (fuel : nat) (mark stackref : Z).
Hypothesis stackref_not_null : stackref <> 0.

(** X12. Throwing into a suspended greenlet.  While [A] is running,
    with no error pending, no trace function installed and an allocator
    that serves every request, [throw_greenlet] on a suspended greenlet
    [T] of the same thread switches the stack to [T] once, and the call
    [T] was suspended in raises the exception thrown: it ends with that
    exception pending and [T] running; [T] receives no value, the
    frames of all greenlets are kept and no greenlet is started. *)
Theorem X12_throw_raises_in_suspended_target A T l k e s :
  switch_ready s A l ->
  resumable ndebug s T k ->
  T <> A ->
  (length l < fuel)%nat -> (k < fuel)%nat ->
  exists s',
    throw_greenlet ndebug realloc_ok getattr_run call_trace fuel mark stackref
      T e s = Throw PyErrOccurred s' /\
    pyerr s' = Some e /\
    running s' = Some T /\
    switches s' = S (switches s) /\
    frames_kept (greenlets s) (greenlets s') /\
    switch_args <$> (greenlets s' !! T) = Some SwitchingArgs_empty /\
    run_log s' = run_log s.
Proof.
  intros [(ts & Hts & Hcur & Htr) Herr Hchain Hheap (A0 & HA & Hsaved) Hbounds]
         (T0 & HT & HactT & Hthr & Hallowed) Hne Hfuel Hk.
  set (a := mkSwitchingArgs None None).
  set (s0 := with_pyerr (Some e) s).
  set (s1 := with_payload T T0 a s0).
  assert (HT1 : greenlets s1 !! T = Some (with_switch_args a T0))
    by apply with_payload_lookup.
  assert (HA1 : greenlets s1 !! A = Some A0)
    by (unfold s1; rewrite with_payload_lookup_ne; done).
  assert (Hss1 : same_stacks (greenlets s) (greenlets s1))
    by (by apply same_stacks_insert with (G := T0)).
  assert (Hkept1 : frames_kept (greenlets s) (greenlets s1)).
  { apply frames_kept_insert with (G := T0); [exact HT|]. by repeat split. }
  destruct (chain_ok_head_active _ _ _ Hchain) as (A0' & HA' & HactA).
  rewrite HA in HA'. injection HA' as <-.
  destruct (g_switch_resumes ndebug realloc_ok realloc_succeeds getattr_run
              call_trace fuel mark stackref stackref_not_null
              A A0 T (with_switch_args a T0) T
              (with_switch_args a T0) ts l 0 k s1)
    as (s3 & l3 & Hrun3 & Harr & Hlen3 & (T3 & HT3 & HT3args)).
  { exact Hts. }
  { exact Hcur. }
  { exact Htr. }
  { exact HA1. }
  { exact Hsaved. }
  { unfold first_owner. rewrite HactA. by eapply chain_ok_same_stacks. }
  { by eapply all_heap_ok_same_stacks. }
  { eapply frames_kept_bounds; [exact Hkept1|exact Hbounds]. }
  { exact HT1. }
  { by left. }
  { exact HT1. }
  { exact HactT. }
  { simpl. by rewrite thread_state_insert_args. }
  { exact Hne. }
  { unfold s1. by apply switch_allowed_with_switch_args. }
  { exact Hk. }
  { lia. }
  { exact Hfuel. }
  { discriminate. }
  destruct Harr as [(ts3 & Hts3 & Hcur3 & Htr3) Herr3 _ _ _
                    Hkept3 Hmains3 Hsw3 Hlog3].
  exists s3. split; [|split; [|split; [|split; [|split; [|split]]]]].
  - unfold throw_greenlet. rewrite bind_modify, bind_get.
    erewrite bind_Ret by (apply assert_holds; intros _; reflexivity).
    fold s0.
    rewrite (bind_Ret _ _ _ _ _ (deref_Some T s0 T0 HT)).
    rewrite HactT, andb_false_r, bind_ret.
    rewrite (bind_Ret _ _ _ _ _ (update_Some T _ s0 T0 HT)).
    fold a. fold (with_payload T T0 a s0). fold s1.
    erewrite bind_Throw; [reflexivity|]. exact Hrun3.
  - by rewrite Herr3.
  - unfold running. by rewrite Hts3, <- Hcur3.
  - by rewrite Hsw3.
  - eapply frames_kept_trans; [exact Hkept1|exact Hkept3].
  - rewrite HT3. simpl. by rewrite HT3args.
  - by rewrite Hlog3.
Qed.

End ThrowSuspended.

Lemma X12_throw_raises_in_suspended_target_witness :
  exists s',
    throw_greenlet false ex_realloc_ok ex_getattr_run ex_call_trace 5 850 800
      1%nat (PyErr_SetString PyExc_ValueError "stop") ex_suspended_child
    = Throw PyErrOccurred s' /\
    pyerr s' = Some (PyErr_SetString PyExc_ValueError "stop") /\
    running s' = Some 1%nat.
Proof.
  destruct (X12_throw_raises_in_suspended_target false ex_realloc_ok
              (fun _ => eq_refl) ex_getattr_run ex_call_trace 5 850 800
              ltac:(discriminate) 0%nat 1%nat [0%nat] 0
              (PyErr_SetString PyExc_ValueError "stop") ex_suspended_child
              ex_suspended_child_ready ex_suspended_child_resumable
              ltac:(discriminate) ltac:(simpl; lia) ltac:(lia))
    as (s' & Hrun & Herr & Hcur & _).
  by exists s'.
Defined.


Section ThrowDead.

Variable ndebug : bool.
Variable realloc_ok : Z -> bool.
Variable getattr_run : gid -> M OwnedObject.
Variable call_trace : PyObject -> bool -> gid -> gid -> M unit.
Variables (fuel : nat) (mark stackref : Z).

(** A switch that stays where it is, with the payload [a] in the
    target: it delivers the payload, or throws when an error is
    pending. *)
Lemma g_switch_degenerate_outcome target T0 cur C ts k kT a s :
  threads s !! this_thread s = Some ts ->
  ts_current_greenlet ts = cur ->
  ts_tracefunc ts = None ->
  greenlets s !! cur = Some C ->
  active (stack_state C) = true ->
  thread_state (greenlets s) C = Some (this_thread s) ->
  greenlets s !! target = Some T0 ->
  target = cur \/ dead_chain (greenlets s) target cur k ->
  switch_allowed ndebug s target kT ->
  (kT < fuel)%nat -> (k < fuel)%nat ->
  (pyerr s = None -> SwitchingArgs_bool a = true) ->
  g_switch ndebug realloc_ok getattr_run call_trace fuel mark stackref target
    (with_payload target T0 a s) =
  match pyerr s with
  | Some _ => Throw PyErrOccurred (payload_consumed target cur T0 C s)
  | None => Ret (fst (deliver a)) (payload_consumed target cur T0 C s)
  end.
Proof.
  intros Hts Hcur Htr Hc Hact Hthr Ht Hcase Hallowed HkT Hk Hpayload.
  assert (Hcc : greenlets (payload_at_current target cur T0 C a s) !! cur
                = Some (with_switch_args a C)) by apply lookup_insert_eq.
  assert (Hthr' :
    thread_state (greenlets (payload_at_current target cur T0 C a s))
      (with_switch_args a C) = Some (this_thread s)).
  { unfold payload_at_current. simpl.
    destruct (decide (target = cur)) as [->|Hne].
    - rewrite insert_insert_eq. by rewrite thread_state_insert_args.
    - rewrite thread_state_with_switch_args
        by (rewrite lookup_insert_ne; [exact Hc|done]).
      rewrite (thread_state_with_switch_args _ _ _ _ _ Ht).
      replace (thread_state (greenlets s) (with_switch_args a C))
        with (thread_state (greenlets s) C) by (by destruct C).
      exact Hthr. }
  assert (Hdone :
    with_greenlets
      (<[cur := with_switch_args SwitchingArgs_empty (with_switch_args a C)]>
         (greenlets (payload_at_current target cur T0 C a s)))
      (payload_at_current target cur T0 C a s) =
    payload_consumed target cur T0 C s).
  { unfold payload_consumed, payload_at_current, with_greenlets. simpl.
    by rewrite insert_insert_eq. }
  destruct (pyerr s) as [e|] eqn:Herr.
  - erewrite g_switch_degenerate; try eassumption;
      [|intros _; rewrite Herr; apply orb_true_r].
    erewrite g_switch_finish_throws;
      [|apply Hcc|apply Hthr'|exact Hts|exact Hcur|exact Htr
       |simpl; rewrite Herr; by eexists|reflexivity|reflexivity].
    by rewrite Hdone.
  - erewrite g_switch_degenerate; try eassumption;
      [|intros _; by rewrite Hpayload].
    erewrite g_switch_finish_delivers;
      [|apply Hcc|apply Hthr'|exact Hts|exact Hcur|exact Htr|exact Herr
       |by apply Hpayload|reflexivity|reflexivity].
    by rewrite Hdone.
Qed.

(** X13. Throwing into a dead greenlet.  Let [cur] be the greenlet
    running on the calling thread, with no trace hook installed, and
    [target] a dead greenlet from which the walk up the parent links,
    past dead greenlets only, arrives at [cur].  [throw_greenlet] on
    [target] switches no stack: thrown GreenletExit, it returns the
    value of the exception ([None] when it carries none, a 1-tuple
    unwrapped) to its caller and leaves no error pending; thrown any
    other exception, it raises that exception in its caller.  Apart
    from the error indicator the state is the initial one. *)
Theorem X13_throw_into_dead_greenlet target T0 cur C ts k kT e s :
  threads s !! this_thread s = Some ts ->
  ts_current_greenlet ts = cur ->
  ts_tracefunc ts = None ->
  greenlets s !! cur = Some C ->
  active (stack_state C) = true ->
  thread_state (greenlets s) C = Some (this_thread s) ->
  greenlets s !! target = Some T0 ->
  dead_chain (greenlets s) target cur k ->
  switch_allowed ndebug s target kT ->
  (kT < fuel)%nat -> (k < fuel)%nat ->
  throw_greenlet ndebug realloc_ok getattr_run call_trace fuel mark stackref
    target e s =
  if GreenletExit_matches (Some e) then
    Ret (single_result (Some (default PyNone (err_value e))))
      (payload_consumed target cur T0 C (with_pyerr None s))
  else
    Throw PyErrOccurred
      (payload_consumed target cur T0 C (with_pyerr (Some e) s)).
Proof.
  intros Hts Hcur Htr Hc Hact Hthr Ht Hchain Hallowed HkT Hk.
  destruct (dead_chain_head _ _ _ _ Hchain) as (D & p & m & c & HD & _ & Hdead).
  rewrite Ht in HD. injection HD as <-.
  unfold throw_greenlet. rewrite bind_modify, bind_get.
  erewrite bind_Ret by (apply assert_holds; intros _; reflexivity).
  set (s0 := with_pyerr (Some e) s).
  rewrite (bind_Ret _ _ _ _ _ (deref_Some target s0 T0 Ht)).
  unfold is_dead in Hdead. rewrite Hdead.
  rewrite (bind_Ret _ _ _ _ _ (g_handle_exit_spec None s0)).
  unfold handled. cbn [pyerr s0 with_pyerr].
  destruct (GreenletExit_matches (Some e)) eqn:Hexit; cbn [negb andb fst snd].
  - rewrite bool_decide_eq_false_2 by (by intros [? ?]). cbn [negb andb fst snd].
    change (with_pyerr None s0) with (with_pyerr None s).
    rewrite (bind_Ret _ _ _ _ _
               (update_Some target _ (with_pyerr None s) T0 Ht)).
    fold (with_payload target T0
            (mkSwitchingArgs (Some (default PyNone (Some e ≫= err_value))) None)
            (with_pyerr None s)).
    erewrite bind_Ret; cycle 1.
    { apply (g_switch_degenerate_outcome target T0 cur C ts k kT _
               (with_pyerr None s) Hts Hcur Htr Hc Hact Hthr Ht
               (or_intror Hchain) Hallowed HkT Hk).
      reflexivity. }
    reflexivity.
  - rewrite andb_false_r. cbn [fst snd].
    change (with_pyerr (Some e) s0) with s0.
    rewrite (bind_Ret _ _ _ _ _ (update_Some target _ s0 T0 Ht)).
    fold (with_payload target T0 (mkSwitchingArgs None None) s0).
    erewrite bind_Throw; [reflexivity|].
    apply (g_switch_degenerate_outcome target T0 cur C ts k kT _
             s0 Hts Hcur Htr Hc Hact Hthr Ht
             (or_intror Hchain) Hallowed HkT Hk).
    discriminate.
Qed.

End ThrowDead.

(** Greenlet 1 is dead and its parent, the main greenlet 0, is running:
    GreenletExit thrown into greenlet 1 comes back as a value. *)
Lemma X13_throw_into_dead_greenlet_witness :
  throw_greenlet false ex_realloc_ok ex_getattr_run ex_call_trace 3 850 800
    1%nat (mkPyErr PyExc_GreenletExit (Some (PyInt 3))) ex_dead_child =
  Ret (Some (PyInt 3))
    (payload_consumed 1%nat 0%nat ex_ds_dead ex_dc_main
       (with_pyerr None ex_dead_child)).
Proof.
  refine (X13_throw_into_dead_greenlet false ex_realloc_ok ex_getattr_run
            ex_call_trace 3 850 800 1%nat ex_ds_dead 0%nat ex_dc_main
            (mkThreadState 0%nat 0%nat None) 1 0
            (mkPyErr PyExc_GreenletExit (Some (PyInt 3))) ex_dead_child
            _ _ _ _ _ _ _ _ _ _ _).
  - reflexivity.
  - reflexivity.
  - reflexivity.
  - reflexivity.
  - reflexivity.
  - reflexivity.
  - reflexivity.
  - eapply dead_chain_parent; reflexivity.
  - exists (mkThreadState 0%nat 0%nat None), ex_dc_main.
    split; [reflexivity|]. split.
    { eapply lineage_main_started; try reflexivity. intros _. by eexists. }
    split; [reflexivity|]. split; by eexists.
  - lia.
  - lia.
Defined.


Section ThrowFresh.

Variable ndebug : bool.
Variable realloc_ok : Z -> bool.
Hypothesis realloc_succeeds : forall n, realloc_ok n = true.
Variable getattr_run : gid -> M OwnedObject.
Variable call_trace : PyObject -> bool -> gid -> gid -> M unit.
Variables (fuel : nat) (mark stackref : Z).
Hypothesis stackref_not_null : stackref <> 0.
Hypothesis mark_bound : mark <= ADDR_MAX.

(** [inner_bootstrap] up to the call of [run], without arguments and
    with no trace hook: the greenlet is marked running and [run] is not
    called. *)
Lemma inner_bootstrap_enter_pending T Tb origin run t ts s :
  greenlets s !! T = Some Tb ->
  active (stack_state Tb) = false ->
  SwitchingArgs_bool (switch_args Tb) = false ->
  thread_state (greenlets s) Tb = Some t ->
  threads s !! t = Some ts ->
  ts_current_greenlet ts = T ->
  ts_tracefunc ts = None ->
  inner_bootstrap_enter ndebug call_trace T origin run s =
  Ret None (with_greenlets (<[T := running_from Tb]> (greenlets s)) s).
Proof.
  intros HT Hact Hargs Hthr Hts Hcur Htr. unfold inner_bootstrap_enter.
  rewrite (bind_Ret _ _ _ _ _ (deref_thread_state_Some _ _ _ _ _ HT Hthr Hts)).
  erewrite bind_Ret
    by (apply assert_holds; intros _; simpl; rewrite Hcur; apply Nat.eqb_refl).
  rewrite (bind_Ret _ _ _ _ _ (deref_Some _ _ _ HT)).
  erewrite bind_Ret by (apply assert_holds; intros _; by rewrite Hact).
  rewrite (bind_Ret _ _ _ _ _ (update_stack_Some _ _ _ _ HT)).
  erewrite bind_Ret by (apply deref_Some; apply lookup_insert_eq).
  erewrite bind_Ret by (apply update_Some; apply lookup_insert_eq).
  erewrite bind_Ret by (apply update_Some; apply lookup_insert_eq).
  erewrite bind_Ret; cycle 1.
  { eapply deref_thread_state_Some with (t := t);
      [apply lookup_insert_eq| |exact Hts].
    simpl. rewrite !insert_insert_eq.
    change (with_kind _ (with_switch_args _ (with_stack_state _ Tb)))
      with (running_from Tb).
    by rewrite thread_state_running_from. }
  cbn [snd]. rewrite Htr. rewrite bind_ret.
  cbn [switch_args with_stack_state]. rewrite Hargs.
  unfold ret, with_greenlets. simpl.
  rewrite !insert_insert_eq. reflexivity.
Qed.

(** X14. Throwing into a greenlet that has not started.  While [A] is
    running, with no error pending, no trace function installed and an
    allocator that serves every request, [throw_greenlet] on a greenlet
    [T] that has not started and that the calling thread may switch to
    (the lookup of its [run] running no code) starts [T]: the stack is
    switched into the bootstrap of [T], once; but [run] is never
    called: the bootstrap finds no arguments and goes straight to its
    exit, with [T] running and the thrown exception pending. *)
Theorem X14_throw_never_calls_run A T T1 p m r l k run e s :
  switch_ready s A l ->
  main_of_thread s ->
  greenlets s !! T = Some T1 ->
  kind T1 = UserGreenlet p m r ->
  started (stack_state T1) = false ->
  active (stack_state T1) = false ->
  lookup_runs_no_code getattr_run T run
    (with_payload T T1 (mkSwitchingArgs None None) (with_pyerr (Some e) s)) ->
  switch_allowed ndebug s T k -> (k < fuel)%nat ->
  (length l < fuel)%nat ->
  exists s1 s2,
    throw_greenlet ndebug realloc_ok getattr_run call_trace fuel mark stackref
      T e s = Enter T A run s1 /\
    inner_bootstrap_enter ndebug call_trace T A run s1 = Ret None s2 /\
    run_log s2 = run_log s /\
    pyerr s2 = Some e /\
    running s2 = Some T /\
    switches s2 = S (switches s) /\
    (exists T2, greenlets s2 !! T = Some T2 /\
                active (stack_state T2) = true /\
                stack_stop (stack_state T2) = mark).
Proof.
  intros [(ts & Hts & Hcur & Htr) Herr Hchain Hheap (A0 & HA & Hsaved) Hbounds]
         (ts' & Mg & Hts' & HM & HkM) HT Hkind Hst Hact Hpure Hallowed Hk Hfuel.
  rewrite Hts in Hts'. injection Hts' as <-.
  destruct (chain_ok_head_active _ _ _ Hchain) as (A0' & HA' & HactA).
  rewrite HA in HA'. injection HA' as <-.
  assert (HneA : T <> A) by (intros ->; congruence).
  assert (HneM : ts_main_greenlet ts <> T).
  { intros Heq. rewrite Heq, HT in HM. injection HM as <-. congruence. }
  set (a := mkSwitchingArgs None None) in *.
  set (se := with_pyerr (Some e) s) in *.
  set (s0 := with_payload T T1 a se) in *.
  assert (Hss0 : same_stacks (greenlets s) (greenlets s0))
    by (by apply same_stacks_insert with (G := T1)).
  assert (Hallowed0 : switch_allowed ndebug s0 T k)
    by (unfold s0; by apply switch_allowed_with_switch_args).
  destruct (g_initialstub_enters ndebug realloc_ok realloc_succeeds getattr_run
              fuel mark stackref stackref_not_null mark_bound
              T (with_switch_args a T1) p m r A A0 ts Mg l k run s0)
    as (s1 & Hstub & Hthreads1 & Hthis1 & Herr1 & Hlog1 & Hsw1 & Hkept1 & Hheap1
        & HT1 & Hchain1).
  { apply with_payload_lookup. }
  { exact Hkind. }
  { exact Hst. }
  { exact Hact. }
  { exact Hpure. }
  { exact Hallowed0. }
  { exact Hk. }
  { exact Hts. }
  { exact Hcur. }
  { unfold s0. rewrite with_payload_lookup_ne; [exact HM|]. by intros ->. }
  { exact HkM. }
  { unfold s0. rewrite with_payload_lookup_ne; [exact HA|exact HneA]. }
  { exact Hsaved. }
  { by eapply chain_ok_same_stacks. }
  { by eapply all_heap_ok_same_stacks. }
  { exact Hfuel. }
  { by intros _. }
  set (Tb := started_from mark A A0 (ts_main_greenlet ts)
               (tstate_recursion_depth (tstate s0)) (with_switch_args a T1)) in *.
  set (ts1 := mkThreadState (ts_main_greenlet ts) T (ts_tracefunc ts)).
  assert (Hts1 : threads s1 !! this_thread s = Some ts1).
  { rewrite Hthreads1. simpl. rewrite lookup_alter_eq, Hts. reflexivity. }
  assert (Hkept01 : frames_kept_but T (greenlets s) (greenlets s1)).
  { eapply frames_kept_but_insert_l with (Tc := with_switch_args a T1).
    eapply frames_kept_but_of_insert. exact Hkept1. }
  destruct (frames_kept_but_lookup _ _ _ _ _ Hkept01 HneM HM)
    as (Mg' & HM' & HkM' & _).
  assert (Hthr1 : thread_state (greenlets s1) Tb = Some (this_thread s)).
  { unfold thread_state, Tb, started_from. simpl. rewrite Hkind, HM'.
    destruct Mg' as [? ? ? kM']. simpl in HkM'. by rewrite HkM', HkM. }
  exists s1, (with_greenlets (<[T := running_from Tb]> (greenlets s1)) s1).
  split.
  { unfold throw_greenlet. rewrite bind_modify, bind_get.
    erewrite bind_Ret by (apply assert_holds; intros _; reflexivity).
    fold se.
    rewrite (bind_Ret _ _ _ _ _ (deref_Some T se T1 HT)).
    rewrite Hst. cbn [andb]. rewrite bind_ret.
    rewrite (bind_Ret _ _ _ _ _ (update_Some T _ se T1 HT)).
    fold a. fold (with_payload T T1 a se). fold s0.
    apply bind_Enter.
    eapply g_switch_fresh_target with (k := k);
      [apply with_payload_lookup|exact Hkind|exact Hst|exact Hact
      |exact Hallowed0|exact Hk|by intros _|exact Hstub]. }
  split.
  { by rewrite (inner_bootstrap_enter_pending T Tb A run
                  (this_thread s) ts1 s1 HT1 eq_refl eq_refl Hthr1 Hts1 eq_refl Htr). }
  split; [simpl; by rewrite Hlog1|].
  split; [simpl; by rewrite Herr1|].
  split.
  { unfold running. cbn [threads this_thread with_greenlets].
    rewrite Hthis1. change (this_thread s0) with (this_thread s).
    by rewrite Hts1. }
  split; [exact Hsw1|].
  eexists. split; [apply lookup_insert_eq|]. by split.
Qed.

End ThrowFresh.

Lemma ex_fresh_child_ready : switch_ready ex_fresh_child 0%nat [0%nat].
Proof.
  constructor.
  - exists (mkThreadState 0%nat 0%nat None). by repeat split.
  - reflexivity.
  - by apply ex_main_chain_ok.
  - intros g G Hg. unfold ex_fresh_child in Hg. cbn [greenlets] in Hg.
    ex_store_cases Hg; (split; [simpl; lia|split; simpl; [lia|done]]).
  - by exists ex_main_running.
  - intros g G Hg. unfold ex_fresh_child in Hg. cbn [greenlets] in Hg.
    ex_store_cases Hg; simpl; unfold ADDR_MAX; lia.
Qed.

Lemma ex_fresh_child_allowed : switch_allowed false ex_fresh_child 1%nat 1.
Proof.
  exists (mkThreadState 0%nat 0%nat None), ex_main_running.
  split; [reflexivity|]. split.
  { eapply lineage_main_parent; try reflexivity.
    eapply lineage_main_main; reflexivity. }
  split; [reflexivity|]. split; by eexists.
Qed.

(** ValueError thrown into greenlet 1, which has not started. *)
Lemma X14_throw_never_calls_run_witness :
  exists s1 s2,
    throw_greenlet false ex_realloc_ok ex_getattr_plain ex_call_trace 5 850 800
      1%nat (PyErr_SetString PyExc_ValueError "stop") ex_fresh_child
    = Enter 1%nat 0%nat (Some (PyOpaque 7)) s1 /\
    inner_bootstrap_enter false ex_call_trace 1%nat 0%nat (Some (PyOpaque 7)) s1
    = Ret None s2 /\
    run_log s2 = [] /\
    pyerr s2 = Some (PyErr_SetString PyExc_ValueError "stop").
Proof.
  destruct (X14_throw_never_calls_run false ex_realloc_ok (fun _ => eq_refl)
              ex_getattr_plain ex_call_trace 5 850 800 ltac:(discriminate)
              ltac:(unfold ADDR_MAX; lia)
              0%nat 1%nat ex_fresh (Some 0%nat) None (Some (PyOpaque 7))
              [0%nat] 1 (Some (PyOpaque 7))
              (PyErr_SetString PyExc_ValueError "stop") ex_fresh_child
              ex_fresh_child_ready
              (ex_intro _ (mkThreadState 0%nat 0%nat None)
                 (ex_intro _ ex_main_running
                    (conj eq_refl (conj eq_refl eq_refl))))
              eq_refl eq_refl eq_refl eq_refl eq_refl
              ex_fresh_child_allowed ltac:(lia) ltac:(simpl; lia))
    as (s1 & s2 & Hrun & Henter & Hlog & Herr & _).
  by exists s1, s2.
Defined.


(** ** The queue of pending calls (TThreadStateDestroy.cpp) *)

Lemma omap_ext_in {A B} (f g : A -> option B) (l : list A) :
  (forall x, x ∈ l -> f x = g x) -> omap f l = omap g l.
Proof.
  induction l as [|x l IH]; intros H; [reflexivity|].
  change (omap f (x :: l))
    with (match f x with Some y => y :: omap f l | None => omap f l end).
  change (omap g (x :: l))
    with (match g x with Some y => y :: omap g l | None => omap g l end).
  rewrite (H x) by (by left). rewrite IH; [reflexivity|].
  intros y Hy. apply H. by right.
Qed.

(** X15. The queue of pending calls is a FIFO of 31 places.  On a
    queue whose indices are in range, [_push_pending_call] answers [0]
    or [-1].  It answers [-1] exactly when 31 calls are waiting, and
    then changes nothing.  When it answers [0], the call is added
    behind the calls that were waiting, which keep their order, and the
    indices stay in range. *)
Theorem X15_pending_calls_fifo p func arg :
  PendingCalls.well_formed p ->
  let r := fst (PendingCalls._push_pending_call p func arg) in
  let p' := snd (PendingCalls._push_pending_call p func arg) in
  (r = -1 /\ length (PendingCalls.queued p) = 31%nat /\ p' = p) \/
  (r = 0 /\ (length (PendingCalls.queued p) < 31)%nat /\
   PendingCalls.queued p' = PendingCalls.queued p ++ [(func, arg)] /\
   PendingCalls.well_formed p').
Proof.
  intros (Hfirst & Hlast & Hlen).
  unfold PendingCalls.NPENDINGCALLS in *.
  assert (Hall : forall q,
    PendingCalls.well_formed q ->
    length (PendingCalls.queued q)
    = Z.to_nat ((PendingCalls.last q - PendingCalls.first q) mod 32)).
  { intros q (Hq1 & Hq2 & Hq3). unfold PendingCalls.queued.
    unfold PendingCalls.NPENDINGCALLS in *.
    set (n := Z.to_nat _). 
    assert (Hn : forall m, (m <= n)%nat ->
      length (omap (fun k => PendingCalls.calls q
                !! Z.to_nat ((PendingCalls.first q + Z.of_nat k) mod 32))
            (seq 0 m)) = m).
    { induction m as [|m IH]; intros Hm; [reflexivity|].
      rewrite seq_S, omap_app, length_app, IH by lia. simpl.
      destruct (lookup_lt_is_Some_2 (PendingCalls.calls q)
                  (Z.to_nat ((PendingCalls.first q + Z.of_nat m) mod 32)))
        as [x Hx].
      { rewrite Hq3. pose proof (Z.mod_pos_bound
          (PendingCalls.first q + Z.of_nat m) 32 ltac:(lia)). lia. }
      rewrite Hx. simpl. lia. }
    by apply Hn. }
  cbv zeta.
  rewrite (Hall p)
    by (unfold PendingCalls.well_formed, PendingCalls.NPENDINGCALLS;
        repeat split; first [lia | exact Hlen]).
  unfold PendingCalls._push_pending_call, PendingCalls.NPENDINGCALLS.
  assert (Hj : Z.rem (PendingCalls.last p + 1) 32
               = (PendingCalls.last p + 1) mod 32)
    by (apply Z.rem_mod_nonneg; lia).
  rewrite Hj.
  destruct (Z.eqb_spec ((PendingCalls.last p + 1) mod 32) (PendingCalls.first p))
    as [Heq|Hne]; cbn [fst snd].
  - left. split; [reflexivity|]. split; [|reflexivity].
    assert ((PendingCalls.last p - PendingCalls.first p) mod 32 = 31)
      by (revert Heq; Z.div_mod_to_equations; lia).
    lia.
  - right. split; [reflexivity|].
    assert (Hcount : (PendingCalls.last p - PendingCalls.first p) mod 32 < 31)
      by (revert Hne; Z.div_mod_to_equations; lia).
    assert (Hcount0 : 0 <= (PendingCalls.last p - PendingCalls.first p) mod 32)
      by (Z.div_mod_to_equations; lia).
    split; [lia|]. split.
    + unfold PendingCalls.queued, PendingCalls.NPENDINGCALLS. cbn.
      set (c := (PendingCalls.last p - PendingCalls.first p) mod 32) in *.
      assert (Hc' : ((PendingCalls.last p + 1) mod 32 - PendingCalls.first p)
                       mod 32 = c + 1)
        by (unfold c; revert Hne; Z.div_mod_to_equations; lia).
      rewrite Hc'. replace (Z.to_nat (c + 1)) with (S (Z.to_nat c)) by lia.
      rewrite seq_S, omap_app. f_equal.
      * apply omap_ext_in. intros n Hn. apply elem_of_seq in Hn.
        apply list_lookup_insert_ne.
        assert ((PendingCalls.first p + Z.of_nat n) mod 32 <> PendingCalls.last p)
          by (unfold c in *; revert Hn Hcount; Z.div_mod_to_equations; lia).
        assert (0 <= (PendingCalls.first p + Z.of_nat n) mod 32)
          by (Z.div_mod_to_equations; lia).
        lia.
      * simpl.
        replace ((PendingCalls.first p + Z.of_nat (Z.to_nat c)) mod 32)
          with (PendingCalls.last p)
          by (unfold c in *; Z.div_mod_to_equations; lia).
        rewrite list_lookup_insert_eq by (rewrite Hlen; lia). reflexivity.
    + repeat split; cbn; unfold PendingCalls.NPENDINGCALLS;
        try (Z.div_mod_to_equations; lia).
      by rewrite length_insert.
Qed.

Lemma ex_pending_well_formed : PendingCalls.well_formed ex_pending.
Proof.
  unfold PendingCalls.well_formed, PendingCalls.NPENDINGCALLS. simpl.
  repeat split; lia.
Qed.

(** A push on the empty queue, around the end of the array. *)
Lemma X15_pending_calls_fifo_witness :
  fst (PendingCalls._push_pending_call ex_pending 7 9) = 0 /\
  PendingCalls.queued (snd (PendingCalls._push_pending_call ex_pending 7 9))
  = [(7, 9)] /\
  PendingCalls.last (snd (PendingCalls._push_pending_call ex_pending 7 9)) = 0.
Proof.
  destruct (X15_pending_calls_fifo ex_pending 7 9 ex_pending_well_formed)
    as [(Hr & _)|(Hr & _ & Hq & _)].
  - vm_compute in Hr. discriminate.
  - split; [exact Hr|]. split; [exact Hq|]. reflexivity.
Defined.


(** ** Creating a greenlet (greenlet.cpp) *)

Lemma parent_chain_ends_insert_fresh gs o G q k :
  gs !! o = None ->
  parent_chain_ends gs q k ->
  parent_chain_ends (<[o := G]> gs) q k.
Proof.
  intros Ho. induction 1 as [|g X k Hg _ IH]; [constructor|].
  econstructor; [|exact IH]. rewrite lookup_insert_ne; [exact Hg|].
  intros ->. congruence.
Qed.

Lemma green_setrun_before_start self G pa mg r0 nrun s :
  greenlets s !! self = Some G ->
  kind G = UserGreenlet pa mg r0 ->
  started (stack_state G) = false ->
  green_setrun self nrun s =
  Ret 0 (with_greenlets
           (<[self := with_kind (UserGreenlet pa mg nrun) G]> (greenlets s)) s).
Proof.
  intros Hself Hkind Hstarted.
  unfold green_setrun, catch_PyErrOccurred.
  rewrite (bind_Ret _ _ _ _ _ (deref_Some _ _ _ Hself)). rewrite Hkind.
  unfold UserGreenlet_set_run. rewrite bind_assoc.
  rewrite (bind_Ret _ _ _ _ _ (deref_Some _ _ _ Hself)). rewrite Hstarted.
  rewrite (bind_Ret _ _ _ _ _ (update_Some _ _ _ _ Hself)).
  by rewrite Hkind.
Qed.

(** X16. A new greenlet.  [green_new] on a fresh object followed by
    [green_init] with a callable and no parent answers [0] and adds one
    greenlet, touching no other: its parent is the greenlet that is
    running, it holds the callable, it has not started, it is not dead
    and its truth value is false; and when the parent chain of every
    greenlet ended before, it still does. *)
Theorem X16_new_greenlet ndebug fuel o r ts s :
  threads s !! this_thread s = Some ts ->
  greenlets s !! o = None ->
  is_Some (greenlets s !! ts_current_greenlet ts) ->
  parents_well_founded (greenlets s) ->
  let G := mkGreenlet SwitchingArgs_empty StackState_new PythonState_new
             (UserGreenlet (Some (ts_current_greenlet ts)) None (Some r)) in
  let s' := with_greenlets (<[o := G]> (greenlets s)) s in
  (green_new (Some o) ;;; green_init fuel o (Some r) None) s = Ret 0 s' /\
  parents_well_founded (greenlets s') /\
  green_getrun o s' = Ret (Some r) s' /\
  green_getdead ndebug o s' = Ret false s' /\
  green_bool o s' = Ret false s'.
Proof.
  intros Hts Ho [C HC] Hwf G s'.
  set (G0 := mkGreenlet SwitchingArgs_empty StackState_new PythonState_new
               (UserGreenlet (Some (ts_current_greenlet ts)) None None)).
  set (s0 := with_greenlets (<[o := G0]> (greenlets s)) s).
  assert (Ho0 : greenlets s0 !! o = Some G0) by apply lookup_insert_eq.
  assert (Ho' : greenlets s' !! o = Some G) by apply lookup_insert_eq.
  split; [|split; [|split; [|split]]].
  - unfold green_new.
    rewrite !bind_assoc, (bind_Ret _ _ _ _ _ (GET_THREAD_STATE_Some _ _ Hts)).
    rewrite bind_assoc, bind_modify, bind_ret. fold G0. fold s0.
    unfold green_init.
    rewrite (bind_Ret _ _ _ _ _
               (green_setrun_before_start o G0 _ _ _ (Some r) s0 Ho0 eq_refl
                  eq_refl)). simpl. unfold ret. f_equal.
    unfold s', s0, with_greenlets. simpl. by rewrite insert_insert_eq.
  - intros g Hg. destruct (decide (g = o)) as [->|Hne].
    + destruct (Hwf _ (ex_intro _ C HC)) as (k & Hk).
      exists (S k). econstructor; [exact Ho'|].
      by apply parent_chain_ends_insert_fresh.
    + simpl in Hg. rewrite lookup_insert_ne in Hg by done.
      destruct (Hwf g Hg) as (k & Hk). exists k.
      by apply parent_chain_ends_insert_fresh.
  - unfold green_getrun, catch_PyErrOccurred.
    rewrite (bind_Ret _ _ _ _ _ (deref_Some _ _ _ Ho')).
    cbn [kind G]. unfold UserGreenlet_run.
    by rewrite (bind_Ret _ _ _ _ _ (deref_Some _ _ _ Ho')).
  - unfold green_getdead, _green_not_dead.
    rewrite ?bind_assoc, bind_get, ?bind_assoc.
    by rewrite (bind_Ret _ _ _ _ _ (deref_Some _ _ _ Ho')).
  - unfold green_bool.
    by rewrite (bind_Ret _ _ _ _ _ (deref_Some _ _ _ Ho')).
Qed.

Lemma ex_suspended_child_parents :
  parents_well_founded (greenlets ex_suspended_child).
Proof.
  assert (H0 : parent_chain_ends (greenlets ex_suspended_child) (Some 0%nat) 1)
    by (econstructor; [reflexivity|constructor]).
  intros g [G Hg]. unfold ex_suspended_child in Hg. simpl in Hg.
  ex_store_cases Hg.
  - exists 2%nat. econstructor; [reflexivity|exact H0].
  - by exists 1%nat.
Qed.

(** The main greenlet 0 creates greenlet 5. *)
Lemma X16_new_greenlet_witness :
  exists s',
    (green_new (Some 5%nat) ;;; green_init 3 5%nat (Some (PyOpaque 9)) None)
      ex_suspended_child = Ret 0 s' /\
    parent <$> (greenlets s' !! 5%nat) = Some (Some 0%nat) /\
    parents_well_founded (greenlets s') /\
    green_getdead false 5%nat s' = Ret false s'.
Proof.
  destruct (X16_new_greenlet false 3 5%nat (PyOpaque 9)
              (mkThreadState 0%nat 0%nat None) ex_suspended_child
              eq_refl eq_refl (ex_intro _ ex_main_running eq_refl)
              ex_suspended_child_parents)
    as (Hrun & Hwf & _ & Hdead & _).
  eexists. split; [exact Hrun|]. split; [reflexivity|]. by split.
Defined.


(** ** The return of [run] (TUserGreenlet.cpp) *)

Section NormalReturn.

Variable ndebug : bool.
Variable realloc_ok : Z -> bool.
Variable getattr_run : gid -> M OwnedObject.
Variable call_trace : PyObject -> bool -> gid -> gid -> M unit.
Variables (fuel : nat) (mark stackref : Z).

(** X17. The value [run] returns reaches the parent.  Let [D] be the
    greenlet running on the calling thread, started by a switch, whose
    [run] has returned [r] with no error pending, and let [R],
    suspended on the same thread, be the nearest greenlet up the parent
    chain of [D] that is not dead; no trace function is installed and
    the allocator serves every request.  The end of [inner_bootstrap]
    leaves [D] dead, holding no bytes, and switches to [R]; the switch
    call [R] was suspended in gets [r] wrapped in a 1-tuple, which is
    what [single_result] unwraps to [r] whatever [r] is, and no error
    is pending.  Switch arguments still waiting in [D] are dropped, and
    no [run] is called. *)
Theorem X17_return_value_reaches_parent D D0 P P0 R R0 ts l k kP r s :
  (forall n, realloc_ok n = true) ->
  stackref <> 0 ->
  threads s !! this_thread s = Some ts ->
  ts_current_greenlet ts = D ->
  ts_tracefunc ts = None ->
  greenlets s !! D = Some D0 ->
  thread_state (greenlets s) D0 = Some (this_thread s) ->
  started (stack_state D0) = true ->
  pyerr s = None ->
  chain_ok (greenlets s) (Some D) (D :: l) ->
  stack_stop (stack_state D0) < ADDR_MAX ->
  all_heap_ok (greenlets s) ->
  (forall g G, greenlets s !! g = Some G ->
               stack_stop (stack_state G) <= ADDR_MAX) ->
  parent D0 = Some P ->
  greenlets s !! P = Some P0 ->
  P = R \/ dead_chain (greenlets s) P R k ->
  greenlets s !! R = Some R0 ->
  active (stack_state R0) = true ->
  thread_state (greenlets s) R0 = Some (this_thread s) ->
  R <> D ->
  switch_allowed ndebug s P kP ->
  (kP < fuel)%nat -> (k < fuel)%nat -> (length l < fuel)%nat ->
  exists s' D',
    inner_bootstrap_exit ndebug realloc_ok getattr_run call_trace fuel mark
      stackref D (Some r) s = Ret (Some (PyTuple_Pack1 r)) s' /\
    single_result (Some (PyTuple_Pack1 r)) = Some r /\
    pyerr s' = None /\
    running s' = Some R /\
    greenlets s' !! D = Some D' /\
    is_dead D' = true /\
    _stack_saved (stack_state D') = 0 /\
    stack_copy (stack_state D') = None /\
    switches s' = S (switches s) /\
    run_log s' = run_log s.
Proof.
  intros Hrealloc Href Hts Hcur Htr HD HthrD Hst Herr Hchain HstopD Hheap
         Hbounds Hparent HP Hcase HR HactR HthrR HneR Hallowed HkP Hk Hfuel.
  destruct (inner_bootstrap_exit_forwards ndebug realloc_ok Hrealloc getattr_run
              call_trace fuel mark stackref Href D D0 P P0 R R0 ts l k kP
              (Some r) s)
    as (s' & l' & Hrun & Herr' & (D' & HD' & HssD) & Hrunning & _ & _ & _
        & Hsw & Hlog & _);
    try assumption.
  { reflexivity. }
  { left. by eexists. }
  destruct (set_inactive_spec (stack_state D0))
    as (Hstart1 & Hstop1 & _ & Hsaved1 & Hcopy1).
  assert (Hhandled : handled (Some r) (pyerr s) = (Some (PyTuple_Pack1 r), None)).
  { unfold handled. rewrite Herr. reflexivity. }
  rewrite Hhandled in Hrun, Herr'. cbn [fst snd] in Hrun, Herr'.
  rewrite bool_decide_eq_false_2 in Hrun by (by intros [? ?]).
  exists s', D'.
  split; [exact Hrun|]. split; [reflexivity|]. split; [exact Herr'|].
  split; [exact Hrunning|]. split; [exact HD'|].
  split.
  { unfold is_dead. rewrite HssD.
    unfold started, active in *. by rewrite Hstart1, Hstop1, Hst. }
  rewrite HssD.
  split; [exact Hsaved1|]. split; [apply Hcopy1; by eapply Hheap|].
  by split.
Qed.

End NormalReturn.

(** Greenlet 1, a child of the main greenlet 0, returns a 1-tuple from
    [run]; the main greenlet receives that 1-tuple. *)
Lemma X17_return_value_reaches_parent_witness :
  exists s' D',
    inner_bootstrap_exit false ex_realloc_ok ex_getattr_run ex_call_trace
      3 850 700 1%nat (Some (PyTuple [PyInt 4]))
      (with_pyerr None (ex_exiting SwitchingArgs_empty ex_GreenletExit)) =
    Ret (Some (PyTuple [PyTuple [PyInt 4]])) s' /\
    single_result (Some (PyTuple [PyTuple [PyInt 4]])) = Some (PyTuple [PyInt 4]) /\
    running s' = Some 0%nat /\
    greenlets s' !! 1%nat = Some D' /\
    is_dead D' = true.
Proof.
  destruct (X17_return_value_reaches_parent false ex_realloc_ok ex_getattr_run
              ex_call_trace 3 850 700 1%nat (ex_exiting_child SwitchingArgs_empty)
              0%nat ex_exiting_main 0%nat ex_exiting_main
              (mkThreadState 0%nat 1%nat None) [0%nat] 0 0 (PyTuple [PyInt 4])
              (with_pyerr None (ex_exiting SwitchingArgs_empty ex_GreenletExit)))
    as (s' & D' & Hrun & Hsingle & _ & Hrunning & HD' & Hdead & _).
  - reflexivity.
  - discriminate.
  - reflexivity.
  - reflexivity.
  - reflexivity.
  - reflexivity.
  - reflexivity.
  - reflexivity.
  - reflexivity.
  - constructor.
    + econstructor; [reflexivity|]. econstructor; [reflexivity|constructor].
    + intros g Hg. apply elem_of_cons in Hg as [->|Hg].
      * by eexists.
      * apply list_elem_of_singleton in Hg as ->. by eexists.
    + split; [|by split]. constructor; [|constructor]. vm_compute. reflexivity.
    + apply Exists_cons_tl, Exists_cons_hd. reflexivity.
  - vm_compute. reflexivity.
  - intros g G Hg. cbn [greenlets with_pyerr ex_exiting] in Hg.
    ex_store_cases Hg; (split; [simpl; lia|split; simpl; [lia|done]]).
  - intros g G Hg. cbn [greenlets with_pyerr ex_exiting] in Hg.
    ex_store_cases Hg; simpl; unfold ADDR_MAX; lia.
  - reflexivity.
  - reflexivity.
  - by left.
  - reflexivity.
  - reflexivity.
  - reflexivity.
  - discriminate.
  - exists (mkThreadState 0%nat 1%nat None), ex_exiting_main.
    split; [reflexivity|]. split.
    { eapply lineage_main_main; reflexivity. }
    split; [reflexivity|]. split; by eexists.
  - lia.
  - lia.
  - simpl. lia.
  - by exists s', D'.
Defined.


Lemma in_parent_chain_insert_fresh gs o G p q k :
  gs !! o = None ->
  in_parent_chain gs p q k ->
  in_parent_chain (<[o := G]> gs) p q k.
Proof.
  intros Ho. induction 1 as [c|p P q' c k Hp Hq' _ IH]; [constructor|].
  econstructor; [|exact Hq'|exact IH].
  rewrite lookup_insert_ne; [exact Hp|]. intros ->. congruence.
Qed.

(** In a store whose parent chains end, no parent chain leads to an
    object that is not in the store. *)
Lemma in_parent_chain_never_fresh gs o G x j :
  parents_well_founded gs ->
  gs !! o = None ->
  is_Some (gs !! x) ->
  ~ in_parent_chain (<[o := G]> gs) x o j.
Proof.
  intros Hwf Ho Hx Hchain. revert Hx.
  remember (<[o := G]> gs) as gs' eqn:Hgs'. remember o as o' eqn:Ho'.
  induction Hchain as [c|x X y c k Hx' Hy _ IH]; intros Hx; subst.
  - destruct Hx as [? Hx]. congruence.
  - assert (Hne : x <> o) by (intros ->; destruct Hx as [? Hx]; congruence).
    rewrite lookup_insert_ne in Hx' by done.
    destruct (Hwf x Hx) as (n & Hn).
    inversion Hn as [|? X' n' HX' Hrest]; subst.
    rewrite Hx' in HX'. injection HX' as <-. rewrite Hy in Hrest.
    inversion Hrest as [|? Y n'' HY _]; subst.
    apply IH; [reflexivity|exact Ho|reflexivity|by eexists].
Qed.

(** X18. A new greenlet with a parent of its choice.  In a store whose
    parent chains end, let the parent chain of the greenlet [p] end at a
    root that has a main greenlet.  [green_new] on a fresh object
    followed by [green_init] with a callable and the parent [p] answers
    [0]: the new greenlet is a child of [p] holding the callable, no
    other greenlet is touched, and every parent chain still ends.  The
    checks of the parent setter cannot fail here: a new greenlet is in
    no parent chain, and it has not started, so [p] may belong to any
    thread. *)
Theorem X18_new_greenlet_with_parent fuel o r p q Q m k ts s :
  threads s !! this_thread s = Some ts ->
  greenlets s !! o = None ->
  parents_well_founded (greenlets s) ->
  is_Some (greenlets s !! p) ->
  in_parent_chain (greenlets s) p q k ->
  greenlets s !! q = Some Q ->
  parent Q = None ->
  main_greenlet q Q = Some m ->
  (k < fuel)%nat ->
  let G := mkGreenlet SwitchingArgs_empty StackState_new PythonState_new
             (UserGreenlet (Some p) None (Some r)) in
  let s' := with_greenlets (<[o := G]> (greenlets s)) s in
  (green_new (Some o) ;;; green_init fuel o (Some r) (Some (Some p))) s
  = Ret 0 s' /\
  parents_well_founded (greenlets s').
Proof.
  intros Hts Ho Hwf Hp Hchain HQ Hroot Hm Hk G s'.
  set (G0 := mkGreenlet SwitchingArgs_empty StackState_new PythonState_new
               (UserGreenlet (Some (ts_current_greenlet ts)) None None)).
  set (s0 := with_greenlets (<[o := G0]> (greenlets s)) s).
  set (G1 := with_kind (UserGreenlet (Some (ts_current_greenlet ts)) None (Some r))
               G0).
  set (s1 := with_greenlets (<[o := G1]> (greenlets s0)) s0).
  assert (Ho0 : greenlets s0 !! o = Some G0) by apply lookup_insert_eq.
  assert (Ho1 : greenlets s1 !! o = Some G1) by apply lookup_insert_eq.
  assert (Hgs1 : greenlets s1 = <[o := G1]> (greenlets s))
    by (simpl; by rewrite insert_insert_eq).
  assert (Hneq : q <> o) by (intros ->; congruence).
  split.
  - unfold green_new.
    rewrite !bind_assoc, (bind_Ret _ _ _ _ _ (GET_THREAD_STATE_Some _ _ Hts)).
    rewrite bind_assoc, bind_modify, bind_ret. fold G0. fold s0.
    unfold green_init.
    rewrite (bind_Ret _ _ _ _ _
               (green_setrun_before_start o G0 _ _ _ (Some r) s0 Ho0 eq_refl
                  eq_refl)).
    fold G1. fold s1. cbn [Z.eqb negb].
    unfold green_setparent, catch_PyErrOccurred.
    rewrite (bind_Ret _ _ _ _ _ (deref_Some _ _ _ Ho1)). cbn [kind G1 with_kind G0].
    unfold UserGreenlet_set_parent. rewrite bind_assoc.
    rewrite (bind_Ret _ _ _ _ _
               (parent_chain_check_root (greenlets s1) o p q Q k
                  ltac:(rewrite Hgs1; by apply in_parent_chain_insert_fresh)
                  ltac:(rewrite Hgs1; by rewrite lookup_insert_ne)
                  Hroot
                  ltac:(intros j; rewrite Hgs1;
                        by apply in_parent_chain_never_fresh)
                  fuel None s1 eq_refl Hk)).
    rewrite Hm. rewrite bind_assoc.
    rewrite (bind_Ret _ _ _ _ _ (deref_Some _ _ _ Ho1)).
    cbn [stack_state G1 with_kind G0 started StackState_new stack_stop Z.eqb
         negb andb].
    rewrite (bind_Ret _ _ _ _ _ (update_Some _ _ _ _ Ho1)).
    unfold ret. f_equal. unfold s', s1, s0, with_greenlets. simpl.
    by rewrite !insert_insert_eq.
  - destruct Hp as [P0 HP0].
    assert (Hnep : p <> o) by (intros ->; congruence).
    assert (Ho' : greenlets s' !! o = Some G) by apply lookup_insert_eq.
    intros g Hg. destruct (decide (g = o)) as [->|Hne].
    + destruct (Hwf p (ex_intro _ P0 HP0)) as (n & Hn).
      exists (S n). econstructor; [exact Ho'|].
      by apply parent_chain_ends_insert_fresh.
    + simpl in Hg. rewrite lookup_insert_ne in Hg by done.
      destruct (Hwf g Hg) as (n & Hn). exists n.
      by apply parent_chain_ends_insert_fresh.
Qed.

(** The main greenlet 0 creates greenlet 5 as a child of the suspended
    greenlet 1. *)
Lemma X18_new_greenlet_with_parent_witness :
  exists s',
    (green_new (Some 5%nat)
     ;;; green_init 3 5%nat (Some (PyOpaque 9)) (Some (Some 1%nat)))
      ex_suspended_child = Ret 0 s' /\
    parent <$> (greenlets s' !! 5%nat) = Some (Some 1%nat) /\
    parents_well_founded (greenlets s').
Proof.
  destruct (X18_new_greenlet_with_parent 3 5%nat (PyOpaque 9) 1%nat 0%nat
              ex_main_running 0%nat 1
              (mkThreadState 0%nat 0%nat None) ex_suspended_child
              eq_refl eq_refl ex_suspended_child_parents
              (ex_intro _ ex_child_saved eq_refl)
              (in_parent_chain_up (greenlets ex_suspended_child) 1%nat
                 ex_child_saved 0%nat 0%nat 0 eq_refl eq_refl
                 (in_parent_chain_here (greenlets ex_suspended_child) 0%nat))
              eq_refl eq_refl eq_refl ltac:(lia))
    as (Hrun & Hwf).
  eexists. split; [exact Hrun|]. by split.
Defined.
